(** * Notepad4 lexers for C# (LexCSharp.cxx) and Visual Basic (LexVB.cxx)

    A shallow embedding of [ColouriseCSharpDoc], [FoldCSharpDoc],
    [ColouriseVBDoc] and [FoldVBDoc], over a document given as a list of
    bytes, together with the properties of the lexers and folders that
    the specification states.

    Integers of the source ([int], [Sci_Position]) are modelled as [Z];
    the 32-bit packing of the per-line state is written out with
    [wrap32]. *)

From Stdlib Require Import ZArith List Bool Lia String Ascii.
Import ListNotations.
Local Open Scope Z_scope.

(** ** Bytes and character classes (lexlib/CharacterSet.h) *)

Definition chr (c : ascii) : Z := Z.of_nat (nat_of_ascii c).

Fixpoint bytes_of (s : string) : list Z :=
  match s with
  | EmptyString => []
  | String c r => chr c :: bytes_of r
  end.

Definition LF : Z := 10.
Definition CR : Z := 13.
Definition QUOTE : Z := 34.   (* double quote *)
Definition APOS : Z := 39.    (* single quote *)
Definition BSLASH : Z := 92.  (* backslash *)
Definition BANG : Z := 33.
Definition HASH : Z := 35.
Definition DOLLAR : Z := 36.
Definition AMP : Z := 38.
Definition LPAREN : Z := 40.
Definition RPAREN : Z := 41.
Definition STAR : Z := 42.
Definition COMMA : Z := 44.
Definition MINUS : Z := 45.
Definition DOT : Z := 46.
Definition SLASH : Z := 47.
Definition COLON : Z := 58.
Definition LESS : Z := 60.
Definition GREATER : Z := 62.
Definition QMARK : Z := 63.
Definition ATSIGN : Z := 64.
Definition LBRACKET : Z := 91.
Definition RBRACKET : Z := 93.
Definition UNDERSCORE : Z := 95.
Definition LBRACE : Z := 123.
Definition RBRACE : Z := 125.

(** Modelled from the spec: the character classifier of lexlib is not
    among the sources; these are its pure predicates over bytes (digit,
    hex digit, identifier start/continue, whitespace, graphic). *)
Definition IsEOLChar (c : Z) : bool := (c =? CR) || (c =? LF).
Definition IsASpaceOrTab (c : Z) : bool := (c =? 32) || (c =? 9).
Definition isspacechar (c : Z) : bool := (c =? 32) || ((9 <=? c) && (c <=? 13)).
Definition IsADigit (c : Z) : bool := (48 <=? c) && (c <=? 57).
Definition IsUpperCase (c : Z) : bool := (65 <=? c) && (c <=? 90).
Definition IsLowerCase (c : Z) : bool := (97 <=? c) && (c <=? 122).
Definition IsAlpha (c : Z) : bool := IsUpperCase c || IsLowerCase c.
Definition IsUpperOrLowerCase (c : Z) : bool := IsAlpha c.
Definition IsAlphaNumeric (c : Z) : bool := IsAlpha c || IsADigit c.
Definition IsHexDigit (c : Z) : bool :=
  IsADigit c || ((65 <=? c) && (c <=? 70)) || ((97 <=? c) && (c <=? 102)).
Definition IsIdentifierChar (c : Z) : bool := IsAlphaNumeric c || (c =? 95).
Definition IsIdentifierStart (c : Z) : bool := IsAlpha c || (c =? 95).
Definition IsIdentifierCharEx (c : Z) : bool := IsIdentifierChar c || (128 <=? c).
Definition IsIdentifierStartEx (c : Z) : bool := IsIdentifierStart c || (128 <=? c).
Definition IsAGraphic (c : Z) : bool := (32 <? c) && (c <? 127).
Definition UnsafeLower (c : Z) : Z := Z.lor c 32.
Definition MakeLower (c : Z) : Z := if IsUpperCase c then c + 32 else c.
Definition IsNumberStart (c cNext : Z) : bool :=
  IsADigit c || ((c =? 46) && IsADigit cNext).
Definition IsDecimalNumber (cPrev c cNext : Z) : bool :=
  IsIdentifierChar c || ((c =? 46) && negb (cNext =? 46))
  || (((c =? 43) || (c =? 45)) && ((cPrev =? 101) || (cPrev =? 69))).
Definition IsJumpLabelPrevChar (c : Z) : bool :=
  (c =? 0) || (c =? 59) || (c =? 123) || (c =? 125) || (c =? 58).
Definition IsInterfaceName (c0 c1 : Z) : bool := (c0 =? 73) && IsUpperCase c1.

(** 32-bit wrap-around: the value of an [int] holding [x] modulo 2^32. *)
Definition wrap32 (x : Z) : Z := (x + 2147483648) mod 4294967296 - 2147483648.
Definition SC_FOLDLEVELBASE : Z := 1024.
Definition SC_FOLDLEVELHEADERFLAG : Z := 8192.

(** ** The document and its accessor (lexlib/LexAccessor.h)

    Modelled from the spec: the accessor is a collaborator of the host
    (section 6.1); bytes past the end of the document read as 0, line
    states of lines never written read as 0. *)
Definition Doc := list Z.

Definition docLen (d : Doc) : Z := Z.of_nat (List.length d).

Definition charAt (d : Doc) (pos : Z) : Z :=
  if pos <? 0 then 0 else nth (Z.to_nat pos) d 0.

(** Start positions of the lines after the first, scanning from [pos]:
    a line ends after LF, after CR LF, or after a lone CR. *)
Fixpoint lineStartsFrom (d : Doc) (pos : Z) : list Z :=
  match d with
  | [] => []
  | c :: r =>
      if c =? LF then (pos + 1) :: lineStartsFrom r (pos + 1)
      else if c =? CR then
        match r with
        | c' :: _ => if c' =? LF then lineStartsFrom r (pos + 1)
                     else (pos + 1) :: lineStartsFrom r (pos + 1)
        | [] => (pos + 1) :: lineStartsFrom r (pos + 1)
        end
      else lineStartsFrom r (pos + 1)
  end.

Definition lineStarts (d : Doc) : list Z := 0 :: lineStartsFrom d 0.

(** [LineStart(line)]: the document length for a line past the last. *)
Definition LineStart (d : Doc) (line : Z) : Z :=
  if line <? 0 then 0 else nth (Z.to_nat line) (lineStarts d) (docLen d).

(** [GetLine(pos)]: index of the last line that starts at or before [pos]. *)
Definition GetLine (d : Doc) (pos : Z) : Z :=
  Z.of_nat (List.length (filter (fun s => s <=? pos) (lineStarts d))) - 1.

(** Style bytes and per-line states written so far. *)
Definition Styles := Z -> Z.
Definition LineStates := Z -> Z.

Definition setRange (st : Styles) (from to v : Z) : Styles :=
  fun i => if (from <=? i) && (i <? to) then v else st i.

Definition setAt (ls : LineStates) (line v : Z) : LineStates :=
  fun i => if i =? line then v else ls i.

(** [GetMatchedDelimiterCount(styler, pos, delimiter)]: the byte at [pos]
    is known to be the delimiter; counts it and the delimiters after it. *)
Fixpoint countRun (d : Doc) (delim : Z) : Z :=
  match d with
  | c :: r => if c =? delim then 1 + countRun r delim else 0
  | [] => 0
  end.

Definition GetMatchedDelimiterCount (d : Doc) (pos delim : Z) : Z :=
  1 + countRun (skipn (Z.to_nat (pos + 1)) d) delim.

(** Length of the run of double quotes that starts at [pos]. *)
Definition quoteRun (d : Doc) (pos : Z) : Z := countRun (skipn (Z.to_nat pos) d) QUOTE.

(** [LexGetNextChar(styler, startPos, endPos)]: first non-whitespace byte
    in [startPos, endPos), or 0. *)
Fixpoint nextNonSpace (d : Doc) (n : nat) : Z :=
  match n, d with
  | S n', c :: r => if isspacechar c then nextNonSpace r n' else c
  | _, _ => 0
  end.

Definition LexGetNextChar (d : Doc) (startPos endPos : Z) : Z :=
  nextNonSpace (skipn (Z.to_nat startPos) d) (Z.to_nat (endPos - startPos)).

(** [LexSkipSpaceTab(styler, startPos, endPos)]: first position in
    [startPos, endPos) that holds neither a space nor a tab, else [endPos]. *)
Fixpoint skipSpaceTab (d : Doc) (pos : Z) (n : nat) : Z :=
  match n with
  | O => pos
  | S n' => if IsASpaceOrTab (charAt d pos) then skipSpaceTab d (pos + 1) n' else pos
  end.

Definition LexSkipSpaceTab (d : Doc) (startPos endPos : Z) : Z :=
  skipSpaceTab d startPos (Z.to_nat (endPos - startPos)).

(** [styler.MatchLowerCase(pos, word)]: the bytes at [pos], lowered,
    spell [word]. *)
Fixpoint MatchLowerCase (d : Doc) (pos : Z) (w : list Z) : bool :=
  match w with
  | [] => true
  | c :: r => (MakeLower (charAt d pos) =? c) && MatchLowerCase d (pos + 1) r
  end.

(** Keyword tables (section 6.2): a list of words for each index. *)
Definition WordList := list (list Z).
Definition LexerWordList := Z -> WordList.

Fixpoint bytes_eqb (a b : list Z) : bool :=
  match a, b with
  | [], [] => true
  | x :: a', y :: b' => (x =? y) && bytes_eqb a' b'
  | _, _ => false
  end.

Definition InList (w : WordList) (s : list Z) : bool := existsb (bytes_eqb s) w.
Definition InListPrefixed (w : WordList) (s : list Z) (marker : Z) : bool :=
  existsb (fun e => bytes_eqb s e || bytes_eqb (s ++ [marker]) e) w.
Definition StrEqual (s : list Z) (w : string) : bool := bytes_eqb s (bytes_of w).
Definition StrEqualsAny (s : list Z) (ws : list string) : bool :=
  existsb (StrEqual s) ws.
Fixpoint prefix_eqb (p s : list Z) : bool :=
  match p, s with
  | [], _ => true
  | x :: p', y :: s' => (x =? y) && prefix_eqb p' s'
  | _, [] => false
  end.
Definition StrStartsWith (s : list Z) (w : string) : bool := prefix_eqb (bytes_of w) s.
Definition byteAt (s : list Z) (i : nat) : Z := nth i s 0.

(** ** The style context (lexlib/StyleContext.h)

    Modelled from the spec: the style context is not among the sources.
    It is the cursor of section 2: current, previous and next byte, the
    running style, and the start of the span not yet written; changing
    the style with [SetState] writes the style bytes of the span just
    closed.  The accessor's style bytes and line states live in it. *)
Record StyleContext := mkSC {
  currentPos : Z;
  currentLine : Z;
  lineStartNext : Z;
  endPos : Z;
  state : Z;
  chPrev : Z;
  ch : Z;
  chNext : Z;
  atLineStart : bool;
  atLineEnd : bool;
  startSeg : Z;
  styles : Styles;
  lineStates : LineStates
}.

Module SC.

(** End of line from the line end position: the last byte of a line
    that has a successor, or the end of the document on the last line. *)
Definition lineEndAt (d : Doc) (pos line lsn : Z) : bool :=
  if line <? GetLine d (docLen d) then lsn - 1 <=? pos else lsn <=? pos.

Definition Make (d : Doc) (startPos length initStyle : Z)
    (st : Styles) (ls : LineStates) : StyleContext :=
  let line := GetLine d startPos in
  let lsn := LineStart d (line + 1) in
  let e := startPos + length in
  {| currentPos := startPos; currentLine := line; lineStartNext := lsn;
     endPos := if e =? docLen d then e + 1 else e;
     state := initStyle; chPrev := 0;
     ch := charAt d startPos; chNext := charAt d (startPos + 1);
     atLineStart := LineStart d line =? startPos;
     atLineEnd := lineEndAt d startPos line lsn;
     startSeg := startPos; styles := st; lineStates := ls |}.

Definition More (sc : StyleContext) : bool := currentPos sc <? endPos sc.

Definition Forward (d : Doc) (sc : StyleContext) : StyleContext :=
  if currentPos sc <? endPos sc then
    let line := if atLineEnd sc then currentLine sc + 1 else currentLine sc in
    let lsn := if atLineEnd sc then LineStart d (line + 1) else lineStartNext sc in
    let pos := currentPos sc + 1 in
    {| currentPos := pos; currentLine := line; lineStartNext := lsn;
       endPos := endPos sc; state := state sc;
       chPrev := ch sc; ch := chNext sc; chNext := charAt d (pos + 1);
       atLineStart := atLineEnd sc;
       atLineEnd := lineEndAt d pos line lsn;
       startSeg := startSeg sc; styles := styles sc; lineStates := lineStates sc |}
  else
    {| currentPos := currentPos sc; currentLine := currentLine sc;
       lineStartNext := lineStartNext sc; endPos := endPos sc; state := state sc;
       chPrev := 32; ch := 32; chNext := 32;
       atLineStart := false; atLineEnd := true;
       startSeg := startSeg sc; styles := styles sc; lineStates := lineStates sc |}.

Fixpoint ForwardN (d : Doc) (n : nat) (sc : StyleContext) : StyleContext :=
  match n with
  | O => sc
  | S n' => ForwardN d n' (Forward d sc)
  end.

(** [Forward(nb)] and [Advance(nb)]: [nb] steps, none when [nb <= 0]. *)
Definition Advance (d : Doc) (nb : Z) (sc : StyleContext) : StyleContext :=
  ForwardN d (Z.to_nat nb) sc.

Definition ChangeState (s : Z) (sc : StyleContext) : StyleContext :=
  {| currentPos := currentPos sc; currentLine := currentLine sc;
     lineStartNext := lineStartNext sc; endPos := endPos sc; state := s;
     chPrev := chPrev sc; ch := ch sc; chNext := chNext sc;
     atLineStart := atLineStart sc; atLineEnd := atLineEnd sc;
     startSeg := startSeg sc; styles := styles sc; lineStates := lineStates sc |}.

(** [ColorTo(currentPos, state)]: the span [startSeg, currentPos) takes
    the running style and a new span starts. *)
Definition Colour (sc : StyleContext) : StyleContext :=
  {| currentPos := currentPos sc; currentLine := currentLine sc;
     lineStartNext := lineStartNext sc; endPos := endPos sc; state := state sc;
     chPrev := chPrev sc; ch := ch sc; chNext := chNext sc;
     atLineStart := atLineStart sc; atLineEnd := atLineEnd sc;
     startSeg := currentPos sc;
     styles := setRange (styles sc) (startSeg sc) (currentPos sc) (state sc);
     lineStates := lineStates sc |}.

Definition SetState (s : Z) (sc : StyleContext) : StyleContext :=
  ChangeState s (Colour sc).

Definition ForwardSetState (d : Doc) (s : Z) (sc : StyleContext) : StyleContext :=
  SetState s (Forward d sc).

Definition Complete (sc : StyleContext) : StyleContext := Colour sc.

Definition SetLineState (line v : Z) (sc : StyleContext) : StyleContext :=
  {| currentPos := currentPos sc; currentLine := currentLine sc;
     lineStartNext := lineStartNext sc; endPos := endPos sc; state := state sc;
     chPrev := chPrev sc; ch := ch sc; chNext := chNext sc;
     atLineStart := atLineStart sc; atLineEnd := atLineEnd sc;
     startSeg := startSeg sc; styles := styles sc;
     lineStates := setAt (lineStates sc) line v |}.

(** [Rewind()]: back to the start of the span not yet written. *)
Definition Rewind (d : Doc) (sc : StyleContext) : StyleContext :=
  let pos := startSeg sc in
  {| currentPos := pos; currentLine := currentLine sc;
     lineStartNext := lineStartNext sc; endPos := endPos sc; state := state sc;
     chPrev := 0; ch := charAt d pos; chNext := charAt d (pos + 1);
     atLineStart := atLineStart sc;
     atLineEnd := lineEndAt d pos (currentLine sc) (lineStartNext sc);
     startSeg := startSeg sc; styles := styles sc; lineStates := lineStates sc |}.

Definition Match1 (c : Z) (sc : StyleContext) : bool := ch sc =? c.
Definition Match2 (c0 c1 : Z) (sc : StyleContext) : bool :=
  (ch sc =? c0) && (chNext sc =? c1).
Definition GetRelative (d : Doc) (n : Z) (sc : StyleContext) : Z :=
  charAt d (currentPos sc + n).
Definition LengthCurrent (sc : StyleContext) : Z := currentPos sc - startSeg sc.

(** Text of the span not yet written, cut to [len - 1] bytes. *)
Definition segment (d : Doc) (sc : StyleContext) (len : Z) : list Z :=
  firstn (Z.to_nat (Z.min (LengthCurrent sc) (len - 1)))
         (skipn (Z.to_nat (startSeg sc)) d).
Definition GetCurrent (d : Doc) (sc : StyleContext) (len : Z) : list Z :=
  segment d sc len.
Definition GetCurrentLowered (d : Doc) (sc : StyleContext) (len : Z) : list Z :=
  map MakeLower (segment d sc len).

(** Next byte that is not whitespace, in the document or on the line. *)
Definition GetDocNextChar (d : Doc) (ignoreCurrent : bool) (sc : StyleContext) : Z :=
  if negb ignoreCurrent && negb (isspacechar (ch sc)) then ch sc
  else if negb (isspacechar (chNext sc)) then chNext sc
  else LexGetNextChar d (currentPos sc + 2) (docLen d).

Definition GetLineNextChar (d : Doc) (ignoreCurrent : bool) (sc : StyleContext) : Z :=
  if negb ignoreCurrent && negb (isspacechar (ch sc)) then ch sc
  else if currentPos sc + 1 =? lineStartNext sc then 0
  else if negb (isspacechar (chNext sc)) then chNext sc
  else LexGetNextChar d (currentPos sc + 2) (lineStartNext sc).

End SC.

(** [BacktrackToStart]: while the line before the start has the
    interpolation bit in its state, move the start back to the first
    line of that run; the length grows so that the end stays.

    Modelled from the spec: section 4.1, step 1; the function itself is
    in lexlib. *)
Fixpoint backtrackLine (ls : LineStates) (mask : Z) (line : Z) (fuel : nat) : Z :=
  match fuel with
  | O => line
  | S f =>
      if negb (Z.land (ls line) mask =? 0) && negb (line =? 0)
      then backtrackLine ls mask (line - 1) f else line
  end.

Definition BacktrackToStart (d : Doc) (st : Styles) (ls : LineStates) (mask : Z)
    (startPos lengthDoc initStyle : Z) : Z * Z * Z :=
  let cur := GetLine d startPos in
  if cur =? 0 then (startPos, lengthDoc, initStyle)
  else
    let l0 := backtrackLine ls mask (cur - 1) (Z.to_nat cur) in
    let line := if Z.land (ls l0) mask =? 0 then l0 + 1 else l0 in
    if line =? cur then (startPos, lengthDoc, initStyle)
    else
      let e := startPos + lengthDoc in
      let sp := if line =? 0 then 0 else LineStart d line in
      (sp, e - sp, if sp =? 0 then 0 else st (sp - 1)).

(** [LookbackNonWhite]: walk back from the start over bytes whose style
    is at most [maxSpaceStyle]; the first other byte gives the previous
    non-white byte and its style (section 4.1, step 3). *)
Fixpoint lookbackFrom (d : Doc) (st : Styles) (maxSpaceStyle : Z) (pos : Z)
    (fuel : nat) (dflt : Z * Z) : Z * Z :=
  match fuel with
  | O => dflt
  | S f =>
      let p := pos - 1 in
      if maxSpaceStyle <? st p then (charAt d p, st p)
      else if p =? 0 then dflt
      else lookbackFrom d st maxSpaceStyle p f dflt
  end.

Definition LookbackNonWhite (d : Doc) (st : Styles) (startPos maxSpaceStyle : Z)
    (dflt : Z * Z) : Z * Z :=
  lookbackFrom d st maxSpaceStyle startPos (Z.to_nat startPos) dflt.

(** * LexCSharp.cxx *)
Module CSharp.

(** Modelled from the spec: the style codes of SciLexer.h are not among
    the sources.  The numbering is one that satisfies the ordering
    invariants of section 3: escapes up to interpolated-string, raw
    strings between the plain and the verbatim kinds, single-line kinds
    below raw-multi-line, odd codes for the interpolated kind of each
    pair, whitespace-equivalent styles up to task-marker. *)
Definition SCE_CSHARP_DEFAULT : Z := 0.
Definition SCE_CSHARP_COMMENTLINE : Z := 1.
Definition SCE_CSHARP_COMMENTLINEDOC : Z := 2.
Definition SCE_CSHARP_COMMENTBLOCK : Z := 3.
Definition SCE_CSHARP_COMMENTBLOCKDOC : Z := 4.
Definition SCE_CSHARP_COMMENTTAG_XML : Z := 5.
Definition SCE_CSHARP_TASKMARKER : Z := 6.
Definition SCE_CSHARP_CHARACTER : Z := 7.
Definition SCE_CSHARP_STRING : Z := 8.
Definition SCE_CSHARP_INTERPOLATED_STRING : Z := 9.
Definition SCE_CSHARP_RAWSTRING_SL : Z := 10.
Definition SCE_CSHARP_INTERPOLATED_RAWSTRING_SL : Z := 11.
Definition SCE_CSHARP_RAWSTRING_ML : Z := 12.
Definition SCE_CSHARP_INTERPOLATED_RAWSTRING_ML : Z := 13.
Definition SCE_CSHARP_VERBATIM_STRING : Z := 14.
Definition SCE_CSHARP_INTERPOLATED_VERBATIM_STRING : Z := 15.
Definition SCE_CSHARP_ESCAPECHAR : Z := 16.
Definition SCE_CSHARP_FORMAT_SPECIFIER : Z := 17.
Definition SCE_CSHARP_PLACEHOLDER : Z := 18.
Definition SCE_CSHARP_OPERATOR : Z := 19.
Definition SCE_CSHARP_OPERATOR2 : Z := 20.
Definition SCE_CSHARP_NUMBER : Z := 21.
Definition SCE_CSHARP_IDENTIFIER : Z := 22.
Definition SCE_CSHARP_PREPROCESSOR : Z := 23.
Definition SCE_CSHARP_PREPROCESSOR_WORD : Z := 24.
Definition SCE_CSHARP_PREPROCESSOR_MESSAGE : Z := 25.
Definition SCE_CSHARP_WORD : Z := 26.
Definition SCE_CSHARP_WORD2 : Z := 27.
Definition SCE_CSHARP_ATTRIBUTE : Z := 28.
Definition SCE_CSHARP_CLASS : Z := 29.
Definition SCE_CSHARP_STRUCT : Z := 30.
Definition SCE_CSHARP_INTERFACE : Z := 31.
Definition SCE_CSHARP_ENUM : Z := 32.
Definition SCE_CSHARP_RECORD : Z := 33.
Definition SCE_CSHARP_CONSTANT : Z := 34.
Definition SCE_CSHARP_LABEL : Z := 35.
Definition SCE_CSHARP_FUNCTION : Z := 36.
Definition SCE_CSHARP_FUNCTION_DEFINITION : Z := 37.

Definition HasEscapeChar (st : Z) : bool := st <=? SCE_CSHARP_INTERPOLATED_STRING.
Definition IsVerbatimString (st : Z) : bool := SCE_CSHARP_VERBATIM_STRING <=? st.
Definition IsInterpolatedString (st : Z) : bool :=
  if Z.odd SCE_CSHARP_INTERPOLATED_STRING then Z.odd st else Z.even st.
Definition IsSingleLineString (st : Z) : bool := st <? SCE_CSHARP_RAWSTRING_ML.
Definition IsPlainString (st : Z) : bool :=
  (st <? SCE_CSHARP_RAWSTRING_SL) || (SCE_CSHARP_INTERPOLATED_RAWSTRING_ML <? st).

(** The nine string styles that share the string arm of the switch. *)
Definition isStringState (st : Z) : bool :=
  (SCE_CSHARP_CHARACTER <=? st) && (st <=? SCE_CSHARP_INTERPOLATED_VERBATIM_STRING).

Record InterpolatedStringState := mkISS {
  iss_state : Z;
  iss_parenCount : Z;
  iss_delimiterCount : Z;
  iss_interpolatorCount : Z
}.

Definition CSharpLineStateMaskLineComment : Z := 1.
Definition CSharpLineStateMaskUsing : Z := 2.
Definition CSharpLineStateMaskInterpolation : Z := 4.

Definition KeywordIndex_Keyword : Z := 0.
Definition KeywordIndex_Type : Z := 1.
Definition KeywordIndex_ValaType : Z := 2.
Definition KeywordIndex_Preprocessor : Z := 3.
Definition KeywordIndex_Attribute : Z := 4.
Definition KeywordIndex_Class : Z := 5.
Definition KeywordIndex_Struct : Z := 6.
Definition KeywordIndex_Interface : Z := 7.
Definition KeywordIndex_Enumeration : Z := 8.
Definition KeywordIndex_Constant : Z := 9.

Inductive PreprocessorKind := PpNone | PpInit | PpPragma | PpMessage | PpOther.
Inductive DocTagState := TagNone | TagXmlOpen | TagXmlClose.

Inductive KeywordType :=
  | KwNone | KwAttribute | KwClass | KwInterface | KwStruct | KwEnum
  | KwRecord | KwLabel | KwReturn | KwWhile.

(** The value of each enumerator: the style it stands for, or 0x40, 0x41. *)
Definition kwValue (k : KeywordType) : Z :=
  match k with
  | KwNone => SCE_CSHARP_DEFAULT
  | KwAttribute => SCE_CSHARP_ATTRIBUTE
  | KwClass => SCE_CSHARP_CLASS
  | KwInterface => SCE_CSHARP_INTERFACE
  | KwStruct => SCE_CSHARP_STRUCT
  | KwEnum => SCE_CSHARP_ENUM
  | KwRecord => SCE_CSHARP_RECORD
  | KwLabel => SCE_CSHARP_LABEL
  | KwReturn => 64
  | KwWhile => 65
  end.

Definition kw_eqb (a b : KeywordType) : bool := kwValue a =? kwValue b.
(** [kwType > KeywordType::None && kwType < KeywordType::Return] *)
Definition kwIsStyle (k : KeywordType) : bool :=
  (kwValue KwNone <? kwValue k) && (kwValue k <? kwValue KwReturn).

Definition pp_eqb (a b : PreprocessorKind) : bool :=
  match a, b with
  | PpNone, PpNone | PpInit, PpInit | PpPragma, PpPragma
  | PpMessage, PpMessage | PpOther, PpOther => true
  | _, _ => false
  end.

Definition tagIsNone (t : DocTagState) : bool :=
  match t with TagNone => true | _ => false end.

Definition IsUnicodeEscape (c cNext : Z) : bool :=
  (c =? BSLASH) && (UnsafeLower cNext =? 117).
Definition IsCsIdentifierStart (c cNext : Z) : bool :=
  IsIdentifierStartEx c || IsUnicodeEscape c cNext.
Definition IsCsIdentifierChar (c cNext : Z) : bool :=
  IsIdentifierCharEx c || IsUnicodeEscape c cNext.
Definition IsXmlCommentTagChar (c : Z) : bool :=
  IsIdentifierChar c || (c =? 45) || (c =? 58).
Definition PreferArrayIndex (c : Z) : bool :=
  (c =? 41) || (c =? 93) || IsIdentifierCharEx c.
Definition IsSpaceEquiv (st : Z) : bool := st <=? SCE_CSHARP_TASKMARKER.
Definition IsInvalidFormatSpecifier (c : Z) : bool :=
  ((0 <=? c) && (c <? 32)) || (c =? QUOTE) || (c =? 123) || (c =? 125).

(** The locals of [ColouriseCSharpDoc]; the top of the nested stack is
    the head of [nestedState]. *)
Record Locals := mkLocals {
  lineStateLineType : Z;
  kwType : KeywordType;
  chBeforeIdentifier : Z;
  parenCount : Z;
  stringDelimiterCount : Z;
  stringInterpolatorCount : Z;
  ppKind : PreprocessorKind;
  visibleChars : Z;
  chBefore : Z;
  visibleCharsBefore : Z;
  chPrevNonWhite : Z;
  docTagState : DocTagState;
  escOuterState : Z;
  escDigitsLeft : Z;
  closeBrace : bool;
  nestedState : list InterpolatedStringState
}.

Definition set_lineStateLineType (v : Z) (l : Locals) : Locals :=
  {| lineStateLineType := v; kwType := kwType l;
     chBeforeIdentifier := chBeforeIdentifier l; parenCount := parenCount l;
     stringDelimiterCount := stringDelimiterCount l;
     stringInterpolatorCount := stringInterpolatorCount l; ppKind := ppKind l;
     visibleChars := visibleChars l; chBefore := chBefore l;
     visibleCharsBefore := visibleCharsBefore l; chPrevNonWhite := chPrevNonWhite l;
     docTagState := docTagState l; escOuterState := escOuterState l;
     escDigitsLeft := escDigitsLeft l; closeBrace := closeBrace l;
     nestedState := nestedState l |}.
Definition set_kwType (v : KeywordType) (l : Locals) : Locals :=
  {| lineStateLineType := lineStateLineType l; kwType := v;
     chBeforeIdentifier := chBeforeIdentifier l; parenCount := parenCount l;
     stringDelimiterCount := stringDelimiterCount l;
     stringInterpolatorCount := stringInterpolatorCount l; ppKind := ppKind l;
     visibleChars := visibleChars l; chBefore := chBefore l;
     visibleCharsBefore := visibleCharsBefore l; chPrevNonWhite := chPrevNonWhite l;
     docTagState := docTagState l; escOuterState := escOuterState l;
     escDigitsLeft := escDigitsLeft l; closeBrace := closeBrace l;
     nestedState := nestedState l |}.
Definition set_chBeforeIdentifier (v : Z) (l : Locals) : Locals :=
  {| lineStateLineType := lineStateLineType l; kwType := kwType l;
     chBeforeIdentifier := v; parenCount := parenCount l;
     stringDelimiterCount := stringDelimiterCount l;
     stringInterpolatorCount := stringInterpolatorCount l; ppKind := ppKind l;
     visibleChars := visibleChars l; chBefore := chBefore l;
     visibleCharsBefore := visibleCharsBefore l; chPrevNonWhite := chPrevNonWhite l;
     docTagState := docTagState l; escOuterState := escOuterState l;
     escDigitsLeft := escDigitsLeft l; closeBrace := closeBrace l;
     nestedState := nestedState l |}.
Definition set_parenCount (v : Z) (l : Locals) : Locals :=
  {| lineStateLineType := lineStateLineType l; kwType := kwType l;
     chBeforeIdentifier := chBeforeIdentifier l; parenCount := v;
     stringDelimiterCount := stringDelimiterCount l;
     stringInterpolatorCount := stringInterpolatorCount l; ppKind := ppKind l;
     visibleChars := visibleChars l; chBefore := chBefore l;
     visibleCharsBefore := visibleCharsBefore l; chPrevNonWhite := chPrevNonWhite l;
     docTagState := docTagState l; escOuterState := escOuterState l;
     escDigitsLeft := escDigitsLeft l; closeBrace := closeBrace l;
     nestedState := nestedState l |}.
Definition set_stringDelimiterCount (v : Z) (l : Locals) : Locals :=
  {| lineStateLineType := lineStateLineType l; kwType := kwType l;
     chBeforeIdentifier := chBeforeIdentifier l; parenCount := parenCount l;
     stringDelimiterCount := v; stringInterpolatorCount := stringInterpolatorCount l;
     ppKind := ppKind l; visibleChars := visibleChars l; chBefore := chBefore l;
     visibleCharsBefore := visibleCharsBefore l; chPrevNonWhite := chPrevNonWhite l;
     docTagState := docTagState l; escOuterState := escOuterState l;
     escDigitsLeft := escDigitsLeft l; closeBrace := closeBrace l;
     nestedState := nestedState l |}.
Definition set_stringInterpolatorCount (v : Z) (l : Locals) : Locals :=
  {| lineStateLineType := lineStateLineType l; kwType := kwType l;
     chBeforeIdentifier := chBeforeIdentifier l; parenCount := parenCount l;
     stringDelimiterCount := stringDelimiterCount l; stringInterpolatorCount := v;
     ppKind := ppKind l; visibleChars := visibleChars l; chBefore := chBefore l;
     visibleCharsBefore := visibleCharsBefore l; chPrevNonWhite := chPrevNonWhite l;
     docTagState := docTagState l; escOuterState := escOuterState l;
     escDigitsLeft := escDigitsLeft l; closeBrace := closeBrace l;
     nestedState := nestedState l |}.
Definition set_ppKind (v : PreprocessorKind) (l : Locals) : Locals :=
  {| lineStateLineType := lineStateLineType l; kwType := kwType l;
     chBeforeIdentifier := chBeforeIdentifier l; parenCount := parenCount l;
     stringDelimiterCount := stringDelimiterCount l;
     stringInterpolatorCount := stringInterpolatorCount l; ppKind := v;
     visibleChars := visibleChars l; chBefore := chBefore l;
     visibleCharsBefore := visibleCharsBefore l; chPrevNonWhite := chPrevNonWhite l;
     docTagState := docTagState l; escOuterState := escOuterState l;
     escDigitsLeft := escDigitsLeft l; closeBrace := closeBrace l;
     nestedState := nestedState l |}.
Definition set_visibleChars (v : Z) (l : Locals) : Locals :=
  {| lineStateLineType := lineStateLineType l; kwType := kwType l;
     chBeforeIdentifier := chBeforeIdentifier l; parenCount := parenCount l;
     stringDelimiterCount := stringDelimiterCount l;
     stringInterpolatorCount := stringInterpolatorCount l; ppKind := ppKind l;
     visibleChars := v; chBefore := chBefore l;
     visibleCharsBefore := visibleCharsBefore l; chPrevNonWhite := chPrevNonWhite l;
     docTagState := docTagState l; escOuterState := escOuterState l;
     escDigitsLeft := escDigitsLeft l; closeBrace := closeBrace l;
     nestedState := nestedState l |}.
Definition set_chBefore (v : Z) (l : Locals) : Locals :=
  {| lineStateLineType := lineStateLineType l; kwType := kwType l;
     chBeforeIdentifier := chBeforeIdentifier l; parenCount := parenCount l;
     stringDelimiterCount := stringDelimiterCount l;
     stringInterpolatorCount := stringInterpolatorCount l; ppKind := ppKind l;
     visibleChars := visibleChars l; chBefore := v;
     visibleCharsBefore := visibleCharsBefore l; chPrevNonWhite := chPrevNonWhite l;
     docTagState := docTagState l; escOuterState := escOuterState l;
     escDigitsLeft := escDigitsLeft l; closeBrace := closeBrace l;
     nestedState := nestedState l |}.
Definition set_visibleCharsBefore (v : Z) (l : Locals) : Locals :=
  {| lineStateLineType := lineStateLineType l; kwType := kwType l;
     chBeforeIdentifier := chBeforeIdentifier l; parenCount := parenCount l;
     stringDelimiterCount := stringDelimiterCount l;
     stringInterpolatorCount := stringInterpolatorCount l; ppKind := ppKind l;
     visibleChars := visibleChars l; chBefore := chBefore l; visibleCharsBefore := v;
     chPrevNonWhite := chPrevNonWhite l; docTagState := docTagState l;
     escOuterState := escOuterState l; escDigitsLeft := escDigitsLeft l;
     closeBrace := closeBrace l; nestedState := nestedState l |}.
Definition set_chPrevNonWhite (v : Z) (l : Locals) : Locals :=
  {| lineStateLineType := lineStateLineType l; kwType := kwType l;
     chBeforeIdentifier := chBeforeIdentifier l; parenCount := parenCount l;
     stringDelimiterCount := stringDelimiterCount l;
     stringInterpolatorCount := stringInterpolatorCount l; ppKind := ppKind l;
     visibleChars := visibleChars l; chBefore := chBefore l;
     visibleCharsBefore := visibleCharsBefore l; chPrevNonWhite := v;
     docTagState := docTagState l; escOuterState := escOuterState l;
     escDigitsLeft := escDigitsLeft l; closeBrace := closeBrace l;
     nestedState := nestedState l |}.
Definition set_docTagState (v : DocTagState) (l : Locals) : Locals :=
  {| lineStateLineType := lineStateLineType l; kwType := kwType l;
     chBeforeIdentifier := chBeforeIdentifier l; parenCount := parenCount l;
     stringDelimiterCount := stringDelimiterCount l;
     stringInterpolatorCount := stringInterpolatorCount l; ppKind := ppKind l;
     visibleChars := visibleChars l; chBefore := chBefore l;
     visibleCharsBefore := visibleCharsBefore l; chPrevNonWhite := chPrevNonWhite l;
     docTagState := v; escOuterState := escOuterState l;
     escDigitsLeft := escDigitsLeft l; closeBrace := closeBrace l;
     nestedState := nestedState l |}.
Definition set_escOuterState (v : Z) (l : Locals) : Locals :=
  {| lineStateLineType := lineStateLineType l; kwType := kwType l;
     chBeforeIdentifier := chBeforeIdentifier l; parenCount := parenCount l;
     stringDelimiterCount := stringDelimiterCount l;
     stringInterpolatorCount := stringInterpolatorCount l; ppKind := ppKind l;
     visibleChars := visibleChars l; chBefore := chBefore l;
     visibleCharsBefore := visibleCharsBefore l; chPrevNonWhite := chPrevNonWhite l;
     docTagState := docTagState l; escOuterState := v;
     escDigitsLeft := escDigitsLeft l; closeBrace := closeBrace l;
     nestedState := nestedState l |}.
Definition set_escDigitsLeft (v : Z) (l : Locals) : Locals :=
  {| lineStateLineType := lineStateLineType l; kwType := kwType l;
     chBeforeIdentifier := chBeforeIdentifier l; parenCount := parenCount l;
     stringDelimiterCount := stringDelimiterCount l;
     stringInterpolatorCount := stringInterpolatorCount l; ppKind := ppKind l;
     visibleChars := visibleChars l; chBefore := chBefore l;
     visibleCharsBefore := visibleCharsBefore l; chPrevNonWhite := chPrevNonWhite l;
     docTagState := docTagState l; escOuterState := escOuterState l;
     escDigitsLeft := v; closeBrace := closeBrace l; nestedState := nestedState l |}.
Definition set_closeBrace (v : bool) (l : Locals) : Locals :=
  {| lineStateLineType := lineStateLineType l; kwType := kwType l;
     chBeforeIdentifier := chBeforeIdentifier l; parenCount := parenCount l;
     stringDelimiterCount := stringDelimiterCount l;
     stringInterpolatorCount := stringInterpolatorCount l; ppKind := ppKind l;
     visibleChars := visibleChars l; chBefore := chBefore l;
     visibleCharsBefore := visibleCharsBefore l; chPrevNonWhite := chPrevNonWhite l;
     docTagState := docTagState l; escOuterState := escOuterState l;
     escDigitsLeft := escDigitsLeft l; closeBrace := v; nestedState := nestedState l |}.
Definition set_nestedState (v : list InterpolatedStringState) (l : Locals) : Locals :=
  {| lineStateLineType := lineStateLineType l; kwType := kwType l;
     chBeforeIdentifier := chBeforeIdentifier l; parenCount := parenCount l;
     stringDelimiterCount := stringDelimiterCount l;
     stringInterpolatorCount := stringInterpolatorCount l; ppKind := ppKind l;
     visibleChars := visibleChars l; chBefore := chBefore l;
     visibleCharsBefore := visibleCharsBefore l; chPrevNonWhite := chPrevNonWhite l;
     docTagState := docTagState l; escOuterState := escOuterState l;
     escDigitsLeft := escDigitsLeft l; closeBrace := closeBrace l; nestedState := v |}.

(** Outcome of the switch on the running style: [break] goes on with
    the rest of the loop body, [continue] starts the next iteration. *)
Inductive Ctl := Break | Continue.

Definition LexState : Type := Locals * StyleContext.

Section Lexer.

Variable keywordLists : LexerWordList.

(** [HighlightTaskMarker(sc, visibleChars, visibleCharsBefore, style)] is
    in lexlib and reads the configured task markers: when it finds one
    it styles it and gives the new context and count of visible bytes. *)
Variable HighlightTaskMarker :
  Doc -> StyleContext -> Z -> Z -> Z -> option (StyleContext * Z).

Variable d : Doc.

(** [EscapeSequence::resetEscapeState] *)
Definition resetEscapeState (st cNext : Z) (l : Locals) : option Locals :=
  if IsEOLChar cNext then None
  else Some (set_escDigitsLeft
               (if (cNext =? 120) || (cNext =? 117) then 5
                else if cNext =? 85 then 9 else 1)
               (set_escOuterState st l)).

(** [EscapeSequence::atEscapeEnd] *)
Definition atEscapeEnd (c : Z) (l : Locals) : bool * Locals :=
  let n := escDigitsLeft l - 1 in
  ((n <=? 0) || negb (IsHexDigit c), set_escDigitsLeft n l).

Fixpoint skipDigits (pos : Z) (fuel : nat) : Z :=
  match fuel with
  | O => pos
  | S f => if IsADigit (charAt d pos) then skipDigits (pos + 1) f else pos
  end.

Fixpoint skipFormat (pos : Z) (n : nat) : Z :=
  match n with
  | O => pos
  | S n' => if IsInvalidFormatSpecifier (charAt d pos) then pos
            else skipFormat (pos + 1) n'
  end.

Definition CheckFormatSpecifier (sc : StyleContext) : Z :=
  let pos0 := currentPos sc in
  let pos1 :=
    if charAt d pos0 =? COMMA then
      let p := pos0 + 1 in
      let p := if charAt d p =? MINUS then p + 1 else p in
      skipDigits p (List.length d)
    else pos0 in
  let pos2 :=
    if charAt d pos1 =? COLON then skipFormat (pos1 + 1) 32 else pos1 in
  if charAt d pos2 =? RBRACE then pos2 - pos0 else 0.

Definition IsInterpolatedStringEnd (sc : StyleContext) : bool :=
  (ch sc =? RBRACE) || (ch sc =? COLON)
  || ((ch sc =? COMMA)
      && (IsADigit (chNext sc)
          || ((chNext sc =? MINUS) && IsADigit (SC.GetRelative d 2 sc)))).

(** *** Identifiers and keywords *)

Definition keywordHint (s : list Z) (l : Locals) (sc : StyleContext) : Locals :=
  if StrEqual s "using" then
    if visibleChars l =? SC.LengthCurrent sc
    then set_lineStateLineType CSharpLineStateMaskUsing l else l
  else if StrEqualsAny s ["class"; "new"; "as"; "is"]%string then set_kwType KwClass l
  else if StrEqual s "struct" then set_kwType KwStruct l
  else if StrEqual s "interface" then set_kwType KwInterface l
  else if StrEqual s "enum" then set_kwType KwEnum l
  else if StrEqual s "record" then set_kwType KwRecord l
  else if StrEqual s "goto" then set_kwType KwLabel l
  else if StrEqualsAny s ["return"; "await"; "yield"]%string then set_kwType KwReturn l
  else if StrEqualsAny s ["if"; "while"]%string then set_kwType KwWhile l
  else l.

Definition classifyWord (s : list Z) (st : LexState) : LexState :=
  let '(l, sc) := st in
  if byteAt s 0 =? ATSIGN then (l, sc)
  else if InList (keywordLists KeywordIndex_Keyword) s then
    let sc := SC.ChangeState SCE_CSHARP_WORD sc in
    let l := keywordHint s l sc in
    if kwIsStyle (kwType l) && negb (IsIdentifierStartEx (SC.GetDocNextChar d false sc))
    then (set_kwType KwNone l, sc) else (l, sc)
  else if InList (keywordLists KeywordIndex_Type) s
          || InList (keywordLists KeywordIndex_ValaType) s then
    (l, SC.ChangeState SCE_CSHARP_WORD2 sc)
  else if InList (keywordLists KeywordIndex_Class) s then
    (l, SC.ChangeState SCE_CSHARP_CLASS sc)
  else if InList (keywordLists KeywordIndex_Struct) s then
    (l, SC.ChangeState SCE_CSHARP_STRUCT sc)
  else if InList (keywordLists KeywordIndex_Interface) s then
    (l, SC.ChangeState SCE_CSHARP_INTERFACE sc)
  else if InList (keywordLists KeywordIndex_Enumeration) s then
    (l, SC.ChangeState SCE_CSHARP_ENUM sc)
  else if InList (keywordLists KeywordIndex_Attribute) s then
    (l, SC.ChangeState SCE_CSHARP_ATTRIBUTE sc)
  else if InList (keywordLists KeywordIndex_Constant) s then
    (l, SC.ChangeState SCE_CSHARP_CONSTANT sc)
  else (l, sc).

Definition classifyPreprocessor (s : list Z) (st : LexState) : LexState :=
  let '(l, sc) := st in
  let sc := if state sc =? SCE_CSHARP_IDENTIFIER
            then SC.ChangeState SCE_CSHARP_PREPROCESSOR sc else sc in
  if 1 <? SC.LengthCurrent sc then
    let p := if byteAt s 0 =? HASH then tl s else s in
    if StrEqualsAny p ["pragma"; "line"; "nullable"]%string then (set_ppKind PpPragma l, sc)
    else if StrEqualsAny p ["error"; "warning"; "region"; "endregion"]%string
    then (set_ppKind PpMessage l, sc)
    else (set_ppKind PpOther l, sc)
  else if negb (IsASpaceOrTab (ch sc)) then (set_ppKind PpOther l, sc)
  else (l, sc).

(** What an identifier that is no keyword becomes, from the bytes
    around it. *)
Definition classifyIdentifier (s : list Z) (st : LexState) : LexState :=
  let '(l, sc) := st in
  if ch sc =? COLON then
    if (parenCount l =? 0) && IsJumpLabelPrevChar (chBefore l)
    then (l, SC.ChangeState SCE_CSHARP_LABEL sc)
    else if chBefore l =? LBRACKET
    then (set_kwType KwAttribute l, SC.ChangeState SCE_CSHARP_ATTRIBUTE sc)
    else (l, sc)
  else if negb (ch sc =? DOT) then
    if kwIsStyle (kwType l) then (l, SC.ChangeState (kwValue (kwType l)) sc)
    else
      let cNext := SC.GetDocNextChar d ((ch sc =? QMARK) || (ch sc =? RPAREN)) sc in
      if ch sc =? RPAREN then
        if (chBeforeIdentifier l =? LPAREN)
           && ((cNext =? LPAREN)
               || (negb (kw_eqb (kwType l) KwWhile) && IsIdentifierCharEx cNext))
        then (l, SC.ChangeState SCE_CSHARP_CLASS sc) else (l, sc)
      else if cNext =? LPAREN then
        if negb (kw_eqb (kwType l) KwReturn)
           && (IsIdentifierCharEx (chBefore l) || (chBefore l =? RBRACKET))
        then (l, SC.ChangeState SCE_CSHARP_FUNCTION_DEFINITION sc)
        else (l, SC.ChangeState SCE_CSHARP_FUNCTION sc)
      else if ((ch sc =? LBRACKET) && ((chNext sc =? RBRACKET) || (chNext sc =? COMMA)))
              || ((chBeforeIdentifier l =? LESS) && ((cNext =? GREATER) || (cNext =? LESS)))
              || IsIdentifierStartEx cNext
      then (l, SC.ChangeState (if IsInterfaceName (byteAt s 0) (byteAt s 1)
                               then SCE_CSHARP_INTERFACE else SCE_CSHARP_CLASS) sc)
      else (l, sc)
  else (l, sc).

Definition arm_identifier (st : LexState) : LexState * Ctl :=
  let '(l, sc) := st in
  if negb (IsCsIdentifierChar (ch sc) (chNext sc)) then
    let s := SC.GetCurrent d sc 128 in
    let '(l, sc) :=
      match ppKind l with
      | PpNone => classifyWord s (l, sc)
      | PpInit => classifyPreprocessor s (l, sc)
      | PpPragma => (set_ppKind PpOther l, SC.ChangeState SCE_CSHARP_PREPROCESSOR_WORD sc)
      | _ => (l, sc)
      end in
    let '(l, sc) :=
      if pp_eqb (ppKind l) PpNone && (state sc =? SCE_CSHARP_IDENTIFIER)
      then classifyIdentifier s (l, sc) else (l, sc) in
    let l :=
      if negb (state sc =? SCE_CSHARP_WORD) && negb (state sc =? SCE_CSHARP_ATTRIBUTE)
         && negb (ch sc =? DOT)
      then set_kwType KwNone l else l in
    ((l, SC.SetState SCE_CSHARP_DEFAULT sc), Break)
  else ((l, sc), Break).

(** *** Comments and documentation tags *)

(** Inside a documentation tag, [>] or [/>] ends the tag. *)
Definition close_doctag (st : LexState) : LexState :=
  let '(l, sc) := st in
  if negb (tagIsNone (docTagState l))
     && (SC.Match2 SLASH GREATER sc || (ch sc =? GREATER))
  then
    let n := if ch sc =? SLASH then 2 else 1 in
    (set_docTagState TagNone l,
     SC.SetState (escOuterState l)
       (SC.Advance d n (SC.SetState SCE_CSHARP_COMMENTTAG_XML sc)))
  else (l, sc).

Definition arm_comment (st : LexState) : LexState * Ctl :=
  let '(l, sc) := st in
  if atLineStart sc
     && ((state sc =? SCE_CSHARP_COMMENTLINE) || (state sc =? SCE_CSHARP_COMMENTLINEDOC))
  then ((l, SC.SetState SCE_CSHARP_DEFAULT sc), Break)
  else
    let '(l, sc) := close_doctag (l, sc) in
    if ((state sc =? SCE_CSHARP_COMMENTBLOCK) || (state sc =? SCE_CSHARP_COMMENTBLOCKDOC))
       && SC.Match2 STAR SLASH sc
    then ((l, SC.ForwardSetState d SCE_CSHARP_DEFAULT (SC.Forward d sc)), Break)
    else if tagIsNone (docTagState l) then
      if (ch sc =? LESS)
         && ((state sc =? SCE_CSHARP_COMMENTLINEDOC) || (state sc =? SCE_CSHARP_COMMENTBLOCKDOC))
      then
        if IsAlpha (chNext sc) then
          ((set_escOuterState (state sc) (set_docTagState TagXmlOpen l),
            SC.SetState SCE_CSHARP_COMMENTTAG_XML sc), Break)
        else if (chNext sc =? SLASH) && IsAlpha (SC.GetRelative d 2 sc) then
          ((set_escOuterState (state sc) (set_docTagState TagXmlClose l),
            SC.Forward d (SC.SetState SCE_CSHARP_COMMENTTAG_XML sc)), Break)
        else ((l, sc), Break)
      else
        match HighlightTaskMarker d sc (visibleChars l) (visibleCharsBefore l)
                SCE_CSHARP_TASKMARKER with
        | Some (sc', vc) => ((set_visibleChars vc l, sc'), Continue)
        | None => ((l, sc), Break)
        end
    else ((l, sc), Break).

Definition arm_commenttag (st : LexState) : LexState * Ctl :=
  let '(l, sc) := st in
  if negb (IsXmlCommentTagChar (ch sc))
  then ((l, SC.SetState (escOuterState l) sc), Continue)
  else ((l, sc), Break).

(** *** Strings *)

(** A double quote inside a string. *)
Definition string_quote (st : LexState) : LexState * Ctl :=
  let '(l, sc) := st in
  if (chNext sc =? QUOTE) && IsVerbatimString (state sc) then
    ((set_escDigitsLeft 1 (set_escOuterState (state sc) l),
      SC.Forward d (SC.SetState SCE_CSHARP_ESCAPECHAR sc)), Break)
  else
    let sc := SC.Forward d sc in
    let plain := IsPlainString (state sc) in
    let delimiterCount := GetMatchedDelimiterCount d (currentPos sc + 1) QUOTE + 2 in
    let closes :=
      negb plain && SC.Match2 QUOTE QUOTE sc
      && ((visibleChars l =? 0) || IsSingleLineString (state sc))
      && (delimiterCount =? stringDelimiterCount l) in
    let '(l, sc) :=
      if closes
      then (set_stringInterpolatorCount 0 (set_stringDelimiterCount 0 l),
            SC.Advance d (delimiterCount - 1) sc)
      else (l, sc) in
    if plain || closes then
      let sc := if (chNext sc =? 56) && (UnsafeLower (ch sc) =? 117)
                then SC.Advance d 2 sc else sc in
      let sc := SC.SetState SCE_CSHARP_DEFAULT sc in
      let l :=
        match nestedState l with
        | top :: rest => if iss_state top =? state sc then set_nestedState rest l else l
        | [] => l
        end in
      ((l, sc), Break)
    else ((l, sc), Continue).

(** An opening brace inside a string: escape, expression hole or
    placeholder. *)
Definition string_lbrace (st : LexState) : LexState * Ctl :=
  let '(l, sc) := st in
  if (chNext sc =? LBRACE) && IsPlainString (state sc) then
    ((set_escDigitsLeft 1 (set_escOuterState (state sc) l),
      SC.Forward d (SC.SetState SCE_CSHARP_ESCAPECHAR sc)), Break)
  else
    let interpolatorCount := GetMatchedDelimiterCount d (currentPos sc) LBRACE in
    if IsInterpolatedString (state sc)
       && (IsPlainString (state sc) || (stringInterpolatorCount l <=? interpolatorCount))
    then
      let frame := mkISS (state sc) 0 (stringDelimiterCount l) (stringInterpolatorCount l) in
      let sc := SC.Advance d (interpolatorCount - stringInterpolatorCount l) sc in
      let sc := SC.SetState SCE_CSHARP_OPERATOR2 sc in
      let sc := SC.Advance d (stringInterpolatorCount l - 1) sc in
      let sc := SC.ForwardSetState d SCE_CSHARP_DEFAULT sc in
      ((set_stringInterpolatorCount 0
          (set_stringDelimiterCount 0 (set_nestedState (frame :: nestedState l) l)),
        sc), Break)
    else if IsIdentifierCharEx (chNext sc) || (chNext sc =? ATSIGN) || (chNext sc =? DOLLAR)
    then
      let sc' := SC.SetState SCE_CSHARP_PLACEHOLDER sc in
      ((set_escOuterState (state sc) l,
        if (chNext sc =? ATSIGN) || (chNext sc =? DOLLAR) then SC.Forward d sc' else sc'),
       Break)
    else ((l, sc), Break).

(** A closing brace inside a string. *)
Definition rbrace_escape (st : LexState) : LexState * Ctl :=
  let '(l, sc) := st in
  if (chNext sc =? RBRACE) && IsPlainString (state sc) then
    ((set_escDigitsLeft 1 (set_escOuterState (state sc) l),
      SC.Forward d (SC.SetState SCE_CSHARP_ESCAPECHAR sc)), Break)
  else ((l, sc), Break).

Definition string_rbrace (st : LexState) : LexState * Ctl :=
  let '(l, sc) := st in
  let l := set_closeBrace false l in
  if IsInterpolatedString (state sc) then
    let interpolatorCount :=
      if IsPlainString (state sc) then 1
      else GetMatchedDelimiterCount d (currentPos sc) RBRACE in
    let interpolating :=
      negb (match nestedState l with [] => true | _ => false end)
      && (stringInterpolatorCount l <=? interpolatorCount) in
    let l := if interpolating then set_nestedState (tl (nestedState l)) l else l in
    if interpolating || (negb (chNext sc =? RBRACE) && IsPlainString (state sc)) then
      let sc' := SC.SetState SCE_CSHARP_OPERATOR2 sc in
      let sc' := SC.Advance d (stringInterpolatorCount l - 1) sc' in
      let sc' := SC.ForwardSetState d (state sc) sc' in
      let sc' := SC.Advance d (interpolatorCount - stringInterpolatorCount l) sc' in
      ((l, sc'), Continue)
    else rbrace_escape (l, sc)
  else rbrace_escape (l, sc).

(** The string arm after its guard on the line start. *)
Definition string_body (st : LexState) : LexState * Ctl :=
  let '(l, sc) := st in
  if ch sc =? BSLASH then
    if HasEscapeChar (state sc) then
      match resetEscapeState (state sc) (chNext sc) l with
      | Some l' => ((l', SC.Forward d (SC.SetState SCE_CSHARP_ESCAPECHAR sc)), Break)
      | None => ((l, sc), Break)
      end
    else ((l, sc), Break)
  else if (ch sc =? APOS) && (state sc =? SCE_CSHARP_CHARACTER) then
    ((l, SC.ForwardSetState d SCE_CSHARP_DEFAULT sc), Break)
  else if negb (state sc =? SCE_CSHARP_CHARACTER) then
    if ch sc =? QUOTE then string_quote (l, sc)
    else if ch sc =? LBRACE then string_lbrace (l, sc)
    else if ch sc =? RBRACE then string_rbrace (l, sc)
    else ((l, sc), Break)
  else ((l, sc), Break).

(** The string arm: a single-line string that reaches a line start is
    closed there, unless a closing brace has just left a hole. *)
Definition arm_string (st : LexState) : LexState * Ctl :=
  let '(l, sc) := st in
  if atLineStart sc && IsSingleLineString (state sc) && negb (closeBrace l)
  then ((l, SC.SetState SCE_CSHARP_DEFAULT sc), Break)
  else string_body (l, sc).

(** *** Format specifiers, placeholders and escapes *)

Definition arm_format (st : LexState) : LexState * Ctl :=
  let '(l, sc) := st in
  if IsInvalidFormatSpecifier (ch sc)
  then ((l, SC.SetState (escOuterState l) sc), Continue)
  else ((l, sc), Break).

Definition arm_placeholder (st : LexState) : LexState * Ctl :=
  let '(l, sc) := st in
  if negb (IsIdentifierCharEx (ch sc)) then
    let sc :=
      if negb (ch sc =? RBRACE) then
        let length := CheckFormatSpecifier sc in
        if length =? 0
        then SC.ChangeState (escOuterState l) (SC.Rewind d sc)
        else SC.SetState SCE_CSHARP_PLACEHOLDER
               (SC.Advance d length (SC.SetState SCE_CSHARP_FORMAT_SPECIFIER sc))
      else sc in
    ((l, SC.ForwardSetState d (escOuterState l) sc), Continue)
  else ((l, sc), Break).

Definition arm_escape (st : LexState) : LexState * Ctl :=
  let '(l, sc) := st in
  let '(atEnd, l) := atEscapeEnd (ch sc) l in
  if atEnd then ((l, SC.SetState (escOuterState l) sc), Continue)
  else ((l, sc), Break).

(** *** The default state *)

Definition startIdentifier (l : Locals) : Locals :=
  let l := set_chBefore (chPrevNonWhite l) l in
  if negb (chPrevNonWhite l =? DOT)
  then set_chBeforeIdentifier (chPrevNonWhite l) l else l.

(** A comment opens: two slashes or slash and star. *)
Definition default_comment (st : LexState) : LexState * Ctl :=
  let '(l, sc) := st in
  let l := set_docTagState TagNone (set_visibleCharsBefore (visibleChars l) l) in
  let cNext := chNext sc in
  let l := if (cNext =? SLASH) && (visibleChars l =? 0)
           then set_lineStateLineType CSharpLineStateMaskLineComment l else l in
  let sc := SC.SetState (if cNext =? SLASH then SCE_CSHARP_COMMENTLINE
                         else SCE_CSHARP_COMMENTBLOCK) sc in
  let sc := SC.Advance d 2 sc in
  let sc := if (ch sc =? cNext) && negb (chNext sc =? cNext)
            then SC.ChangeState
                   (state sc + SCE_CSHARP_COMMENTLINEDOC - SCE_CSHARP_COMMENTLINE) sc
            else sc in
  ((l, sc), Continue).

(** A string opens with a quote, a dollar or an at sign. *)
Definition default_string (st : LexState) : LexState * Ctl :=
  let '(l, sc) := st in
  let cNext2 := SC.GetRelative d 2 sc in
  if (cNext2 =? QUOTE) && (SC.Match2 DOLLAR ATSIGN sc || SC.Match2 ATSIGN DOLLAR sc) then
    ((set_stringInterpolatorCount 1 (set_stringDelimiterCount 0 l),
      SC.Advance d 2 (SC.SetState SCE_CSHARP_INTERPOLATED_VERBATIM_STRING sc)), Break)
  else if ch sc =? ATSIGN then
    if chNext sc =? QUOTE then
      ((set_stringInterpolatorCount 0 (set_stringDelimiterCount 0 l),
        SC.Forward d (SC.SetState SCE_CSHARP_VERBATIM_STRING sc)), Break)
    else if IsCsIdentifierStart (chNext sc) cNext2 then
      ((startIdentifier l, SC.Forward d (SC.SetState SCE_CSHARP_IDENTIFIER sc)), Break)
    else ((l, sc), Break)
  else
    let pos := currentPos sc in
    let '(interpolatorCount, pos, cN) :=
      if ch sc =? DOLLAR then
        if chNext sc =? QUOTE then (1, pos + 1, QUOTE)
        else if chNext sc =? DOLLAR then
          let n := 1 + GetMatchedDelimiterCount d (pos + 1) DOLLAR in
          (n, pos + n, charAt d (pos + n))
        else (1, pos, ch sc)
      else (0, pos, ch sc) in
    if cN =? QUOTE then
      let delimiterCount := GetMatchedDelimiterCount d pos QUOTE in
      if 3 <=? delimiterCount then
        let cAfter := LexGetNextChar d (pos + delimiterCount) (lineStartNext sc) in
        let st0 := if cAfter =? 0 then SCE_CSHARP_RAWSTRING_ML else SCE_CSHARP_RAWSTRING_SL in
        let l := set_stringInterpolatorCount interpolatorCount
                   (set_stringDelimiterCount delimiterCount l) in
        let '(n, st1) :=
          if negb (interpolatorCount =? 0)
          then (delimiterCount + interpolatorCount,
                st0 + SCE_CSHARP_INTERPOLATED_RAWSTRING_SL - SCE_CSHARP_RAWSTRING_SL)
          else (delimiterCount, st0) in
        ((l, SC.Advance d (n - 1) (SC.SetState st1 sc)), Break)
      else
        let l := set_stringInterpolatorCount interpolatorCount
                   (set_stringDelimiterCount 0 l) in
        ((l, SC.Advance d (1 + interpolatorCount - 1)
               (SC.SetState (interpolatorCount + SCE_CSHARP_STRING) sc)), Break)
    else ((l, sc), Break).

(** An operator byte; inside an expression hole the brackets count in
    the top frame, outside they count in [parenCount]. *)
Definition default_operator (st : LexState) : LexState * Ctl :=
  let '(l, sc) := st in
  match nestedState l with
  | top :: rest =>
      let sc := SC.SetState SCE_CSHARP_OPERATOR2 sc in
      let top :=
        if (ch sc =? LPAREN) || (ch sc =? LBRACKET)
        then mkISS (iss_state top) (iss_parenCount top + 1)
                   (iss_delimiterCount top) (iss_interpolatorCount top)
        else if (ch sc =? RPAREN) || (ch sc =? RBRACKET)
        then mkISS (iss_state top) (iss_parenCount top - 1)
                   (iss_delimiterCount top) (iss_interpolatorCount top)
        else top in
      let l := set_nestedState (top :: rest) l in
      if (iss_parenCount top <=? 0) && IsInterpolatedStringEnd sc then
        let close := ch sc =? RBRACE in
        let l := set_closeBrace close
                   (set_stringInterpolatorCount (iss_interpolatorCount top)
                      (set_stringDelimiterCount (iss_delimiterCount top)
                         (set_escOuterState (iss_state top) l))) in
        ((l, SC.ChangeState (if close then iss_state top
                             else SCE_CSHARP_FORMAT_SPECIFIER) sc), Continue)
      else ((l, sc), Break)
  | [] =>
      let sc := SC.SetState SCE_CSHARP_OPERATOR sc in
      let l :=
        if (ch sc =? LPAREN) || (ch sc =? LBRACKET)
        then set_parenCount (parenCount l + 1) l
        else if (ch sc =? RPAREN) || (ch sc =? RBRACKET)
        then (if 0 <? parenCount l then set_parenCount (parenCount l - 1) l else l)
        else l in
      let l :=
        if kw_eqb (kwType l) KwNone && (ch sc =? LBRACKET) then
          if (visibleChars l =? 0) || negb (PreferArrayIndex (chPrevNonWhite l))
          then set_kwType KwAttribute l else l
        else if kw_eqb (kwType l) KwAttribute && ((ch sc =? LPAREN) || (ch sc =? RBRACKET))
        then set_kwType KwNone l
        else l in
      ((l, sc), Break)
  end.

Definition default_state (st : LexState) : LexState * Ctl :=
  let '(l, sc) := st in
  if pp_eqb (ppKind l) PpMessage && negb (isspacechar (ch sc)) then
    ((l, SC.SetState SCE_CSHARP_PREPROCESSOR_MESSAGE sc), Break)
  else if (ch sc =? SLASH) && ((chNext sc =? SLASH) || (chNext sc =? STAR)) then
    default_comment (l, sc)
  else if (ch sc =? QUOTE) || (ch sc =? DOLLAR) || (ch sc =? ATSIGN) then
    default_string (l, sc)
  else if ch sc =? APOS then
    ((l, SC.SetState SCE_CSHARP_CHARACTER sc), Break)
  else if (visibleChars l =? 0) && (ch sc =? HASH) then
    ((set_ppKind PpInit l, SC.SetState SCE_CSHARP_PREPROCESSOR sc), Break)
  else if IsNumberStart (ch sc) (chNext sc) then
    ((l, SC.SetState SCE_CSHARP_NUMBER sc), Break)
  else if IsCsIdentifierStart (ch sc) (chNext sc) then
    ((startIdentifier l, SC.SetState SCE_CSHARP_IDENTIFIER sc), Break)
  else if IsAGraphic (ch sc) && negb (ch sc =? BSLASH) then
    default_operator (l, sc)
  else ((l, sc), Break).

(** *** The loop of [ColouriseCSharpDoc] *)

(** The switch on the running style. *)
Definition switch_state (st : LexState) : LexState * Ctl :=
  let '(l, sc) := st in
  let s := state sc in
  if (s =? SCE_CSHARP_OPERATOR) || (s =? SCE_CSHARP_OPERATOR2) then
    ((l, SC.SetState SCE_CSHARP_DEFAULT sc), Break)
  else if s =? SCE_CSHARP_NUMBER then
    if negb (IsDecimalNumber (chPrev sc) (ch sc) (chNext sc))
    then ((l, SC.SetState SCE_CSHARP_DEFAULT sc), Break)
    else ((l, sc), Break)
  else if (s =? SCE_CSHARP_IDENTIFIER) || (s =? SCE_CSHARP_PREPROCESSOR) then
    arm_identifier (l, sc)
  else if s =? SCE_CSHARP_PREPROCESSOR_MESSAGE then
    if atLineStart sc then ((l, SC.SetState SCE_CSHARP_DEFAULT sc), Break)
    else ((l, sc), Break)
  else if (s =? SCE_CSHARP_COMMENTLINE) || (s =? SCE_CSHARP_COMMENTLINEDOC)
          || (s =? SCE_CSHARP_COMMENTBLOCK) || (s =? SCE_CSHARP_COMMENTBLOCKDOC) then
    arm_comment (l, sc)
  else if s =? SCE_CSHARP_COMMENTTAG_XML then arm_commenttag (l, sc)
  else if isStringState s then arm_string (l, sc)
  else if s =? SCE_CSHARP_FORMAT_SPECIFIER then arm_format (l, sc)
  else if s =? SCE_CSHARP_PLACEHOLDER then arm_placeholder (l, sc)
  else if s =? SCE_CSHARP_ESCAPECHAR then arm_escape (l, sc)
  else ((l, sc), Break).

(** The packed state of a line (bits from the least significant):
    line type (comment 1, using 2), interpolation 4, one bit unused,
    8 bits of delimiter count, 8 bits of interpolator count, 12 bits of
    paren count; the term is computed in [uint32_t] and stored as [int]. *)
Definition packLineState (l : Locals) : Z :=
  let v := Z.lor (Z.lor (Z.lor (lineStateLineType l)
                               (Z.shiftl (stringDelimiterCount l) 4))
                        (Z.shiftl (stringInterpolatorCount l) 12))
                 (Z.shiftl (parenCount l) 20) in
  wrap32 (match nestedState l with
          | [] => v
          | _ => Z.lor v CSharpLineStateMaskInterpolation
          end).

(** The end of the loop body: visible bytes, the state of a line at
    its end, and one step forward. *)
Definition line_end (st : LexState) : LexState :=
  let '(l, sc) := st in
  if atLineEnd sc then
    (set_kwType KwNone
       (set_ppKind PpNone
          (set_docTagState TagNone
             (set_visibleCharsBefore 0
                (set_visibleChars 0
                   (set_lineStateLineType 0 l))))),
     SC.SetLineState (currentLine sc) (packLineState l) sc)
  else (l, sc).

Definition body_end (st : LexState) : LexState :=
  let '(l, sc) := st in
  let l :=
    if negb (isspacechar (ch sc)) then
      let l := set_visibleChars (visibleChars l + 1) l in
      if negb (IsSpaceEquiv (state sc)) then set_chPrevNonWhite (ch sc) l else l
    else l in
  let '(l, sc) := line_end (l, sc) in
  (l, SC.Forward d sc).

(** One iteration of [while (sc.More())]. *)
Definition loop_body (st : LexState) : LexState :=
  match switch_state st with
  | (st1, Continue) => st1
  | (st1, Break) =>
      if state (snd st1) =? SCE_CSHARP_DEFAULT then
        match default_state st1 with
        | (st2, Continue) => st2
        | (st2, Break) => body_end st2
        end
      else body_end st1
  end.

(** The part of an iteration before the end of the loop body: the
    switch and, when it leaves the default style, the default state.
    [Break] goes on with the end of the loop body. *)
Definition loop_front (st : LexState) : LexState * Ctl :=
  match switch_state st with
  | (st1, Continue) => (st1, Continue)
  | (st1, Break) =>
      if state (snd st1) =? SCE_CSHARP_DEFAULT then default_state st1 else (st1, Break)
  end.

(** In a run of the loop from [st0], the state of line [ln] is stored
    with the locals [l]: after [m] iterations, all of them inside the
    range, the next one reaches the end of the loop body at the end of
    line [ln] with these locals. *)
Definition storesLine (st0 : LexState) (ln : Z) (l : Locals) : Prop :=
  exists m sc,
    (forall i, (i <= m)%nat -> SC.More (snd (Nat.iter i loop_body st0)) = true)
    /\ loop_front (Nat.iter m loop_body st0) = ((l, sc), Break)
    /\ atLineEnd sc = true
    /\ currentLine sc = ln.

(** The cursor shows the bytes of the document at its position. *)
Definition cursor_ok (sc : StyleContext) : Prop :=
  ch sc = charAt d (currentPos sc) /\ chNext sc = charAt d (currentPos sc + 1).

(** An arm keeps the paren count and the stored line states. *)
Definition keeps (st st' : LexState) : Prop :=
  parenCount (fst st') = parenCount (fst st)
  /\ lineStates (snd st') = lineStates (snd st).

(** The loop, with a bound on the number of iterations: [None] when
    the bound is reached before [sc.More()] fails. *)
Fixpoint lex_loop (fuel : nat) (st : LexState) : option LexState :=
  if SC.More (snd st) then
    match fuel with
    | O => None
    | S f => lex_loop f (loop_body st)
    end
  else Some st.

Definition initLocals : Locals :=
  {| lineStateLineType := 0; kwType := KwNone; chBeforeIdentifier := 0;
     parenCount := 0; stringDelimiterCount := 0; stringInterpolatorCount := 0;
     ppKind := PpNone; visibleChars := 0; chBefore := 0; visibleCharsBefore := 0;
     chPrevNonWhite := 0; docTagState := TagNone;
     escOuterState := SCE_CSHARP_DEFAULT; escDigitsLeft := 0;
     closeBrace := false; nestedState := [] |}.

(** What [ColouriseCSharpDoc] does before its loop. *)
Definition lex_init (startPos lengthDoc initStyle : Z)
    (st : Styles) (ls : LineStates) : LexState :=
  let '(startPos, lengthDoc, initStyle) :=
    if negb (startPos =? 0)
    then BacktrackToStart d st ls CSharpLineStateMaskInterpolation
           startPos lengthDoc initStyle
    else (startPos, lengthDoc, initStyle) in
  let sc := SC.Make d startPos lengthDoc initStyle st ls in
  let l := initLocals in
  let l :=
    if 0 <? currentLine sc then
      let lineState := ls (currentLine sc - 1) in
      set_parenCount (Z.shiftr lineState 20)
        (set_stringInterpolatorCount (Z.land (Z.shiftr lineState 12) 255)
           (set_stringDelimiterCount (Z.land (Z.shiftr lineState 4) 255) l))
    else l in
  if startPos =? 0 then
    if SC.Match2 HASH BANG sc then
      (set_lineStateLineType CSharpLineStateMaskLineComment l,
       SC.Forward d (SC.SetState SCE_CSHARP_COMMENTLINE sc))
    else (l, sc)
  else if IsSpaceEquiv initStyle then
    (set_chPrevNonWhite
       (fst (LookbackNonWhite d st startPos SCE_CSHARP_TASKMARKER
               (chPrevNonWhite l, initStyle))) l, sc)
  else (l, sc).

(** [ColouriseCSharpDoc]: the style bytes and the line states after
    the call. *)
Definition ColouriseCSharpDoc (fuel : nat) (startPos lengthDoc initStyle : Z)
    (st : Styles) (ls : LineStates) : option (Styles * LineStates) :=
  match lex_loop fuel (lex_init startPos lengthDoc initStyle st ls) with
  | Some (_, sc) => let sc := SC.Complete sc in Some (styles sc, lineStates sc)
  | None => None
  end.

End Lexer.

(** *** [FoldCSharpDoc] *)

(** [FoldLineState]: the two line-type bits of a line state. *)
Definition foldLineComment (lineState : Z) : Z :=
  Z.land lineState CSharpLineStateMaskLineComment.
Definition foldUsingName (lineState : Z) : Z := Z.land (Z.shiftr lineState 1) 1.

Definition Levels := Z -> Z.

Record FoldState := mkFold {
  f_startPos : Z;
  f_lineCurrent : Z;
  f_levelCurrent : Z;
  f_levelNext : Z;
  f_foldPrev : Z;
  f_foldCurrent : Z;
  f_lineStartNext : Z;
  f_buf : list Z;
  f_style : Z;
  f_styleNext : Z;
  f_visibleChars : Z;
  f_levels : Levels
}.

Definition MaxFoldWordLength : Z := 11.

Section Folder.

Variable d : Doc.
Variable st : Styles.
Variable ls : LineStates.

(** [CheckBraceOnNextLine(styler, line, operatorStyle, maxSpaceStyle,
    ignoreStyle)] is in lexlib: the position of an opening brace that
    starts the next line, or 0. *)
Variable CheckBraceOnNextLine : Z -> Z -> Z -> Z -> Z.

Variable endPos : Z.

(** The packed level of a line: current level, next level in the high
    half, and the header flag when the next level is higher. *)
Definition packLevel (levelUse levelNext : Z) : Z :=
  let lev := Z.lor levelUse (Z.shiftl levelNext 16) in
  wrap32 (if levelUse <? levelNext then Z.lor lev SC_FOLDLEVELHEADERFLAG else lev).

(** The change of [levelNext] for one styled byte, and the word of a
    preprocessor span read so far. *)
Definition fold_byte (stylePrev style styleNext : Z) (pos : Z)
    (levelNext : Z) (buf : list Z) : Z * list Z :=
  if (style =? SCE_CSHARP_COMMENTBLOCK) || (style =? SCE_CSHARP_COMMENTBLOCKDOC)
     || (style =? SCE_CSHARP_VERBATIM_STRING)
     || (style =? SCE_CSHARP_INTERPOLATED_VERBATIM_STRING)
     || (style =? SCE_CSHARP_RAWSTRING_ML)
     || (style =? SCE_CSHARP_INTERPOLATED_RAWSTRING_ML) then
    let n := if negb (style =? stylePrev) then levelNext + 1 else levelNext in
    (if negb (style =? styleNext) then n - 1 else n, buf)
  else if (style =? SCE_CSHARP_OPERATOR) || (style =? SCE_CSHARP_OPERATOR2) then
    let c := charAt d pos in
    if (c =? LBRACE) || (c =? LBRACKET) || (c =? LPAREN) then (levelNext + 1, buf)
    else if (c =? RBRACE) || (c =? RBRACKET) || (c =? RPAREN) then (levelNext - 1, buf)
    else (levelNext, buf)
  else if style =? SCE_CSHARP_PREPROCESSOR then
    let buf := if Z.of_nat (List.length buf) <? MaxFoldWordLength
               then buf ++ [charAt d pos] else buf in
    if negb (styleNext =? style) then
      let p := if byteAt buf 0 =? HASH then tl buf else buf in
      if StrEqualsAny p ["if"; "region"]%string then (levelNext + 1, [])
      else if StrStartsWith p "end" then (levelNext - 1, [])
      else (levelNext, [])
    else (levelNext, buf)
  else (levelNext, buf).

(** What happens when the position reaches the start of the next line. *)
Definition fold_line_end (f : FoldState) : FoldState :=
  let foldNext := ls (f_lineCurrent f + 1) in
  let levelNext := Z.max (f_levelNext f) SC_FOLDLEVELBASE in
  let bracePos :=
    CheckBraceOnNextLine (f_lineCurrent f) SCE_CSHARP_OPERATOR
      SCE_CSHARP_TASKMARKER SCE_CSHARP_PREPROCESSOR in
  let '(levelNext, startPos, style, styleNext) :=
    if negb (foldLineComment (f_foldCurrent f) =? 0) then
      (levelNext + (foldLineComment foldNext - foldLineComment (f_foldPrev f)),
       f_startPos f, f_style f, f_styleNext f)
    else if negb (foldUsingName (f_foldCurrent f) =? 0) then
      (levelNext + (foldUsingName foldNext - foldUsingName (f_foldPrev f)),
       f_startPos f, f_style f, f_styleNext f)
    else if negb (f_visibleChars f =? 0) && negb (bracePos =? 0) then
      (levelNext + 1, bracePos + 1, SCE_CSHARP_OPERATOR, st (bracePos + 1))
    else (levelNext, f_startPos f, f_style f, f_styleNext f) in
  let lineCurrent := f_lineCurrent f + 1 in
  {| f_startPos := startPos; f_lineCurrent := lineCurrent;
     f_levelCurrent := levelNext; f_levelNext := levelNext;
     f_foldPrev := f_foldCurrent f; f_foldCurrent := foldNext;
     f_lineStartNext := Z.min (LineStart d (lineCurrent + 1)) endPos;
     f_buf := f_buf f; f_style := style; f_styleNext := styleNext;
     f_visibleChars := 0;
     f_levels := setAt (f_levels f) (f_lineCurrent f)
                   (packLevel (f_levelCurrent f) levelNext) |}.

(** One iteration of [while (startPos < endPos)]. *)
Definition fold_step (f : FoldState) : FoldState :=
  let stylePrev := f_style f in
  let style := f_styleNext f in
  let styleNext := st (f_startPos f + 1) in
  let '(levelNext, buf) :=
    fold_byte stylePrev style styleNext (f_startPos f) (f_levelNext f) (f_buf f) in
  let visibleChars :=
    if (f_visibleChars f =? 0) && negb (IsSpaceEquiv style)
    then f_visibleChars f + 1 else f_visibleChars f in
  let f' :=
    {| f_startPos := f_startPos f + 1; f_lineCurrent := f_lineCurrent f;
       f_levelCurrent := f_levelCurrent f; f_levelNext := levelNext;
       f_foldPrev := f_foldPrev f; f_foldCurrent := f_foldCurrent f;
       f_lineStartNext := f_lineStartNext f; f_buf := buf;
       f_style := style; f_styleNext := styleNext;
       f_visibleChars := visibleChars; f_levels := f_levels f |} in
  if f_startPos f' =? f_lineStartNext f' then fold_line_end f' else f'.

Fixpoint fold_loop (fuel : nat) (f : FoldState) : option FoldState :=
  if f_startPos f <? endPos then
    match fuel with
    | O => None
    | S n => fold_loop n (fold_step f)
    end
  else Some f.

Definition fold_init (startPos initStyle : Z) (lv : Levels) : FoldState :=
  let lineCurrent := GetLine d startPos in
  let bracePos :=
    CheckBraceOnNextLine (lineCurrent - 1) SCE_CSHARP_OPERATOR
      SCE_CSHARP_TASKMARKER SCE_CSHARP_PREPROCESSOR in
  let '(levelCurrent, foldPrev, startPos) :=
    if 0 <? lineCurrent then
      (Z.shiftr (lv (lineCurrent - 1)) 16, ls (lineCurrent - 1),
       if negb (bracePos =? 0) then bracePos + 1 else startPos)
    else (SC_FOLDLEVELBASE, 0, startPos) in
  {| f_startPos := startPos; f_lineCurrent := lineCurrent;
     f_levelCurrent := levelCurrent; f_levelNext := levelCurrent;
     f_foldPrev := foldPrev; f_foldCurrent := ls lineCurrent;
     f_lineStartNext := Z.min (LineStart d (lineCurrent + 1)) endPos;
     f_buf := []; f_style := initStyle; f_styleNext := st startPos;
     f_visibleChars := 0; f_levels := lv |}.

End Folder.

(** [FoldCSharpDoc]: the fold levels after the call. *)
Definition FoldCSharpDoc (d : Doc) (st : Styles) (ls : LineStates)
    (CheckBraceOnNextLine : Z -> Z -> Z -> Z -> Z)
    (fuel : nat) (startPos lengthDoc initStyle : Z) (lv : Levels) : option Levels :=
  let endPos := startPos + lengthDoc in
  match fold_loop d st ls CheckBraceOnNextLine endPos fuel
          (fold_init d st ls CheckBraceOnNextLine endPos startPos initStyle lv) with
  | Some f => Some (f_levels f)
  | None => None
  end.

End CSharp.

(** * LexVB.cxx *)
Module VB.

(** The dialect, from the property [lexer.lang]: 0 modern, 1 classic,
    2 scripting (section 6.3). *)
Inductive Language := VBNET | VBA | VBScript.

Definition lang_eqb (a b : Language) : bool :=
  match a, b with
  | VBNET, VBNET | VBA, VBA | VBScript, VBScript => true
  | _, _ => false
  end.

Inductive KeywordType := KwNone | KwEnd | KwAccessModifier | KwFunction | KwPreprocessor.

Definition kw_eqb (a b : KeywordType) : bool :=
  match a, b with
  | KwNone, KwNone | KwEnd, KwEnd | KwAccessModifier, KwAccessModifier
  | KwFunction, KwFunction | KwPreprocessor, KwPreprocessor => true
  | _, _ => false
  end.

Definition VBLineType_CommentLine : Z := 1.
Definition VBLineType_DimLine : Z := 2.
Definition VBLineType_ConstLine : Z := 3.
Definition VBLineType_VB6TypeLine : Z := 4.
Definition VBLineStateLineContinuation : Z := 8.
Definition VBLineStateStringInterpolation : Z := 16.

Definition KeywordIndex_Keyword : Z := 0.
Definition KeywordIndex_TypeKeyword : Z := 1.
Definition KeywordIndex_VBAKeyword : Z := 2.
Definition KeywordIndex_Preprocessor : Z := 3.
Definition KeywordIndex_Attribute : Z := 4.
Definition KeywordIndex_Class : Z := 5.
Definition KeywordIndex_Interface : Z := 6.
Definition KeywordIndex_Enumeration : Z := 7.
Definition KeywordIndex_Constant : Z := 8.
Definition KeywordIndex_BasicFunction : Z := 9.
Definition MaxKeywordSize : Z := 32.

(** Modelled from the spec: the style codes of SciLexer.h are not among
    the sources.  The whitespace-equivalent styles (default, line
    comment, line continuation) come first; the others are distinct. *)
Definition SCE_VB_DEFAULT : Z := 0.
Definition SCE_VB_COMMENTLINE : Z := 1.
Definition SCE_VB_LINE_CONTINUATION : Z := 2.
Definition SCE_VB_OPERATOR : Z := 3.
Definition SCE_VB_OPERATOR2 : Z := 4.
Definition SCE_VB_IDENTIFIER : Z := 5.
Definition SCE_VB_NUMBER : Z := 6.
Definition SCE_VB_STRING : Z := 7.
Definition SCE_VB_INTERPOLATED_STRING : Z := 8.
Definition SCE_VB_FORMAT_SPECIFIER : Z := 9.
Definition SCE_VB_FILENUMBER : Z := 10.
Definition SCE_VB_DATE : Z := 11.
Definition SCE_VB_KEYWORD : Z := 12.
Definition SCE_VB_KEYWORD2 : Z := 13.
Definition SCE_VB_KEYWORD3 : Z := 14.
Definition SCE_VB_PREPROCESSOR : Z := 15.
Definition SCE_VB_PREPROCESSOR_WORD : Z := 16.
Definition SCE_VB_ATTRIBUTE : Z := 17.
Definition SCE_VB_CLASS : Z := 18.
Definition SCE_VB_INTERFACE : Z := 19.
Definition SCE_VB_ENUM : Z := 20.
Definition SCE_VB_CONSTANT : Z := 21.
Definition SCE_VB_BASIC_FUNCTION : Z := 22.
Definition SCE_VB_LABEL : Z := 23.
Definition SCE_VB_FUNCTION_DEFINITION : Z := 24.

Definition IsTypeCharacter (c : Z) : bool :=
  (c =? 37) || (c =? AMP) || (c =? 94) || (c =? ATSIGN) || (c =? BANG)
  || (c =? HASH) || (c =? DOLLAR).

Definition IsVBNumberPrefix (c : Z) : bool :=
  let c := UnsafeLower c in (c =? 104) || (c =? 111) || (c =? 98).

Definition PreferStringConcat (chPrevNonWhite stylePrevNonWhite : Z) : bool :=
  (chPrevNonWhite =? QUOTE) || (chPrevNonWhite =? RPAREN) || (chPrevNonWhite =? RBRACKET)
  || (negb (stylePrevNonWhite =? SCE_VB_KEYWORD) && IsIdentifierChar chPrevNonWhite).

Definition IsSpaceEquiv (st : Z) : bool := st <=? SCE_VB_LINE_CONTINUATION.

Definition IsInvalidFormatSpecifier (c : Z) : bool :=
  ((0 <=? c) && (c <? 32)) || (c =? QUOTE) || (c =? LBRACE) || (c =? RBRACE).

(** The locals of [ColouriseVBDoc]; the top of the stack of paren
    counters is the head of [nestedState]. *)
Record Locals := mkLocals {
  kwType : KeywordType;
  preprocessor : bool;
  lineState : Z;
  parenCount : Z;
  fileNbDigits : Z;
  visibleChars : Z;
  chBefore : Z;
  chPrevNonWhite : Z;
  stylePrevNonWhite : Z;
  nestedState : list Z
}.

Definition set_kwType (v : KeywordType) (l : Locals) : Locals :=
  {| kwType := v; preprocessor := preprocessor l; lineState := lineState l;
     parenCount := parenCount l; fileNbDigits := fileNbDigits l;
     visibleChars := visibleChars l; chBefore := chBefore l;
     chPrevNonWhite := chPrevNonWhite l; stylePrevNonWhite := stylePrevNonWhite l;
     nestedState := nestedState l |}.
Definition set_preprocessor (v : bool) (l : Locals) : Locals :=
  {| kwType := kwType l; preprocessor := v; lineState := lineState l;
     parenCount := parenCount l; fileNbDigits := fileNbDigits l;
     visibleChars := visibleChars l; chBefore := chBefore l;
     chPrevNonWhite := chPrevNonWhite l; stylePrevNonWhite := stylePrevNonWhite l;
     nestedState := nestedState l |}.
Definition set_lineState (v : Z) (l : Locals) : Locals :=
  {| kwType := kwType l; preprocessor := preprocessor l; lineState := v;
     parenCount := parenCount l; fileNbDigits := fileNbDigits l;
     visibleChars := visibleChars l; chBefore := chBefore l;
     chPrevNonWhite := chPrevNonWhite l; stylePrevNonWhite := stylePrevNonWhite l;
     nestedState := nestedState l |}.
Definition set_parenCount (v : Z) (l : Locals) : Locals :=
  {| kwType := kwType l; preprocessor := preprocessor l; lineState := lineState l;
     parenCount := v; fileNbDigits := fileNbDigits l; visibleChars := visibleChars l;
     chBefore := chBefore l; chPrevNonWhite := chPrevNonWhite l;
     stylePrevNonWhite := stylePrevNonWhite l; nestedState := nestedState l |}.
Definition set_fileNbDigits (v : Z) (l : Locals) : Locals :=
  {| kwType := kwType l; preprocessor := preprocessor l; lineState := lineState l;
     parenCount := parenCount l; fileNbDigits := v; visibleChars := visibleChars l;
     chBefore := chBefore l; chPrevNonWhite := chPrevNonWhite l;
     stylePrevNonWhite := stylePrevNonWhite l; nestedState := nestedState l |}.
Definition set_visibleChars (v : Z) (l : Locals) : Locals :=
  {| kwType := kwType l; preprocessor := preprocessor l; lineState := lineState l;
     parenCount := parenCount l; fileNbDigits := fileNbDigits l; visibleChars := v;
     chBefore := chBefore l; chPrevNonWhite := chPrevNonWhite l;
     stylePrevNonWhite := stylePrevNonWhite l; nestedState := nestedState l |}.
Definition set_chBefore (v : Z) (l : Locals) : Locals :=
  {| kwType := kwType l; preprocessor := preprocessor l; lineState := lineState l;
     parenCount := parenCount l; fileNbDigits := fileNbDigits l;
     visibleChars := visibleChars l; chBefore := v; chPrevNonWhite := chPrevNonWhite l;
     stylePrevNonWhite := stylePrevNonWhite l; nestedState := nestedState l |}.
Definition set_chPrevNonWhite (v : Z) (l : Locals) : Locals :=
  {| kwType := kwType l; preprocessor := preprocessor l; lineState := lineState l;
     parenCount := parenCount l; fileNbDigits := fileNbDigits l;
     visibleChars := visibleChars l; chBefore := chBefore l; chPrevNonWhite := v;
     stylePrevNonWhite := stylePrevNonWhite l; nestedState := nestedState l |}.
Definition set_stylePrevNonWhite (v : Z) (l : Locals) : Locals :=
  {| kwType := kwType l; preprocessor := preprocessor l; lineState := lineState l;
     parenCount := parenCount l; fileNbDigits := fileNbDigits l;
     visibleChars := visibleChars l; chBefore := chBefore l;
     chPrevNonWhite := chPrevNonWhite l; stylePrevNonWhite := v;
     nestedState := nestedState l |}.
Definition set_nestedState (v : list Z) (l : Locals) : Locals :=
  {| kwType := kwType l; preprocessor := preprocessor l; lineState := lineState l;
     parenCount := parenCount l; fileNbDigits := fileNbDigits l;
     visibleChars := visibleChars l; chBefore := chBefore l;
     chPrevNonWhite := chPrevNonWhite l; stylePrevNonWhite := stylePrevNonWhite l;
     nestedState := v |}.

Inductive Ctl := Break | Continue.

Definition LexState : Type := Locals * StyleContext.

(** The count of open parens covers the holes that are open. *)
Definition depth_ok (l : Locals) : Prop :=
  Z.of_nat (List.length (nestedState l)) <= parenCount l.

(** An arm keeps the paren count, the nested stack and the stored line
    states. *)
Definition keeps (st st' : LexState) : Prop :=
  parenCount (fst st') = parenCount (fst st)
  /\ nestedState (fst st') = nestedState (fst st)
  /\ lineStates (snd st') = lineStates (snd st).

(** The values that the local [lineState] takes inside a line: a line
    type from 0 to 4, with or without the continuation bit. *)
Definition lineType_ok (v : Z) : Prop := In v [0; 1; 2; 3; 4; 8; 9; 10; 11; 12].

(** An arm keeps [lineState] among these values and leaves the stored
    line states alone. *)
Definition keeps_lineType (st st' : LexState) : Prop :=
  (lineType_ok (lineState (fst st)) -> lineType_ok (lineState (fst st')))
  /\ lineStates (snd st') = lineStates (snd st).

(** The layout of a stored line state [v]: line type in bits 0 to 2,
    continuation in bit 3, interpolation in bit 4, nothing in bits 5
    to 15, and the low 16 bits of the paren depth in bits 16 to 31. *)
Definition layout (v lineType : Z) (continuation interpolation : bool) (depth : Z) : Prop :=
  Z.land v 7 = lineType
  /\ Z.testbit v 3 = continuation
  /\ Z.testbit v 4 = interpolation
  /\ (forall n, 5 <= n < 16 -> Z.testbit v n = false)
  /\ (forall n, 0 <= n < 16 -> Z.testbit v (16 + n) = Z.testbit depth n).

Section Lexer.

Variable language : Language.
Variable keywordLists : LexerWordList.
Variable d : Doc.

Definition IsInterpolatedStringEnd (sc : StyleContext) : bool :=
  (ch sc =? RBRACE) || (ch sc =? COLON)
  || ((ch sc =? COMMA)
      && (IsADigit (chNext sc)
          || ((chNext sc =? MINUS) && IsADigit (SC.GetRelative d 2 sc)))).

(** *** Identifiers and keywords *)

(** A word of the keyword list that is used as a keyword. *)
Definition keywordHint (s : list Z) (len cNext : Z) (kwPrev : KeywordType)
    (st : LexState) : LexState :=
  let '(l, sc) := st in
  if StrEqual s "if" then
    if lang_eqb language VBNET && (cNext =? LPAREN)
       && (negb (parenCount l =? 0) || (2 <? visibleChars l))
    then (l, SC.ChangeState SCE_VB_KEYWORD3 sc) else (l, sc)
  else if StrEqual s "then" then
    if preprocessor l then (l, SC.ChangeState SCE_VB_PREPROCESSOR_WORD sc) else (l, sc)
  else if StrEqual s "dim" then (set_lineState VBLineType_DimLine l, sc)
  else if StrEqual s "const" then (set_lineState VBLineType_ConstLine l, sc)
  else if StrEqual s "type" then
    if (visibleChars l =? len) || kw_eqb kwPrev KwAccessModifier
    then (set_lineState VBLineType_VB6TypeLine l, sc) else (l, sc)
  else if StrEqual s "end" then (set_kwType KwEnd l, sc)
  else if StrEqualsAny s ["sub"; "function"]%string then
    if negb (kw_eqb kwPrev KwEnd) then (set_kwType KwFunction l, sc) else (l, sc)
  else if StrEqualsAny s ["public"; "private"]%string then
    (set_kwType KwAccessModifier l, sc)
  else (l, sc).

Definition classifyWord (s : list Z) (skipType : bool) (len cNext : Z)
    (kwPrev : KeywordType) (st : LexState) : LexState :=
  let '(l, sc) := st in
  if InListPrefixed (keywordLists KeywordIndex_Keyword) s LPAREN then
    let sc := SC.ChangeState SCE_VB_KEYWORD3 sc in
    if negb skipType && negb (chBefore l =? DOT)
    then keywordHint s len cNext kwPrev (l, SC.ChangeState SCE_VB_KEYWORD sc)
    else (l, sc)
  else if InList (keywordLists KeywordIndex_VBAKeyword) s then
    let sc := SC.ChangeState SCE_VB_KEYWORD3 sc in
    if lang_eqb language VBA && negb skipType && negb (chBefore l =? DOT)
    then (l, SC.ChangeState SCE_VB_KEYWORD sc) else (l, sc)
  else if InList (keywordLists KeywordIndex_TypeKeyword) s then
    (l, SC.ChangeState SCE_VB_KEYWORD2 sc)
  else if InList (keywordLists KeywordIndex_Class) s then
    (l, SC.ChangeState SCE_VB_CLASS sc)
  else if InList (keywordLists KeywordIndex_Interface) s then
    (l, SC.ChangeState SCE_VB_INTERFACE sc)
  else if InList (keywordLists KeywordIndex_Enumeration) s then
    (l, SC.ChangeState SCE_VB_ENUM sc)
  else if InListPrefixed (keywordLists KeywordIndex_Attribute) s LPAREN then
    (l, SC.ChangeState SCE_VB_ATTRIBUTE sc)
  else if InList (keywordLists KeywordIndex_Constant) s then
    (l, SC.ChangeState SCE_VB_CONSTANT sc)
  else if InListPrefixed (keywordLists KeywordIndex_BasicFunction) s LPAREN then
    (l, SC.ChangeState SCE_VB_BASIC_FUNCTION sc)
  else (l, sc).

(** The word [s] of an identifier span that has ended. *)
Definition identifier_word (s : list Z) (skipType : bool) (st : LexState)
    : LexState * Ctl :=
  let '(l, sc) := st in
  let len := SC.LengthCurrent sc in
  if StrEqual s "rem" then ((l, SC.ChangeState SCE_VB_COMMENTLINE sc), Break)
  else
    let kwPrev := kwType l in
    let l := set_kwType KwNone l in
    let finish (st : LexState) : LexState * Ctl :=
      let '(l, sc) := st in
      ((set_stylePrevNonWhite (state sc) l, SC.SetState SCE_VB_DEFAULT sc), Break) in
    if byteAt s 0 =? HASH then
      if InList (keywordLists KeywordIndex_Preprocessor) (tl s) then
        let l := set_preprocessor true l in
        let l := if StrEqual (tl s) "end" then set_kwType KwPreprocessor l else l in
        finish (l, SC.ChangeState SCE_VB_PREPROCESSOR sc)
      else ((l, SC.ChangeState SCE_VB_DATE sc), Continue)
    else if kw_eqb kwPrev KwPreprocessor then
      finish (l, SC.ChangeState SCE_VB_PREPROCESSOR_WORD sc)
    else
      let cNext := SC.GetLineNextChar d false sc in
      let '(l, sc) :=
        if negb (byteAt s 0 =? LBRACKET)
        then classifyWord s skipType len cNext kwPrev (l, sc) else (l, sc) in
      let sc :=
        if state sc =? SCE_VB_IDENTIFIER then
          if (visibleChars l =? len) && (cNext =? COLON)
          then SC.ChangeState SCE_VB_LABEL sc
          else if kw_eqb kwPrev KwFunction
          then SC.ChangeState SCE_VB_FUNCTION_DEFINITION sc
          else sc
        else sc in
      finish (l, sc).

Definition arm_identifier (st : LexState) : LexState * Ctl :=
  let '(l, sc) := st in
  if negb (IsIdentifierCharEx (ch sc)) then
    let takes := (ch sc =? RBRACKET)
                 || (negb (lang_eqb language VBScript) && IsTypeCharacter (ch sc)) in
    let skipType := takes && negb (ch sc =? RBRACKET) in
    let '(l, sc) :=
      if takes then (set_visibleChars (visibleChars l + 1) l, SC.Forward d sc)
      else (l, sc) in
    let s0 := SC.GetCurrentLowered d sc MaxKeywordSize in
    let len := SC.LengthCurrent sc in
    let s := if skipType && (len <? MaxKeywordSize)
             then firstn (Z.to_nat (len - 1)) s0 else s0 in
    identifier_word s skipType (l, sc)
  else ((l, sc), Break).

(** *** Strings, comments, file numbers and dates *)

Definition arm_string (st : LexState) : LexState * Ctl :=
  let '(l, sc) := st in
  if atLineStart sc && negb (lang_eqb language VBNET) then
    ((l, SC.SetState SCE_VB_DEFAULT sc), Break)
  else if ch sc =? QUOTE then
    if chNext sc =? QUOTE then ((l, SC.Forward d sc), Break)
    else
      let sc := if (chNext sc =? 99) || (chNext sc =? 67) || (chNext sc =? DOLLAR)
                then SC.Forward d sc else sc in
      ((set_chPrevNonWhite (ch sc) l, SC.ForwardSetState d SCE_VB_DEFAULT sc), Break)
  else if state sc =? SCE_VB_INTERPOLATED_STRING then
    if ch sc =? LBRACE then
      if chNext sc =? LBRACE then ((l, SC.Forward d sc), Break)
      else
        ((set_nestedState (0 :: nestedState l) (set_parenCount (parenCount l + 1) l),
          SC.ForwardSetState d SCE_VB_DEFAULT (SC.SetState SCE_VB_OPERATOR2 sc)), Break)
    else if ch sc =? RBRACE then
      match nestedState l with
      | _ :: rest =>
          ((set_nestedState rest (set_parenCount (parenCount l - 1) l),
            SC.ForwardSetState d SCE_VB_INTERPOLATED_STRING
              (SC.SetState SCE_VB_OPERATOR2 sc)), Continue)
      | [] =>
          if chNext sc =? RBRACE then ((l, SC.Forward d sc), Break)
          else ((l, sc), Break)
      end
    else ((l, sc), Break)
  else ((l, sc), Break).

Definition arm_comment (st : LexState) : LexState * Ctl :=
  let '(l, sc) := st in
  if atLineStart sc then
    if lineState l =? VBLineStateLineContinuation
    then ((set_lineState VBLineType_CommentLine l, sc), Break)
    else ((l, SC.SetState SCE_VB_DEFAULT sc), Break)
  else if lang_eqb language VBA && (ch sc =? UNDERSCORE) && (chPrev sc <=? 32) then
    if SC.GetLineNextChar d true sc =? 0 then
      ((set_lineState (Z.lor (lineState l) VBLineStateLineContinuation) l,
        SC.ForwardSetState d SCE_VB_COMMENTLINE
          (SC.SetState SCE_VB_LINE_CONTINUATION sc)), Break)
    else ((l, sc), Break)
  else ((l, sc), Break).

Definition arm_filenumber (st : LexState) : LexState * Ctl :=
  let '(l, sc) := st in
  if IsADigit (ch sc) then
    let l := set_fileNbDigits (fileNbDigits l + 1) l in
    if 3 <? fileNbDigits l then ((l, SC.ChangeState SCE_VB_DATE sc), Break)
    else ((l, sc), Break)
  else if (ch sc =? CR) || (ch sc =? LF) || (ch sc =? COMMA) then
    ((l, SC.SetState SCE_VB_DEFAULT (SC.ChangeState SCE_VB_NUMBER sc)), Break)
  else ((l, SC.ChangeState SCE_VB_DATE sc), Continue).

Definition arm_date (st : LexState) : LexState * Ctl :=
  let '(l, sc) := st in
  if atLineStart sc then ((l, SC.SetState SCE_VB_DEFAULT sc), Break)
  else if ch sc =? HASH then
    ((set_chPrevNonWhite (ch sc) l, SC.ForwardSetState d SCE_VB_DEFAULT sc), Break)
  else ((l, sc), Break).

Definition arm_format (st : LexState) : LexState * Ctl :=
  let '(l, sc) := st in
  if IsInvalidFormatSpecifier (ch sc)
  then ((l, SC.SetState SCE_VB_INTERPOLATED_STRING sc), Continue)
  else ((l, sc), Break).

Definition arm_number (st : LexState) : LexState * Ctl :=
  let '(l, sc) := st in
  if negb (IsDecimalNumber (chPrev sc) (ch sc) (chNext sc)) then
    let sc := if negb (lang_eqb language VBScript) && IsTypeCharacter (ch sc)
              then SC.Forward d sc else sc in
    ((l, SC.SetState SCE_VB_DEFAULT sc), Break)
  else ((l, sc), Break).

(** *** The default state *)

Definition default_operator (st : LexState) : LexState * Ctl :=
  let '(l, sc) := st in
  let sc := SC.SetState SCE_VB_OPERATOR sc in
  match nestedState l with
  | [] =>
      if ch sc =? LPAREN then ((set_parenCount (parenCount l + 1) l, sc), Break)
      else if (ch sc =? RPAREN) && (0 <? parenCount l)
      then ((set_parenCount (parenCount l - 1) l, sc), Break)
      else ((l, sc), Break)
  | top :: rest =>
      let sc := SC.ChangeState SCE_VB_OPERATOR2 sc in
      let top := if ch sc =? LPAREN then top + 1
                 else if ch sc =? RPAREN then top - 1 else top in
      let l := set_nestedState (top :: rest) l in
      if (top <=? 0) && IsInterpolatedStringEnd sc then
        ((l, SC.ChangeState (if ch sc =? RBRACE then SCE_VB_INTERPOLATED_STRING
                             else SCE_VB_FORMAT_SPECIFIER) sc), Continue)
      else ((l, sc), Break)
  end.

Definition default_state (st : LexState) : LexState * Ctl :=
  let '(l, sc) := st in
  if ch sc =? APOS then
    ((if visibleChars l =? 0 then set_lineState VBLineType_CommentLine l else l,
      SC.SetState SCE_VB_COMMENTLINE sc), Break)
  else if ch sc =? QUOTE then
    ((l, SC.SetState SCE_VB_STRING sc), Break)
  else if lang_eqb language VBNET && SC.Match2 DOLLAR QUOTE sc then
    ((l, SC.Forward d (SC.SetState SCE_VB_INTERPOLATED_STRING sc)), Break)
  else if ch sc =? HASH then
    if (visibleChars l =? 0) && negb (lang_eqb language VBScript)
       && IsUpperOrLowerCase (chNext sc)
    then ((l, SC.SetState SCE_VB_IDENTIFIER sc), Break)
    else ((set_fileNbDigits 0 l, SC.SetState SCE_VB_FILENUMBER sc), Break)
  else if (ch sc =? AMP) && IsVBNumberPrefix (chNext sc)
          && negb (PreferStringConcat (chPrevNonWhite l) (stylePrevNonWhite l)) then
    ((l, SC.Forward d (SC.SetState SCE_VB_NUMBER sc)), Break)
  else if IsNumberStart (ch sc) (chNext sc) then
    ((l, SC.SetState SCE_VB_NUMBER sc), Break)
  else if (ch sc =? UNDERSCORE) && (chNext sc <=? 32) then
    ((l, SC.SetState SCE_VB_LINE_CONTINUATION sc), Break)
  else if IsIdentifierStartEx (ch sc) || (ch sc =? LBRACKET) then
    ((set_chBefore (chPrevNonWhite l) l, SC.SetState SCE_VB_IDENTIFIER sc), Break)
  else if IsAGraphic (ch sc) then default_operator (l, sc)
  else ((l, sc), Break).

(** *** The loop of [ColouriseVBDoc] *)

Definition switch_state (st : LexState) : LexState * Ctl :=
  let '(l, sc) := st in
  let s := state sc in
  if (s =? SCE_VB_OPERATOR) || (s =? SCE_VB_OPERATOR2) || (s =? SCE_VB_LINE_CONTINUATION)
  then ((l, SC.SetState SCE_VB_DEFAULT sc), Break)
  else if s =? SCE_VB_IDENTIFIER then arm_identifier (l, sc)
  else if s =? SCE_VB_NUMBER then arm_number (l, sc)
  else if (s =? SCE_VB_STRING) || (s =? SCE_VB_INTERPOLATED_STRING) then arm_string (l, sc)
  else if s =? SCE_VB_COMMENTLINE then arm_comment (l, sc)
  else if s =? SCE_VB_FILENUMBER then arm_filenumber (l, sc)
  else if s =? SCE_VB_DATE then arm_date (l, sc)
  else if s =? SCE_VB_FORMAT_SPECIFIER then arm_format (l, sc)
  else ((l, sc), Break).

(** The state stored for a line: [lineState | (parenCount << 16)], with
    the interpolation bit when the nested stack is not empty. *)
Definition lineStateAtEnd (l : Locals) : Z :=
  match nestedState l with
  | [] => lineState l
  | _ => Z.lor (lineState l) VBLineStateStringInterpolation
  end.

Definition packLineState (l : Locals) : Z :=
  wrap32 (Z.lor (lineStateAtEnd l) (Z.shiftl (parenCount l) 16)).

Definition line_end (st : LexState) : LexState :=
  let '(l, sc) := st in
  if atLineEnd sc then
    (set_preprocessor false
       (set_kwType KwNone
          (set_visibleChars 0
             (set_lineState (Z.land (lineStateAtEnd l) VBLineStateLineContinuation) l))),
     SC.SetLineState (currentLine sc) (packLineState l) sc)
  else (l, sc).

Definition body_end (st : LexState) : LexState :=
  let '(l, sc) := st in
  let l :=
    if negb (isspacechar (ch sc)) then
      let l := set_visibleChars (visibleChars l + 1) l in
      if negb (IsSpaceEquiv (state sc))
      then set_stylePrevNonWhite (state sc) (set_chPrevNonWhite (ch sc) l) else l
    else l in
  let '(l, sc) := line_end (l, sc) in
  (l, SC.Forward d sc).

Definition loop_body (st : LexState) : LexState :=
  match switch_state st with
  | (st1, Continue) => st1
  | (st1, Break) =>
      if state (snd st1) =? SCE_VB_DEFAULT then
        match default_state st1 with
        | (st2, Continue) => st2
        | (st2, Break) => body_end st2
        end
      else body_end st1
  end.

(** The part of an iteration before the end of the loop body: the
    switch and, when it leaves the default style, the default state.
    [Break] goes on with the end of the loop body. *)
Definition loop_front (st : LexState) : LexState * Ctl :=
  match switch_state st with
  | (st1, Continue) => (st1, Continue)
  | (st1, Break) =>
      if state (snd st1) =? SCE_VB_DEFAULT then default_state st1 else (st1, Break)
  end.

(** In a run of the loop from [st0], the state of line [ln] is stored
    with the locals [l]: after [m] iterations, all of them inside the
    range, the next one reaches the end of the loop body at the end of
    line [ln] with these locals. *)
Definition storesLine (st0 : LexState) (ln : Z) (l : Locals) : Prop :=
  exists m sc,
    (forall i, (i <= m)%nat -> SC.More (snd (Nat.iter i loop_body st0)) = true)
    /\ loop_front (Nat.iter m loop_body st0) = ((l, sc), Break)
    /\ atLineEnd sc = true
    /\ currentLine sc = ln.


(** The cursor shows the bytes of the document at its position. *)
Definition cursor_ok (sc : StyleContext) : Prop :=
  ch sc = charAt d (currentPos sc) /\ chNext sc = charAt d (currentPos sc + 1).



Fixpoint lex_loop (fuel : nat) (st : LexState) : option LexState :=
  if SC.More (snd st) then
    match fuel with
    | O => None
    | S f => lex_loop f (loop_body st)
    end
  else Some st.

Definition initLocals : Locals :=
  {| kwType := KwNone; preprocessor := false; lineState := 0; parenCount := 0;
     fileNbDigits := 0; visibleChars := 0; chBefore := 0; chPrevNonWhite := 0;
     stylePrevNonWhite := SCE_VB_DEFAULT; nestedState := [] |}.

Definition lex_init (startPos lengthDoc initStyle : Z)
    (st : Styles) (ls : LineStates) : LexState :=
  let '(startPos, lengthDoc, initStyle) :=
    if negb (startPos =? 0)
    then BacktrackToStart d st ls VBLineStateStringInterpolation
           startPos lengthDoc initStyle
    else (startPos, lengthDoc, initStyle) in
  let sc := SC.Make d startPos lengthDoc initStyle st ls in
  let l := initLocals in
  let l :=
    if 0 <? currentLine sc then
      let v := ls (currentLine sc - 1) in
      set_lineState (Z.land v VBLineStateLineContinuation)
        (set_parenCount (Z.shiftr v 16) l)
    else l in
  if negb (startPos =? 0) && IsSpaceEquiv initStyle then
    let r := LookbackNonWhite d st startPos SCE_VB_LINE_CONTINUATION
               (chPrevNonWhite l, stylePrevNonWhite l) in
    (set_stylePrevNonWhite (snd r) (set_chPrevNonWhite (fst r) l), sc)
  else (l, sc).

(** [ColouriseVBDoc]: the style bytes and the line states after the
    call. *)
Definition ColouriseVBDoc (fuel : nat) (startPos lengthDoc initStyle : Z)
    (st : Styles) (ls : LineStates) : option (Styles * LineStates) :=
  match lex_loop fuel (lex_init startPos lengthDoc initStyle st ls) with
  | Some (_, sc) => let sc := SC.Complete sc in Some (styles sc, lineStates sc)
  | None => None
  end.

End Lexer.

(** *** [FoldVBDoc] *)

Definition Levels := Z -> Z.

(** [FoldLineState::GetLineType] *)
Definition GetLineType (lineState : Z) : Z := Z.land lineState 3.

Record FoldState := mkFold {
  f_startPos : Z;
  f_lineCurrent : Z;
  f_levelCurrent : Z;
  f_levelNext : Z;
  f_foldPrev : Z;
  f_foldCurrent : Z;
  f_lineStartNext : Z;
  f_style : Z;
  f_styleNext : Z;
  f_visibleChars : Z;
  f_numBegin : Z;
  f_isEnd : bool;
  f_isInterface : bool;
  f_isProperty : bool;
  f_isCustom : bool;
  f_isExit : bool;
  f_isDeclare : bool;
  f_ifThenMask : Z;
  f_levels : Levels
}.

(** The flags and counters that the keyword branch of the folder reads
    and writes. *)
Record KwState := mkKw {
  k_levelNext : Z;
  k_numBegin : Z;
  k_isEnd : bool;
  k_isInterface : bool;
  k_isProperty : bool;
  k_isCustom : bool;
  k_isExit : bool;
  k_isDeclare : bool;
  k_ifThenMask : Z
}.

Definition set_k_levelNext (v : Z) (k : KwState) : KwState :=
  {| k_levelNext := v; k_numBegin := k_numBegin k; k_isEnd := k_isEnd k;
     k_isInterface := k_isInterface k; k_isProperty := k_isProperty k;
     k_isCustom := k_isCustom k; k_isExit := k_isExit k; k_isDeclare := k_isDeclare k;
     k_ifThenMask := k_ifThenMask k |}.
Definition set_k_numBegin (v : Z) (k : KwState) : KwState :=
  {| k_levelNext := k_levelNext k; k_numBegin := v; k_isEnd := k_isEnd k;
     k_isInterface := k_isInterface k; k_isProperty := k_isProperty k;
     k_isCustom := k_isCustom k; k_isExit := k_isExit k; k_isDeclare := k_isDeclare k;
     k_ifThenMask := k_ifThenMask k |}.
Definition set_k_isEnd (v : bool) (k : KwState) : KwState :=
  {| k_levelNext := k_levelNext k; k_numBegin := k_numBegin k; k_isEnd := v;
     k_isInterface := k_isInterface k; k_isProperty := k_isProperty k;
     k_isCustom := k_isCustom k; k_isExit := k_isExit k; k_isDeclare := k_isDeclare k;
     k_ifThenMask := k_ifThenMask k |}.
Definition set_k_isInterface (v : bool) (k : KwState) : KwState :=
  {| k_levelNext := k_levelNext k; k_numBegin := k_numBegin k; k_isEnd := k_isEnd k;
     k_isInterface := v; k_isProperty := k_isProperty k; k_isCustom := k_isCustom k;
     k_isExit := k_isExit k; k_isDeclare := k_isDeclare k;
     k_ifThenMask := k_ifThenMask k |}.
Definition set_k_isProperty (v : bool) (k : KwState) : KwState :=
  {| k_levelNext := k_levelNext k; k_numBegin := k_numBegin k; k_isEnd := k_isEnd k;
     k_isInterface := k_isInterface k; k_isProperty := v; k_isCustom := k_isCustom k;
     k_isExit := k_isExit k; k_isDeclare := k_isDeclare k;
     k_ifThenMask := k_ifThenMask k |}.
Definition set_k_isCustom (v : bool) (k : KwState) : KwState :=
  {| k_levelNext := k_levelNext k; k_numBegin := k_numBegin k; k_isEnd := k_isEnd k;
     k_isInterface := k_isInterface k; k_isProperty := k_isProperty k; k_isCustom := v;
     k_isExit := k_isExit k; k_isDeclare := k_isDeclare k;
     k_ifThenMask := k_ifThenMask k |}.
Definition set_k_isExit (v : bool) (k : KwState) : KwState :=
  {| k_levelNext := k_levelNext k; k_numBegin := k_numBegin k; k_isEnd := k_isEnd k;
     k_isInterface := k_isInterface k; k_isProperty := k_isProperty k;
     k_isCustom := k_isCustom k; k_isExit := v; k_isDeclare := k_isDeclare k;
     k_ifThenMask := k_ifThenMask k |}.
Definition set_k_isDeclare (v : bool) (k : KwState) : KwState :=
  {| k_levelNext := k_levelNext k; k_numBegin := k_numBegin k; k_isEnd := k_isEnd k;
     k_isInterface := k_isInterface k; k_isProperty := k_isProperty k;
     k_isCustom := k_isCustom k; k_isExit := k_isExit k; k_isDeclare := v;
     k_ifThenMask := k_ifThenMask k |}.
Definition set_k_ifThenMask (v : Z) (k : KwState) : KwState :=
  {| k_levelNext := k_levelNext k; k_numBegin := k_numBegin k; k_isEnd := k_isEnd k;
     k_isInterface := k_isInterface k; k_isProperty := k_isProperty k;
     k_isCustom := k_isCustom k; k_isExit := k_isExit k; k_isDeclare := k_isDeclare k;
     k_ifThenMask := v |}.

Section Folder.

Variable d : Doc.
Variable st : Styles.
Variable ls : LineStates.
Variable endPos : Z.

Definition LexCharAt (pos : Z) : Z := charAt d pos.

Definition VBMatch (i : Z) (w : string) : bool := MatchLowerCase d i (bytes_of w).

Definition VBMatchNextWord (startPos : Z) (w : string) : bool :=
  let pos := LexSkipSpaceTab d startPos endPos in
  isspacechar (LexCharAt (pos + Z.of_nat (String.length w)))
  && MatchLowerCase d pos (bytes_of w).

Fixpoint propertyScan (i : Z) (n : nat) (visible : bool) : Z :=
  match n with
  | O => 0
  | S n' =>
      let c := UnsafeLower (charAt d i) in
      let style := st i in
      if (style =? SCE_VB_OPERATOR) && (c =? LPAREN) then 1
      else if (style =? SCE_VB_KEYWORD) && negb visible
              && ((c =? 103) || (c =? 108) || (c =? 115))
              && (UnsafeLower (charAt d (i + 1)) =? 101)
              && (UnsafeLower (charAt d (i + 2)) =? 116)
              && isspacechar (charAt d (i + 3)) then 2
      else propertyScan (i + 1) n' (visible || (32 <? c))
  end.

Definition IsVBProperty (line startPos : Z) : Z :=
  let e := LineStart d (line + 1) - 1 in
  propertyScan startPos (Z.to_nat (e - startPos)) false.

Definition bump (n : Z) (k : KwState) : KwState :=
  set_k_levelNext (k_levelNext k + n) k.

Definition opens_block (i visibleChars : Z) (k : KwState) : bool :=
  (visibleChars =? 0)
  && (VBMatch i "for" || (VBMatch i "do" && isspacechar (LexCharAt (i + 2)))
      || VBMatch i "while" || (VBMatch i "try" && isspacechar (LexCharAt (i + 3)))
      || (VBMatch i "select" && VBMatchNextWord (i + 6) "case")
      || (VBMatch i "with" && isspacechar (LexCharAt (i + 4)))
      || VBMatch i "namespace" || VBMatch i "synclock" || VBMatch i "using"
      || (k_isProperty k
          && (VBMatch i "set" || (VBMatch i "get" && isspacechar (LexCharAt (i + 3)))))
      || (k_isCustom k
          && (VBMatch i "raiseevent" || VBMatch i "addhandler"
              || VBMatch i "removehandler"))).

(** The word [End]: what follows it decides whether it ends a block. *)
Definition kw_end (i : Z) (k : KwState) : KwState :=
  let levelNext := k_levelNext k - 1 in
  let c0 := LexCharAt (i + 3) in
  let pos := LexSkipSpaceTab d (i + 3) endPos in
  let spaced := (c0 =? 32) || (c0 =? 9) in
  let chEnd := if spaced then LexCharAt pos else c0 in
  let isEnd :=
    if spaced && IsAlpha chEnd
       && (VBMatchNextWord pos "function" || VBMatchNextWord pos "sub"
           || VBMatchNextWord pos "if" || VBMatchNextWord pos "class"
           || VBMatchNextWord pos "structure" || VBMatchNextWord pos "module"
           || VBMatchNextWord pos "enum" || VBMatchNextWord pos "interface"
           || VBMatchNextWord pos "operator" || VBMatchNextWord pos "property"
           || VBMatchNextWord pos "event" || VBMatchNextWord pos "type")
    then true else k_isEnd k in
  let alone := (chEnd =? CR) || (chEnd =? LF) || (chEnd =? APOS) in
  let isEnd := if alone then false else isEnd in
  let levelNext := if alone && (k_numBegin k =? 0) then levelNext + 1 else levelNext in
  let numBegin := if alone && (0 <? k_numBegin k) then k_numBegin k - 1 else k_numBegin k in
  let levelNext := if k_ifThenMask k =? 3 then levelNext + 1 else levelNext in
  {| k_levelNext := levelNext; k_numBegin := numBegin; k_isEnd := isEnd;
     k_isInterface := k_isInterface k; k_isProperty := k_isProperty k;
     k_isCustom := k_isCustom k; k_isExit := k_isExit k;
     k_isDeclare := k_isDeclare k; k_ifThenMask := 0 |}.

Definition kw_if (k : KwState) : KwState :=
  if k_isEnd k then set_k_isEnd false k
  else bump 1 (set_k_ifThenMask 1 k).

Definition kw_then (i : Z) (k : KwState) : KwState :=
  if negb (Z.land (k_ifThenMask k) 1 =? 0) then
    let k := set_k_ifThenMask (Z.lor (k_ifThenMask k) 2) k in
    let pos := LexSkipSpaceTab d (i + 4) endPos in
    let chEnd := LexCharAt pos in
    if negb ((chEnd =? CR) || (chEnd =? LF) || (chEnd =? APOS))
    then bump (-1) k else k
  else k.

Definition kw_block (k : KwState) : KwState :=
  if k_isEnd k then set_k_isEnd false k else bump 1 k.

Definition kw_interface (k : KwState) : KwState :=
  let k' := if negb (k_isEnd k || k_isInterface k) then bump 1 k else k in
  let k' := set_k_isInterface true k' in
  if k_isEnd k then set_k_isInterface false (set_k_isEnd false k') else k'.

Definition kw_sub (k : KwState) : KwState :=
  let k' := if negb (k_isEnd k || k_isExit k || k_isDeclare k) then bump 1 k else k in
  set_k_isDeclare false (set_k_isExit false (set_k_isEnd false k')).

Definition kw_property (line i : Z) (k : KwState) : KwState :=
  let k' := set_k_isProperty true k in
  let k' :=
    if negb (k_isEnd k || k_isExit k) then
      let result := IsVBProperty line (i + 8) in
      set_k_isProperty (Z.odd result)
        (bump (if negb (result =? 0) then 1 else 0) k')
    else k' in
  let k' := if k_isEnd k then set_k_isProperty false (set_k_isEnd false k') else k' in
  set_k_isExit false k'.

Definition kw_event (k : KwState) : KwState :=
  if k_isEnd k then set_k_isCustom false (set_k_isEnd false k) else bump 1 k.

Definition kw_type (foldCurrent : Z) (k : KwState) : KwState :=
  let k' := if negb (k_isEnd k) && negb (Z.land foldCurrent VBLineType_VB6TypeLine =? 0)
            then bump 1 k else k in
  set_k_isEnd false k'.




(** The chain of tests on a byte that starts a keyword span. *)
Definition fold_keyword (i line visibleChars foldCurrent : Z) (k : KwState) : KwState :=
  if opens_block i visibleChars k then bump 1 k
  else if (visibleChars =? 0)
          && (VBMatch i "next" || VBMatch i "loop" || VBMatch i "wend") then bump (-1) k
  else if VBMatch i "exit"
          && (VBMatchNextWord (i + 4) "function" || VBMatchNextWord (i + 4) "sub"
              || VBMatchNextWord (i + 4) "property") then set_k_isExit true k
  else if VBMatch i "begin" then
    let k := bump 1 k in
    if isspacechar (LexCharAt (i + 5)) then set_k_numBegin (k_numBegin k + 1) k else k
  else if VBMatch i "end" then kw_end i k
  else if VBMatch i "if" then kw_if k
  else if VBMatch i "then" then kw_then i k
  else if (negb (k_isInterface k) && (VBMatch i "class" || VBMatch i "structure"))
          || VBMatch i "module" || VBMatch i "enum" || VBMatch i "operator"
  then kw_block k
  else if VBMatch i "interface" then kw_interface k
  else if VBMatch i "declare" || VBMatch i "delegate" then set_k_isDeclare true k
  else if negb (k_isInterface k) && (VBMatch i "sub" || VBMatch i "function")
  then kw_sub k
  else if negb (k_isInterface k) && VBMatch i "property" then kw_property line i k
  else if VBMatch i "custom" then set_k_isCustom true k
  else if negb (k_isInterface k) && k_isCustom k && VBMatch i "event" then kw_event k
  else if VBMatch i "type" && isspacechar (LexCharAt (i + 4)) then kw_type foldCurrent k
  else k.

(** The change for one styled byte. *)
Definition fold_byte (stylePrev style : Z) (i line visibleChars foldCurrent : Z)
    (k : KwState) : KwState :=
  if (style =? SCE_VB_KEYWORD) && negb (stylePrev =? SCE_VB_KEYWORD) then
    fold_keyword i line visibleChars foldCurrent k
  else if (style =? SCE_VB_PREPROCESSOR) && negb (stylePrev =? SCE_VB_PREPROCESSOR) then
    if VBMatch i "#if" || VBMatch i "#region" || VBMatch i "#externalsource"
    then bump 1 k
    else if VBMatch i "#end" then bump (-1) k
    else k
  else if style =? SCE_VB_OPERATOR then
    let c := charAt d i in
    if (c =? LBRACE) || (c =? RBRACE) then bump ((LBRACE + RBRACE) / 2 - c) k else k
  else k.

Definition packLevel (levelUse levelNext : Z) : Z :=
  let lev := Z.lor levelUse (Z.shiftl levelNext 16) in
  wrap32 (if levelUse <? levelNext then Z.lor lev SC_FOLDLEVELHEADERFLAG else lev).

Definition kwOf (f : FoldState) : KwState :=
  {| k_levelNext := f_levelNext f; k_numBegin := f_numBegin f; k_isEnd := f_isEnd f;
     k_isInterface := f_isInterface f; k_isProperty := f_isProperty f;
     k_isCustom := f_isCustom f; k_isExit := f_isExit f;
     k_isDeclare := f_isDeclare f; k_ifThenMask := f_ifThenMask f |}.

(** The level of a line after the clamp and the line-type group. *)
Definition lineEndLevel (levelNext foldPrev foldCurrent foldNext : Z) : Z :=
  let levelNext := Z.max levelNext SC_FOLDLEVELBASE in
  if negb (GetLineType foldCurrent =? 0) then
    let levelNext := if negb (GetLineType foldCurrent =? GetLineType foldPrev)
                     then levelNext + 1 else levelNext in
    if negb (GetLineType foldCurrent =? GetLineType foldNext)
    then levelNext - 1 else levelNext
  else levelNext.

(** One iteration of [while (startPos < endPos)]. *)
Definition fold_step (f : FoldState) : FoldState :=
  let i := f_startPos f in
  let stylePrev := f_style f in
  let style := f_styleNext f in
  let c := charAt d i in
  let startPos := i + 1 in
  let styleNext := st startPos in
  let k := fold_byte stylePrev style i (f_lineCurrent f) (f_visibleChars f)
             (f_foldCurrent f) (kwOf f) in
  let visibleChars :=
    if (f_visibleChars f =? 0) && negb (isspacechar c)
    then f_visibleChars f + 1 else f_visibleChars f in
  if startPos =? f_lineStartNext f then
    let foldNext := ls (f_lineCurrent f + 1) in
    let levelNext :=
      lineEndLevel (k_levelNext k) (f_foldPrev f) (f_foldCurrent f) foldNext in
    let lineCurrent := f_lineCurrent f + 1 in
    {| f_startPos := startPos; f_lineCurrent := lineCurrent;
       f_levelCurrent := levelNext; f_levelNext := levelNext;
       f_foldPrev := f_foldCurrent f; f_foldCurrent := foldNext;
       f_lineStartNext := LineStart d (lineCurrent + 1);
       f_style := style; f_styleNext := styleNext; f_visibleChars := 0;
       f_numBegin := k_numBegin k; f_isEnd := k_isEnd k;
       f_isInterface := k_isInterface k; f_isProperty := k_isProperty k;
       f_isCustom := k_isCustom k; f_isExit := k_isExit k;
       f_isDeclare := k_isDeclare k; f_ifThenMask := 0;
       f_levels := setAt (f_levels f) (f_lineCurrent f)
                     (packLevel (f_levelCurrent f) levelNext) |}
  else
    {| f_startPos := startPos; f_lineCurrent := f_lineCurrent f;
       f_levelCurrent := f_levelCurrent f; f_levelNext := k_levelNext k;
       f_foldPrev := f_foldPrev f; f_foldCurrent := f_foldCurrent f;
       f_lineStartNext := f_lineStartNext f;
       f_style := style; f_styleNext := styleNext; f_visibleChars := visibleChars;
       f_numBegin := k_numBegin k; f_isEnd := k_isEnd k;
       f_isInterface := k_isInterface k; f_isProperty := k_isProperty k;
       f_isCustom := k_isCustom k; f_isExit := k_isExit k;
       f_isDeclare := k_isDeclare k; f_ifThenMask := k_ifThenMask k;
       f_levels := f_levels f |}.

(** The loop runs while [startPos < endPos]; every iteration moves one
    byte forward, so [endPos - startPos] iterations are all of them. *)
Fixpoint fold_loop (n : nat) (f : FoldState) : FoldState :=
  match n with
  | O => f
  | S n' => if f_startPos f <? endPos then fold_loop n' (fold_step f) else f
  end.


Definition fold_init (startPos initStyle : Z) (lv : Levels) : FoldState :=
  let lineCurrent := GetLine d startPos in
  let '(levelCurrent, foldPrev) :=
    if 0 <? lineCurrent
    then (Z.shiftr (lv (lineCurrent - 1)) 16, ls (lineCurrent - 1))
    else (SC_FOLDLEVELBASE, 0) in
  {| f_startPos := startPos; f_lineCurrent := lineCurrent;
     f_levelCurrent := levelCurrent; f_levelNext := levelCurrent;
     f_foldPrev := foldPrev; f_foldCurrent := ls lineCurrent;
     f_lineStartNext := LineStart d (lineCurrent + 1);
     f_style := initStyle; f_styleNext := st startPos; f_visibleChars := 0;
     f_numBegin := 0; f_isEnd := false; f_isInterface := false;
     f_isProperty := false; f_isCustom := false; f_isExit := false;
     f_isDeclare := false; f_ifThenMask := 0; f_levels := lv |}.

End Folder.

(** [FoldVBDoc]: the fold levels after the call. *)
Definition FoldVBDoc (d : Doc) (st : Styles) (ls : LineStates)
    (startPos lengthDoc initStyle : Z) (lv : Levels) : Levels :=
  let endPos := startPos + lengthDoc in
  f_levels (fold_loop d st ls endPos (Z.to_nat lengthDoc)
              (fold_init d st ls startPos initStyle lv)).

End VB.

(** * Full and resumed runs, and the inputs of the scenarios *)

(** A lex of the whole document from position 0 with the default style,
    on a host that has stored nothing yet. *)
Definition fullLexCSharp (kw : LexerWordList) (task : Doc -> StyleContext -> Z -> Z -> Z -> option (StyleContext * Z))
    (d : Doc) (fuel : nat) : option (Styles * LineStates) :=
  CSharp.ColouriseCSharpDoc kw task d fuel 0 (docLen d) CSharp.SCE_CSHARP_DEFAULT
    (fun _ => 0) (fun _ => 0).

(** A lex from the line boundary [p] to the end, on the style bytes and
    line states that the full lex has stored; the initial style is the
    style of the byte before [p]. *)
Definition resumedLexCSharp (kw : LexerWordList) (task : Doc -> StyleContext -> Z -> Z -> Z -> option (StyleContext * Z))
    (d : Doc) (fuel : nat) (p : Z) : option (Styles * LineStates) :=
  match fullLexCSharp kw task d fuel with
  | Some (st, ls) =>
      CSharp.ColouriseCSharpDoc kw task d fuel p (docLen d - p) (st (p - 1)) st ls
  | None => None
  end.

Definition fullLexVB (lang : VB.Language) (kw : LexerWordList) (d : Doc) (fuel : nat)
    : option (Styles * LineStates) :=
  VB.ColouriseVBDoc lang kw d fuel 0 (docLen d) VB.SCE_VB_DEFAULT (fun _ => 0) (fun _ => 0).

Definition resumedLexVB (lang : VB.Language) (kw : LexerWordList) (d : Doc) (fuel : nat)
    (p : Z) : option (Styles * LineStates) :=
  match fullLexVB lang kw d fuel with
  | Some (st, ls) =>
      VB.ColouriseVBDoc lang kw d fuel p (docLen d - p) (st (p - 1)) st ls
  | None => None
  end.

(** The style bytes of the positions [from, from + n) and the states of
    the lines [from, from + n) of a result. *)
Definition stylesOf (r : option (Styles * LineStates)) (from : Z) (n : nat)
    : option (list Z) :=
  match r with
  | Some (st, _) => Some (map (fun i => st (from + Z.of_nat i)) (seq 0 n))
  | None => None
  end.

Definition lineStatesOf (r : option (Styles * LineStates)) (from : Z) (n : nat)
    : option (list Z) :=
  match r with
  | Some (_, ls) => Some (map (fun i => ls (from + Z.of_nat i)) (seq 0 n))
  | None => None
  end.

(** No task marker is configured. *)
Definition noTaskMarker : Doc -> StyleContext -> Z -> Z -> Z -> option (StyleContext * Z) :=
  fun _ _ _ _ _ => None.

Definition noKeywords : LexerWordList := fun _ => [].

(** Keyword tables with a few keywords in the first list. *)
Definition csKeywords : LexerWordList :=
  fun i => if i =? 0 then map bytes_of ["using"; "class"; "return"; "if"]%string else [].

Definition vbKeywords : LexerWordList :=
  fun i => if i =? 0
           then map bytes_of ["if"; "then"; "else"; "end"; "dim"; "type"; "close"]%string
           else [].

Definition nl : string := String (ascii_of_nat 10) EmptyString.
Definition dq : string := String (ascii_of_nat 34) EmptyString.

(** A cast that spans two lines: open paren, [a], line end, [.b], close
    paren, [x]. *)
Definition docCast : Doc := bytes_of ("(a" ++ nl ++ ".b)x").

(** A number with a type character, then a line that starts with an
    ampersand and a number prefix. *)
Definition docAmp : Doc := bytes_of ("1&" ++ nl ++ "&H1").

(** Two [using] lines, the second with a closing brace. *)
Definition docUsing : Doc := bytes_of ("using A;" ++ nl ++ "using B;}" ++ nl).

(** Two [Dim] lines, the second with [End If]. *)
Definition docDim : Doc := bytes_of ("Dim a" ++ nl ++ "Dim b : End If" ++ nl).

(** The levels of a host that has stored none: the base level. *)
Definition noLevels : Z -> Z := fun _ => SC_FOLDLEVELBASE.

(** Lex and then fold a whole document. *)
Definition lexFoldCSharp (kw : LexerWordList) (chk : Doc -> Styles -> Z -> Z -> Z -> Z -> Z)
    (d : Doc) (fuel : nat) : option (Z -> Z) :=
  match fullLexCSharp kw noTaskMarker d fuel with
  | Some (st, ls) =>
      CSharp.FoldCSharpDoc d st ls (chk d st) fuel 0 (docLen d)
        CSharp.SCE_CSHARP_DEFAULT noLevels
  | None => None
  end.

Definition lexFoldVB (lang : VB.Language) (kw : LexerWordList) (d : Doc) (fuel : nat)
    : option (Z -> Z) :=
  match fullLexVB lang kw d fuel with
  | Some (st, ls) => Some (VB.FoldVBDoc d st ls 0 (docLen d) VB.SCE_VB_DEFAULT noLevels)
  | None => None
  end.

(** The two halves of a stored fold value. *)
Definition levelCurrentOf (lev : Z) : Z := Z.land lev 65535.
Definition levelNextOf (lev : Z) : Z := Z.shiftr lev 16.

(** A closing paren with no opening one. *)
Definition docParen : Doc := bytes_of (")" ++ nl).

(** The lexer at the paren of [docParen]. *)
Definition scParen : StyleContext := SC.Make docParen 0 2 0 (fun _ => 0) (fun _ => 0).

(** A line of 2048 opening parens, and a byte on the next line. *)
Definition docDeep : Doc := repeat LPAREN 2048 ++ [LF; 120].

(** A line with one opening paren after a first line, and a host that
    holds for the first line the state of a line that ends at depth
    32767. *)
Definition docParenLine : Doc := bytes_of ("x" ++ nl ++ "(" ++ nl).
Definition lineStatesDeep : LineStates := fun ln => if ln =? 0 then 2147418112 else 0.

(** The result of a call, or the untouched host when the bound on the
    iterations was too small. *)
Definition resultOr (r : option (Styles * LineStates)) : Styles * LineStates :=
  match r with
  | Some x => x
  | None => (fun _ => 0, fun _ => 0)
  end.

(** A line state either is the one the host had, or packs the locals
    of a moment at which the invariant holds. *)
Definition storedBy {L : Type} (pack : L -> Z) (ok : L -> Prop) (ls ls' : LineStates) : Prop :=
  forall ln, ls' ln = ls ln \/ exists l', ok l' /\ ls' ln = pack l'.

(** Scenario g of the specification. *)
Definition docIfThen : Doc := bytes_of ("If a Then b Else c" ++ nl).







(** Scenario b of the specification, a raw interpolated string with
    two dollar signs, and the lexer at its first brace. *)
Definition docRawHole : Doc :=
  bytes_of ("$$" ++ dq ++ dq ++ dq ++ "a{{x}}" ++ dq ++ dq ++ dq).

(** Locals with three delimiters and two interpolators. *)
Definition localsRawHole : CSharp.Locals :=
  CSharp.set_stringInterpolatorCount 2
    (CSharp.set_stringDelimiterCount 3 CSharp.initLocals).

Definition scRawHole : StyleContext :=
  SC.Make docRawHole 6 9 CSharp.SCE_CSHARP_INTERPOLATED_RAWSTRING_SL
    (fun _ => 0) (fun _ => 0).





(** Two lines, the second one starting with a closing brace. *)
Definition docTwoLines : Doc := bytes_of ("a" ++ nl ++ "}b").

(** A context at the start of the second line of [docTwoLines], in the
    running style [st]. *)
Definition scLineStart (st : Z) : StyleContext :=
  SC.Make docTwoLines 2 2 st (fun _ => 0) (fun _ => 0).

(** An interpolated string whose hole ends on the next line, and the
    lexer at the closing brace that starts that line. *)
Definition docHoleLines : Doc := bytes_of ("$" ++ dq ++ "{1" ++ nl ++ "}x" ++ dq ++ ";").


(** An interpolated string that is not closed on its line. *)
Definition docStrLines : Doc := bytes_of ("$" ++ dq ++ "a" ++ nl ++ "}x" ++ dq ++ ";").


(** A call after [return], on the next line and on the same line. *)
Definition docReturnLine : Doc := bytes_of ("return" ++ nl ++ "A(").
Definition docReturnSame : Doc := bytes_of "return A(".

(** The head of a VB6 type block. *)
Definition docType : Doc := bytes_of ("Type Foo" ++ nl).

(** A plain interpolated string with a doubled opening brace. *)
Definition docBraces : Doc := bytes_of ("$" ++ dq ++ "{{x" ++ dq).



(** A multi-line raw string whose second line holds two quotes, a
    space and three quotes. *)
Definition docRawQuotes : Doc :=
  bytes_of (dq ++ dq ++ dq ++ nl ++ dq ++ dq ++ " " ++ dq ++ dq ++ dq ++ nl).

(** * Relations used by the invariants of the lexers *)

(** What a run of lexer steps from context [a] to context [b] may write
    when every style it sets satisfies [P]: the span not yet written
    only moves forward, the end of the range stays, the line only grows,
    a style byte is either
    untouched or lies at or after the span start of [a] and satisfies
    [P], a line state is either untouched or belongs to the line of
    [a] or a later one, and every byte from the span start of [a] to
    the span start of [b] has been given a style that satisfies [P]. *)
Definition writes (P : Z -> Prop) (a b : StyleContext) : Prop :=
  startSeg a <= currentPos a -> P (state a) ->
  endPos b = endPos a
  /\ startSeg a <= startSeg b
  /\ startSeg b <= currentPos b
  /\ currentLine a <= currentLine b
  /\ P (state b)
  /\ (forall q, styles b q = styles a q \/ (startSeg a <= q /\ P (styles b q)))
  /\ (forall ln, lineStates b ln = lineStates a ln \/ currentLine a <= ln)
  /\ (forall q, startSeg a <= q < startSeg b -> P (styles b q)).

(** The styles that [ColouriseVBDoc] sets. *)
Definition vbStyles : list Z :=
  [VB.SCE_VB_DEFAULT; VB.SCE_VB_COMMENTLINE; VB.SCE_VB_LINE_CONTINUATION;
   VB.SCE_VB_OPERATOR; VB.SCE_VB_OPERATOR2; VB.SCE_VB_IDENTIFIER; VB.SCE_VB_NUMBER;
   VB.SCE_VB_STRING; VB.SCE_VB_INTERPOLATED_STRING; VB.SCE_VB_FORMAT_SPECIFIER;
   VB.SCE_VB_FILENUMBER; VB.SCE_VB_DATE; VB.SCE_VB_KEYWORD; VB.SCE_VB_KEYWORD2;
   VB.SCE_VB_KEYWORD3; VB.SCE_VB_PREPROCESSOR; VB.SCE_VB_PREPROCESSOR_WORD;
   VB.SCE_VB_ATTRIBUTE; VB.SCE_VB_CLASS; VB.SCE_VB_INTERFACE; VB.SCE_VB_ENUM;
   VB.SCE_VB_CONSTANT; VB.SCE_VB_BASIC_FUNCTION; VB.SCE_VB_LABEL;
   VB.SCE_VB_FUNCTION_DEFINITION].

Definition isVBStyle (s : Z) : Prop := In s vbStyles.

(** Any style: the frame part of [writes] alone. *)
Definition anyStyle (s : Z) : Prop := True.

(** ** Progress of the loop of [ColouriseVBDoc] *)

(** No expression hole is open and the running style is not one of the
    two styles that only a hole leads to. *)
Definition vb_clean (st : VB.LexState) : Prop :=
  VB.nestedState (fst st) = []
  /\ state (snd st) <> VB.SCE_VB_INTERPOLATED_STRING
  /\ state (snd st) <> VB.SCE_VB_FORMAT_SPECIFIER.

(** How many iterations a style can take at one position before the
    position moves: an identifier or a file number can turn into a
    date, a date at a line start or any other style can turn, through
    the default style, into a format specifier, which can turn into a
    string. *)
Definition vb_rank (s : Z) : Z :=
  if (s =? VB.SCE_VB_STRING) || (s =? VB.SCE_VB_INTERPOLATED_STRING) then 0
  else if s =? VB.SCE_VB_FORMAT_SPECIFIER then 1
  else if (s =? VB.SCE_VB_IDENTIFIER) || (s =? VB.SCE_VB_FILENUMBER) then 3
  else 2.

Definition vb_measure (st : VB.LexState) : Z :=
  4 * (endPos (snd st) - currentPos (snd st)) + vb_rank (state (snd st)).

(** The outcome of the switch, or of the default state, seen from a
    position [p0] with rank [r0]: the position stays in the range, and
    without a move forward the rank goes down. *)
Definition vb_progress (language : VB.Language) (e p0 r0 : Z)
    (r : VB.LexState * VB.Ctl) : Prop :=
  endPos (snd (fst r)) = e
  /\ p0 <= currentPos (snd (fst r)) <= e
  /\ (language = VB.VBNET \/ vb_clean (fst r))
  /\ match snd r with
     | VB.Continue =>
         p0 < currentPos (snd (fst r)) \/ vb_rank (state (snd (fst r))) < r0
     | VB.Break =>
         state (snd (fst r)) = VB.SCE_VB_DEFAULT ->
         p0 < currentPos (snd (fst r)) \/ 2 <= r0
         \/ VB.nestedState (fst (fst r)) = []
     end.

(** A placeholder with an alignment and a format string, and the
    context at its comma. *)
Definition docFormat : Doc := bytes_of "{0,5:X}".
Definition scFormat : StyleContext :=
  SC.Make docFormat 2 5 CSharp.SCE_CSHARP_PLACEHOLDER (fun _ => 0) (fun _ => 0).

(** ** Fold levels written by a folder *)

(** The levels [lv'] come from [lv] by writing the lines from [first]
    up to [last], line by line: the level in use on the first line is
    [a0], every line written holds a packed pair of the level in use
    and the next level, the next level is at least [floor], the level
    in use on a line is the next level of the line before, and [cur] is
    the next level of the last line written. *)
Definition levelsChain (pack : Z -> Z -> Z) (floor a0 cur first last : Z)
    (lv lv' : Z -> Z) : Prop :=
  first <= last
  /\ (last = first -> cur = a0)
  /\ (forall n, n < first \/ last <= n -> lv' n = lv n)
  /\ (forall n, first <= n < last ->
        exists a b,
          lv' n = pack a b
          /\ floor <= b
          /\ (n = first -> a = a0)
          /\ (n + 1 = last -> b = cur)
          /\ (n + 1 < last -> exists c, lv' (n + 1) = pack b c)).

(** The levels of a fold that has returned. *)
Definition levelsOr (r : option (Z -> Z)) : Z -> Z :=
  match r with
  | Some x => x
  | None => noLevels
  end.

(** ** Progress of the loop of [ColouriseCSharpDoc] *)

(** The styles that a tag, an escape, a placeholder or a format
    specifier hands back: the default style, a comment style or a
    string style. *)
Definition cs_outer_ok (s : Z) : Prop :=
  CSharp.SCE_CSHARP_DEFAULT <= s <= CSharp.SCE_CSHARP_COMMENTBLOCKDOC
  \/ CSharp.isStringState s = true.

(** The locals hold an outer style of that kind, and every frame of an
    open expression hole holds a string style. *)
Definition cs_inv (l : CSharp.Locals) : Prop :=
  cs_outer_ok (CSharp.escOuterState l)
  /\ Forall (fun f => CSharp.isStringState (CSharp.iss_state f) = true)
       (CSharp.nestedState l).

(** How many iterations can pass at one position before the position
    moves: a tag, an escape or a format specifier at a byte that ends
    it hands back the outer style; any style but a string that goes on
    can reach the default state, which inside a hole can hand over to
    the string of the hole or to its format specifier. *)
Definition cs_rank (st : CSharp.LexState) : Z :=
  let '(l, sc) := st in
  if CSharp.isStringState (state sc) then
    if atLineStart sc && CSharp.IsSingleLineString (state sc)
       && negb (CSharp.closeBrace l)
    then 1 else 0
  else if state sc =? CSharp.SCE_CSHARP_FORMAT_SPECIFIER then
    if CSharp.IsInvalidFormatSpecifier (ch sc) then 2 else 0
  else if (state sc =? CSharp.SCE_CSHARP_COMMENTTAG_XML)
          || (state sc =? CSharp.SCE_CSHARP_ESCAPECHAR)
  then 2 else 1.

(** The measure that every iteration lowers: the bytes left after the
    span start weigh more than the bytes left after the position
    (which a rewind can raise), and these more than the rank. *)
Definition cs_measure (st : CSharp.LexState) : Z :=
  let n := endPos (snd st) - startSeg (snd st) in
  n * (3 * n + 3) + 3 * (endPos (snd st) - currentPos (snd st)) + cs_rank st.

(** What the loop keeps: the end of the range, the span start not
    after the position, the position not after the end, and the
    invariant of the locals. *)
Definition cs_lex_inv (e : Z) (st : CSharp.LexState) : Prop :=
  endPos (snd st) = e
  /\ startSeg (snd st) <= currentPos (snd st) <= e
  /\ cs_inv (fst st).

(** The outcome of the switch, or of the default state, seen from a
    span start [s0], a position [p0] and a rank [r0]. *)
Definition cs_progress (e s0 p0 r0 : Z) (r : CSharp.LexState * CSharp.Ctl) : Prop :=
  endPos (snd (fst r)) = e
  /\ s0 <= startSeg (snd (fst r)) <= currentPos (snd (fst r))
  /\ currentPos (snd (fst r)) <= e
  /\ cs_inv (fst (fst r))
  /\ match snd r with
     | CSharp.Continue =>
         s0 < startSeg (snd (fst r)) \/ p0 < currentPos (snd (fst r))
         \/ (currentPos (snd (fst r)) = p0 /\ cs_rank (fst r) < r0)
     | CSharp.Break =>
         (s0 < startSeg (snd (fst r)) \/ p0 <= currentPos (snd (fst r)))
         /\ (state (snd (fst r)) = CSharp.SCE_CSHARP_DEFAULT ->
             s0 < startSeg (snd (fst r)) \/ p0 < currentPos (snd (fst r)) \/ 1 <= r0)
     end.

(** The task marker highlighter, when it finds a marker, keeps the end
    of the range, leaves the span start at or after where it was and
    not after the position, and moves the position forward as long as
    it was inside the range. *)
Definition taskAdvances
    (task : Doc -> StyleContext -> Z -> Z -> Z -> option (StyleContext * Z))
    (d : Doc) : Prop :=
  forall sc vc vcb s sc' vc',
    task d sc vc vcb s = Some (sc', vc') ->
    startSeg sc <= currentPos sc <= endPos sc ->
    endPos sc' = endPos sc
    /\ startSeg sc <= startSeg sc' <= currentPos sc'
    /\ currentPos sc <= currentPos sc' <= endPos sc
    /\ (currentPos sc < endPos sc -> currentPos sc < currentPos sc').

(** The outcome of the default state, seen from a span start [s0] and
    a position [p0]: the position never moves back, and when the
    default state starts the next iteration from inside the range it
    has moved the span start or the position, or it leaves a style of
    rank 0. *)
Definition cs_default_progress (e s0 p0 : Z) (r : CSharp.LexState * CSharp.Ctl) : Prop :=
  endPos (snd (fst r)) = e
  /\ s0 <= startSeg (snd (fst r)) <= currentPos (snd (fst r))
  /\ p0 <= currentPos (snd (fst r)) <= e
  /\ cs_inv (fst (fst r))
  /\ (snd r = CSharp.Continue -> p0 < e ->
      s0 < startSeg (snd (fst r)) \/ p0 < currentPos (snd (fst r))
      \/ cs_rank (fst r) = 0).

(** ** Escape sequences of the C# lexer *)

(** What [resetEscapeState] stores for the byte after the backslash:
    one more than the number of hex digits that may follow it. *)
Definition escapeDigits (cNext : Z) : Z :=
  if (cNext =? 120) || (cNext =? 117) then 5
  else if cNext =? 85 then 9 else 1.

(** The number of hex digits at [pos], at most [max]. *)
Fixpoint hexRun (d : Doc) (pos : Z) (max : nat) : nat :=
  match max with
  | O => O
  | S m => if IsHexDigit (charAt d pos) then S (hexRun d (pos + 1) m) else O
  end.

(** A string with a hex escape of two digits; the backslash is byte 1. *)
Definition docEscape : Doc := bytes_of (dq ++ "\x41z" ++ dq).

Definition scEscape : StyleContext :=
  SC.Make docEscape 1 6 CSharp.SCE_CSHARP_STRING (fun _ => 0) (fun _ => 0).

(** A block comment over two lines, and a byte after it. *)
Definition docBlockComment : Doc := bytes_of ("/*" ++ nl ++ "a*/x").

(** A string of VB.NET over two lines, and bytes after it. *)
Definition docVBString : Doc := bytes_of (dq ++ "a" ++ nl ++ "b" ++ dq ++ " x").

(** ** Line comments of the C# lexer *)

(** The context is on a line that has a successor, and its end-of-line
    flag is the one the line start of the successor gives. *)
Definition line_ok (d : Doc) (sc : StyleContext) : Prop :=
  atLineEnd sc = SC.lineEndAt d (currentPos sc) (currentLine sc) (lineStartNext sc)
  /\ currentLine sc < GetLine d (docLen d).

(** A line comment, a line end, and a byte on the next line. *)
Definition docLineComment : Doc := bytes_of ("x //a" ++ nl ++ "y").

(** An assignment of a plain string, a line end, and a byte on the
    next line; the opening quote is byte 4. *)
Definition docString : Doc := bytes_of ("x = " ++ dq ++ "ab" ++ dq ++ ";" ++ nl ++ "y").

(** A comment of VB after a byte of code, a line end, and a byte on
    the next line; the apostrophe is byte 2. *)
Definition docVBComment : Doc := bytes_of ("x 'a_" ++ nl ++ "y").

(** A declaration with its keyword in upper case. *)
Definition docVBKeyword : Doc := bytes_of ("DIM x" ++ nl).

(** * The style context: what its operations leave alone *)

Lemma lineStates_Forward d sc : lineStates (SC.Forward d sc) = lineStates sc.
Proof. unfold SC.Forward. destruct (currentPos sc <? endPos sc); reflexivity. Qed.

Lemma lineStates_ForwardN d n : forall sc, lineStates (SC.ForwardN d n sc) = lineStates sc.
Proof.
  induction n as [|n IH]; intro sc; cbn [SC.ForwardN]; [reflexivity|].
  rewrite IH. apply lineStates_Forward.
Qed.

Lemma lineStates_Advance d n sc : lineStates (SC.Advance d n sc) = lineStates sc.
Proof. apply lineStates_ForwardN. Qed.

Lemma lineStates_ChangeState s sc : lineStates (SC.ChangeState s sc) = lineStates sc.
Proof. reflexivity. Qed.

Lemma lineStates_SetState s sc : lineStates (SC.SetState s sc) = lineStates sc.
Proof. reflexivity. Qed.

Lemma lineStates_ForwardSetState d s sc :
  lineStates (SC.ForwardSetState d s sc) = lineStates sc.
Proof. unfold SC.ForwardSetState. rewrite lineStates_SetState. apply lineStates_Forward. Qed.

Lemma lineStates_Rewind d sc : lineStates (SC.Rewind d sc) = lineStates sc.
Proof. reflexivity. Qed.

Lemma lineStates_Complete sc : lineStates (SC.Complete sc) = lineStates sc.
Proof. reflexivity. Qed.

Create Rewrite HintDb scdb.
#[export] Hint Rewrite lineStates_Forward lineStates_ForwardN lineStates_Advance lineStates_ChangeState
  lineStates_SetState lineStates_ForwardSetState lineStates_Rewind : scdb.

Lemma state_Forward d sc : state (SC.Forward d sc) = state sc.
Proof. unfold SC.Forward. destruct (currentPos sc <? endPos sc); reflexivity. Qed.

Lemma state_ForwardN d n : forall sc, state (SC.ForwardN d n sc) = state sc.
Proof.
  induction n as [|n IH]; intro sc; cbn [SC.ForwardN]; [reflexivity|].
  rewrite IH. apply state_Forward.
Qed.

Lemma state_Advance d n sc : state (SC.Advance d n sc) = state sc.
Proof. apply state_ForwardN. Qed.

Lemma endPos_Forward d sc : endPos (SC.Forward d sc) = endPos sc.
Proof. unfold SC.Forward. destruct (currentPos sc <? endPos sc); reflexivity. Qed.

Arguments SC.Forward : simpl never.
Arguments SC.ForwardN : simpl never.
Arguments SC.Advance : simpl never.
Arguments SC.SetState : simpl never.
Arguments SC.ChangeState : simpl never.
Arguments SC.ForwardSetState : simpl never.
Arguments SC.Rewind : simpl never.

(** Case analysis on the tests of a definition that has been unfolded. *)
Ltac split_tests :=
  repeat match goal with
         | |- context [if ?c then _ else _] => destruct c
         | |- context [match ?x with _ => _ end] => destruct x
         end.

(** Comparisons of byte constants are evaluated. *)
Ltac eval_tests :=
  repeat match goal with
         | |- context [Z.eqb ?a ?b] =>
             let v := eval vm_compute in (Z.eqb a b) in
             match v with
             | true => change (Z.eqb a b) with true
             | false => change (Z.eqb a b) with false
             end
         end.

(** ** Positions and styles along steps forward *)

Lemma Forward_inside d sc :
  currentPos sc < endPos sc ->
  currentPos (SC.Forward d sc) = currentPos sc + 1
  /\ startSeg (SC.Forward d sc) = startSeg sc
  /\ styles (SC.Forward d sc) = styles sc
  /\ endPos (SC.Forward d sc) = endPos sc
  /\ state (SC.Forward d sc) = state sc.
Proof.
  intro H. unfold SC.Forward.
  replace (currentPos sc <? endPos sc) with true by lia.
  repeat split.
Qed.

Lemma ForwardN_inside d n :
  forall sc,
    currentPos sc + Z.of_nat n <= endPos sc ->
    currentPos (SC.ForwardN d n sc) = currentPos sc + Z.of_nat n
    /\ startSeg (SC.ForwardN d n sc) = startSeg sc
    /\ styles (SC.ForwardN d n sc) = styles sc
    /\ endPos (SC.ForwardN d n sc) = endPos sc
    /\ state (SC.ForwardN d n sc) = state sc.
Proof.
  induction n as [|n IH]; intros sc H.
  - change (SC.ForwardN d 0 sc) with sc.
    replace (currentPos sc + Z.of_nat 0) with (currentPos sc) by lia. repeat split.
  - change (SC.ForwardN d (S n) sc) with (SC.ForwardN d n (SC.Forward d sc)).
    destruct (Forward_inside d sc) as [F1 [F2 [F3 [F4 F5]]]]; [lia|].
    destruct (IH (SC.Forward d sc)) as [I1 [I2 [I3 [I4 I5]]]]; [lia|].
    rewrite I1, I2, I3, I4, I5, F1, F2, F3, F4, F5. repeat split. lia.
Qed.

Lemma Advance_inside d k sc :
  0 <= k -> currentPos sc + k <= endPos sc ->
  currentPos (SC.Advance d k sc) = currentPos sc + k
  /\ startSeg (SC.Advance d k sc) = startSeg sc
  /\ styles (SC.Advance d k sc) = styles sc
  /\ endPos (SC.Advance d k sc) = endPos sc
  /\ state (SC.Advance d k sc) = state sc.
Proof.
  intros Hk H. unfold SC.Advance.
  destruct (ForwardN_inside d (Z.to_nat k) sc) as [I1 [I2 [I3 [I4 I5]]]]; [lia|].
  rewrite I1, I2, I3, I4, I5. repeat split. lia.
Qed.

Lemma SetState_fields s sc :
  currentPos (SC.SetState s sc) = currentPos sc
  /\ startSeg (SC.SetState s sc) = currentPos sc
  /\ styles (SC.SetState s sc)
     = setRange (styles sc) (startSeg sc) (currentPos sc) (state sc)
  /\ endPos (SC.SetState s sc) = endPos sc
  /\ state (SC.SetState s sc) = s.
Proof. repeat split. Qed.

Lemma styles_Forward d sc : styles (SC.Forward d sc) = styles sc.
Proof. unfold SC.Forward. destruct (currentPos sc <? endPos sc); reflexivity. Qed.

Lemma styles_ChangeState s sc : styles (SC.ChangeState s sc) = styles sc.
Proof. reflexivity. Qed.

Lemma styles_SetState s sc :
  styles (SC.SetState s sc) = setRange (styles sc) (startSeg sc) (currentPos sc) (state sc).
Proof. reflexivity. Qed.

Lemma styles_SetLineState line v sc : styles (SC.SetLineState line v sc) = styles sc.
Proof. reflexivity. Qed.

Create Rewrite HintDb stdb.
#[export] Hint Rewrite styles_Forward styles_ChangeState styles_SetState
  styles_SetLineState : stdb.


Lemma currentPos_Forward_le d sc : currentPos sc <= currentPos (SC.Forward d sc).
Proof. unfold SC.Forward. destruct (currentPos sc <? endPos sc); cbn; lia. Qed.


Lemma ForwardN_keeps d n :
  forall sc,
    startSeg (SC.ForwardN d n sc) = startSeg sc
    /\ styles (SC.ForwardN d n sc) = styles sc
    /\ state (SC.ForwardN d n sc) = state sc.
Proof.
  induction n as [|n IH]; intro sc.
  - change (SC.ForwardN d 0 sc) with sc. repeat split.
  - change (SC.ForwardN d (S n) sc) with (SC.ForwardN d n (SC.Forward d sc)).
    destruct (IH (SC.Forward d sc)) as [I1 [I2 I3]].
    rewrite I1, I2, I3, styles_Forward, state_Forward.
    repeat split. unfold SC.Forward. destruct (currentPos sc <? endPos sc); reflexivity.
Qed.

(** One step forward shows the next two bytes of the document. *)
Lemma Forward_cursor d sc :
  currentPos sc < endPos sc ->
  chNext sc = charAt d (currentPos sc + 1) ->
  ch (SC.Forward d sc) = charAt d (currentPos sc + 1)
  /\ chNext (SC.Forward d sc) = charAt d (currentPos sc + 2).
Proof.
  intros H Hc. unfold SC.Forward.
  replace (currentPos sc <? endPos sc) with true by lia.
  cbn. split; [exact Hc|]. f_equal. lia.
Qed.

(** * Bits of a packed value *)

Lemma wrap32_mod x : wrap32 x mod 4294967296 = x mod 4294967296.
Proof.
  unfold wrap32.
  rewrite Zminus_mod_idemp_l.
  f_equal. lia.
Qed.

(** The low 32 bits of an [int] are the bits of the value it holds. *)
Lemma testbit_wrap32 x n : 0 <= n < 32 -> Z.testbit (wrap32 x) n = Z.testbit x n.
Proof.
  intro H.
  rewrite <- (Z.mod_pow2_bits_low (wrap32 x) 32 n) by lia.
  rewrite <- (Z.mod_pow2_bits_low x 32 n) by lia.
  change (2 ^ 32) with 4294967296. rewrite wrap32_mod. reflexivity.
Qed.

Lemma land_pow2 x k :
  0 <= k -> Z.land x (2 ^ k) = if Z.testbit x k then 2 ^ k else 0.
Proof.
  intro Hk. apply Z.bits_inj'. intros n Hn.
  rewrite Z.land_spec, Z.pow2_bits_eqb by lia.
  destruct (Z.eqb_spec k n) as [->|Hne].
  - rewrite Bool.andb_true_r. destruct (Z.testbit x n) eqn:E.
    + rewrite Z.pow2_bits_true; auto.
    + rewrite Z.bits_0. reflexivity.
  - rewrite Bool.andb_false_r. destruct (Z.testbit x k).
    + rewrite Z.pow2_bits_false; auto.
    + rewrite Z.bits_0. reflexivity.
Qed.

(** A value below [2 ^ k] and a value shifted by [k] do not overlap. *)
Lemma testbit_lor_shiftl a p k n :
  0 <= n ->
  Z.testbit (Z.lor a (Z.shiftl p k)) n = Z.testbit a n || Z.testbit p (n - k).
Proof.
  intro Hn. rewrite Z.lor_spec, Z.shiftl_spec by lia. reflexivity.
Qed.

Lemma testbit_small a n : 0 <= a < 32 -> 5 <= n -> Z.testbit a n = false.
Proof.
  intros Ha Hn.
  destruct (Z.eq_dec a 0) as [->|Hz]; [apply Z.bits_0|].
  apply Z.bits_above_log2; [lia|].
  assert (Z.log2 a < 5) by (apply Z.log2_lt_pow2; [lia | change (2 ^ 5) with 32; lia]).
  lia.
Qed.

Lemma land_low3 v a :
  (forall n, 0 <= n < 3 -> Z.testbit v n = Z.testbit a n) ->
  Z.land v 7 = Z.land a 7.
Proof.
  intro H. apply Z.bits_inj'. intros n Hn.
  rewrite !Z.land_spec. change 7 with (Z.ones 3).
  destruct (Z.ltb_spec n 3).
  - rewrite H by lia. reflexivity.
  - rewrite Z.ones_spec_high by lia. rewrite !Bool.andb_false_r. reflexivity.
Qed.

(** * The string arm of the LangC switch *)

Lemma cs_switch_state_string kw task d l sc :
  CSharp.isStringState (state sc) = true ->
  CSharp.switch_state kw task d (l, sc) = CSharp.arm_string d (l, sc).
Proof.
  intro Hstr. unfold CSharp.switch_state.
  assert (Hs : 7 <= state sc <= 15).
  { unfold CSharp.isStringState, CSharp.SCE_CSHARP_CHARACTER,
      CSharp.SCE_CSHARP_INTERPOLATED_VERBATIM_STRING in Hstr. lia. }
  rewrite Hstr.
  replace (state sc =? CSharp.SCE_CSHARP_OPERATOR) with false
    by (unfold CSharp.SCE_CSHARP_OPERATOR; lia).
  replace (state sc =? CSharp.SCE_CSHARP_OPERATOR2) with false
    by (unfold CSharp.SCE_CSHARP_OPERATOR2; lia).
  replace (state sc =? CSharp.SCE_CSHARP_NUMBER) with false
    by (unfold CSharp.SCE_CSHARP_NUMBER; lia).
  replace (state sc =? CSharp.SCE_CSHARP_IDENTIFIER) with false
    by (unfold CSharp.SCE_CSHARP_IDENTIFIER; lia).
  replace (state sc =? CSharp.SCE_CSHARP_PREPROCESSOR) with false
    by (unfold CSharp.SCE_CSHARP_PREPROCESSOR; lia).
  replace (state sc =? CSharp.SCE_CSHARP_PREPROCESSOR_MESSAGE) with false
    by (unfold CSharp.SCE_CSHARP_PREPROCESSOR_MESSAGE; lia).
  replace (state sc =? CSharp.SCE_CSHARP_COMMENTLINE) with false
    by (unfold CSharp.SCE_CSHARP_COMMENTLINE; lia).
  replace (state sc =? CSharp.SCE_CSHARP_COMMENTLINEDOC) with false
    by (unfold CSharp.SCE_CSHARP_COMMENTLINEDOC; lia).
  replace (state sc =? CSharp.SCE_CSHARP_COMMENTBLOCK) with false
    by (unfold CSharp.SCE_CSHARP_COMMENTBLOCK; lia).
  replace (state sc =? CSharp.SCE_CSHARP_COMMENTBLOCKDOC) with false
    by (unfold CSharp.SCE_CSHARP_COMMENTBLOCKDOC; lia).
  replace (state sc =? CSharp.SCE_CSHARP_COMMENTTAG_XML) with false
    by (unfold CSharp.SCE_CSHARP_COMMENTTAG_XML; lia).
  reflexivity.
Qed.

(** * Runs of quotes *)


Lemma nth_hd_skipn (n : nat) : forall l : list Z, nth n l 0 = hd 0 (skipn n l).
Proof.
  induction n as [|n IH]; intros [|x l]; try reflexivity. apply IH.
Qed.







(** * Properties *)

(** ** Resumption (C1) *)

(** C1, evaluated on the code.  The claim is that a lex resumed at a
    line boundary gives the style bytes of the full lex.  On the
    two-line cast [(a / .b)x] the full lex styles [b] as a class name,
    since [chBeforeIdentifier] still holds the paren of the first line;
    the lex resumed at the second line starts with [chBeforeIdentifier]
    0 and leaves [b] an identifier.  In LangB, on [1& / &H1], the full
    lex has [1] as previous byte and styles the ampersand as operator;
    the resumed lex looks back to the ampersand of the first line and
    styles [&H1] as a number. *)
Theorem resumption_differs :
  stylesOf (fullLexCSharp noKeywords noTaskMarker docCast 40) 3 4
    = Some [CSharp.SCE_CSHARP_OPERATOR; CSharp.SCE_CSHARP_CLASS;
            CSharp.SCE_CSHARP_OPERATOR; CSharp.SCE_CSHARP_IDENTIFIER]
  /\ stylesOf (resumedLexCSharp noKeywords noTaskMarker docCast 40 3) 3 4
    = Some [CSharp.SCE_CSHARP_OPERATOR; CSharp.SCE_CSHARP_IDENTIFIER;
            CSharp.SCE_CSHARP_OPERATOR; CSharp.SCE_CSHARP_IDENTIFIER]
  /\ stylesOf (fullLexVB VB.VBNET vbKeywords docAmp 40) 3 3
    = Some [VB.SCE_VB_OPERATOR; VB.SCE_VB_IDENTIFIER; VB.SCE_VB_IDENTIFIER]
  /\ stylesOf (resumedLexVB VB.VBNET vbKeywords docAmp 40 3) 3 3
    = Some [VB.SCE_VB_NUMBER; VB.SCE_VB_NUMBER; VB.SCE_VB_NUMBER].
Proof. repeat split; vm_compute; reflexivity. Qed.

(** ** Fold levels and the base level (C10) *)

(** C10, evaluated on the code.  The claim is that the next level
    stored for a line is never below the base level.  Both folders
    clamp first and apply the line-type group afterwards: the second of
    two [using] lines that closes a brace, and the second of two [Dim]
    lines that holds [End If], get the next level 1023, whatever the
    brace check on the next line answers. *)
Theorem fold_level_below_base :
  (forall chk,
     option_map (fun lv => levelNextOf (lv 1)) (lexFoldCSharp csKeywords chk docUsing 100)
       = Some (SC_FOLDLEVELBASE - 1))
  /\ option_map (fun lv => levelNextOf (lv 1)) (lexFoldVB VB.VBNET vbKeywords docDim 100)
       = Some (SC_FOLDLEVELBASE - 1).
Proof. split; [intro chk|]; vm_compute; reflexivity. Qed.

(** ** The paren count never goes below zero (C8) *)

Module ParenCS.
Import CSharp.

Lemma keeps_refl st : keeps st st.
Proof. split; reflexivity. Qed.

Lemma keeps_trans a b c : keeps a b -> keeps b c -> keeps a c.
Proof. intros [H1 H2] [H3 H4]. split; congruence. Qed.

Ltac keeps_auto :=
  split_tests; split; cbn; autorewrite with scdb; reflexivity.

Section Arms.
Variable kw : LexerWordList.
Variable task : Doc -> StyleContext -> Z -> Z -> Z -> option (StyleContext * Z).
Variable d : Doc.

(** The task-marker search writes no line state. *)
Hypothesis task_lineStates :
  forall d0 sc vc vcb s sc' vc',
    task d0 sc vc vcb s = Some (sc', vc') -> lineStates sc' = lineStates sc.

Lemma keeps_classifyWord s st : keeps st (classifyWord kw d s st).
Proof.
  destruct st as [l sc]. unfold classifyWord, keywordHint. keeps_auto.
Qed.

Lemma keeps_classifyPreprocessor s st : keeps st (classifyPreprocessor s st).
Proof. destruct st as [l sc]. unfold classifyPreprocessor. keeps_auto. Qed.

Lemma keeps_classifyIdentifier s st : keeps st (classifyIdentifier d s st).
Proof. destruct st as [l sc]. unfold classifyIdentifier. keeps_auto. Qed.

Lemma keeps_arm_identifier st : keeps st (fst (arm_identifier kw d st)).
Proof.
  destruct st as [l sc]. unfold arm_identifier.
  destruct (negb (IsCsIdentifierChar (ch sc) (chNext sc))); [|apply keeps_refl].
  set (s := SC.GetCurrent d sc 128).
  assert (H1 : keeps (l, sc)
                 match ppKind l with
                 | PpNone => classifyWord kw d s (l, sc)
                 | PpInit => classifyPreprocessor s (l, sc)
                 | PpPragma => (set_ppKind PpOther l,
                                SC.ChangeState SCE_CSHARP_PREPROCESSOR_WORD sc)
                 | _ => (l, sc)
                 end).
  { destruct (ppKind l);
      [apply keeps_classifyWord | apply keeps_classifyPreprocessor
      | split; reflexivity | apply keeps_refl | apply keeps_refl]. }
  destruct (match ppKind l with
            | PpNone => classifyWord kw d s (l, sc)
            | PpInit => classifyPreprocessor s (l, sc)
            | PpPragma => (set_ppKind PpOther l,
                           SC.ChangeState SCE_CSHARP_PREPROCESSOR_WORD sc)
            | _ => (l, sc)
            end) as [l1 sc1].
  assert (H2 : keeps (l1, sc1)
                 (if pp_eqb (ppKind l1) PpNone && (state sc1 =? SCE_CSHARP_IDENTIFIER)
                  then classifyIdentifier d s (l1, sc1) else (l1, sc1))).
  { destruct (pp_eqb (ppKind l1) PpNone && (state sc1 =? SCE_CSHARP_IDENTIFIER));
      [apply keeps_classifyIdentifier | apply keeps_refl]. }
  destruct (if pp_eqb (ppKind l1) PpNone && (state sc1 =? SCE_CSHARP_IDENTIFIER)
            then classifyIdentifier d s (l1, sc1) else (l1, sc1)) as [l2 sc2].
  eapply keeps_trans; [exact H1|]. eapply keeps_trans; [exact H2|].
  cbn [fst]. keeps_auto.
Qed.

Lemma keeps_arm_comment st : keeps st (fst (arm_comment task d st)).
Proof.
  destruct st as [l sc]. unfold arm_comment.
  destruct (atLineStart sc && _); [split; reflexivity|].
  assert (H1 : keeps (l, sc) (close_doctag d (l, sc))).
  { unfold close_doctag. keeps_auto. }
  destruct (close_doctag d (l, sc)) as [l1 sc1].
  eapply keeps_trans; [exact H1|].
  destruct (_ && SC.Match2 STAR SLASH sc1);
    [split; cbn; autorewrite with scdb; reflexivity|].
  destruct (tagIsNone (docTagState l1)); [|apply keeps_refl].
  destruct ((ch sc1 =? LESS) && _).
  - keeps_auto.
  - destruct (task d sc1 (visibleChars l1) (visibleCharsBefore l1) SCE_CSHARP_TASKMARKER)
      as [[sc' vc]|] eqn:Ht; [|apply keeps_refl].
    split; [reflexivity|]. cbn. eapply task_lineStates; exact Ht.
Qed.

Lemma keeps_string_quote st : keeps st (fst (string_quote d st)).
Proof. destruct st as [l sc]. unfold string_quote. keeps_auto. Qed.

Lemma keeps_string_lbrace st : keeps st (fst (string_lbrace d st)).
Proof. destruct st as [l sc]. unfold string_lbrace. keeps_auto. Qed.

Lemma keeps_string_rbrace st : keeps st (fst (string_rbrace d st)).
Proof. destruct st as [l sc]. unfold string_rbrace, rbrace_escape. keeps_auto. Qed.

Lemma keeps_string_body st : keeps st (fst (string_body d st)).
Proof.
  destruct st as [l sc]. unfold string_body, resetEscapeState.
  destruct (ch sc =? BSLASH); [keeps_auto|].
  destruct ((ch sc =? APOS) && _); [keeps_auto|].
  destruct (negb _); [|apply keeps_refl].
  destruct (ch sc =? QUOTE); [apply keeps_string_quote|].
  destruct (ch sc =? LBRACE); [apply keeps_string_lbrace|].
  destruct (ch sc =? RBRACE); [apply keeps_string_rbrace|apply keeps_refl].
Qed.

Lemma keeps_arm_string st : keeps st (fst (arm_string d st)).
Proof.
  destruct st as [l sc]. unfold arm_string.
  destruct (_ && negb (closeBrace l)); [split; reflexivity|apply keeps_string_body].
Qed.

Lemma keeps_arm_placeholder st : keeps st (fst (arm_placeholder d st)).
Proof. destruct st as [l sc]. unfold arm_placeholder. keeps_auto. Qed.

Lemma keeps_switch_state st : keeps st (fst (switch_state kw task d st)).
Proof.
  destruct st as [l sc]. unfold switch_state.
  destruct (_ || _); [split; reflexivity|].
  destruct (_ =? SCE_CSHARP_NUMBER); [keeps_auto|].
  destruct (_ || _); [apply keeps_arm_identifier|].
  destruct (_ =? SCE_CSHARP_PREPROCESSOR_MESSAGE); [keeps_auto|].
  destruct (_ || _); [apply keeps_arm_comment|].
  destruct (_ =? SCE_CSHARP_COMMENTTAG_XML); [unfold arm_commenttag; keeps_auto|].
  destruct (isStringState _); [apply keeps_arm_string|].
  destruct (_ =? SCE_CSHARP_FORMAT_SPECIFIER); [unfold arm_format; keeps_auto|].
  destruct (_ =? SCE_CSHARP_PLACEHOLDER); [apply keeps_arm_placeholder|].
  destruct (_ =? SCE_CSHARP_ESCAPECHAR); [unfold arm_escape, atEscapeEnd; keeps_auto|].
  apply keeps_refl.
Qed.

Lemma lineStates_default_state st :
  lineStates (snd (fst (default_state d st))) = lineStates (snd st).
Proof.
  destruct st as [l sc].
  unfold default_state, default_comment, default_string, default_operator.
  split_tests; cbn; autorewrite with scdb; reflexivity.
Qed.

(** Outside a hole a closing bracket at depth zero leaves the count at
    zero; no byte makes a count that is not negative negative. *)
Lemma paren_default_operator l sc :
  0 <= parenCount l ->
  0 <= parenCount (fst (fst (default_operator d (l, sc)))).
Proof.
  intro H. unfold default_operator.
  destruct (nestedState l) as [|top rest].
  - destruct ((ch _ =? LPAREN) || (ch _ =? LBRACKET)) eqn:E1.
    + split_tests; cbn; lia.
    + destruct ((ch _ =? RPAREN) || (ch _ =? RBRACKET)) eqn:E2.
      * destruct (0 <? parenCount l) eqn:E3; split_tests; cbn; lia.
      * split_tests; cbn; lia.
  - split_tests; cbn; lia.
Qed.

Lemma paren_default_state st :
  0 <= parenCount (fst st) ->
  0 <= parenCount (fst (fst (default_state d st))).
Proof.
  destruct st as [l sc]. cbn [fst]. intro H. unfold default_state.
  destruct (pp_eqb _ _ && _); [exact H|].
  destruct ((ch sc =? SLASH) && _);
    [unfold default_comment; split_tests; exact H|].
  destruct ((ch sc =? QUOTE) || _ || _);
    [unfold default_string, startIdentifier; split_tests; exact H|].
  destruct (ch sc =? APOS); [exact H|].
  destruct ((visibleChars l =? 0) && _); [exact H|].
  destruct (IsNumberStart _ _); [exact H|].
  destruct (IsCsIdentifierStart _ _);
    [unfold startIdentifier; split_tests; exact H|].
  destruct (IsAGraphic _ && _); [apply paren_default_operator; exact H|exact H].
Qed.

Lemma paren_body_end st : parenCount (fst (body_end d st)) = parenCount (fst st).
Proof.
  destruct st as [l sc]. unfold body_end, line_end. split_tests; reflexivity.
Qed.

(** The end of the loop body writes at most the state of the current
    line, packed from the locals. *)
Lemma lineStates_body_end l sc ln :
  lineStates (snd (body_end d (l, sc))) ln = lineStates sc ln
  \/ exists l', parenCount l' = parenCount l
               /\ lineStates (snd (body_end d (l, sc))) ln = packLineState l'.
Proof.
  unfold body_end, line_end.
  destruct (atLineEnd sc).
  - match goal with
    | |- context [packLineState ?t] =>
        assert (Hp : parenCount t = parenCount l) by (split_tests; reflexivity);
        revert Hp; generalize t; intros l1 Hp
    end.
    cbn. autorewrite with scdb. cbn. unfold setAt.
    destruct (ln =? currentLine sc); [right; exists l1; auto | left; reflexivity].
  - left. cbn. autorewrite with scdb. reflexivity.
Qed.

(** One iteration: the count stays at or above zero, and a line state
    that the iteration writes packs a count that is not negative. *)
Lemma loop_body_paren st :
  0 <= parenCount (fst st) ->
  0 <= parenCount (fst (loop_body kw task d st))
  /\ forall ln,
       lineStates (snd (loop_body kw task d st)) ln = lineStates (snd st) ln
       \/ exists l', 0 <= parenCount l'
                    /\ lineStates (snd (loop_body kw task d st)) ln = packLineState l'.
Proof.
  intro H. unfold loop_body.
  pose proof (keeps_switch_state st) as [K1 K2].
  destruct (switch_state kw task d st) as [[l1 sc1] c1]. cbn [fst snd] in K1, K2.
  assert (H1 : 0 <= parenCount l1) by lia.
  assert (Hend : forall l2 sc2, 0 <= parenCount l2 -> lineStates sc2 = lineStates (snd st) ->
            0 <= parenCount (fst (body_end d (l2, sc2)))
            /\ forall ln,
                 lineStates (snd (body_end d (l2, sc2))) ln = lineStates (snd st) ln
                 \/ exists l', 0 <= parenCount l'
                      /\ lineStates (snd (body_end d (l2, sc2))) ln = packLineState l').
  { intros l2 sc2 Hl2 Hs2. split.
    - rewrite paren_body_end. exact Hl2.
    - intro ln. destruct (lineStates_body_end l2 sc2 ln) as [E|[l' [E1 E2]]].
      + left. rewrite E, Hs2. reflexivity.
      + right. exists l'. split; [lia|exact E2]. }
  destruct c1.
  - destruct (state (snd (l1, sc1)) =? SCE_CSHARP_DEFAULT).
    + pose proof (paren_default_state (l1, sc1) H1) as P2.
      pose proof (lineStates_default_state (l1, sc1)) as L2.
      destruct (default_state d (l1, sc1)) as [[l2 sc2] c2]. cbn [fst snd] in P2, L2.
      destruct c2.
      * apply Hend; [exact P2 | congruence].
      * cbn [fst snd]. split; [exact P2|]. intro ln. left. congruence.
    + apply Hend; [exact H1 | exact K2].
  - cbn [fst snd]. split; [exact H1|]. intro ln. left. congruence.
Qed.

(** An iteration is its front part and, after [Break], the end of the
    loop body. *)
Lemma loop_body_front st :
  loop_body kw task d st
  = match loop_front kw task d st with
    | (st2, Break) => body_end d st2
    | (st2, Continue) => st2
    end.
Proof.
  unfold loop_body, loop_front.
  destruct (switch_state kw task d st) as [st1 []]; [|reflexivity].
  destruct (state (snd st1) =? SCE_CSHARP_DEFAULT); [|reflexivity].
  destruct (default_state d st1) as [st2 []]; reflexivity.
Qed.

(** The front part of an iteration keeps a count that is not negative
    so, and stores no line state. *)
Lemma loop_front_paren st :
  0 <= parenCount (fst st) ->
  0 <= parenCount (fst (fst (loop_front kw task d st)))
  /\ lineStates (snd (fst (loop_front kw task d st))) = lineStates (snd st).
Proof.
  intro H. unfold loop_front.
  pose proof (keeps_switch_state st) as [K1 K2].
  destruct (switch_state kw task d st) as [st1 []]; cbn [fst snd] in *;
    [|split; [lia | exact K2]].
  destruct (state (snd st1) =? SCE_CSHARP_DEFAULT);
    [|cbn [fst snd]; split; [lia | exact K2]].
  split.
  - apply paren_default_state. lia.
  - rewrite lineStates_default_state. exact K2.
Qed.

(** The end of the loop body stores the state of the current line at a
    line end, packed from the locals it is entered with, and nothing
    else. *)
Lemma body_end_stores l sc ln :
  lineStates (snd (body_end d (l, sc))) ln
  = if atLineEnd sc && (ln =? currentLine sc) then packLineState l
    else lineStates sc ln.
Proof.
  unfold body_end, line_end.
  match goal with
  | |- context [if atLineEnd sc then (_, SC.SetLineState _ (packLineState ?t) sc) else _] =>
      assert (Hp : packLineState t = packLineState l) by (split_tests; reflexivity);
      rewrite Hp
  end.
  destruct (atLineEnd sc); cbn; autorewrite with scdb; cbn; [|reflexivity].
  unfold setAt. reflexivity.
Qed.

(** What one iteration stores. *)
Lemma loop_body_stores st ln :
  0 <= parenCount (fst st) ->
  lineStates (snd (loop_body kw task d st)) ln = lineStates (snd st) ln
  \/ exists l sc,
       loop_front kw task d st = ((l, sc), Break)
       /\ atLineEnd sc = true /\ currentLine sc = ln
       /\ 0 <= parenCount l
       /\ lineStates (snd (loop_body kw task d st)) ln = packLineState l.
Proof.
  intro H. rewrite loop_body_front.
  pose proof (loop_front_paren st H) as [P K].
  destruct (loop_front kw task d st) as [[l sc] []]; cbn [fst snd] in P, K.
  - rewrite body_end_stores.
    destruct (atLineEnd sc) eqn:Ee; [|left; exact (f_equal (fun g => g ln) K)].
    destruct (Z.eqb_spec ln (currentLine sc)) as [->|Hne].
    + right. exists l, sc. auto.
    + left. exact (f_equal (fun g => g ln) K).
  - left. exact (f_equal (fun g => g ln) K).
Qed.

(** What a run of the loop stores. *)
Lemma lex_loop_stores :
  forall fuel st st',
    0 <= parenCount (fst st) ->
    lex_loop kw task d fuel st = Some st' ->
    forall ln,
      lineStates (snd st') ln = lineStates (snd st) ln
      \/ exists l, storesLine kw task d st ln l /\ 0 <= parenCount l
                   /\ lineStates (snd st') ln = packLineState l.
Proof.
  induction fuel as [|fuel IH]; intros st st' H E ln; cbn [lex_loop] in E.
  - destruct (SC.More (snd st)); [discriminate|]. injection E as <-. left. reflexivity.
  - destruct (SC.More (snd st)) eqn:Hm; [|injection E as <-; left; reflexivity].
    destruct (IH _ _ (proj1 (loop_body_paren st H)) E ln)
      as [Hs|[l [[m [sc [M1 [M2 [M3 M4]]]]] [Hinv Hs]]]].
    + destruct (loop_body_stores st ln H) as [Hk|[l [sc [F1 [F2 [F3 [F4 F5]]]]]]].
      * left. congruence.
      * right. exists l. split; [|split].
        -- exists 0%nat, sc. cbn [Nat.iter nat_rect]. repeat split; try assumption.
           intros i Hle. replace i with 0%nat by lia. exact Hm.
        -- exact F4.
        -- congruence.
    + right. exists l. split; [|split; assumption].
      exists (S m), sc. rewrite Nat.iter_succ_r. repeat split; try assumption.
      intros [|i] Hle; [exact Hm|]. rewrite Nat.iter_succ_r. apply M1. lia.
Qed.

(** The count at every iteration of a run. *)
Lemma iter_paren st m :
  0 <= parenCount (fst st) ->
  0 <= parenCount (fst (Nat.iter m (loop_body kw task d) st)).
Proof.
  intro H. induction m as [|m IH]; [exact H|].
  rewrite Nat.iter_succ. exact (proj1 (loop_body_paren _ IH)).
Qed.

End Arms.
End ParenCS.

Module ParenVB.
Import VB.

Lemma vb_keeps_refl st : keeps st st.
Proof. repeat split. Qed.

Lemma vb_keeps_trans a b c : keeps a b -> keeps b c -> keeps a c.
Proof. intros [H1 [H2 H3]] [H4 [H5 H6]]. repeat split; congruence. Qed.

Ltac keeps_auto :=
  split_tests; repeat split; cbn; autorewrite with scdb; reflexivity.

Section Arms.
Variable language : Language.
Variable kw : LexerWordList.
Variable d : Doc.

Lemma vb_keeps_classifyWord s skipType len cNext kwPrev st :
  keeps st (classifyWord language kw s skipType len cNext kwPrev st).
Proof. destruct st as [l sc]. unfold classifyWord, keywordHint. keeps_auto. Qed.

Lemma keeps_identifier_word s skipType st :
  keeps st (fst (identifier_word language kw d s skipType st)).
Proof.
  destruct st as [l sc]. unfold identifier_word. cbv zeta.
  destruct (StrEqual s "rem"); [repeat split|].
  destruct (byteAt s 0 =? HASH); [keeps_auto|].
  destruct (kw_eqb (kwType l) KwPreprocessor); [keeps_auto|].
  destruct (negb (byteAt s 0 =? LBRACKET)).
  - match goal with
    | |- context [classifyWord language kw s ?a ?b ?c ?e ?x] =>
        pose proof (vb_keeps_classifyWord s a b c e x) as H;
        destruct (classifyWord language kw s a b c e x) as [l1 sc1]
    end.
    eapply vb_keeps_trans; [|eapply vb_keeps_trans; [exact H|]]; [repeat split|].
    keeps_auto.
  - keeps_auto.
Qed.

Lemma vb_keeps_arm_identifier st : keeps st (fst (arm_identifier language kw d st)).
Proof.
  destruct st as [l sc]. unfold arm_identifier.
  destruct (negb (IsIdentifierCharEx (ch sc))); [|apply vb_keeps_refl].
  cbv zeta.
  destruct ((ch sc =? RBRACKET) || _).
  - eapply vb_keeps_trans; [|apply keeps_identifier_word].
    repeat split; cbn; autorewrite with scdb; reflexivity.
  - apply keeps_identifier_word.
Qed.

Lemma keeps_simple_arms st :
  keeps st (fst (arm_comment language d st))
  /\ keeps st (fst (arm_filenumber st))
  /\ keeps st (fst (arm_date d st))
  /\ keeps st (fst (arm_format st))
  /\ keeps st (fst (arm_number language d st)).
Proof.
  destruct st as [l sc].
  unfold arm_comment, arm_filenumber, arm_date, arm_format, arm_number.
  repeat split; split_tests; cbn; autorewrite with scdb; reflexivity.
Qed.

(** The string arm: a hole that opens counts one more, a hole that
    closes counts one less. *)
Lemma depth_arm_string st :
  depth_ok (fst st) ->
  depth_ok (fst (fst (arm_string language d st)))
  /\ lineStates (snd (fst (arm_string language d st))) = lineStates (snd st).
Proof.
  destruct st as [l sc]. unfold depth_ok. cbn [fst snd]. intro H.
  unfold arm_string.
  destruct (nestedState l) as [|top rest] eqn:En;
    split_tests; cbn [fst snd nestedState parenCount set_nestedState set_parenCount
                      set_chPrevNonWhite];
    autorewrite with scdb; rewrite ?En; cbn [List.length] in *; split;
    try reflexivity; lia.
Qed.

Lemma depth_switch_state st :
  depth_ok (fst st) ->
  depth_ok (fst (fst (switch_state language kw d st)))
  /\ lineStates (snd (fst (switch_state language kw d st))) = lineStates (snd st).
Proof.
  intro H.
  assert (K : forall st', keeps st st' ->
            depth_ok (fst st') /\ lineStates (snd st') = lineStates (snd st)).
  { intros st' [K1 [K2 K3]]. unfold depth_ok in *. rewrite K1, K2. auto. }
  pose proof (keeps_simple_arms st) as [Kc [Kf [Kd [Kfm Kn]]]].
  destruct st as [l sc]. unfold switch_state.
  destruct (_ || _ || _); [apply K; repeat split|].
  destruct (_ =? SCE_VB_IDENTIFIER); [apply K, vb_keeps_arm_identifier|].
  destruct (_ =? SCE_VB_NUMBER); [apply K, Kn|].
  destruct (_ || _); [apply depth_arm_string; exact H|].
  destruct (_ =? SCE_VB_COMMENTLINE); [apply K, Kc|].
  destruct (_ =? SCE_VB_FILENUMBER); [apply K, Kf|].
  destruct (_ =? SCE_VB_DATE); [apply K, Kd|].
  destruct (_ =? SCE_VB_FORMAT_SPECIFIER); [apply K, Kfm|].
  apply K, vb_keeps_refl.
Qed.

(** Outside a hole a closing paren at depth zero leaves the count at
    zero; inside a hole the parens count in the top of the stack. *)
Lemma depth_default_state st :
  depth_ok (fst st) ->
  depth_ok (fst (fst (default_state language d st)))
  /\ lineStates (snd (fst (default_state language d st))) = lineStates (snd st).
Proof.
  destruct st as [l sc]. unfold depth_ok. cbn [fst snd]. intro H.
  unfold default_state, default_operator.
  destruct (nestedState l) as [|top rest] eqn:En.
  - destruct (Z.ltb_spec 0 (parenCount l));
      rewrite ?Bool.andb_false_r, ?Bool.andb_true_r;
      split_tests; cbn [fst snd nestedState parenCount set_nestedState set_parenCount
                        set_lineState set_fileNbDigits set_chBefore];
      autorewrite with scdb; rewrite ?En; cbn [List.length] in *; split;
      try reflexivity; lia.
  - split_tests; cbn [fst snd nestedState parenCount set_nestedState set_parenCount
                      set_lineState set_fileNbDigits set_chBefore];
      autorewrite with scdb; rewrite ?En; cbn [List.length] in *; split;
      try reflexivity; lia.
Qed.

Lemma depth_body_end l sc :
  depth_ok l -> depth_ok (fst (body_end d (l, sc))).
Proof.
  unfold depth_ok, body_end, line_end. intro H. split_tests; exact H.
Qed.

Lemma vb_lineStates_body_end l sc ln :
  lineStates (snd (body_end d (l, sc))) ln = lineStates sc ln
  \/ exists l', parenCount l' = parenCount l /\ nestedState l' = nestedState l
               /\ lineStates (snd (body_end d (l, sc))) ln = packLineState l'.
Proof.
  unfold body_end, line_end.
  destruct (atLineEnd sc).
  - match goal with
    | |- context [packLineState ?t] =>
        assert (Hp : parenCount t = parenCount l /\ nestedState t = nestedState l)
          by (split_tests; split; reflexivity);
        revert Hp; generalize t; intros l1 [Hp Hn]
    end.
    cbn. autorewrite with scdb. cbn. unfold setAt.
    destruct (ln =? currentLine sc); [right; exists l1; auto | left; reflexivity].
  - left. cbn. autorewrite with scdb. reflexivity.
Qed.

Lemma loop_body_depth st :
  depth_ok (fst st) ->
  depth_ok (fst (loop_body language kw d st))
  /\ forall ln,
       lineStates (snd (loop_body language kw d st)) ln = lineStates (snd st) ln
       \/ exists l', depth_ok l'
                    /\ lineStates (snd (loop_body language kw d st)) ln = packLineState l'.
Proof.
  intro H. unfold loop_body.
  pose proof (depth_switch_state st H) as [K1 K2].
  destruct (switch_state language kw d st) as [[l1 sc1] c1]. cbn [fst snd] in K1, K2.
  assert (Hend : forall l2 sc2, depth_ok l2 -> lineStates sc2 = lineStates (snd st) ->
            depth_ok (fst (body_end d (l2, sc2)))
            /\ forall ln,
                 lineStates (snd (body_end d (l2, sc2))) ln = lineStates (snd st) ln
                 \/ exists l', depth_ok l'
                      /\ lineStates (snd (body_end d (l2, sc2))) ln = packLineState l').
  { intros l2 sc2 Hl2 Hs2. split.
    - apply depth_body_end. exact Hl2.
    - intro ln. destruct (vb_lineStates_body_end l2 sc2 ln) as [E|[l' [E1 [E2 E3]]]].
      + left. rewrite E, Hs2. reflexivity.
      + right. exists l'. split; [|exact E3].
        unfold depth_ok in *. rewrite E1, E2. exact Hl2. }
  destruct c1.
  - destruct (state (snd (l1, sc1)) =? SCE_VB_DEFAULT).
    + pose proof (depth_default_state (l1, sc1) K1) as [P2 L2].
      destruct (default_state language d (l1, sc1)) as [[l2 sc2] c2].
      cbn [fst snd] in P2, L2.
      destruct c2.
      * apply Hend; [exact P2 | congruence].
      * cbn [fst snd]. split; [exact P2|]. intro ln. left. congruence.
    + apply Hend; [exact K1 | exact K2].
  - cbn [fst snd]. split; [exact K1|]. intro ln. left. congruence.
Qed.

(** The front part of an iteration keeps the count at or above the
    number of open holes. *)
Lemma loop_front_depth st :
  depth_ok (fst st) -> depth_ok (fst (fst (loop_front language kw d st))).
Proof.
  intro H. unfold loop_front.
  pose proof (depth_switch_state st H) as [K1 K2].
  destruct (switch_state language kw d st) as [st1 []]; cbn [fst snd] in *;
    [|exact K1].
  destruct (state (snd st1) =? SCE_VB_DEFAULT); [|exact K1].
  exact (proj1 (depth_default_state st1 K1)).
Qed.

Lemma loop_body_depth_inv st :
  depth_ok (fst st) -> depth_ok (fst (loop_body language kw d st)).
Proof. intro H. exact (proj1 (loop_body_depth st H)). Qed.

Lemma iter_depth st m :
  depth_ok (fst st) ->
  depth_ok (fst (Nat.iter m (loop_body language kw d) st)).
Proof.
  intro H. induction m as [|m IH]; [exact H|].
  rewrite Nat.iter_succ. apply loop_body_depth_inv. exact IH.
Qed.

(** A closing brace that leaves a hole takes one off the count, which
    covered the hole. *)
Lemma depth_hole_close l sc top rest :
  depth_ok l ->
  nestedState l = top :: rest ->
  state sc = SCE_VB_INTERPOLATED_STRING ->
  ch sc = RBRACE ->
  atLineStart sc && negb (lang_eqb language VBNET) = false ->
  parenCount (fst (fst (arm_string language d (l, sc)))) = parenCount l - 1
  /\ nestedState (fst (fst (arm_string language d (l, sc)))) = rest
  /\ 0 <= parenCount l - 1.
Proof.
  unfold depth_ok. intros H Hn Hs Hc Hg. unfold arm_string.
  rewrite Hg, Hc, Hs, Hn. eval_tests. cbn [fst snd parenCount nestedState
    set_nestedState set_parenCount].
  rewrite Hn in H. cbn [List.length] in H. repeat split; lia.
Qed.

End Arms.
End ParenVB.

(** ** The packed line state of LangB (C4) *)


(** C4, as stated, fails: the line [Type Foo] has the line type 4, and
    the state stored for it is 4, whose bits 0 and 1 are 0. *)
Lemma line_type_not_in_two_bits :
  lineStatesOf (fullLexVB VB.VBA vbKeywords docType 40) 0 1
    = Some [VB.VBLineType_VB6TypeLine]
  /\ Z.land VB.VBLineType_VB6TypeLine 3 <> VB.VBLineType_VB6TypeLine.
Proof. split; [vm_compute; reflexivity | vm_compute; discriminate]. Qed.

Module LineTypeVB.
Import VB.

Lemma lineType_lor v : lineType_ok v -> lineType_ok (Z.lor v VBLineStateLineContinuation).
Proof.
  unfold lineType_ok. intro H.
  repeat (destruct H as [<-|H]; [vm_compute; tauto|]). destruct H.
Qed.

Lemma lineType_land x : lineType_ok (Z.land x VBLineStateLineContinuation).
Proof.
  change VBLineStateLineContinuation with (2 ^ 3).
  rewrite land_pow2 by lia. destruct (Z.testbit x 3); vm_compute; tauto.
Qed.

Lemma keepsL_refl st : keeps_lineType st st.
Proof. split; auto. Qed.

Lemma keepsL_trans a b c : keeps_lineType a b -> keeps_lineType b c -> keeps_lineType a c.
Proof. intros [H1 H2] [H3 H4]. split; [auto | congruence]. Qed.

Ltac lt_auto :=
  split_tests; (split; [intro|]); cbn; autorewrite with scdb;
  first [ reflexivity | assumption | apply lineType_lor; assumption
        | apply lineType_land | (vm_compute; tauto) ].

Section Arms.
Variable language : Language.
Variable kw : LexerWordList.
Variable d : Doc.

Lemma keepsL_classifyWord s skipType len cNext kwPrev st :
  keeps_lineType st (classifyWord language kw s skipType len cNext kwPrev st).
Proof. destruct st as [l sc]. unfold classifyWord, keywordHint. lt_auto. Qed.

Lemma keepsL_identifier_word s skipType st :
  keeps_lineType st (fst (identifier_word language kw d s skipType st)).
Proof.
  destruct st as [l sc]. unfold identifier_word. cbv zeta.
  destruct (StrEqual s "rem"); [split; auto|].
  destruct (byteAt s 0 =? HASH); [lt_auto|].
  destruct (kw_eqb (kwType l) KwPreprocessor); [lt_auto|].
  destruct (negb (byteAt s 0 =? LBRACKET)).
  - match goal with
    | |- context [classifyWord language kw s ?a ?b ?c ?e ?x] =>
        pose proof (keepsL_classifyWord s a b c e x) as H;
        destruct (classifyWord language kw s a b c e x) as [l1 sc1]
    end.
    eapply keepsL_trans; [|eapply keepsL_trans; [exact H|]]; [split; auto|].
    lt_auto.
  - lt_auto.
Qed.

Lemma keepsL_arm_identifier st :
  keeps_lineType st (fst (arm_identifier language kw d st)).
Proof.
  destruct st as [l sc]. unfold arm_identifier.
  destruct (negb (IsIdentifierCharEx (ch sc))); [|apply keepsL_refl].
  cbv zeta.
  destruct ((ch sc =? RBRACKET) || _).
  - eapply keepsL_trans; [|apply keepsL_identifier_word].
    split; [auto | cbn; autorewrite with scdb; reflexivity].
  - apply keepsL_identifier_word.
Qed.

Lemma keepsL_switch_state st :
  keeps_lineType st (fst (switch_state language kw d st)).
Proof.
  destruct st as [l sc]. unfold switch_state.
  destruct (_ || _ || _); [split; auto|].
  destruct (_ =? SCE_VB_IDENTIFIER); [apply keepsL_arm_identifier|].
  destruct (_ =? SCE_VB_NUMBER); [unfold arm_number; lt_auto|].
  destruct (_ || _); [unfold arm_string; lt_auto|].
  destruct (_ =? SCE_VB_COMMENTLINE); [unfold arm_comment; lt_auto|].
  destruct (_ =? SCE_VB_FILENUMBER); [unfold arm_filenumber; lt_auto|].
  destruct (_ =? SCE_VB_DATE); [unfold arm_date; lt_auto|].
  destruct (_ =? SCE_VB_FORMAT_SPECIFIER); [unfold arm_format; lt_auto|].
  apply keepsL_refl.
Qed.

Lemma keepsL_default_state st :
  keeps_lineType st (fst (default_state language d st)).
Proof.
  destruct st as [l sc]. unfold default_state, default_operator. lt_auto.
Qed.

(** The end of the loop body writes at most the state of the current
    line, packed from locals whose [lineState] is a line type with or
    without the continuation bit. *)
Lemma keepsL_body_end l sc :
  lineType_ok (lineState l) ->
  lineType_ok (lineState (fst (body_end d (l, sc))))
  /\ forall ln,
       lineStates (snd (body_end d (l, sc))) ln = lineStates sc ln
       \/ exists l', lineType_ok (lineState l')
                    /\ lineStates (snd (body_end d (l, sc))) ln = packLineState l'.
Proof.
  intro H. unfold body_end, line_end.
  match goal with
  | |- context [if atLineEnd sc then (_, SC.SetLineState _ (packLineState ?t) sc) else _] =>
      assert (Hp : lineType_ok (lineState t)) by (split_tests; exact H);
      revert Hp; generalize t; intros l1 Hp
  end.
  destruct (atLineEnd sc).
  - split.
    + cbn. apply lineType_land.
    + intro ln. cbn. autorewrite with scdb. cbn. unfold setAt.
      destruct (ln =? currentLine sc); [right; exists l1; auto | left; reflexivity].
  - split; [exact Hp|]. intro ln. left. cbn. autorewrite with scdb. reflexivity.
Qed.

Lemma loop_body_lineType st :
  lineType_ok (lineState (fst st)) ->
  lineType_ok (lineState (fst (loop_body language kw d st)))
  /\ storedBy packLineState (fun l => lineType_ok (lineState l))
       (lineStates (snd st)) (lineStates (snd (loop_body language kw d st))).
Proof.
  intro H. unfold loop_body.
  pose proof (keepsL_switch_state st) as [K1 K2]. specialize (K1 H).
  destruct (switch_state language kw d st) as [[l1 sc1] c1]. cbn [fst snd] in K1, K2.
  assert (Hend : forall l2 sc2, lineType_ok (lineState l2) ->
            lineStates sc2 = lineStates (snd st) ->
            lineType_ok (lineState (fst (body_end d (l2, sc2))))
            /\ storedBy packLineState (fun l => lineType_ok (lineState l))
                 (lineStates (snd st)) (lineStates (snd (body_end d (l2, sc2))))).
  { intros l2 sc2 Hl2 Hs2.
    destruct (keepsL_body_end l2 sc2 Hl2) as [E1 E2]. split; [exact E1|].
    intro ln. rewrite <- Hs2. apply E2. }
  destruct c1.
  - destruct (state (snd (l1, sc1)) =? SCE_VB_DEFAULT).
    + pose proof (keepsL_default_state (l1, sc1)) as [P2 L2]. specialize (P2 K1).
      destruct (default_state language d (l1, sc1)) as [[l2 sc2] c2].
      cbn [fst snd] in P2, L2.
      destruct c2.
      * apply Hend; [exact P2 | congruence].
      * cbn [fst snd]. split; [exact P2|]. intro ln. left. congruence.
    + apply Hend; [exact K1 | exact K2].
  - cbn [fst snd]. split; [exact K1|]. intro ln. left. congruence.
Qed.

(** An iteration is its front part and, after [Break], the end of the
    loop body. *)
Lemma vb_loop_body_front st :
  loop_body language kw d st
  = match loop_front language kw d st with
    | (st2, Break) => body_end d st2
    | (st2, Continue) => st2
    end.
Proof.
  unfold loop_body, loop_front.
  destruct (switch_state language kw d st) as [st1 []]; [|reflexivity].
  destruct (state (snd st1) =? SCE_VB_DEFAULT); [|reflexivity].
  destruct (default_state language d st1) as [st2 []]; reflexivity.
Qed.

Lemma loop_front_lineType st :
  keeps_lineType st (fst (loop_front language kw d st)).
Proof.
  unfold loop_front.
  pose proof (keepsL_switch_state st) as K.
  destruct (switch_state language kw d st) as [st1 []]; cbn [fst] in *; [|exact K].
  destruct (state (snd st1) =? SCE_VB_DEFAULT); [|exact K].
  eapply keepsL_trans; [exact K | apply keepsL_default_state].
Qed.

(** The end of the loop body stores the state of the current line at a
    line end, packed from the locals it is entered with, and nothing
    else. *)
Lemma vb_body_end_stores l sc ln :
  lineStates (snd (body_end d (l, sc))) ln
  = if atLineEnd sc && (ln =? currentLine sc) then packLineState l
    else lineStates sc ln.
Proof.
  unfold body_end, line_end.
  match goal with
  | |- context [if atLineEnd sc then (_, SC.SetLineState _ (packLineState ?t) sc) else _] =>
      assert (Hp : packLineState t = packLineState l) by (split_tests; reflexivity);
      rewrite Hp
  end.
  destruct (atLineEnd sc); cbn; autorewrite with scdb; cbn; [|reflexivity].
  unfold setAt. reflexivity.
Qed.

(** What one iteration stores. *)
Lemma vb_loop_body_stores st ln :
  lineStates (snd (loop_body language kw d st)) ln = lineStates (snd st) ln
  \/ exists l sc,
       loop_front language kw d st = ((l, sc), Break)
       /\ atLineEnd sc = true /\ currentLine sc = ln
       /\ lineStates (snd (loop_body language kw d st)) ln = packLineState l.
Proof.
  rewrite vb_loop_body_front.
  pose proof (loop_front_lineType st) as [_ K].
  destruct (loop_front language kw d st) as [[l sc] []]; cbn [fst snd] in K.
  - rewrite vb_body_end_stores.
    destruct (atLineEnd sc) eqn:Ee; [|left; exact (f_equal (fun g => g ln) K)].
    destruct (Z.eqb_spec ln (currentLine sc)) as [->|Hne].
    + right. exists l, sc. auto.
    + left. exact (f_equal (fun g => g ln) K).
  - left. exact (f_equal (fun g => g ln) K).
Qed.

(** What a run of the loop stores, for locals that keep [inv]. *)
Lemma vb_lex_loop_stores (inv : Locals -> Prop) :
  (forall st, inv (fst st) -> inv (fst (fst (loop_front language kw d st)))) ->
  (forall st, inv (fst st) -> inv (fst (loop_body language kw d st))) ->
  forall fuel st st',
    inv (fst st) ->
    lex_loop language kw d fuel st = Some st' ->
    forall ln,
      lineStates (snd st') ln = lineStates (snd st) ln
      \/ exists l, storesLine language kw d st ln l /\ inv l
                   /\ lineStates (snd st') ln = packLineState l.
Proof.
  intros Hfront Hbody.
  induction fuel as [|fuel IH]; intros st st' H E ln; cbn [lex_loop] in E.
  - destruct (SC.More (snd st)); [discriminate|]. injection E as <-. left. reflexivity.
  - destruct (SC.More (snd st)) eqn:Hm; [|injection E as <-; left; reflexivity].
    destruct (IH _ _ (Hbody st H) E ln) as [Hs|[l [[m [sc [M1 [M2 [M3 M4]]]]] [Hinv Hs]]]].
    + destruct (vb_loop_body_stores st ln) as [Hk|[l [sc [F1 [F2 [F3 F4]]]]]].
      * left. congruence.
      * right. exists l. split; [|split].
        -- exists 0%nat, sc. cbn [Nat.iter nat_rect]. repeat split; try assumption.
           intros i Hle. replace i with 0%nat by lia. exact Hm.
        -- specialize (Hfront st H). rewrite F1 in Hfront. exact Hfront.
        -- congruence.
    + right. exists l. split; [|split; assumption].
      exists (S m), sc. rewrite Nat.iter_succ_r. repeat split; try assumption.
      intros [|i] Hle; [exact Hm|]. rewrite Nat.iter_succ_r. apply M1. lia.
Qed.

(** Every line end that a run reaches stores the packed locals. *)
Lemma line_end_stores st l sc :
  loop_front language kw d st = ((l, sc), Break) ->
  atLineEnd sc = true ->
  lineStates (snd (loop_body language kw d st)) (currentLine sc) = packLineState l.
Proof.
  intros F E. rewrite vb_loop_body_front, F, vb_body_end_stores, E, Z.eqb_refl. reflexivity.
Qed.

Lemma loop_body_lineType_inv st :
  lineType_ok (lineState (fst st)) ->
  lineType_ok (lineState (fst (loop_body language kw d st))).
Proof. intro H. exact (proj1 (loop_body_lineType st H)). Qed.

Lemma lex_init_lineType startPos lengthDoc initStyle st ls :
  lineType_ok (lineState (fst (lex_init d startPos lengthDoc initStyle st ls)))
  /\ lineStates (snd (lex_init d startPos lengthDoc initStyle st ls)) = ls.
Proof.
  unfold lex_init.
  destruct (if negb (startPos =? 0)
            then BacktrackToStart d st ls VBLineStateStringInterpolation
                   startPos lengthDoc initStyle
            else (startPos, lengthDoc, initStyle)) as [[sp len] sty].
  split_tests; cbn; autorewrite with scdb; split; try reflexivity;
    first [apply lineType_land | (vm_compute; tauto)].
Qed.

End Arms.
End LineTypeVB.

Lemma packLineState_layout l :
  VB.lineType_ok (VB.lineState l) ->
  0 <= Z.land (VB.lineState l) 7 <= 4
  /\ VB.layout (VB.packLineState l)
       (Z.land (VB.lineState l) 7) (Z.testbit (VB.lineState l) 3)
       (match VB.nestedState l with [] => false | _ => true end)
       (VB.parenCount l).
Proof.
  intro H. unfold VB.packLineState.
  set (a := VB.lineStateAtEnd l).
  set (p := VB.parenCount l).
  assert (Hbit : forall n, 0 <= n < 32 ->
            Z.testbit (wrap32 (Z.lor a (Z.shiftl p 16))) n
            = Z.testbit a n || Z.testbit p (n - 16)).
  { intros n Hn. rewrite testbit_wrap32 by lia. apply testbit_lor_shiftl. lia. }
  assert (Hlow : forall n, 0 <= n < 16 ->
            Z.testbit (wrap32 (Z.lor a (Z.shiftl p 16))) n = Z.testbit a n).
  { intros n Hn. rewrite Hbit by lia. rewrite (Z.testbit_neg_r p) by lia.
    apply Bool.orb_false_r. }
  assert (Ha : (a = VB.lineState l /\ VB.nestedState l = [])
               \/ (a = Z.lor (VB.lineState l) 16 /\ VB.nestedState l <> [])).
  { unfold a, VB.lineStateAtEnd. destruct (VB.nestedState l);
      [left; auto | right; split; [reflexivity | discriminate]]. }
  assert (Hcases : 0 <= a < 32
            /\ Z.land a 7 = Z.land (VB.lineState l) 7
            /\ 0 <= Z.land (VB.lineState l) 7 <= 4
            /\ Z.testbit a 3 = Z.testbit (VB.lineState l) 3
            /\ Z.testbit a 4 = match VB.nestedState l with [] => false | _ => true end).
  { unfold VB.lineType_ok in H.
    destruct Ha as [[-> Hn]|[-> Hn]];
      destruct (VB.nestedState l) eqn:En; try congruence; clear Hn;
      repeat (destruct H as [<-|H]; [vm_compute; intuition congruence|]);
      destruct H. }
  destruct Hcases as [Hr [H7 [Ht [H3 H4]]]].
  split; [exact Ht|].
  unfold VB.layout. repeat split.
  - rewrite <- H7. apply land_low3. intros n Hn. apply Hlow. lia.
  - rewrite Hlow by lia. exact H3.
  - rewrite Hlow by lia. exact H4.
  - intros n Hn. rewrite Hlow by lia. apply testbit_small; lia.
  - intros n Hn. rewrite Hbit by lia.
    rewrite (testbit_small a (16 + n)) by lia.
    replace (16 + n - 16) with n by lia. reflexivity.
Qed.

(** C4, amended.  In a call of the LangB lexer, every line state that
    the call has stored is the one stored at the end of that line by
    an iteration of the run, from the locals of the lexer at that
    point: it holds their line type (0 none, 1 comment, 2 dim, 3 const,
    4 type) in bits 0 to 2, their continuation flag in bit 3, the
    interpolation flag (their nested stack is not empty) in bit 4,
    zeros in bits 5 to 15, and the low 16 bits of their paren count in
    bits 16 to 31.  And every iteration of a run that reaches the end
    of the loop body at a line end stores such a state for its line. *)
Theorem vb_line_state_layout :
  forall lang kw d fuel startPos lengthDoc initStyle st ls r,
    VB.ColouriseVBDoc lang kw d fuel startPos lengthDoc initStyle st ls = Some r ->
    let st0 := VB.lex_init d startPos lengthDoc initStyle st ls in
    (forall ln,
       snd r ln = ls ln
       \/ exists l,
            VB.storesLine lang kw d st0 ln l
            /\ snd r ln = VB.packLineState l
            /\ 0 <= Z.land (VB.lineState l) 7 <= 4
            /\ VB.layout (snd r ln)
                 (Z.land (VB.lineState l) 7) (Z.testbit (VB.lineState l) 3)
                 (match VB.nestedState l with [] => false | _ => true end)
                 (VB.parenCount l))
    /\ (forall m l sc,
          VB.loop_front lang kw d (Nat.iter m (VB.loop_body lang kw d) st0)
            = ((l, sc), VB.Break) ->
          atLineEnd sc = true ->
          lineStates (snd (Nat.iter (S m) (VB.loop_body lang kw d) st0)) (currentLine sc)
            = VB.packLineState l
          /\ 0 <= Z.land (VB.lineState l) 7 <= 4
          /\ VB.layout (VB.packLineState l)
               (Z.land (VB.lineState l) 7) (Z.testbit (VB.lineState l) 3)
               (match VB.nestedState l with [] => false | _ => true end)
               (VB.parenCount l)).
Proof.
  intros lang kw d fuel startPos lengthDoc initStyle st ls r Hr st0.
  destruct (LineTypeVB.lex_init_lineType d startPos lengthDoc initStyle st ls) as [I1 I2].
  fold st0 in I1, I2.
  assert (Hfront : forall s, VB.lineType_ok (VB.lineState (fst s)) ->
            VB.lineType_ok (VB.lineState (fst (fst (VB.loop_front lang kw d s))))).
  { intros s Hs. exact (proj1 (LineTypeVB.loop_front_lineType lang kw d s) Hs). }
  split.
  - intro ln. unfold VB.ColouriseVBDoc in Hr. fold st0 in Hr.
    destruct (VB.lex_loop lang kw d fuel st0) as [[l' sc']|] eqn:E; [|discriminate].
    injection Hr as <-. cbn [snd].
    destruct (LineTypeVB.vb_lex_loop_stores lang kw d
                (fun l => VB.lineType_ok (VB.lineState l)) Hfront
                (LineTypeVB.loop_body_lineType_inv lang kw d) fuel st0 (l', sc') I1 E ln)
      as [Hs|[l [Hst [Hok Hs]]]].
    + left. cbn [snd] in Hs. rewrite Hs, I2. reflexivity.
    + right. cbn [snd] in Hs. exists l. split; [exact Hst|]. split; [exact Hs|].
      rewrite Hs. apply packLineState_layout. exact Hok.
  - intros m l sc F Ee.
    assert (Hm : VB.lineType_ok
                   (VB.lineState (fst (Nat.iter m (VB.loop_body lang kw d) st0)))).
    { clear F. induction m as [|m IH]; [exact I1|].
      rewrite Nat.iter_succ. apply LineTypeVB.loop_body_lineType_inv. exact IH. }
    split.
    + rewrite Nat.iter_succ. apply LineTypeVB.line_end_stores; assumption.
    + apply packLineState_layout.
      specialize (Hfront _ Hm). rewrite F in Hfront. exact Hfront.
Qed.

Lemma vb_line_state_layout_witness :
  exists l,
    VB.storesLine VB.VBA vbKeywords docType
      (VB.lex_init docType 0 (docLen docType) VB.SCE_VB_DEFAULT (fun _ => 0) (fun _ => 0))
      0 l
    /\ snd (resultOr (fullLexVB VB.VBA vbKeywords docType 40)) 0 = VB.packLineState l
    /\ 0 <= Z.land (VB.lineState l) 7 <= 4
    /\ VB.layout (snd (resultOr (fullLexVB VB.VBA vbKeywords docType 40)) 0)
         (Z.land (VB.lineState l) 7) (Z.testbit (VB.lineState l) 3)
         (match VB.nestedState l with [] => false | _ => true end)
         (VB.parenCount l).
Proof.
  destruct (proj1 (vb_line_state_layout VB.VBA vbKeywords docType 40 0 (docLen docType)
              VB.SCE_VB_DEFAULT (fun _ => 0) (fun _ => 0)
              (resultOr (fullLexVB VB.VBA vbKeywords docType 40))
              ltac:(vm_compute; reflexivity)) 0) as [H|H].
  - vm_compute in H. discriminate H.
  - exact H.
Defined.
(** ** A single-line If ... Then in the LangB folder (C7) *)
Module FoldVB.
Import VB.








Section Steps.
Variable d : Doc.
Variable st : Styles.
Variable ls : LineStates.
Variable endPos : Z.






End Steps.




End FoldVB.



(** The whole line of scenario g, lexed and folded: the level stored
    for it is the base level with no header flag. *)
Lemma if_then_else_line_no_header :
  option_map (fun lv => lv 0) (lexFoldVB VB.VBNET vbKeywords docIfThen 100)
  = Some (VB.packLevel SC_FOLDLEVELBASE SC_FOLDLEVELBASE)
  /\ Z.land (VB.packLevel SC_FOLDLEVELBASE SC_FOLDLEVELBASE) SC_FOLDLEVELHEADERFLAG = 0.
Proof. split; vm_compute; reflexivity. Qed.

(** ** Opening an expression hole (C3) *)


(** C3, as stated, fails: in the plain interpolated string [$"{{x"] the
    interpolator count is 1 and the run of two braces is an escape,
    styled escape-char; no hole opens and the line state has no
    interpolation bit. *)
Lemma brace_run_is_escape :
  stylesOf (fullLexCSharp noKeywords noTaskMarker docBraces 40) 2 2
    = Some [CSharp.SCE_CSHARP_ESCAPECHAR; CSharp.SCE_CSHARP_ESCAPECHAR]
  /\ CSharp.SCE_CSHARP_ESCAPECHAR <> CSharp.SCE_CSHARP_OPERATOR2
  /\ option_map (map (fun v => Z.land v CSharp.CSharpLineStateMaskInterpolation))
       (lineStatesOf (fullLexCSharp noKeywords noTaskMarker docBraces 40) 0 1)
     = Some [0].
Proof. repeat split; try (vm_compute; reflexivity). vm_compute; discriminate. Qed.

(** C3, amended.  Inside an interpolated string whose interpolator
    count is [n >= 1], at an opening brace that starts a run of [r >= n]
    braces (in a plain, that is not raw, interpolated string: at a
    brace that no brace follows), the lexer pushes the frame of the
    string style, 0, the delimiter count and [n], sets both counters
    to 0 and goes on in the default style after the run; the last [n]
    braces of the run are styled operator-in-interpolation and the
    bytes before them, from the start of the span, keep the string
    style. *)
Theorem interpolation_hole_opens :
  forall kw task d l sc r,
    CSharp.isStringState (state sc) = true ->
    state sc <> CSharp.SCE_CSHARP_CHARACTER ->
    CSharp.IsInterpolatedString (state sc) = true ->
    atLineStart sc && CSharp.IsSingleLineString (state sc) && negb (CSharp.closeBrace l)
      = false ->
    ch sc = LBRACE ->
    r = GetMatchedDelimiterCount d (currentPos sc) LBRACE ->
    1 <= CSharp.stringInterpolatorCount l <= r ->
    (CSharp.IsPlainString (state sc) = true -> chNext sc <> LBRACE) ->
    currentPos sc + r <= endPos sc ->
    exists l' sc',
      CSharp.switch_state kw task d (l, sc) = ((l', sc'), CSharp.Break)
      /\ CSharp.nestedState l'
         = CSharp.mkISS (state sc) 0 (CSharp.stringDelimiterCount l)
             (CSharp.stringInterpolatorCount l) :: CSharp.nestedState l
      /\ CSharp.stringDelimiterCount l' = 0
      /\ CSharp.stringInterpolatorCount l' = 0
      /\ state sc' = CSharp.SCE_CSHARP_DEFAULT
      /\ currentPos sc' = currentPos sc + r
      /\ (forall q, currentPos sc + r - CSharp.stringInterpolatorCount l <= q
                    < currentPos sc + r ->
                    styles sc' q = CSharp.SCE_CSHARP_OPERATOR2)
      /\ (forall q, startSeg sc <= q
                    < currentPos sc + r - CSharp.stringInterpolatorCount l ->
                    styles sc' q = state sc).
Proof.
  intros kw task d l sc r Hstr Hchar Hint Hguard Hch Hr Hn Hplain Hend.
  set (n := CSharp.stringInterpolatorCount l) in *.
  rewrite cs_switch_state_string by exact Hstr.
  unfold CSharp.arm_string. rewrite Hguard.
  unfold CSharp.string_body. rewrite Hch. eval_tests.
  replace (state sc =? CSharp.SCE_CSHARP_CHARACTER) with false
    by (symmetry; apply Z.eqb_neq; exact Hchar).
  cbn [andb negb].
  unfold CSharp.string_lbrace.
  assert (Hesc : (chNext sc =? LBRACE) && CSharp.IsPlainString (state sc) = false).
  { destruct (CSharp.IsPlainString (state sc)) eqn:Ep.
    - rewrite Bool.andb_true_r. apply Z.eqb_neq. apply Hplain. reflexivity.
    - apply Bool.andb_false_r. }
  rewrite Hesc, Hint, <- Hr. fold n.
  replace (n <=? r) with true by lia. rewrite Bool.orb_true_r. cbn [andb].
  (* the steps over the run *)
  destruct (Advance_inside d (r - n) sc) as [A1 [A2 [A3 [A4 A5]]]]; [lia | lia |].
  set (sc1 := SC.Advance d (r - n) sc) in *.
  destruct (SetState_fields CSharp.SCE_CSHARP_OPERATOR2 sc1) as [B1 [B2 [B3 [B4 B5]]]].
  set (sc2 := SC.SetState CSharp.SCE_CSHARP_OPERATOR2 sc1) in *.
  destruct (Advance_inside d (n - 1) sc2) as [C1 [C2 [C3 [C4 C5]]]]; [lia | lia |].
  set (sc3 := SC.Advance d (n - 1) sc2) in *.
  destruct (Forward_inside d sc3) as [D1 [D2 [D3 [D4 D5]]]]; [lia|].
  set (sc4 := SC.Forward d sc3) in *.
  destruct (SetState_fields CSharp.SCE_CSHARP_DEFAULT sc4) as [E1 [E2 [E3 [E4 E5]]]].
  eexists. eexists. split; [reflexivity|].
  unfold SC.ForwardSetState. fold sc4.
  repeat split; try reflexivity.
  - rewrite E1, D1, C1, B1, A1. lia.
  - intros q Hq. rewrite E3, D2, D3, D5, D1, C1, C2, C3, C5, B1, B2, B3, B5, A1.
    unfold setRange at 1.
    replace ((currentPos sc + (r - n) <=? q)
             && (q <? currentPos sc + (r - n) + (n - 1) + 1)) with true by lia.
    reflexivity.
  - intros q Hq. rewrite E3, D2, D3, D5, D1, C1, C2, C3, C5, B1, B2, B3, B5, A1.
    unfold setRange at 1.
    replace ((currentPos sc + (r - n) <=? q)
             && (q <? currentPos sc + (r - n) + (n - 1) + 1)) with false by lia.
    rewrite A2, A3, A5. unfold setRange.
    replace ((startSeg sc <=? q) && (q <? currentPos sc + (r - n))) with true by lia.
    reflexivity.
Qed.

Lemma interpolation_hole_opens_witness :
  ch scRawHole = LBRACE
  /\ exists l' sc',
       CSharp.switch_state noKeywords noTaskMarker docRawHole (localsRawHole, scRawHole)
         = ((l', sc'), CSharp.Break)
       /\ CSharp.nestedState l'
          = [CSharp.mkISS CSharp.SCE_CSHARP_INTERPOLATED_RAWSTRING_SL 0 3 2]
       /\ state sc' = CSharp.SCE_CSHARP_DEFAULT
       /\ currentPos sc' = 8.
Proof.
  split; [reflexivity|].
  destruct (interpolation_hole_opens noKeywords noTaskMarker docRawHole
              localsRawHole scRawHole 2
              eq_refl ltac:(vm_compute; discriminate) eq_refl eq_refl eq_refl eq_refl
              ltac:(vm_compute; split; discriminate)
              ltac:(vm_compute; discriminate)
              ltac:(vm_compute; discriminate))
    as [l' [sc' [H1 [H2 [H3 [H4 [H5 [H6 _]]]]]]]].
  exists l', sc'. repeat split; assumption.
Defined.

(** ** The number sign in LangB (C5) *)



Module HashVB.
Import VB.

Section Steps.
Variable language : Language.
Variable kw : LexerWordList.
Variable d : Doc.











End Steps.
End HashVB.



(** ** The delimiter of a raw string (C2) *)



(** What the guard counts.  Content quotes never raise the count of
    visible bytes: two quotes and a space at the start of the second
    line do not keep the run of three quotes after them from ending
    the multi-line raw string (bytes 7 to 9 end it, the line end after
    them has the default style and a line state without counters). *)
Lemma raw_string_ended_after_quotes :
  stylesOf (fullLexCSharp noKeywords noTaskMarker docRawQuotes 60) 0 11
    = Some (repeat CSharp.SCE_CSHARP_RAWSTRING_ML 10 ++ [CSharp.SCE_CSHARP_DEFAULT])
  /\ lineStatesOf (fullLexCSharp noKeywords noTaskMarker docRawQuotes 60) 0 2
     = Some [48; 0]
  /\ quoteRun docRawQuotes 4 = 2
  /\ quoteRun docRawQuotes 7 = 3.
Proof. repeat split; vm_compute; reflexivity. Qed.



(** * What the lexers write *)

Lemma writes_refl P a : writes P a a.
Proof.
  intros H HP. repeat split; try lia; try assumption; intros; try lia; left; reflexivity.
Qed.

Lemma writes_trans P a b c : writes P a b -> writes P b c -> writes P a c.
Proof.
  intros H1 H2 Ha HP.
  destruct (H1 Ha HP) as [A0 [A1 [A2 [A3 [A4 [A5 [A6 A7]]]]]]].
  destruct (H2 A2 A4) as [B0 [B1 [B2 [B3 [B4 [B5 [B6 B7]]]]]]].
  repeat split; try lia; try assumption; try congruence.
  - intro q. destruct (B5 q) as [E|[E1 E2]].
    + rewrite E. apply A5.
    + right. split; [lia | exact E2].
  - intro ln. destruct (B6 ln) as [E|E].
    + rewrite E. apply A6.
    + right. lia.
  - intros q Hq. destruct (Z.lt_ge_cases q (startSeg b)) as [Hlt|Hge].
    + destruct (B5 q) as [E|[_ E]]; [rewrite E; apply A7; lia | exact E].
    + apply B7. lia.
Qed.

(** A step that leaves the span start, the line, the style bytes and
    the line states alone. *)
Lemma writes_same P a b c :
  writes P a b ->
  endPos c = endPos b ->
  startSeg c = startSeg b -> (currentPos b <= currentPos c \/ currentPos c = startSeg b) ->
  currentLine b <= currentLine c ->
  (P (state b) -> P (state c)) -> styles c = styles b -> lineStates c = lineStates b ->
  writes P a c.
Proof.
  intros H E0 E1 E2 E3 E4 E5 E6. eapply writes_trans; [exact H|]. intros Hb HP.
  rewrite E0, E1, E5, E6.
  repeat split; try lia; try (apply E4; exact HP); intros; try lia; left; reflexivity.
Qed.

Lemma writes_Forward P d a b : writes P a b -> writes P a (SC.Forward d b).
Proof.
  intro H. apply (writes_same P a b _ H); try assumption;
    unfold SC.Forward; destruct (currentPos b <? endPos b), (atLineEnd b); cbn;
    try reflexivity; try lia; auto.
Qed.

Lemma writes_ForwardN P d n : forall a b, writes P a b -> writes P a (SC.ForwardN d n b).
Proof.
  induction n as [|n IH]; intros a b H.
  - exact H.
  - change (SC.ForwardN d (S n) b) with (SC.ForwardN d n (SC.Forward d b)).
    apply IH, writes_Forward, H.
Qed.

Lemma writes_Advance P d k a b : writes P a b -> writes P a (SC.Advance d k b).
Proof. apply writes_ForwardN. Qed.

Lemma writes_ChangeState P s a b : P s -> writes P a b -> writes P a (SC.ChangeState s b).
Proof.
  intros Hs H. apply (writes_same P a b _ H); unfold SC.ChangeState; cbn;
    try reflexivity; try lia; auto.
Qed.

(** Closing the span writes the running style on it. *)
Lemma writes_Colour P a b : writes P a b -> writes P a (SC.Colour b).
Proof.
  intro H. eapply writes_trans; [exact H|]. intros Hb HP.
  unfold SC.Colour; cbn.
  assert (Hq : forall q, (~ startSeg b <= q < currentPos b
                          /\ setRange (styles b) (startSeg b) (currentPos b) (state b) q
                             = styles b q)
                         \/ (startSeg b <= q < currentPos b
                             /\ setRange (styles b) (startSeg b) (currentPos b) (state b) q
                                = state b)).
  { intro q. unfold setRange.
    destruct (Z.leb_spec (startSeg b) q), (Z.ltb_spec q (currentPos b)); cbn [andb];
      try (left; split; [lia | reflexivity]). right. split; [lia | reflexivity]. }
  repeat split; try lia; try assumption; try (intros ln; left; reflexivity).
  - intro q. destruct (Hq q) as [[_ E]|[E1 E2]]; [left; exact E | right].
    split; [lia | rewrite E2; exact HP].
  - intros q Hr. destruct (Hq q) as [[N _]|[E1 E2]]; [lia | rewrite E2; exact HP].
Qed.

Lemma writes_SetState P s a b : P s -> writes P a b -> writes P a (SC.SetState s b).
Proof.
  intros Hs H. unfold SC.SetState. apply writes_ChangeState; [exact Hs|].
  apply writes_Colour, H.
Qed.

Lemma writes_ForwardSetState P d s a b :
  P s -> writes P a b -> writes P a (SC.ForwardSetState d s b).
Proof. intros Hs H. unfold SC.ForwardSetState. apply writes_SetState, writes_Forward; assumption. Qed.

Lemma writes_SetLineState P v a b :
  writes P a b -> writes P a (SC.SetLineState (currentLine b) v b).
Proof.
  intro H. eapply writes_trans; [exact H|]. intros Hb HP.
  unfold SC.SetLineState; cbn. repeat split; try lia; try assumption;
    try (intros; lia); try (intros; left; reflexivity).
  intro ln. unfold setAt. destruct (Z.eqb_spec ln (currentLine b));
    [right; lia | left; reflexivity].
Qed.

Lemma writes_Rewind P d a b : writes P a b -> writes P a (SC.Rewind d b).
Proof.
  intro H. apply (writes_same P a b _ H); unfold SC.Rewind; cbn;
    try reflexivity; try lia; auto.
Qed.

Lemma writes_Complete P a b : writes P a b -> writes P a (SC.Complete b).
Proof. apply writes_Colour. Qed.

(** A member of the list of styles of LangB. *)
Ltac vb_style := unfold isVBStyle, vbStyles; cbn; tauto.

(** Walks a context built from steps of the style context. *)
Ltac writes_walk side :=
  cbn [fst snd];
  repeat lazymatch goal with
    | H : writes ?P ?a ?b |- writes ?P ?a ?b => exact H
    | |- writes _ ?a ?a => apply writes_refl
    | |- writes _ _ (SC.Forward _ _) => apply writes_Forward
    | |- writes _ _ (SC.ForwardSetState _ _ _) => apply writes_ForwardSetState; [side|]
    | |- writes _ _ (SC.SetState _ _) => apply writes_SetState; [side|]
    | |- writes _ _ (SC.ChangeState _ _) => apply writes_ChangeState; [side|]
    | |- writes _ _ (SC.SetLineState (currentLine ?b) _ ?b) => apply writes_SetLineState
    | |- writes _ _ (SC.Advance _ _ _) => apply writes_Advance
    | |- writes _ _ (SC.ForwardN _ _ _) => apply writes_ForwardN
    | |- writes _ _ (SC.Rewind _ _) => apply writes_Rewind
    end.

(** ** The steps of [ColouriseVBDoc] *)

Module WritesVB.
Import VB.

Section Arms.
Variable P : Z -> Prop.
Hypothesis HP : forall s, isVBStyle s -> P s.
Variable language : Language.
Variable kw : LexerWordList.
Variable d : Doc.

Ltac side := apply HP; vb_style.
Ltac walk := writes_walk side.

Lemma writes_classifyWord s skipType len cNext kwPrev l sc a :
  writes P a sc ->
  writes P a (snd (classifyWord language kw s skipType len cNext kwPrev (l, sc))).
Proof. intro H. unfold classifyWord, keywordHint. split_tests; walk. Qed.

Lemma writes_identifier_word s skipType l sc a :
  writes P a sc ->
  writes P a (snd (fst (identifier_word language kw d s skipType (l, sc)))).
Proof.
  intro H. unfold identifier_word. cbv zeta.
  destruct (StrEqual s "rem"); [walk|].
  destruct (byteAt s 0 =? HASH); [split_tests; walk|].
  destruct (kw_eqb (kwType l) KwPreprocessor); [walk|].
  destruct (negb (byteAt s 0 =? LBRACKET)).
  - match goal with
    | |- context [classifyWord language kw s ?x1 ?x2 ?x3 ?x4 ?x5] =>
        pose proof (writes_classifyWord s x1 x2 x3 x4
                      (set_kwType KwNone l) sc a H) as Hc;
        destruct (classifyWord language kw s x1 x2 x3 x4 x5) as [l1 sc1]
    end.
    cbn [snd] in Hc. split_tests; walk.
  - split_tests; walk.
Qed.

Lemma writes_arm_identifier l sc a :
  writes P a sc -> writes P a (snd (fst (arm_identifier language kw d (l, sc)))).
Proof.
  intro H. unfold arm_identifier.
  destruct (negb (IsIdentifierCharEx (ch sc))); [|walk].
  cbv zeta.
  destruct ((ch sc =? RBRACKET) || _); apply writes_identifier_word; walk.
Qed.

Lemma writes_switch_state l sc a :
  writes P a sc -> writes P a (snd (fst (switch_state language kw d (l, sc)))).
Proof.
  intro H. unfold switch_state.
  destruct (_ || _ || _); [walk|].
  destruct (_ =? SCE_VB_IDENTIFIER); [apply writes_arm_identifier, H|].
  unfold arm_number, arm_string, arm_comment, arm_filenumber, arm_date, arm_format.
  split_tests; walk.
Qed.

Lemma writes_default_state l sc a :
  writes P a sc -> writes P a (snd (fst (default_state language d (l, sc)))).
Proof. intro H. unfold default_state, default_operator. split_tests; walk. Qed.

Lemma writes_body_end l sc a :
  writes P a sc -> writes P a (snd (body_end d (l, sc))).
Proof. intro H. unfold body_end, line_end. split_tests; walk. Qed.

Lemma writes_loop_body st a :
  writes P a (snd st) -> writes P a (snd (loop_body language kw d st)).
Proof.
  destruct st as [l sc]. cbn [snd]. intro H. unfold loop_body.
  pose proof (writes_switch_state l sc a H) as H1.
  destruct (switch_state language kw d (l, sc)) as [[l1 sc1] c1]. cbn [fst snd] in *.
  destruct c1; [|exact H1].
  destruct (state sc1 =? SCE_VB_DEFAULT).
  - pose proof (writes_default_state l1 sc1 a H1) as H2.
    destruct (default_state language d (l1, sc1)) as [[l2 sc2] c2]. cbn [fst snd] in *.
    destruct c2; [apply writes_body_end|]; exact H2.
  - apply writes_body_end, H1.
Qed.

Lemma writes_lex_loop :
  forall fuel st st' a,
    writes P a (snd st) ->
    lex_loop language kw d fuel st = Some st' ->
    writes P a (snd st').
Proof.
  induction fuel as [|fuel IH]; intros st st' a H E; cbn [lex_loop] in E.
  - destruct (SC.More (snd st)); [discriminate|]. injection E as <-. exact H.
  - destruct (SC.More (snd st)).
    + eapply IH; [|exact E]. apply writes_loop_body, H.
    + injection E as <-. exact H.
Qed.

End Arms.
End WritesVB.

(** ** What a call of [ColouriseVBDoc] leaves alone *)

(** The style that [BacktrackToStart] hands on is the one it was given,
    the default style, or a style byte of the document. *)
Lemma BacktrackToStart_style d st ls mask startPos lengthDoc initStyle :
  let sty := snd (BacktrackToStart d st ls mask startPos lengthDoc initStyle) in
  sty = initStyle \/ sty = 0 \/ exists q, sty = st q.
Proof.
  unfold BacktrackToStart. split_tests; cbn; auto; right; right; eauto.
Qed.

(** The context that [ColouriseVBDoc] starts from. *)
Lemma vb_lex_init_fields d startPos lengthDoc initStyle st ls :
  let sc := snd (VB.lex_init d startPos lengthDoc initStyle st ls) in
  startSeg sc = currentPos sc /\ styles sc = st /\ lineStates sc = ls
  /\ (state sc = initStyle \/ state sc = 0 \/ exists q, state sc = st q).
Proof.
  unfold VB.lex_init.
  assert (Hb : let sty := snd (if negb (startPos =? 0)
                 then BacktrackToStart d st ls VB.VBLineStateStringInterpolation
                        startPos lengthDoc initStyle
                 else (startPos, lengthDoc, initStyle)) in
               sty = initStyle \/ sty = 0 \/ exists q, sty = st q).
  { destruct (negb (startPos =? 0)); [apply BacktrackToStart_style | left; reflexivity]. }
  destruct (if negb (startPos =? 0) then _ else _) as [[sp len] sty].
  cbn [snd] in Hb.
  destruct (negb (sp =? 0) && VB.IsSpaceEquiv sty); repeat split; exact Hb.
Qed.

(** X1.  A call of [ColouriseVBDoc] changes no style byte before the
    position where it starts lexing (the start position it was given,
    or the earlier line start that [BacktrackToStart] picked), and no
    line state of a line before the line of that position. *)
Theorem vb_lexer_leaves_prefix :
  forall language kw d fuel startPos lengthDoc initStyle st ls r,
    VB.ColouriseVBDoc language kw d fuel startPos lengthDoc initStyle st ls = Some r ->
    let sc0 := snd (VB.lex_init d startPos lengthDoc initStyle st ls) in
    (forall q, q < currentPos sc0 -> fst r q = st q)
    /\ (forall ln, ln < currentLine sc0 -> snd r ln = ls ln).
Proof.
  intros language kw d fuel startPos lengthDoc initStyle st ls r E sc0.
  unfold VB.ColouriseVBDoc in E.
  destruct (VB.lex_loop language kw d fuel _) as [[l1 sc1]|] eqn:EL; [|discriminate].
  cbv zeta in E. injection E as <-. cbn [fst snd].
  pose proof (vb_lex_init_fields d startPos lengthDoc initStyle st ls) as [I1 [I2 [I3 _]]].
  fold sc0 in I1, I2, I3.
  assert (W : writes anyStyle sc0 (SC.Complete sc1)).
  { apply writes_Complete.
    apply (WritesVB.writes_lex_loop anyStyle (fun _ _ => I) language kw d fuel _ (l1, sc1) sc0
             (writes_refl _ _) EL). }
  destruct W as [_ [_ [_ [_ [_ [W1 [W2 _]]]]]]]; [lia | exact I|].
  split.
  - intros q Hq. destruct (W1 q) as [F|[F _]]; [|lia].
    transitivity (styles sc0 q); [exact F | rewrite I2; reflexivity].
  - intros ln Hl. destruct (W2 ln) as [F|F]; [|lia].
    transitivity (lineStates sc0 ln); [exact F | rewrite I3; reflexivity].
Qed.

Lemma vb_lexer_leaves_prefix_witness :
  fst (resultOr (VB.ColouriseVBDoc VB.VBNET vbKeywords docAmp 40 3 3 0
                   (fun _ => 7) (fun _ => 0))) 2 = 7.
Proof.
  exact (proj1 (vb_lexer_leaves_prefix VB.VBNET vbKeywords docAmp 40 3 3 0
                  (fun _ => 7) (fun _ => 0)
                  (resultOr (VB.ColouriseVBDoc VB.VBNET vbKeywords docAmp 40 3 3 0
                               (fun _ => 7) (fun _ => 0)))
                  ltac:(vm_compute; reflexivity))
               2 ltac:(vm_compute; reflexivity)).
Defined.

(** X2.  When the style bytes of the document and the initial style are
    styles of the LangB lexer, so is every style byte after a call of
    [ColouriseVBDoc]. *)
Theorem vb_lexer_styles_valid :
  forall language kw d fuel startPos lengthDoc initStyle st ls r,
    isVBStyle initStyle ->
    (forall q, isVBStyle (st q)) ->
    VB.ColouriseVBDoc language kw d fuel startPos lengthDoc initStyle st ls = Some r ->
    forall q, isVBStyle (fst r q).
Proof.
  intros language kw d fuel startPos lengthDoc initStyle st ls r Hi Hst E q.
  unfold VB.ColouriseVBDoc in E.
  destruct (VB.lex_loop language kw d fuel _) as [[l1 sc1]|] eqn:EL; [|discriminate].
  cbv zeta in E. injection E as <-. cbn [fst snd].
  pose proof (vb_lex_init_fields d startPos lengthDoc initStyle st ls) as [I1 [I2 [I3 I4]]].
  set (sc0 := snd (VB.lex_init d startPos lengthDoc initStyle st ls)) in *.
  assert (W : writes isVBStyle sc0 (SC.Complete sc1)).
  { apply writes_Complete.
    apply (WritesVB.writes_lex_loop isVBStyle (fun _ H => H) language kw d fuel _ (l1, sc1) sc0
             (writes_refl _ _) EL). }
  destruct W as [_ [_ [_ [_ [_ [W1 [_ _]]]]]]]; [lia | |].
  - destruct I4 as [->|[->|[p ->]]]; [exact Hi | vb_style | apply Hst].
  - destruct (W1 q) as [F|[_ F]]; [|exact F].
    change (isVBStyle (styles (SC.Complete sc1) q)). rewrite F, I2. apply Hst.
Qed.

Lemma vb_lexer_styles_valid_witness :
  isVBStyle (fst (resultOr (fullLexVB VB.VBNET vbKeywords docDim 100)) 2).
Proof.
  apply (vb_lexer_styles_valid VB.VBNET vbKeywords docDim 100 0 (docLen docDim) 0
           (fun _ => 0) (fun _ => 0)).
  - vb_style.
  - intro q. vb_style.
  - vm_compute. reflexivity.
Defined.

(** ** The loop of [ColouriseVBDoc] ends *)

(** Positions, ends and styles along the steps of the style context. *)
Lemma Forward_pos d sc :
  (currentPos sc < endPos sc /\ currentPos (SC.Forward d sc) = currentPos sc + 1)
  \/ (endPos sc <= currentPos sc /\ currentPos (SC.Forward d sc) = currentPos sc).
Proof.
  unfold SC.Forward. destruct (Z.ltb_spec (currentPos sc) (endPos sc)); cbn; [left|right]; lia.
Qed.

Lemma currentPos_SetState s sc : currentPos (SC.SetState s sc) = currentPos sc.
Proof. reflexivity. Qed.
Lemma currentPos_ChangeState s sc : currentPos (SC.ChangeState s sc) = currentPos sc.
Proof. reflexivity. Qed.
Lemma currentPos_SetLineState n v sc : currentPos (SC.SetLineState n v sc) = currentPos sc.
Proof. reflexivity. Qed.
Lemma endPos_SetState s sc : endPos (SC.SetState s sc) = endPos sc.
Proof. reflexivity. Qed.
Lemma endPos_ChangeState s sc : endPos (SC.ChangeState s sc) = endPos sc.
Proof. reflexivity. Qed.
Lemma endPos_SetLineState n v sc : endPos (SC.SetLineState n v sc) = endPos sc.
Proof. reflexivity. Qed.
Lemma state_SetState s sc : state (SC.SetState s sc) = s.
Proof. reflexivity. Qed.
Lemma state_ChangeState s sc : state (SC.ChangeState s sc) = s.
Proof. reflexivity. Qed.
Lemma state_SetLineState n v sc : state (SC.SetLineState n v sc) = state sc.
Proof. reflexivity. Qed.

Create Rewrite HintDb mvdb.
#[export] Hint Rewrite currentPos_SetState currentPos_ChangeState currentPos_SetLineState
  endPos_SetState endPos_ChangeState endPos_SetLineState endPos_Forward
  state_SetState state_ChangeState state_SetLineState state_Forward : mvdb.

Module ProgressVB.
Import VB.

Lemma vb_rank_range s : 0 <= vb_rank s <= 3.
Proof. unfold vb_rank. split_tests; lia. Qed.

(** Brings the position, the end and the style of a context built from
    steps back to those of the context it starts from; a step forward
    leaves its two cases as a premise of the goal. *)
Ltac open_sc :=
  unfold SC.ForwardSetState in *;
  autorewrite with mvdb in *;
  repeat (match goal with
          | |- context [currentPos (SC.Forward ?d ?x)] =>
              generalize (Forward_pos d x);
              generalize (currentPos (SC.Forward d x)); intro
          end;
          autorewrite with mvdb);
  cbn [fst snd] in *.

Section Arms.
Variable language : Language.
Variable kw : LexerWordList.
Variable d : Doc.

Lemma classifyWord_fields s skipType len cNext kwPrev l sc :
  let r := classifyWord language kw s skipType len cNext kwPrev (l, sc) in
  endPos (snd r) = endPos sc /\ currentPos (snd r) = currentPos sc
  /\ nestedState (fst r) = nestedState l.
Proof. unfold classifyWord, keywordHint. split_tests; repeat split. Qed.


(** The rank of a style constant is computed. *)
Ltac eval_rank :=
  repeat match goal with
         | |- context [vb_rank ?c] =>
             lazymatch c with
             | context [state] => fail
             | _ => let v := eval vm_compute in (vb_rank c) in
                    change (vb_rank c) with v
             end
         end.

Ltac consts :=
  unfold SCE_VB_DEFAULT, SCE_VB_COMMENTLINE, SCE_VB_LINE_CONTINUATION, SCE_VB_OPERATOR,
    SCE_VB_OPERATOR2, SCE_VB_IDENTIFIER, SCE_VB_NUMBER, SCE_VB_STRING,
    SCE_VB_INTERPOLATED_STRING, SCE_VB_FORMAT_SPECIFIER, SCE_VB_FILENUMBER, SCE_VB_DATE,
    SCE_VB_KEYWORD, SCE_VB_KEYWORD2, SCE_VB_KEYWORD3, SCE_VB_PREPROCESSOR,
    SCE_VB_PREPROCESSOR_WORD, SCE_VB_ATTRIBUTE, SCE_VB_CLASS, SCE_VB_INTERFACE,
    SCE_VB_ENUM, SCE_VB_CONSTANT, SCE_VB_BASIC_FUNCTION, SCE_VB_LABEL,
    SCE_VB_FUNCTION_DEFINITION in *.

(** Closes a goal [vb_progress] on a result that is written out. *)
Ltac fin :=
  unfold vb_progress, vb_clean; cbn [fst snd];
  open_sc;
  cbn [nestedState set_kwType set_preprocessor set_lineState set_parenCount
       set_fileNbDigits set_visibleChars set_chBefore set_chPrevNonWhite
       set_stylePrevNonWhite set_nestedState] in *;
  eval_rank;
  repeat match goal with
         | |- _ /\ _ => split
         | |- _ -> _ => intro
         end;
  try lia;
  try (consts; lia);
  try (left; reflexivity);
  try (left; assumption);
  try (right; right; congruence);
  try (right; repeat split; [congruence | consts; lia | consts; lia]).

Lemma progress_identifier_word s skipType l sc e p0 :
  endPos sc = e -> p0 <= currentPos sc <= e ->
  (language = VBNET \/ nestedState l = []) ->
  vb_progress language e p0 3 (identifier_word language kw d s skipType (l, sc)).
Proof.
  intros He Hp Hl. unfold identifier_word. cbv zeta.
  destruct (StrEqual s "rem"); [destruct Hl; fin|].
  destruct (byteAt s 0 =? HASH); [split_tests; destruct Hl; fin|].
  destruct (kw_eqb (kwType l) KwPreprocessor); [destruct Hl; fin|].
  destruct (negb (byteAt s 0 =? LBRACKET)).
  - match goal with
    | |- context [classifyWord language kw s ?x1 ?x2 ?x3 ?x4 ?x5] =>
        pose proof (classifyWord_fields s x1 x2 x3 x4 (set_kwType KwNone l) sc)
          as [C1 [C2 C3]];
        destruct (classifyWord language kw s x1 x2 x3 x4 x5) as [l1 sc1]
    end.
    cbn [fst snd nestedState set_kwType] in C1, C2, C3.
    split_tests; destruct Hl; fin.
  - split_tests; destruct Hl; fin.
Qed.


Lemma progress_arm_identifier l sc :
  state sc = SCE_VB_IDENTIFIER ->
  currentPos sc < endPos sc ->
  (language = VBNET \/ nestedState l = []) ->
  vb_progress language (endPos sc) (currentPos sc) 3
    (arm_identifier language kw d (l, sc)).
Proof.
  intros Hs Hin Hl. unfold arm_identifier.
  destruct (negb (IsIdentifierCharEx (ch sc))); [|destruct Hl; fin].
  cbv zeta.
  destruct ((ch sc =? RBRACKET) || _).
  - apply progress_identifier_word; [| |exact Hl];
      unfold SC.Forward; destruct (Z.ltb_spec (currentPos sc) (endPos sc)); cbn; lia.
  - apply progress_identifier_word; [reflexivity | lia | exact Hl].
Qed.

Lemma progress_switch_state l sc :
  currentPos sc < endPos sc ->
  (language = VBNET \/ vb_clean (l, sc)) ->
  vb_progress language (endPos sc) (currentPos sc) (vb_rank (state sc))
    (switch_state language kw d (l, sc)).
Proof.
  intros Hin Hc.
  assert (Hl : language = VBNET \/ nestedState l = []).
  { destruct Hc as [Hc|[Hc _]]; [left|right]; exact Hc. }
  unfold switch_state. cbv zeta.
  destruct (Z.eqb_spec (state sc) SCE_VB_IDENTIFIER) as [E|N0].
  { rewrite E. eval_tests. cbn [orb]. eval_rank. apply progress_arm_identifier; assumption. }
  destruct ((state sc =? SCE_VB_OPERATOR) || (state sc =? SCE_VB_OPERATOR2)
            || (state sc =? SCE_VB_LINE_CONTINUATION)) eqn:E1.
  { assert (vb_rank (state sc) = 2).
    { unfold vb_rank. revert E1. consts.
      repeat match goal with |- context [Z.eqb ?a ?b] => destruct (Z.eqb_spec a b) end;
        cbn; congruence || lia. }
    destruct Hl; fin. }
  cbv iota.
  destruct (Z.eqb_spec (state sc) SCE_VB_NUMBER) as [E|N1].
  { rewrite E. eval_rank. unfold arm_number. split_tests; destruct Hl; fin. }
  destruct (Z.eqb_spec (state sc) SCE_VB_STRING) as [E|N2].
  { rewrite E. eval_tests. cbn [orb]. eval_rank. unfold arm_string. rewrite E. eval_tests.
    destruct language; cbn [lang_eqb negb andb]; rewrite ?Bool.andb_false_r;
      split_tests; destruct Hl; try discriminate; fin. }
  destruct (Z.eqb_spec (state sc) SCE_VB_INTERPOLATED_STRING) as [E|N3].
  { destruct Hc as [Hv|[_ [Hc _]]]; [|contradiction]. subst language.
    rewrite E. eval_tests. cbn [orb]. eval_rank. unfold arm_string. rewrite E. eval_tests.
    cbn [lang_eqb negb andb]; rewrite ?Bool.andb_false_r.
    split_tests; fin. }
  cbn [orb].
  destruct (Z.eqb_spec (state sc) SCE_VB_COMMENTLINE) as [E|N4].
  { rewrite E. eval_rank. unfold arm_comment. split_tests; destruct Hl; fin. }
  destruct (Z.eqb_spec (state sc) SCE_VB_FILENUMBER) as [E|N5].
  { rewrite E. eval_rank. unfold arm_filenumber. split_tests; destruct Hl; fin. }
  destruct (Z.eqb_spec (state sc) SCE_VB_DATE) as [E|N6].
  { rewrite E. eval_rank. unfold arm_date. split_tests; destruct Hl; fin. }
  destruct (Z.eqb_spec (state sc) SCE_VB_FORMAT_SPECIFIER) as [E|N7].
  { destruct Hc as [Hv|[_ [_ Hc]]]; [|contradiction].
    rewrite E. eval_rank. unfold arm_format. split_tests; fin. }
  unfold vb_progress, vb_clean in *. cbn [fst snd] in *.
  repeat split; try lia; [tauto|].
  intro H. right. left. rewrite H. vm_compute. discriminate.
Qed.

(** The default state goes on to the next iteration only inside a
    hole, in the interpolated string or the format specifier style. *)
Lemma progress_default_state l sc :
  state sc = SCE_VB_DEFAULT ->
  (language = VBNET \/ vb_clean (l, sc)) ->
  let r := default_state language d (l, sc) in
  endPos (snd (fst r)) = endPos sc
  /\ currentPos sc <= currentPos (snd (fst r))
  /\ (currentPos sc <= endPos sc -> currentPos (snd (fst r)) <= endPos sc)
  /\ (language = VBNET \/ vb_clean (fst r))
  /\ (snd r = Continue ->
      nestedState l <> [] /\ vb_rank (state (snd (fst r))) <= 1).
Proof.
  intros Hs Hc.
  assert (Hl : language = VBNET \/ nestedState l = []).
  { destruct Hc as [Hc|[Hc _]]; [left|right]; exact Hc. }
  unfold default_state, default_operator. cbv zeta.
  destruct language; cbn [lang_eqb negb andb]; rewrite ?Bool.andb_false_r;
    destruct Hl as [Hl|Hl]; try discriminate; try rewrite Hl;
    split_tests; unfold vb_clean; cbn [fst snd]; open_sc;
    cbn [nestedState set_kwType set_preprocessor set_lineState set_parenCount
         set_fileNbDigits set_visibleChars set_chBefore set_chPrevNonWhite
         set_stylePrevNonWhite set_nestedState] in *;
    eval_rank;
    repeat match goal with
           | |- _ /\ _ => split
           | |- _ -> _ => intro
           end;
    try lia; try discriminate; try (left; reflexivity);
    try (right; repeat split; [congruence | consts; lia | consts; lia]).
Qed.

Lemma progress_body_end l sc :
  let r := body_end d (l, sc) in
  endPos (snd r) = endPos sc
  /\ state (snd r) = state sc
  /\ nestedState (fst r) = nestedState l
  /\ (currentPos sc < endPos sc -> currentPos (snd r) = currentPos sc + 1)
  /\ (endPos sc <= currentPos sc -> currentPos (snd r) = currentPos sc).
Proof.
  unfold body_end, line_end. split_tests; cbn [fst snd]; open_sc;
    cbn [nestedState set_kwType set_preprocessor set_lineState set_parenCount
         set_fileNbDigits set_visibleChars set_chBefore set_chPrevNonWhite
         set_stylePrevNonWhite set_nestedState] in *;
    repeat split; intros; try lia; try reflexivity.
Qed.

(** One iteration: the measure goes down. *)
Lemma loop_body_measure st :
  currentPos (snd st) < endPos (snd st) ->
  (language = VBNET \/ vb_clean st) ->
  vb_measure (loop_body language kw d st) < vb_measure st
  /\ (language = VBNET \/ vb_clean (loop_body language kw d st)).
Proof.
  destruct st as [l sc]. cbn [fst snd]. intros Hin Hc.
  pose proof (vb_rank_range (state sc)) as Hr.
  pose proof (progress_switch_state l sc Hin Hc) as H1.
  unfold loop_body, vb_measure.
  destruct (switch_state language kw d (l, sc)) as [[l1 sc1] c1].
  unfold vb_progress in H1. cbn [fst snd] in *.
  destruct H1 as [E1 [P1 [C1 K1]]].
  assert (Hend : forall l2 sc2, endPos sc2 = endPos sc ->
            currentPos sc <= currentPos sc2 <= endPos sc ->
            (language = VBNET \/ vb_clean (l2, sc2)) ->
            4 * (endPos (snd (body_end d (l2, sc2))) - currentPos (snd (body_end d (l2, sc2))))
              + vb_rank (state (snd (body_end d (l2, sc2))))
            < 4 * (endPos sc - currentPos sc) + vb_rank (state sc)
            /\ (language = VBNET \/ vb_clean (body_end d (l2, sc2)))).
  { intros l2 sc2 E2 P2 C2.
    pose proof (progress_body_end l2 sc2) as [B1 [B2 [B3 [B4 B5]]]].
    destruct (body_end d (l2, sc2)) as [l3 sc3]. cbn [fst snd] in *.
    pose proof (vb_rank_range (state sc3)).
    split.
    - destruct (Z.lt_ge_cases (currentPos sc2) (endPos sc2)); [rewrite B4|rewrite B5]; lia.
    - destruct C2 as [C2|[C2 [C3 C4]]]; [left; exact C2|right].
      unfold vb_clean. cbn [fst snd]. rewrite B2, B3. auto. }
  destruct c1.
  - destruct (Z.eqb_spec (state sc1) SCE_VB_DEFAULT) as [Ed|Nd].
    + pose proof (progress_default_state l1 sc1 Ed C1) as H2.
      destruct (default_state language d (l1, sc1)) as [[l2 sc2] c2].
      cbn [fst snd] in *. destruct H2 as [E2 [P2 [P3 [C2 K2]]]].
      destruct c2.
      * apply Hend; [congruence | lia | exact C2].
      * cbn [fst snd]. split; [|exact C2].
        destruct (K2 eq_refl) as [Kn Kr].
        destruct (K1 Ed) as [K|[K|K]]; [lia | lia | contradiction].
    + apply Hend; [exact E1 | lia | exact C1].
  - cbn [fst snd]. split; [|exact C1].
    pose proof (vb_rank_range (state sc1)). rewrite E1. lia.
Qed.


Lemma lex_loop_returns :
  forall fuel st,
    (language = VBNET \/ vb_clean st) ->
    vb_measure st < Z.of_nat fuel ->
    exists st', lex_loop language kw d fuel st = Some st'.
Proof.
  induction fuel as [|fuel IH]; intros st Hc Hm; cbn [lex_loop]; unfold SC.More.
  - destruct (Z.ltb_spec (currentPos (snd st)) (endPos (snd st))); [|eauto].
    pose proof (vb_rank_range (state (snd st))). unfold vb_measure in Hm. lia.
  - destruct (Z.ltb_spec (currentPos (snd st)) (endPos (snd st))); [|eauto].
    destruct (loop_body_measure st H Hc) as [M1 M2].
    apply IH; [exact M2 | lia].
Qed.

End Arms.
End ProgressVB.

(** X3.  [ColouriseVBDoc] returns: in VB.NET mode on every input, and
    in the other modes when neither the initial style nor a style byte
    of the document is the interpolated string or the format specifier
    style.  The loop needs at most four iterations for a byte of the
    range, so any bound above the measure of the initial state is
    enough. *)
Theorem vb_lexer_returns :
  forall language kw d startPos lengthDoc initStyle st ls fuel,
    language = VB.VBNET
    \/ ((initStyle <> VB.SCE_VB_INTERPOLATED_STRING
         /\ initStyle <> VB.SCE_VB_FORMAT_SPECIFIER)
        /\ forall q, st q <> VB.SCE_VB_INTERPOLATED_STRING
                     /\ st q <> VB.SCE_VB_FORMAT_SPECIFIER) ->
    vb_measure (VB.lex_init d startPos lengthDoc initStyle st ls) < Z.of_nat fuel ->
    exists r, VB.ColouriseVBDoc language kw d fuel startPos lengthDoc initStyle st ls
              = Some r.
Proof.
  intros language kw d startPos lengthDoc initStyle st ls fuel Hc Hm.
  unfold VB.ColouriseVBDoc.
  destruct (ProgressVB.lex_loop_returns language kw d fuel
              (VB.lex_init d startPos lengthDoc initStyle st ls)) as [[l1 sc1] E].
  - destruct Hc as [Hc|[[H1 H2] H3]]; [left; exact Hc|right].
    pose proof (vb_lex_init_fields d startPos lengthDoc initStyle st ls) as [_ [_ [_ I4]]].
    unfold vb_clean. repeat split.
    + unfold VB.lex_init.
      destruct (if negb (startPos =? 0) then _ else _) as [[sp len] sty].
      split_tests; reflexivity.
    + destruct I4 as [->|[->|[q ->]]]; [exact H1 | discriminate | apply H3].
    + destruct I4 as [->|[->|[q ->]]]; [exact H2 | discriminate | apply H3].
  - exact Hm.
  - rewrite E. eauto.
Qed.

Lemma vb_lexer_returns_witness :
  exists r, VB.ColouriseVBDoc VB.VBA vbKeywords docDim 100 0 (docLen docDim) 0
              (fun _ => 0) (fun _ => 0) = Some r.
Proof.
  apply vb_lexer_returns.
  - right. split; [split; discriminate | intro q; split; discriminate].
  - vm_compute. reflexivity.
Defined.

(** * The line state, stored at a line end and read back at a resume *)

(** A value below [2 ^ k] and a value shifted by [k] add up. *)
Lemma lor_shiftl_add a b k :
  0 <= k -> 0 <= a < 2 ^ k -> Z.lor a (Z.shiftl b k) = a + b * 2 ^ k.
Proof.
  intros Hk Ha.
  assert (Hz : Z.land a (Z.shiftl b k) = 0).
  { apply Z.bits_inj'. intros n Hn. rewrite Z.land_spec, Z.bits_0.
    destruct (Z.ltb_spec n k).
    - rewrite Z.shiftl_spec_low by lia. apply Bool.andb_false_r.
    - destruct (Z.eq_dec a 0) as [->|Hne]; [rewrite Z.bits_0; reflexivity|].
      rewrite Z.bits_above_log2; [reflexivity | lia |].
      assert (Z.log2 a < k) by (apply Z.log2_lt_pow2; lia). lia. }
  rewrite <- Z.lxor_lor by exact Hz.
  rewrite <- Z.add_nocarry_lxor by exact Hz.
  rewrite Z.shiftl_mul_pow2 by lia. reflexivity.
Qed.

Lemma wrap32_small x : -2147483648 <= x < 2147483648 -> wrap32 x = x.
Proof. intro H. unfold wrap32. rewrite Z.mod_small by lia. lia. Qed.

Lemma land_255 x : Z.land x 255 = x mod 256.
Proof. change 255 with (Z.ones 8). rewrite Z.land_ones by lia. reflexivity. Qed.

Lemma shiftr_div x k : 0 <= k -> Z.shiftr x k = x / 2 ^ k.
Proof. intro H. apply Z.shiftr_div_pow2. exact H. Qed.

Lemma vb_lineStateAtEnd_range l :
  VB.lineType_ok (VB.lineState l) ->
  0 <= VB.lineStateAtEnd l < 32
  /\ Z.testbit (VB.lineStateAtEnd l) 3 = Z.testbit (VB.lineState l) 3.
Proof.
  unfold VB.lineType_ok, VB.lineStateAtEnd. intro H.
  destruct (VB.nestedState l);
    repeat (destruct H as [<-|H]; [vm_compute; intuition congruence|]);
    destruct H.
Qed.

(** X4.  The state that [ColouriseVBDoc] stores for a line and the
    state it reads back when it starts on the next line: the paren
    count comes back as it was, up to 32767, and of the local line
    state only the continuation bit comes back. *)
Theorem vb_line_state_round_trip :
  forall d startPos lengthDoc initStyle st ls l,
    let st0 := VB.lex_init d startPos lengthDoc initStyle st ls in
    0 < currentLine (snd st0) ->
    ls (currentLine (snd st0) - 1) = VB.packLineState l ->
    VB.lineType_ok (VB.lineState l) ->
    0 <= VB.parenCount l < 32768 ->
    VB.parenCount (fst st0) = VB.parenCount l
    /\ VB.lineState (fst st0)
       = Z.land (VB.lineState l) VB.VBLineStateLineContinuation.
Proof.
  intros d startPos lengthDoc initStyle st ls l st0 Hline Hls Hok Hp.
  destruct (vb_lineStateAtEnd_range l Hok) as [Ha Hb3].
  assert (Hv : VB.packLineState l = VB.lineStateAtEnd l + VB.parenCount l * 2 ^ 16).
  { unfold VB.packLineState. rewrite lor_shiftl_add by (change (2 ^ 16) with 65536; lia).
    apply wrap32_small. change (2 ^ 16) with 65536. lia. }
  assert (Hpc : Z.shiftr (VB.packLineState l) 16 = VB.parenCount l).
  { rewrite Hv, shiftr_div by lia. rewrite Z.div_add by (change (2 ^ 16) with 65536; lia).
    rewrite Z.div_small by (change (2 ^ 16) with 65536; lia). lia. }
  assert (Hc : Z.land (VB.packLineState l) VB.VBLineStateLineContinuation
               = Z.land (VB.lineState l) VB.VBLineStateLineContinuation).
  { change VB.VBLineStateLineContinuation with (2 ^ 3). rewrite !land_pow2 by lia.
    unfold VB.packLineState. rewrite testbit_wrap32 by lia.
    rewrite testbit_lor_shiftl by lia. rewrite Hb3.
    rewrite (Z.testbit_neg_r _ (3 - 16)) by lia. rewrite Bool.orb_false_r. reflexivity. }
  revert Hline Hls. unfold st0, VB.lex_init.
  destruct (if negb (startPos =? 0) then _ else _) as [[sp len] sty].
  cbv zeta.
  destruct (Z.ltb_spec 0 (currentLine (SC.Make d sp len sty st ls))) as [Hl|Hl].
  - destruct (negb (sp =? 0) && VB.IsSpaceEquiv sty); cbn [fst snd];
      intros _ E;
      unfold VB.set_stylePrevNonWhite, VB.set_chPrevNonWhite, VB.set_lineState,
        VB.set_parenCount;
      cbn [VB.parenCount VB.lineState fst snd]; rewrite E, ?Hpc, ?Hc; split; reflexivity.
  - destruct (negb (sp =? 0) && VB.IsSpaceEquiv sty); cbn [fst snd]; intros; lia.
Qed.

Lemma vb_line_state_round_trip_witness :
  VB.parenCount (fst (VB.lex_init docAmp 3 3 0 (fun _ => 0) (fun _ => 131072))) = 2.
Proof.
  exact (proj1 (vb_line_state_round_trip docAmp 3 3 0 (fun _ => 0) (fun _ => 131072)
                  (VB.set_parenCount 2 VB.initLocals)
                  ltac:(vm_compute; reflexivity) ltac:(vm_compute; reflexivity)
                  ltac:(left; reflexivity)
                  ltac:(vm_compute; split; [discriminate | reflexivity]))).
Defined.

(** Every line after the first starts after the position the scan
    started from. *)
Lemma lineStartsFrom_gt d : forall p x, In x (lineStartsFrom d p) -> p < x.
Proof.
  induction d as [|c r IH]; intros p x H; cbn [lineStartsFrom] in H; [destruct H|].
  assert (Hr : In x (lineStartsFrom r (p + 1)) -> p < x)
    by (intro Hx; apply IH in Hx; lia).
  assert (Hc : In x ((p + 1) :: lineStartsFrom r (p + 1)) -> p < x)
    by (intros [<-|Hx]; [lia | auto]).
  destruct (c =? LF); [auto|]. destruct (c =? CR); [|auto].
  destruct r as [|c' r']; [auto|]. destruct (c' =? LF); auto.
Qed.

Lemma GetLine_0 d : GetLine d 0 = 0.
Proof.
  unfold GetLine, lineStarts. cbn [filter]. change (0 <=? 0) with true. cbn [List.length].
  assert (H : filter (fun s => s <=? 0) (lineStartsFrom d 0) = []).
  { pose proof (lineStartsFrom_gt d 0) as G.
    induction (lineStartsFrom d 0) as [|x xs IH]; [reflexivity|].
    cbn [filter]. assert (0 < x) by (apply G; left; reflexivity).
    replace (x <=? 0) with false by lia. apply IH. intros y Hy. apply G. right. exact Hy. }
  rewrite H. reflexivity.
Qed.

(** A document that starts with the two bytes of a shebang does not end
    its first line at position 0. *)
Lemma shebang_not_line_end d len sty st ls :
  SC.Match2 HASH BANG (SC.Make d 0 len sty st ls) = true ->
  atLineEnd (SC.Make d 0 len sty st ls) = false
  /\ currentLine (SC.Make d 0 len sty st ls) = 0.
Proof.
  unfold SC.Match2, SC.Make. cbn [ch chNext atLineEnd currentLine]. intro H.
  apply Bool.andb_true_iff in H. destruct H as [H0 H1].
  rewrite GetLine_0. split; [|reflexivity].
  destruct d as [|c0 [|c1 r]]; [discriminate H0 | discriminate H1 |].
  assert (E0 : c0 = HASH) by (apply Z.eqb_eq; exact H0).
  assert (E1 : c1 = BANG) by (apply Z.eqb_eq; exact H1).
  subst c0 c1.
  assert (L : 2 <= LineStart (HASH :: BANG :: r) (0 + 1)).
  { change (0 + 1) with 1. unfold LineStart, lineStarts.
    change (1 <? 0) with false. change (Z.to_nat 1) with 1%nat. cbv iota.
    cbn [nth lineStartsFrom].
    change (HASH =? LF) with false. change (HASH =? CR) with false.
    change (BANG =? LF) with false. change (BANG =? CR) with false. cbv iota.
    pose proof (lineStartsFrom_gt r (0 + 1 + 1)) as G.
    destruct (lineStartsFrom r (0 + 1 + 1)) as [|x xs].
    - cbn [nth]. unfold docLen. cbn [List.length]. lia.
    - cbn [nth]. specialize (G x (or_introl eq_refl)). lia. }
  unfold SC.lineEndAt. destruct (0 <? GetLine _ _); apply Z.leb_gt; lia.
Qed.

(** The packed state of LangA as a sum, when every field fits. *)
Lemma cs_packLineState_sum l :
  0 <= CSharp.lineStateLineType l < 4 ->
  0 <= CSharp.stringDelimiterCount l < 256 ->
  0 <= CSharp.stringInterpolatorCount l < 256 ->
  0 <= CSharp.parenCount l < 2048 ->
  exists flags,
    0 <= flags < 16
    /\ CSharp.packLineState l
       = flags + CSharp.stringDelimiterCount l * 16
         + CSharp.stringInterpolatorCount l * 4096
         + CSharp.parenCount l * 1048576.
Proof.
  intros Ht Hd Hi Hp. unfold CSharp.packLineState.
  set (t := CSharp.lineStateLineType l) in *.
  set (a := CSharp.stringDelimiterCount l) in *.
  set (b := CSharp.stringInterpolatorCount l) in *.
  set (c := CSharp.parenCount l) in *.
  assert (Hsum : forall f, 0 <= f < 16 ->
            Z.lor (Z.lor (Z.lor f (Z.shiftl a 4)) (Z.shiftl b 12)) (Z.shiftl c 20)
            = f + a * 16 + b * 4096 + c * 1048576).
  { intros f Hf.
    rewrite (lor_shiftl_add f a 4) by (change (2 ^ 4) with 16; lia).
    rewrite (lor_shiftl_add _ b 12) by (change (2 ^ 4) with 16; change (2 ^ 12) with 4096; lia).
    rewrite (lor_shiftl_add _ c 20)
      by (change (2 ^ 4) with 16; change (2 ^ 12) with 4096;
          change (2 ^ 20) with 1048576; lia).
    reflexivity. }
  destruct (CSharp.nestedState l).
  - exists t. split; [lia|]. rewrite Hsum by lia. apply wrap32_small. lia.
  - exists (Z.lor t CSharp.CSharpLineStateMaskInterpolation).
    assert (Hf : 0 <= Z.lor t CSharp.CSharpLineStateMaskInterpolation < 16).
    { assert (Hc : t = 0 \/ t = 1 \/ t = 2 \/ t = 3) by lia.
      destruct Hc as [ -> | [ -> | [ -> | -> ]]]; vm_compute; intuition congruence. }
    split; [exact Hf|].
    rewrite <- Hsum by exact Hf.
    match goal with
    | |- wrap32 ?x = ?y => assert (E : x = y)
    end.
    { apply Z.bits_inj'. intros n Hn. rewrite !Z.lor_spec.
      destruct (Z.testbit t n), (Z.testbit (Z.shiftl a 4) n),
        (Z.testbit (Z.shiftl b 12) n), (Z.testbit (Z.shiftl c 20) n),
        (Z.testbit CSharp.CSharpLineStateMaskInterpolation n); reflexivity. }
    rewrite E. apply wrap32_small. rewrite Hsum by exact Hf. lia.
Qed.

(** X5.  The state that [ColouriseCSharpDoc] stores for a line and the
    counts it reads back when it starts on the next line: the
    delimiter count and the interpolator count of a raw string come
    back as they were, up to 255, and the paren count up to 2047. *)
Theorem cs_line_state_round_trip :
  forall d startPos lengthDoc initStyle st ls l,
    let st0 := CSharp.lex_init d startPos lengthDoc initStyle st ls in
    0 < currentLine (snd st0) ->
    ls (currentLine (snd st0) - 1) = CSharp.packLineState l ->
    0 <= CSharp.lineStateLineType l < 4 ->
    0 <= CSharp.stringDelimiterCount l < 256 ->
    0 <= CSharp.stringInterpolatorCount l < 256 ->
    0 <= CSharp.parenCount l < 2048 ->
    CSharp.stringDelimiterCount (fst st0) = CSharp.stringDelimiterCount l
    /\ CSharp.stringInterpolatorCount (fst st0) = CSharp.stringInterpolatorCount l
    /\ CSharp.parenCount (fst st0) = CSharp.parenCount l.
Proof.
  intros d startPos lengthDoc initStyle st ls l st0 Hline Hls Ht Hd Hi Hp.
  destruct (cs_packLineState_sum l Ht Hd Hi Hp) as [f [Hf Hv]].
  set (a := CSharp.stringDelimiterCount l) in *.
  set (b := CSharp.stringInterpolatorCount l) in *.
  set (c := CSharp.parenCount l) in *.
  set (v := CSharp.packLineState l) in *.
  assert (Ha : Z.land (Z.shiftr v 4) 255 = a).
  { rewrite land_255, shiftr_div by lia. change (2 ^ 4) with 16.
    replace v with (f + (a + b * 256 + c * 65536) * 16) by lia.
    rewrite Z.div_add, Z.div_small by lia.
    replace (0 + (a + b * 256 + c * 65536)) with (a + (b + c * 256) * 256) by lia.
    rewrite Z.mod_add by lia. apply Z.mod_small. lia. }
  assert (Hb : Z.land (Z.shiftr v 12) 255 = b).
  { rewrite land_255, shiftr_div by lia. change (2 ^ 12) with 4096.
    replace v with (f + a * 16 + (b + c * 256) * 4096) by lia.
    rewrite Z.div_add, Z.div_small by lia.
    replace (0 + (b + c * 256)) with (b + c * 256) by lia.
    rewrite Z.mod_add by lia. apply Z.mod_small. lia. }
  assert (Hc : Z.shiftr v 20 = c).
  { rewrite shiftr_div by lia. change (2 ^ 20) with 1048576.
    replace v with (f + a * 16 + b * 4096 + c * 1048576) by lia.
    rewrite Z.div_add, Z.div_small by lia. lia. }
  revert Hline Hls. unfold st0, CSharp.lex_init.
  destruct (if negb (startPos =? 0) then _ else _) as [[sp len] sty].
  cbv zeta.
  destruct (Z.eqb_spec sp 0) as [E0|N0].
  - subst sp.
    destruct (SC.Match2 HASH BANG (SC.Make d 0 len sty st ls)) eqn:EM.
    + destruct (shebang_not_line_end d len sty st ls EM) as [S1 S2].
      cbn [fst snd]. intros H _. exfalso. revert H.
      unfold SC.Forward, SC.SetState, SC.ChangeState, SC.Colour.
      cbn [currentPos endPos atLineEnd currentLine]. rewrite S1, S2.
      destruct (_ <? _); cbn [currentLine]; lia.
    + cbn [fst snd]. intros H _. exfalso.
      unfold SC.Make in H. cbn [currentLine] in H. rewrite GetLine_0 in H. lia.
  - destruct (Z.ltb_spec 0 (currentLine (SC.Make d sp len sty st ls))) as [Hl|Hl].
    + destruct (CSharp.IsSpaceEquiv sty); cbn [fst snd]; intros _ E;
        unfold CSharp.set_chPrevNonWhite, CSharp.set_parenCount,
          CSharp.set_stringInterpolatorCount, CSharp.set_stringDelimiterCount;
        cbn [CSharp.parenCount CSharp.stringInterpolatorCount CSharp.stringDelimiterCount];
        rewrite E; fold v; rewrite Ha, Hb, Hc; repeat split.
    + destruct (CSharp.IsSpaceEquiv sty); cbn [fst snd]; intros; lia.
Qed.

Lemma cs_line_state_round_trip_witness :
  CSharp.parenCount
    (fst (CSharp.lex_init docCast 3 4 0 (fun _ => 0) (fun _ => 1048576))) = 1.
Proof.
  exact (proj2 (proj2
    (cs_line_state_round_trip docCast 3 4 0 (fun _ => 0) (fun _ => 1048576)
       (CSharp.set_parenCount 1 CSharp.initLocals)
       ltac:(vm_compute; reflexivity) ltac:(vm_compute; reflexivity)
       ltac:(vm_compute; split; [discriminate | reflexivity])
       ltac:(vm_compute; split; [discriminate | reflexivity])
       ltac:(vm_compute; split; [discriminate | reflexivity])
       ltac:(vm_compute; split; [discriminate | reflexivity])))).
Defined.

(** ** The steps of [ColouriseCSharpDoc] *)

Module WritesCS.
Import CSharp.

Section Arms.
Variable kw : LexerWordList.
Variable task : Doc -> StyleContext -> Z -> Z -> Z -> option (StyleContext * Z).
Variable d : Doc.
Hypothesis Htask : forall sc vc vcb s sc' vc',
  task d sc vc vcb s = Some (sc', vc') -> writes anyStyle sc sc'.

Ltac side := exact I.
Ltac walk := writes_walk side.

Lemma cs_writes_classify s l sc a :
  writes anyStyle a sc ->
  writes anyStyle a (snd (classifyWord kw d s (l, sc)))
  /\ writes anyStyle a (snd (classifyPreprocessor s (l, sc)))
  /\ writes anyStyle a (snd (classifyIdentifier d s (l, sc))).
Proof.
  intro H. unfold classifyWord, classifyPreprocessor, classifyIdentifier.
  split; [|split]; split_tests; walk.
Qed.

Lemma cs_writes_arm_identifier l sc a :
  writes anyStyle a sc -> writes anyStyle a (snd (fst (arm_identifier kw d (l, sc)))).
Proof.
  intro H. unfold arm_identifier.
  destruct (negb (IsCsIdentifierChar (ch sc) (chNext sc))); [|walk].
  cbv zeta.
  set (s := SC.GetCurrent d sc 128).
  assert (H1 : writes anyStyle a
                 (snd (match ppKind l with
                       | PpNone => classifyWord kw d s (l, sc)
                       | PpInit => classifyPreprocessor s (l, sc)
                       | PpPragma => (set_ppKind PpOther l,
                                      SC.ChangeState SCE_CSHARP_PREPROCESSOR_WORD sc)
                       | _ => (l, sc)
                       end))).
  { destruct (cs_writes_classify s l sc a H) as [C1 [C2 C3]].
    destruct (ppKind l); try assumption; walk. }
  destruct (match ppKind l with PpNone => _ | _ => _ end) as [l1 sc1].
  cbn [snd] in H1.
  assert (H2 : writes anyStyle a
                 (snd (if pp_eqb (ppKind l1) PpNone && (state sc1 =? SCE_CSHARP_IDENTIFIER)
                       then classifyIdentifier d s (l1, sc1) else (l1, sc1)))).
  { destruct (cs_writes_classify s l1 sc1 a H1) as [C1 [C2 C3]].
    destruct (_ && _); assumption. }
  destruct (if pp_eqb (ppKind l1) PpNone && _ then _ else _) as [l2 sc2].
  cbn [snd] in H2. walk.
Qed.

Lemma cs_writes_arm_comment l sc a :
  writes anyStyle a sc -> writes anyStyle a (snd (fst (arm_comment task d (l, sc)))).
Proof.
  intro H. unfold arm_comment.
  destruct (atLineStart sc && _); [walk|].
  assert (H1 : writes anyStyle a (snd (close_doctag d (l, sc))))
    by (unfold close_doctag; split_tests; walk).
  destruct (close_doctag d (l, sc)) as [l1 sc1]. cbn [snd] in H1.
  destruct (_ && SC.Match2 STAR SLASH sc1); [walk|].
  destruct (tagIsNone (docTagState l1)); [|walk].
  destruct ((ch sc1 =? LESS) && _); [split_tests; walk|].
  destruct (task d sc1 (visibleChars l1) (visibleCharsBefore l1) SCE_CSHARP_TASKMARKER)
    as [[sc' vc]|] eqn:E; [|walk].
  cbn [fst snd]. eapply writes_trans; [exact H1|]. apply (Htask _ _ _ _ _ _ E).
Qed.

Lemma cs_writes_arm_string l sc a :
  writes anyStyle a sc -> writes anyStyle a (snd (fst (arm_string d (l, sc)))).
Proof.
  intro H.
  unfold arm_string, string_body, string_quote, string_lbrace, string_rbrace,
    rbrace_escape, resetEscapeState.
  split_tests; walk.
Qed.

Lemma cs_writes_switch_state l sc a :
  writes anyStyle a sc -> writes anyStyle a (snd (fst (switch_state kw task d (l, sc)))).
Proof.
  intro H. unfold switch_state. cbv zeta.
  destruct (_ || _); [walk|].
  destruct (_ =? SCE_CSHARP_NUMBER); [split_tests; walk|].
  destruct (_ || _); [apply cs_writes_arm_identifier, H|].
  destruct (_ =? SCE_CSHARP_PREPROCESSOR_MESSAGE); [split_tests; walk|].
  destruct (_ || _ || _ || _); [apply cs_writes_arm_comment, H|].
  destruct (_ =? SCE_CSHARP_COMMENTTAG_XML); [unfold arm_commenttag; split_tests; walk|].
  destruct (isStringState (state sc)); [apply cs_writes_arm_string, H|].
  unfold arm_format, arm_placeholder, arm_escape, atEscapeEnd.
  split_tests; walk.
Qed.

Lemma cs_writes_default_state l sc a :
  writes anyStyle a sc -> writes anyStyle a (snd (fst (default_state d (l, sc)))).
Proof.
  intro H.
  unfold default_state, default_comment, default_string, default_operator.
  split_tests; walk.
Qed.

Lemma cs_writes_body_end l sc a :
  writes anyStyle a sc -> writes anyStyle a (snd (body_end d (l, sc))).
Proof. intro H. unfold body_end, line_end. split_tests; walk. Qed.

Lemma cs_writes_loop_body st a :
  writes anyStyle a (snd st) -> writes anyStyle a (snd (loop_body kw task d st)).
Proof.
  destruct st as [l sc]. cbn [snd]. intro H. unfold loop_body.
  pose proof (cs_writes_switch_state l sc a H) as H1.
  destruct (switch_state kw task d (l, sc)) as [[l1 sc1] c1]. cbn [fst snd] in *.
  destruct c1; [|exact H1].
  destruct (state sc1 =? SCE_CSHARP_DEFAULT).
  - pose proof (cs_writes_default_state l1 sc1 a H1) as H2.
    destruct (default_state d (l1, sc1)) as [[l2 sc2] c2]. cbn [fst snd] in *.
    destruct c2; [apply cs_writes_body_end|]; exact H2.
  - apply cs_writes_body_end, H1.
Qed.

Lemma cs_writes_lex_loop :
  forall fuel st st' a,
    writes anyStyle a (snd st) ->
    lex_loop kw task d fuel st = Some st' ->
    writes anyStyle a (snd st').
Proof.
  induction fuel as [|fuel IH]; intros st st' a H E; cbn [lex_loop] in E.
  - destruct (SC.More (snd st)); [discriminate|]. injection E as <-. exact H.
  - destruct (SC.More (snd st)).
    + eapply IH; [|exact E]. apply cs_writes_loop_body, H.
    + injection E as <-. exact H.
Qed.

End Arms.
End WritesCS.

(** The context that [ColouriseCSharpDoc] starts from. *)
Lemma cs_lex_init_fields d startPos lengthDoc initStyle st ls :
  let sc := snd (CSharp.lex_init d startPos lengthDoc initStyle st ls) in
  startSeg sc <= currentPos sc
  /\ (forall q, styles sc q = st q)
  /\ lineStates sc = ls.
Proof.
  unfold CSharp.lex_init.
  destruct (if negb (startPos =? 0) then _ else _) as [[sp len] sty].
  cbv zeta.
  destruct (sp =? 0); [destruct (SC.Match2 HASH BANG _)|destruct (CSharp.IsSpaceEquiv sty)];
    cbn [snd].
  2-4: unfold SC.Make; cbn; repeat split; lia.
  pose proof (currentPos_Forward_le d
                (SC.SetState CSharp.SCE_CSHARP_COMMENTLINE (SC.Make d sp len sty st ls))) as Hle.
  rewrite styles_Forward, lineStates_Forward.
  destruct (ForwardN_keeps d 1
              (SC.SetState CSharp.SCE_CSHARP_COMMENTLINE (SC.Make d sp len sty st ls)))
    as [F1 _].
  change (SC.ForwardN d 1 ?x) with (SC.Forward d x) in F1. rewrite F1.
  unfold SC.SetState, SC.ChangeState, SC.Colour, SC.Make in *. cbn in *.
  repeat split; [lia|].
  intro q. unfold setRange. destruct (Z.leb_spec sp q), (Z.ltb_spec q sp); try reflexivity. lia.
Qed.

(** X7.  A call of [ColouriseCSharpDoc] changes no style byte before
    the position where it starts lexing (the start position it was
    given, or the earlier line start that [BacktrackToStart] picked),
    and no line state of a line before the line of that position, as
    long as the task marker highlighter keeps to the same rule. *)
Theorem cs_lexer_leaves_prefix :
  forall kw task d fuel startPos lengthDoc initStyle st ls r,
    (forall sc vc vcb s sc' vc',
        task d sc vc vcb s = Some (sc', vc') -> writes anyStyle sc sc') ->
    CSharp.ColouriseCSharpDoc kw task d fuel startPos lengthDoc initStyle st ls = Some r ->
    let sc0 := snd (CSharp.lex_init d startPos lengthDoc initStyle st ls) in
    (forall q, q < startSeg sc0 -> fst r q = st q)
    /\ (forall ln, ln < currentLine sc0 -> snd r ln = ls ln).
Proof.
  intros kw task d fuel startPos lengthDoc initStyle st ls r Htask E sc0.
  unfold CSharp.ColouriseCSharpDoc in E.
  destruct (CSharp.lex_loop kw task d fuel _) as [[l1 sc1]|] eqn:EL; [|discriminate].
  cbv zeta in E. injection E as <-. cbn [fst snd].
  pose proof (cs_lex_init_fields d startPos lengthDoc initStyle st ls) as [I1 [I2 I3]].
  fold sc0 in I1, I2, I3.
  assert (W : writes anyStyle sc0 (SC.Complete sc1)).
  { apply writes_Complete.
    apply (WritesCS.cs_writes_lex_loop kw task d Htask fuel _ (l1, sc1) sc0
             (writes_refl _ _) EL). }
  destruct W as [_ [_ [_ [_ [_ [W1 [W2 _]]]]]]]; [exact I1 | exact I|].
  split.
  - intros q Hq. destruct (W1 q) as [F|[F _]]; [|lia].
    transitivity (styles sc0 q); [exact F | apply I2].
  - intros ln Hl. destruct (W2 ln) as [F|F]; [|lia].
    transitivity (lineStates sc0 ln); [exact F | rewrite I3; reflexivity].
Qed.

Lemma cs_lexer_leaves_prefix_witness :
  fst (resultOr (CSharp.ColouriseCSharpDoc csKeywords noTaskMarker docCast 40 3 4 0
                   (fun _ => 7) (fun _ => 0))) 2 = 7.
Proof.
  exact (proj1 (cs_lexer_leaves_prefix csKeywords noTaskMarker docCast 40 3 4 0
                  (fun _ => 7) (fun _ => 0)
                  (resultOr (CSharp.ColouriseCSharpDoc csKeywords noTaskMarker docCast 40 3 4 0
                               (fun _ => 7) (fun _ => 0)))
                  ltac:(intros; discriminate)
                  ltac:(vm_compute; reflexivity))
               2 ltac:(vm_compute; reflexivity)).
Defined.

(** * The format specifier of a placeholder *)

Module FormatCS.
Import CSharp.

Section Scan.
Variable d : Doc.

Lemma skipDigits_spec fuel : forall pos,
  pos <= skipDigits d pos fuel
  /\ forall i, pos <= i < skipDigits d pos fuel -> IsADigit (charAt d i) = true.
Proof.
  induction fuel as [|fuel IH]; intro pos; cbn [skipDigits].
  - split; [lia | intros; lia].
  - destruct (IsADigit (charAt d pos)) eqn:E.
    + destruct (IH (pos + 1)) as [H1 H2]. split; [lia|].
      intros i Hi. destruct (Z.eq_dec i pos) as [->|N]; [exact E | apply H2; lia].
    + split; [lia | intros; lia].
Qed.

Lemma skipFormat_spec n : forall pos,
  pos <= skipFormat d pos n <= pos + Z.of_nat n
  /\ forall i, pos <= i < skipFormat d pos n ->
       IsInvalidFormatSpecifier (charAt d i) = false.
Proof.
  induction n as [|n IH]; intro pos; cbn [skipFormat].
  - split; [lia | intros; lia].
  - destruct (IsInvalidFormatSpecifier (charAt d pos)) eqn:E.
    + split; [lia | intros; lia].
    + destruct (IH (pos + 1)) as [H1 H2]. split; [lia|].
      intros i Hi. destruct (Z.eq_dec i pos) as [->|N]; [exact E | apply H2; lia].
Qed.

Lemma digit_valid c : IsADigit c = true -> IsInvalidFormatSpecifier c = false.
Proof.
  unfold IsADigit, IsInvalidFormatSpecifier, QUOTE, LBRACE, RBRACE. intro H.
  apply Bool.andb_true_iff in H. destruct H as [H1 H2].
  apply Z.leb_le in H1. apply Z.leb_le in H2.
  repeat (apply Bool.orb_false_iff; split); try (apply Z.eqb_neq; lia).
  apply Bool.andb_false_iff. right. apply Z.ltb_ge. lia.
Qed.

End Scan.
End FormatCS.

(** X6.  [CheckFormatSpecifier] gives a length that is not negative;
    when the length is not 0, the byte at that distance from the
    position is the closing brace, and no byte before it, from the
    position on, is a double quote, a brace or a control byte. *)
Theorem format_specifier_ends_at_brace :
  forall d sc,
    let n := CSharp.CheckFormatSpecifier d sc in
    0 <= n
    /\ (n <> 0 ->
        charAt d (currentPos sc + n) = RBRACE
        /\ forall i, 0 <= i < n ->
             CSharp.IsInvalidFormatSpecifier (charAt d (currentPos sc + i)) = false).
Proof.
  intros d sc. unfold CSharp.CheckFormatSpecifier. cbv zeta.
  set (p0 := currentPos sc).
  set (p1 := if charAt d p0 =? COMMA
             then CSharp.skipDigits d
                    (if charAt d (p0 + 1) =? MINUS then p0 + 1 + 1 else p0 + 1)
                    (List.length d)
             else p0).
  set (p2 := if charAt d p1 =? COLON then CSharp.skipFormat d (p1 + 1) 32 else p1).
  assert (A : p0 <= p1
              /\ forall i, p0 <= i < p1 ->
                   CSharp.IsInvalidFormatSpecifier (charAt d i) = false).
  { unfold p1. destruct (Z.eqb_spec (charAt d p0) COMMA) as [Ec|Nc];
      [|split; [lia | intros; lia]].
    destruct (Z.eqb_spec (charAt d (p0 + 1)) MINUS) as [Em|Nm].
    - destruct (FormatCS.skipDigits_spec d (List.length d) (p0 + 1 + 1)) as [H1 H2].
      split; [lia|]. intros i Hi.
      destruct (Z.eq_dec i p0) as [->|N0]; [rewrite Ec; reflexivity|].
      destruct (Z.eq_dec i (p0 + 1)) as [->|N1]; [rewrite Em; reflexivity|].
      apply FormatCS.digit_valid, H2. lia.
    - destruct (FormatCS.skipDigits_spec d (List.length d) (p0 + 1)) as [H1 H2].
      split; [lia|]. intros i Hi.
      destruct (Z.eq_dec i p0) as [->|N0]; [rewrite Ec; reflexivity|].
      apply FormatCS.digit_valid, H2. lia. }
  destruct A as [A1 A2].
  assert (B : p1 <= p2
              /\ forall i, p1 <= i < p2 ->
                   CSharp.IsInvalidFormatSpecifier (charAt d i) = false).
  { unfold p2. destruct (Z.eqb_spec (charAt d p1) COLON) as [Ec|Nc];
      [|split; [lia | intros; lia]].
    destruct (FormatCS.skipFormat_spec d 32 (p1 + 1)) as [H1 H2].
    split; [lia|]. intros i Hi.
    destruct (Z.eq_dec i p1) as [->|N0]; [rewrite Ec; reflexivity | apply H2; lia]. }
  destruct B as [B1 B2].
  destruct (Z.eqb_spec (charAt d p2) RBRACE) as [E|N].
  - split; [lia|]. intros _. split.
    + replace (p0 + (p2 - p0)) with p2 by lia. exact E.
    + intros i Hi. destruct (Z.lt_ge_cases (p0 + i) p1); [apply A2 | apply B2]; lia.
  - split; [lia | intro H; contradiction].
Qed.

Lemma format_specifier_ends_at_brace_witness :
  charAt docFormat (currentPos scFormat + CSharp.CheckFormatSpecifier docFormat scFormat)
    = RBRACE.
Proof.
  exact (proj1 (proj2 (format_specifier_ends_at_brace docFormat scFormat)
                  ltac:(vm_compute; discriminate))).
Defined.

(** * The fold levels *)

Lemma levelsChain_start pack floor a0 first lv :
  levelsChain pack floor a0 a0 first first lv lv.
Proof.
  split; [lia|]. split; [reflexivity|]. split; [reflexivity|]. intros n Hn. lia.
Qed.

(** Writing one more line extends a chain. *)
Lemma levelsChain_extend pack floor a0 cur first last lv lv' b :
  levelsChain pack floor a0 cur first last lv lv' ->
  floor <= b ->
  levelsChain pack floor a0 b first (last + 1) lv (setAt lv' last (pack cur b)).
Proof.
  intros [H1 [H0 [H2 H3]]] Hb.
  split; [lia|]. split; [lia|]. split.
  - intros n Hn. unfold setAt. destruct (Z.eqb_spec n last); [lia|]. apply H2. lia.
  - intros n Hn. unfold setAt.
    destruct (Z.eqb_spec n last) as [->|Hne].
    + exists cur, b. split; [reflexivity|]. split; [exact Hb|].
      split; [intro E; apply H0; lia|]. split; intro; [reflexivity | lia].
    + destruct (H3 n) as [a [b0 [E1 [E2 [E3 [E4 E5]]]]]]; [lia|].
      exists a, b0. split; [exact E1|]. split; [exact E2|]. split; [exact E3|].
      split; [intro; lia|].
      intro Hlt. destruct (Z.eqb_spec (n + 1) last) as [E|N].
      * exists b. rewrite (E4 E). reflexivity.
      * destruct (E5 ltac:(lia)) as [c Hc]. exists c. exact Hc.
Qed.

Module LevelsVB.
Import VB.

Section Folder.
Variable d : Doc.
Variable st : Styles.
Variable ls : LineStates.
Variable endPos : Z.

Lemma lineEndLevel_floor levelNext foldPrev foldCurrent foldNext :
  SC_FOLDLEVELBASE - 1 <= lineEndLevel levelNext foldPrev foldCurrent foldNext.
Proof. unfold lineEndLevel, SC_FOLDLEVELBASE. split_tests; lia. Qed.

Lemma fold_step_chain a0 first lv f :
  levelsChain packLevel (SC_FOLDLEVELBASE - 1) a0 (f_levelCurrent f) first
    (f_lineCurrent f) lv (f_levels f) ->
  levelsChain packLevel (SC_FOLDLEVELBASE - 1) a0 (f_levelCurrent (fold_step d st ls endPos f))
    first (f_lineCurrent (fold_step d st ls endPos f)) lv (f_levels (fold_step d st ls endPos f)).
Proof.
  intro H. unfold fold_step. cbv zeta.
  destruct (f_startPos f + 1 =? f_lineStartNext f); cbn [f_levelCurrent f_lineCurrent f_levels].
  - apply levelsChain_extend; [exact H | apply lineEndLevel_floor].
  - exact H.
Qed.

Lemma fold_loop_chain a0 first lv : forall n f,
  levelsChain packLevel (SC_FOLDLEVELBASE - 1) a0 (f_levelCurrent f) first
    (f_lineCurrent f) lv (f_levels f) ->
  levelsChain packLevel (SC_FOLDLEVELBASE - 1) a0
    (f_levelCurrent (fold_loop d st ls endPos n f))
    first (f_lineCurrent (fold_loop d st ls endPos n f)) lv
    (f_levels (fold_loop d st ls endPos n f)).
Proof.
  induction n as [|n IH]; intros f H; cbn [fold_loop]; [exact H|].
  destruct (f_startPos f <? endPos); [|exact H].
  apply IH, fold_step_chain, H.
Qed.

End Folder.
End LevelsVB.

(** X8.  The levels that [FoldVBDoc] leaves: the lines before the line
    of the start position and the lines it did not reach keep their
    level; every line in between holds the packed pair of its level
    and the next level; the next level is at least one below the base
    level; the level of the first line is the next level stored for
    the line before the start (the base level at the top of the
    document); and the level of every further line is the next level
    of the line before it. *)
Theorem vb_fold_levels_chain :
  forall d st ls startPos lengthDoc initStyle lv,
    exists last cur,
      levelsChain VB.packLevel (SC_FOLDLEVELBASE - 1)
        (if 0 <? GetLine d startPos
         then Z.shiftr (lv (GetLine d startPos - 1)) 16 else SC_FOLDLEVELBASE)
        cur (GetLine d startPos) last lv
        (VB.FoldVBDoc d st ls startPos lengthDoc initStyle lv).
Proof.
  intros d st ls startPos lengthDoc initStyle lv. unfold VB.FoldVBDoc. cbv zeta.
  set (f0 := VB.fold_init d st ls startPos initStyle lv).
  set (f1 := VB.fold_loop d st ls (startPos + lengthDoc) (Z.to_nat lengthDoc) f0).
  exists (VB.f_lineCurrent f1), (VB.f_levelCurrent f1).
  apply LevelsVB.fold_loop_chain.
  unfold f0, VB.fold_init. cbv zeta.
  destruct (0 <? GetLine d startPos); cbn; apply levelsChain_start.
Qed.

Module LevelsCS.
Import CSharp.

Lemma land_1_range x : 0 <= Z.land x 1 <= 1.
Proof.
  change (Z.land x 1) with (Z.land x (Z.ones 1)). rewrite Z.land_ones by lia.
  pose proof (Z.mod_pos_bound x (2 ^ 1) ltac:(lia)). change (2 ^ 1) with 2 in *. lia.
Qed.

Section Folder.
Variable d : Doc.
Variable st : Styles.
Variable ls : LineStates.
Variable chk : Z -> Z -> Z -> Z -> Z.
Variable endPos : Z.

Lemma fold_line_end_chain a0 first lv f :
  levelsChain packLevel (SC_FOLDLEVELBASE - 1) a0 (f_levelCurrent f) first
    (f_lineCurrent f) lv (f_levels f) ->
  let f' := fold_line_end d st ls chk endPos f in
  levelsChain packLevel (SC_FOLDLEVELBASE - 1) a0 (f_levelCurrent f') first
    (f_lineCurrent f') lv (f_levels f').
Proof.
  intro H. unfold fold_line_end. cbv zeta.
  pose proof (land_1_range (ls (f_lineCurrent f + 1))) as R1.
  pose proof (land_1_range (f_foldPrev f)) as R2.
  pose proof (land_1_range (Z.shiftr (ls (f_lineCurrent f + 1)) 1)) as R3.
  pose proof (land_1_range (Z.shiftr (f_foldPrev f) 1)) as R4.
  unfold foldLineComment, foldUsingName, CSharpLineStateMaskLineComment.
  destruct (negb (Z.land (f_foldCurrent f) 1 =? 0));
    [|destruct (negb (Z.land (Z.shiftr (f_foldCurrent f) 1) 1 =? 0));
      [|destruct (negb (f_visibleChars f =? 0) && _)]];
    cbn [f_levelCurrent f_lineCurrent f_levels];
    (apply levelsChain_extend; [exact H | unfold SC_FOLDLEVELBASE; lia]).
Qed.

Lemma cs_fold_step_chain a0 first lv f :
  levelsChain packLevel (SC_FOLDLEVELBASE - 1) a0 (f_levelCurrent f) first
    (f_lineCurrent f) lv (f_levels f) ->
  let f' := fold_step d st ls chk endPos f in
  levelsChain packLevel (SC_FOLDLEVELBASE - 1) a0 (f_levelCurrent f') first
    (f_lineCurrent f') lv (f_levels f').
Proof.
  intro H. unfold fold_step. cbv zeta.
  destruct (fold_byte d _ _ _ _ _ _) as [levelNext buf].
  match goal with
  | |- context [if ?c then fold_line_end d st ls chk endPos ?x else _] =>
      destruct c; [apply (fold_line_end_chain a0 first lv x); exact H | exact H]
  end.
Qed.

Lemma cs_fold_loop_chain a0 first lv : forall n f f',
  levelsChain packLevel (SC_FOLDLEVELBASE - 1) a0 (f_levelCurrent f) first
    (f_lineCurrent f) lv (f_levels f) ->
  fold_loop d st ls chk endPos n f = Some f' ->
  levelsChain packLevel (SC_FOLDLEVELBASE - 1) a0 (f_levelCurrent f') first
    (f_lineCurrent f') lv (f_levels f').
Proof.
  induction n as [|n IH]; intros f f' H E; cbn [fold_loop] in E.
  - destruct (f_startPos f <? endPos); [discriminate|]. injection E as <-. exact H.
  - destruct (f_startPos f <? endPos).
    + eapply IH; [|exact E]. apply cs_fold_step_chain, H.
    + injection E as <-. exact H.
Qed.

(** The brace that [CheckBraceOnNextLine] finds is not before the start
    of the line after the one it was asked about. *)
Hypothesis chk_next : forall line a b c,
  chk line a b c = 0 \/ LineStart d (line + 1) <= chk line a b c.

Lemma cs_fold_step_moves f :
  f_lineStartNext f = Z.min (LineStart d (f_lineCurrent f + 1)) endPos ->
  let f' := fold_step d st ls chk endPos f in
  f_startPos f < f_startPos f'
  /\ f_lineStartNext f' = Z.min (LineStart d (f_lineCurrent f' + 1)) endPos.
Proof.
  intro HL. unfold fold_step. cbv zeta.
  destruct (fold_byte d _ _ _ _ _ _) as [levelNext buf].
  cbn [f_startPos f_lineStartNext].
  destruct (Z.eqb_spec (f_startPos f + 1) (f_lineStartNext f)) as [E|N];
    [|cbn [f_startPos f_lineStartNext f_lineCurrent]; split; [lia | exact HL]].
  unfold fold_line_end. cbv zeta. cbn [f_startPos f_lineCurrent f_foldCurrent f_foldPrev
    f_visibleChars f_levelNext f_style f_styleNext].
  destruct (chk_next (f_lineCurrent f) SCE_CSHARP_OPERATOR SCE_CSHARP_TASKMARKER
              SCE_CSHARP_PREPROCESSOR) as [Z0|Z1].
  - rewrite Z0. change (0 =? 0) with true. cbn [negb andb].
    rewrite Bool.andb_false_r.
    split_tests; cbn [f_startPos f_lineStartNext f_lineCurrent]; split; try lia; reflexivity.
  - split_tests; cbn [f_startPos f_lineStartNext f_lineCurrent]; split; try lia;
      reflexivity.
Qed.

Lemma cs_fold_loop_returns : forall n f,
  f_lineStartNext f = Z.min (LineStart d (f_lineCurrent f + 1)) endPos ->
  endPos - f_startPos f <= Z.of_nat n ->
  exists f', fold_loop d st ls chk endPos n f = Some f'.
Proof.
  induction n as [|n IH]; intros f HL Hn; cbn [fold_loop].
  - destruct (Z.ltb_spec (f_startPos f) endPos); [lia | eauto].
  - destruct (Z.ltb_spec (f_startPos f) endPos); [|eauto].
    destruct (cs_fold_step_moves f HL) as [M1 M2].
    apply IH; [exact M2 | lia].
Qed.

End Folder.
End LevelsCS.

(** X9.  The levels that [FoldCSharpDoc] leaves when it returns: the
    lines before the line of the start position and the lines it did
    not reach keep their level; every line in between holds the packed
    pair of its level and the next level; the next level is at least
    one below the base level; the level of the first line is the next
    level stored for the line before the start; and the level of every
    further line is the next level of the line before it. *)
Theorem cs_fold_levels_chain :
  forall d st ls chk fuel startPos lengthDoc initStyle lv lv',
    CSharp.FoldCSharpDoc d st ls chk fuel startPos lengthDoc initStyle lv = Some lv' ->
    exists last cur,
      levelsChain CSharp.packLevel (SC_FOLDLEVELBASE - 1)
        (if 0 <? GetLine d startPos
         then Z.shiftr (lv (GetLine d startPos - 1)) 16 else SC_FOLDLEVELBASE)
        cur (GetLine d startPos) last lv lv'.
Proof.
  intros d st ls chk fuel startPos lengthDoc initStyle lv lv' E.
  unfold CSharp.FoldCSharpDoc in E. cbv zeta in E.
  destruct (CSharp.fold_loop d st ls chk (startPos + lengthDoc) fuel _) as [f1|] eqn:EL;
    [|discriminate].
  injection E as <-.
  exists (CSharp.f_lineCurrent f1), (CSharp.f_levelCurrent f1).
  eapply LevelsCS.cs_fold_loop_chain; [|exact EL].
  unfold CSharp.fold_init. cbv zeta.
  destruct (0 <? GetLine d startPos); cbn; apply levelsChain_start.
Qed.

Lemma cs_fold_levels_chain_witness :
  exists last cur,
    levelsChain CSharp.packLevel (SC_FOLDLEVELBASE - 1) SC_FOLDLEVELBASE cur 0 last
      noLevels
      (levelsOr (CSharp.FoldCSharpDoc docUsing (fun _ => 0) (fun _ => 0)
                   (fun _ _ _ _ => 0) 30 0 (docLen docUsing) 0 noLevels)).
Proof.
  exact (cs_fold_levels_chain docUsing (fun _ => 0) (fun _ => 0) (fun _ _ _ _ => 0)
           30 0 (docLen docUsing) 0 noLevels
           (levelsOr (CSharp.FoldCSharpDoc docUsing (fun _ => 0) (fun _ => 0)
                        (fun _ _ _ _ => 0) 30 0 (docLen docUsing) 0 noLevels))
           ltac:(vm_compute; reflexivity)).
Defined.

(** X10.  [FoldCSharpDoc] returns, within one iteration for each byte
    from where it starts to the end of the range, whenever the brace
    that [CheckBraceOnNextLine] reports lies at or after the start of
    the next line: the loop then moves forward in every iteration,
    also when it skips to the byte after that brace. *)
Theorem cs_fold_returns :
  forall d st ls chk fuel startPos lengthDoc initStyle lv,
    (forall line a b c, chk line a b c = 0 \/ LineStart d (line + 1) <= chk line a b c) ->
    startPos + lengthDoc
      - CSharp.f_startPos
          (CSharp.fold_init d st ls chk (startPos + lengthDoc) startPos initStyle lv)
      <= Z.of_nat fuel ->
    exists lv',
      CSharp.FoldCSharpDoc d st ls chk fuel startPos lengthDoc initStyle lv = Some lv'.
Proof.
  intros d st ls chk fuel startPos lengthDoc initStyle lv Hchk Hfuel.
  unfold CSharp.FoldCSharpDoc. cbv zeta.
  destruct (LevelsCS.cs_fold_loop_returns d st ls chk (startPos + lengthDoc) Hchk fuel
              (CSharp.fold_init d st ls chk (startPos + lengthDoc) startPos initStyle lv))
    as [f' E].
  - unfold CSharp.fold_init. cbv zeta. destruct (0 <? GetLine d startPos); reflexivity.
  - exact Hfuel.
  - rewrite E. eauto.
Qed.

Lemma cs_fold_returns_witness :
  exists lv',
    CSharp.FoldCSharpDoc docUsing (fun _ => 0) (fun _ => 0) (fun _ _ _ _ => 0)
      30 0 (docLen docUsing) 0 noLevels = Some lv'.
Proof.
  apply cs_fold_returns.
  - intros. left. reflexivity.
  - vm_compute. discriminate.
Defined.

(** * Lines and positions *)

(** The line starts after a position grow strictly. *)
Lemma lineStartsFrom_sorted d : forall p,
  forall i j, (i < j < List.length (lineStartsFrom d p))%nat ->
    nth i (lineStartsFrom d p) 0 < nth j (lineStartsFrom d p) 0.
Proof.
  induction d as [|c r IH]; intros p i j H; cbn [lineStartsFrom] in *; [cbn in H; lia|].
  assert (Hcons : forall i j,
            (i < j < List.length ((p + 1)%Z :: lineStartsFrom r (p + 1)%Z))%nat ->
            nth i ((p + 1) :: lineStartsFrom r (p + 1)) 0
            < nth j ((p + 1) :: lineStartsFrom r (p + 1)) 0).
  { intros i0 j0 H0. cbn [List.length] in H0.
    destruct j0 as [|j0]; [lia|]. destruct i0 as [|i0]; cbn [nth].
    - apply (lineStartsFrom_gt r (p + 1)). apply nth_In. lia.
    - apply IH. lia. }
  destruct (c =? LF); [apply Hcons, H|].
  destruct (c =? CR); [|apply IH, H].
  destruct r as [|c' r']; [apply Hcons, H|].
  destruct (c' =? LF); [apply IH, H | apply Hcons, H].
Qed.

Lemma filter_le_prefix (pos : Z) : forall (L : list Z),
  (forall i j, (i < j < List.length L)%nat -> nth i L 0 < nth j L 0) ->
  forall (i : nat) (dflt : Z),
    (i < List.length (filter (fun s : Z => (s <=? pos)%Z) L))%nat ->
    nth i L dflt <= pos.
Proof.
  induction L as [|x xs IH]; intros HS i dflt Hi; cbn [filter] in Hi; [cbn in Hi; lia|].
  assert (HS' : forall i j, (i < j < List.length xs)%nat -> nth i xs 0 < nth j xs 0).
  { intros a b Hab. apply (HS (S a) (S b)). cbn [List.length]. lia. }
  destruct (Z.leb_spec x pos) as [Hx|Hx].
  - destruct i as [|i]; cbn [nth]; [exact Hx|].
    apply IH; [exact HS'|]. cbn [List.length] in Hi. lia.
  - exfalso.
    assert (Hall : forall y, In y xs -> pos < y).
    { intros y Hy. destruct (In_nth xs y 0 Hy) as [k [Hk <-]].
      pose proof (HS 0%nat (S k)) as Hlt. cbn [nth List.length] in Hlt.
      specialize (Hlt ltac:(lia)). lia. }
    assert (Hnil : filter (fun s => s <=? pos) xs = []).
    { clear - Hall. induction xs as [|y ys IHy]; [reflexivity|]. cbn [filter].
      assert (pos < y) by (apply Hall; left; reflexivity).
      replace (y <=? pos) with false by lia. apply IHy. intros z Hz. apply Hall. right. exact Hz. }
    rewrite Hnil in Hi. cbn in Hi. lia.
Qed.

(** A line that is not after the line of a position starts at or
    before that position. *)
Lemma LineStart_le d line pos :
  0 <= line <= GetLine d pos -> LineStart d line <= pos.
Proof.
  intro H. unfold LineStart, GetLine in *.
  replace (line <? 0) with false by lia.
  apply filter_le_prefix; [|lia].
  intros i j Hij. unfold lineStarts in *. cbn [List.length] in Hij.
  destruct j as [|j]; [lia|]. destruct i as [|i]; cbn [nth].
  - apply (lineStartsFrom_gt d 0). apply nth_In. lia.
  - apply lineStartsFrom_sorted. lia.
Qed.

Lemma backtrackLine_range ls mask : forall fuel line,
  0 <= line -> 0 <= backtrackLine ls mask line fuel <= line.
Proof.
  induction fuel as [|fuel IH]; intros line H; cbn [backtrackLine]; [lia|].
  destruct (negb (Z.land (ls line) mask =? 0) && negb (line =? 0)) eqn:E; [|lia].
  apply Bool.andb_true_iff in E. destruct E as [_ E].
  apply Bool.negb_true_iff, Z.eqb_neq in E.
  specialize (IH (line - 1) ltac:(lia)). lia.
Qed.

(** [BacktrackToStart] moves the start back, never forward, and keeps
    the end of the range. *)
Lemma BacktrackToStart_range d st ls mask startPos lengthDoc initStyle :
  0 <= startPos ->
  let r := BacktrackToStart d st ls mask startPos lengthDoc initStyle in
  0 <= fst (fst r) <= startPos
  /\ fst (fst r) + snd (fst r) = startPos + lengthDoc
  /\ (snd r = initStyle \/ snd r = 0
      \/ (0 < fst (fst r) /\ snd r = st (fst (fst r) - 1))).
Proof.
  intro H0. unfold BacktrackToStart. cbv zeta.
  destruct (Z.eqb_spec (GetLine d startPos) 0) as [E|N]; [cbn; repeat split; auto; lia|].
  set (cur := GetLine d startPos) in *.
  assert (Hcur : 0 < cur).
  { assert (0 <= cur); [|lia]. unfold cur, GetLine, lineStarts. cbn [filter].
    replace (0 <=? startPos) with true by lia. cbn [List.length]. lia. }
  pose proof (backtrackLine_range ls mask (Z.to_nat cur) (cur - 1) ltac:(lia)) as Hb.
  set (l0 := backtrackLine ls mask (cur - 1) (Z.to_nat cur)) in *.
  set (line := if Z.land (ls l0) mask =? 0 then l0 + 1 else l0).
  assert (Hline : 0 <= line <= cur) by (unfold line; destruct (_ =? 0); lia).
  destruct (Z.eqb_spec line cur) as [E|Nl]; [cbn; repeat split; auto; lia|].
  pose proof (LineStart_le d line startPos ltac:(fold cur; lia)) as HL.
  assert (HL0 : 0 <= LineStart d line).
  { unfold LineStart, lineStarts. replace (line <? 0) with false by lia.
    destruct (nth_in_or_default (Z.to_nat line) (0 :: lineStartsFrom d 0) (docLen d))
      as [Hin|Hd]; [|rewrite Hd; unfold docLen; lia].
    destruct Hin as [<-|Hin]; [lia|].
    apply lineStartsFrom_gt in Hin. lia. }
  cbn [fst snd].
  destruct (Z.eqb_spec line 0) as [Ez|Nz]; cbn [fst snd].
  - change (0 =? 0) with true. cbv iota. repeat split; auto; lia.
  - destruct (Z.eqb_spec (LineStart d line) 0) as [Es|Ns].
    + rewrite Es. repeat split; auto; lia.
    + repeat split; lia.
Qed.

(** * Every byte of the range gets a style *)

Lemma vb_lex_loop_done language kw d : forall fuel st st',
  VB.lex_loop language kw d fuel st = Some st' ->
  endPos (snd st') <= currentPos (snd st').
Proof.
  induction fuel as [|fuel IH]; intros st st' E; cbn [VB.lex_loop] in E; unfold SC.More in E.
  - destruct (Z.ltb_spec (currentPos (snd st)) (endPos (snd st))); [discriminate|].
    injection E as <-. exact H.
  - destruct (Z.ltb_spec (currentPos (snd st)) (endPos (snd st))).
    + exact (IH _ _ E).
    + injection E as <-. exact H.
Qed.

(** The context that [ColouriseVBDoc] starts from lies at or before
    the start position and ends where the range ends. *)
Lemma vb_lex_init_range d startPos lengthDoc initStyle st ls :
  0 <= startPos ->
  let sc := snd (VB.lex_init d startPos lengthDoc initStyle st ls) in
  startSeg sc = currentPos sc
  /\ currentPos sc <= startPos
  /\ startPos + lengthDoc <= endPos sc
  /\ styles sc = st
  /\ (state sc = initStyle \/ state sc = 0
      \/ (0 < currentPos sc /\ state sc = st (currentPos sc - 1))).
Proof.
  intro H0. unfold VB.lex_init.
  assert (Hb : let r := if negb (startPos =? 0)
                 then BacktrackToStart d st ls VB.VBLineStateStringInterpolation
                        startPos lengthDoc initStyle
                 else (startPos, lengthDoc, initStyle) in
               0 <= fst (fst r) <= startPos
               /\ fst (fst r) + snd (fst r) = startPos + lengthDoc
               /\ (snd r = initStyle \/ snd r = 0
                   \/ (0 < fst (fst r) /\ snd r = st (fst (fst r) - 1)))).
  { destruct (negb (startPos =? 0)); [apply BacktrackToStart_range; exact H0|].
    cbn. repeat split; auto; lia. }
  destruct (if negb (startPos =? 0) then _ else _) as [[sp len] sty].
  cbn [fst snd] in Hb. destruct Hb as [B1 [B2 B3]].
  assert (HM : let sc := SC.Make d sp len sty st ls in
               startSeg sc = currentPos sc /\ currentPos sc <= startPos
               /\ startPos + lengthDoc <= endPos sc /\ styles sc = st
               /\ (state sc = initStyle \/ state sc = 0
                   \/ (0 < currentPos sc /\ state sc = st (currentPos sc - 1)))).
  { unfold SC.Make. cbn. repeat split; try lia; try exact B3. destruct (_ =? _); lia. }
  destruct (negb (sp =? 0) && VB.IsSpaceEquiv sty); exact HM.
Qed.

(** X11.  After a call of [ColouriseVBDoc] that starts from a valid
    style, every byte before the end of the range has one of the
    styles of the LangB lexer, when the bytes before the start position
    had one: no byte of the range is left without a style. *)
Theorem vb_lexer_styles_whole_range :
  forall language kw d fuel startPos lengthDoc initStyle st ls r,
    0 <= startPos ->
    isVBStyle initStyle ->
    (forall q, 0 <= q < startPos -> isVBStyle (st q)) ->
    VB.ColouriseVBDoc language kw d fuel startPos lengthDoc initStyle st ls = Some r ->
    forall q, 0 <= q < startPos + lengthDoc -> isVBStyle (fst r q).
Proof.
  intros language kw d fuel startPos lengthDoc initStyle st ls r H0 Hi Hst E q Hq.
  unfold VB.ColouriseVBDoc in E.
  destruct (VB.lex_loop language kw d fuel _) as [[l1 sc1]|] eqn:EL; [|discriminate].
  cbv zeta in E. injection E as <-. cbn [fst snd].
  pose proof (vb_lex_init_range d startPos lengthDoc initStyle st ls H0)
    as [I1 [I2 [I3 [I4 I5]]]].
  set (sc0 := snd (VB.lex_init d startPos lengthDoc initStyle st ls)) in *.
  pose proof (vb_lex_loop_done language kw d fuel _ _ EL) as Hdone. cbn [snd] in Hdone.
  assert (W : writes isVBStyle sc0 (SC.Complete sc1)).
  { apply writes_Complete.
    apply (WritesVB.writes_lex_loop isVBStyle (fun _ H => H) language kw d fuel _ (l1, sc1) sc0
             (writes_refl _ _) EL). }
  assert (W0 : writes isVBStyle sc0 sc1).
  { apply (WritesVB.writes_lex_loop isVBStyle (fun _ H => H) language kw d fuel _ (l1, sc1) sc0
             (writes_refl _ _) EL). }
  assert (Hs0 : isVBStyle (state sc0)).
  { destruct I5 as [->|[->|[Hp ->]]]; [exact Hi | vb_style | apply Hst; lia]. }
  destruct (W0 ltac:(lia) Hs0) as [E0 _].
  destruct (W ltac:(lia) Hs0) as [_ [_ [_ [_ [_ [W1 [_ W3]]]]]]].
  change (isVBStyle (styles (SC.Complete sc1) q)).
  destruct (Z.lt_ge_cases q (startSeg sc0)) as [Hlt|Hge].
  - destruct (W1 q) as [F|[F _]]; [|lia]. rewrite F, I4. apply Hst. lia.
  - apply W3. split; [exact Hge|].
    change (startSeg (SC.Complete sc1)) with (currentPos sc1). lia.
Qed.

Lemma vb_lexer_styles_whole_range_witness :
  isVBStyle (fst (resultOr (VB.ColouriseVBDoc VB.VBNET vbKeywords docDim 100 0 (docLen docDim) 0
                              (fun _ => -1) (fun _ => 0))) 4).
Proof.
  apply (vb_lexer_styles_whole_range VB.VBNET vbKeywords docDim 100 0 (docLen docDim) 0
           (fun _ => -1) (fun _ => 0)).
  - lia.
  - vb_style.
  - intros q Hq. exfalso. lia.
  - vm_compute. reflexivity.
  - vm_compute. split; [discriminate | reflexivity].
Defined.

(** ** The loop of [ColouriseCSharpDoc] returns *)

Module ProgressCS.
Import CSharp.

Lemma ForwardN_pos d n : forall sc,
  currentPos sc <= currentPos (SC.ForwardN d n sc)
  /\ (currentPos sc <= endPos sc -> currentPos (SC.ForwardN d n sc) <= endPos sc)
  /\ ((0 < n)%nat -> currentPos sc < endPos sc -> currentPos sc < currentPos (SC.ForwardN d n sc)).
Proof.
  induction n as [|n IH]; intro sc.
  - change (SC.ForwardN d 0 sc) with sc. repeat split; intros; lia.
  - change (SC.ForwardN d (S n) sc) with (SC.ForwardN d n (SC.Forward d sc)).
    destruct (IH (SC.Forward d sc)) as [I1 [I2 I3]].
    rewrite endPos_Forward in I2.
    destruct (Forward_pos d sc) as [[F1 F2]|[F1 F2]]; rewrite F2 in *;
      repeat split; intros; lia.
Qed.

Lemma Advance_pos d k sc :
  currentPos sc <= currentPos (SC.Advance d k sc)
  /\ (currentPos sc <= endPos sc -> currentPos (SC.Advance d k sc) <= endPos sc)
  /\ (1 <= k -> currentPos sc < endPos sc -> currentPos sc < currentPos (SC.Advance d k sc)).
Proof.
  unfold SC.Advance. destruct (ForwardN_pos d (Z.to_nat k) sc) as [A1 [A2 A3]].
  repeat split; try assumption. intros Hk. apply A3. lia.
Qed.

Lemma endPos_ForwardN d n : forall sc, endPos (SC.ForwardN d n sc) = endPos sc.
Proof.
  induction n as [|n IH]; intro sc; [reflexivity|].
  change (SC.ForwardN d (S n) sc) with (SC.ForwardN d n (SC.Forward d sc)).
  rewrite IH. apply endPos_Forward.
Qed.
Lemma endPos_Advance d k sc : endPos (SC.Advance d k sc) = endPos sc.
Proof. apply endPos_ForwardN. Qed.
Lemma endPos_Rewind d sc : endPos (SC.Rewind d sc) = endPos sc.
Proof. reflexivity. Qed.
Lemma startSeg_Forward d sc : startSeg (SC.Forward d sc) = startSeg sc.
Proof. unfold SC.Forward. destruct (_ <? _); reflexivity. Qed.
Lemma startSeg_Advance d k sc : startSeg (SC.Advance d k sc) = startSeg sc.
Proof. unfold SC.Advance. apply ForwardN_keeps. Qed.
Lemma startSeg_SetState s sc : startSeg (SC.SetState s sc) = currentPos sc.
Proof. reflexivity. Qed.
Lemma startSeg_ChangeState s sc : startSeg (SC.ChangeState s sc) = startSeg sc.
Proof. reflexivity. Qed.
Lemma startSeg_SetLineState n v sc : startSeg (SC.SetLineState n v sc) = startSeg sc.
Proof. reflexivity. Qed.
Lemma startSeg_Rewind d sc : startSeg (SC.Rewind d sc) = startSeg sc.
Proof. reflexivity. Qed.
Lemma currentPos_Rewind d sc : currentPos (SC.Rewind d sc) = startSeg sc.
Proof. reflexivity. Qed.
Lemma state_Rewind d sc : state (SC.Rewind d sc) = state sc.
Proof. reflexivity. Qed.
Lemma ch_SetState s sc : ch (SC.SetState s sc) = ch sc.
Proof. reflexivity. Qed.
Lemma ch_ChangeState s sc : ch (SC.ChangeState s sc) = ch sc.
Proof. reflexivity. Qed.
Lemma atLineStart_SetState s sc : atLineStart (SC.SetState s sc) = atLineStart sc.
Proof. reflexivity. Qed.
Lemma atLineStart_ChangeState s sc : atLineStart (SC.ChangeState s sc) = atLineStart sc.
Proof. reflexivity. Qed.

Create Rewrite HintDb csdb.
#[export] Hint Rewrite endPos_Advance endPos_Rewind startSeg_Forward startSeg_Advance
  startSeg_SetState startSeg_ChangeState startSeg_SetLineState startSeg_Rewind
  currentPos_Rewind state_Rewind state_Advance ch_SetState ch_ChangeState
  atLineStart_SetState atLineStart_ChangeState : csdb.

(** A fact on a position is added once, in normal form. *)
Ltac add_fact pf :=
  let H := fresh "Hp" in
  pose proof pf as H;
  autorewrite with mvdb csdb in H;
  let T := type of H in
  lazymatch goal with
  | H1 : T, H2 : T |- _ => clear H; fail
  | _ => idtac
  end.

(** Brings the fields of a context built from steps back to those of
    the context it starts from, and adds what is known of the position
    after each step forward and each advance. *)
Ltac open_cs :=
  unfold SC.ForwardSetState in *;
  autorewrite with mvdb csdb in *;
  repeat match goal with
         | |- context [currentPos (SC.Forward ?d ?x)] => add_fact (Forward_pos d x)
         | |- context [currentPos (SC.Advance ?d ?k ?x)] => add_fact (Advance_pos d k x)
         | _ : context [currentPos (SC.Forward ?d ?x)] |- _ => add_fact (Forward_pos d x)
         | _ : context [currentPos (SC.Advance ?d ?k ?x)] |- _ => add_fact (Advance_pos d k x)
         end;
  cbn [fst snd] in *.

Ltac cs_setters :=
  cbn [lineStateLineType kwType chBeforeIdentifier parenCount stringDelimiterCount
       stringInterpolatorCount ppKind visibleChars chBefore visibleCharsBefore
       chPrevNonWhite docTagState
       escOuterState nestedState closeBrace escDigitsLeft
       set_lineStateLineType set_kwType set_chBeforeIdentifier set_parenCount
       set_stringDelimiterCount set_stringInterpolatorCount set_ppKind set_visibleChars
       set_chBefore set_visibleCharsBefore set_chPrevNonWhite set_docTagState
       set_escOuterState set_escDigitsLeft set_closeBrace set_nestedState] in *.

Ltac cs_consts :=
  unfold SCE_CSHARP_DEFAULT, SCE_CSHARP_COMMENTLINE, SCE_CSHARP_COMMENTLINEDOC,
    SCE_CSHARP_COMMENTBLOCK, SCE_CSHARP_COMMENTBLOCKDOC, SCE_CSHARP_COMMENTTAG_XML,
    SCE_CSHARP_TASKMARKER, SCE_CSHARP_CHARACTER, SCE_CSHARP_STRING,
    SCE_CSHARP_INTERPOLATED_STRING, SCE_CSHARP_RAWSTRING_SL,
    SCE_CSHARP_INTERPOLATED_RAWSTRING_SL, SCE_CSHARP_RAWSTRING_ML,
    SCE_CSHARP_INTERPOLATED_RAWSTRING_ML, SCE_CSHARP_VERBATIM_STRING,
    SCE_CSHARP_INTERPOLATED_VERBATIM_STRING, SCE_CSHARP_ESCAPECHAR,
    SCE_CSHARP_FORMAT_SPECIFIER, SCE_CSHARP_PLACEHOLDER, SCE_CSHARP_OPERATOR,
    SCE_CSHARP_OPERATOR2, SCE_CSHARP_NUMBER, SCE_CSHARP_IDENTIFIER, SCE_CSHARP_PREPROCESSOR,
    SCE_CSHARP_PREPROCESSOR_WORD, SCE_CSHARP_PREPROCESSOR_MESSAGE, SCE_CSHARP_WORD,
    SCE_CSHARP_WORD2, SCE_CSHARP_ATTRIBUTE, SCE_CSHARP_CLASS, SCE_CSHARP_STRUCT,
    SCE_CSHARP_INTERFACE, SCE_CSHARP_ENUM, SCE_CSHARP_RECORD, SCE_CSHARP_CONSTANT,
    SCE_CSHARP_LABEL, SCE_CSHARP_FUNCTION, SCE_CSHARP_FUNCTION_DEFINITION in *.

(** The rank of a style of the kind that is handed back is at most 1. *)
Lemma cs_rank_outer l sc : cs_outer_ok (state sc) -> cs_rank (l, sc) <= 1.
Proof.
  unfold cs_outer_ok, cs_rank. intros [H|H].
  - replace (isStringState (state sc)) with false
      by (unfold isStringState; revert H; cs_consts; lia).
    replace (state sc =? SCE_CSHARP_FORMAT_SPECIFIER) with false
      by (revert H; cs_consts; lia).
    replace (state sc =? SCE_CSHARP_COMMENTTAG_XML) with false
      by (revert H; cs_consts; lia).
    replace (state sc =? SCE_CSHARP_ESCAPECHAR) with false
      by (revert H; cs_consts; lia).
    cbn. lia.
  - rewrite H. destruct (_ && _ && _); lia.
Qed.

Lemma cs_rank_string_closed l sc :
  isStringState (state sc) = true -> closeBrace l = true -> cs_rank (l, sc) = 0.
Proof.
  intros H1 H2. unfold cs_rank. rewrite H1, H2.
  rewrite Bool.andb_false_r. reflexivity.
Qed.

Lemma cs_rank_format_valid l sc :
  state sc = SCE_CSHARP_FORMAT_SPECIFIER ->
  IsInvalidFormatSpecifier (ch sc) = false -> cs_rank (l, sc) = 0.
Proof.
  intros H1 H2. unfold cs_rank. rewrite H1, H2. reflexivity.
Qed.

Lemma cs_rank_range st : 0 <= cs_rank st <= 2.
Proof. destruct st as [l sc]. unfold cs_rank. split_tests; lia. Qed.


Section Arms.
Variable kw : LexerWordList.
Variable task : Doc -> StyleContext -> Z -> Z -> Z -> option (StyleContext * Z).
Variable d : Doc.
Hypothesis Htask : taskAdvances task d.

(** The classification of a word changes the style alone. *)
Lemma cs_classify_fields s l sc :
  (let r := classifyWord kw d s (l, sc) in
   endPos (snd r) = endPos sc /\ startSeg (snd r) = startSeg sc
   /\ currentPos (snd r) = currentPos sc /\ ch (snd r) = ch sc
   /\ escOuterState (fst r) = escOuterState l /\ nestedState (fst r) = nestedState l)
  /\ (let r := classifyPreprocessor s (l, sc) in
      endPos (snd r) = endPos sc /\ startSeg (snd r) = startSeg sc
      /\ currentPos (snd r) = currentPos sc /\ ch (snd r) = ch sc
      /\ escOuterState (fst r) = escOuterState l /\ nestedState (fst r) = nestedState l)
  /\ (let r := classifyIdentifier d s (l, sc) in
      endPos (snd r) = endPos sc /\ startSeg (snd r) = startSeg sc
      /\ currentPos (snd r) = currentPos sc /\ ch (snd r) = ch sc
      /\ escOuterState (fst r) = escOuterState l /\ nestedState (fst r) = nestedState l).
Proof.
  unfold classifyWord, classifyPreprocessor, classifyIdentifier, keywordHint.
  split; [|split]; cbv zeta; split_tests; cbn [fst snd]; cs_setters; repeat split.
Qed.

Ltac split_cs :=
  cs_setters;
  repeat (match goal with
          | |- context [if ?c then _ else _] => destruct c
          | |- context [match ?x with _ => _ end] => destruct x
          end; cs_setters).

Ltac finc :=
  unfold cs_progress, cs_inv; cbn [fst snd]; cs_setters; open_cs; cs_setters;
  repeat match goal with
         | |- _ /\ _ => split
         | |- _ -> _ => intro
         end;
  try assumption; try lia; try (cs_consts; lia).

Lemma cs_progress_arm_identifier l sc :
  (state sc = SCE_CSHARP_IDENTIFIER \/ state sc = SCE_CSHARP_PREPROCESSOR) ->
  startSeg sc <= currentPos sc < endPos sc ->
  cs_inv l ->
  cs_progress (endPos sc) (startSeg sc) (currentPos sc) 1 (arm_identifier kw d (l, sc)).
Proof.
  intros Hs Hin [Ho Hn]. unfold arm_identifier.
  destruct (negb (IsCsIdentifierChar (ch sc) (chNext sc))).
  2:{ finc. }
  cbv zeta. set (s := SC.GetCurrent d sc 128).
  assert (H1 : let r := match ppKind l with
                        | PpNone => classifyWord kw d s (l, sc)
                        | PpInit => classifyPreprocessor s (l, sc)
                        | PpPragma => (set_ppKind PpOther l,
                                       SC.ChangeState SCE_CSHARP_PREPROCESSOR_WORD sc)
                        | _ => (l, sc)
                        end in
               endPos (snd r) = endPos sc /\ startSeg (snd r) = startSeg sc
               /\ currentPos (snd r) = currentPos sc
               /\ escOuterState (fst r) = escOuterState l
               /\ nestedState (fst r) = nestedState l).
  { destruct (cs_classify_fields s l sc) as [C1 [C2 C3]].
    destruct (ppKind l); cbv zeta in *; cbn [fst snd] in *; cs_setters;
      try tauto; repeat split. }
  destruct (match ppKind l with PpNone => _ | _ => _ end) as [l1 sc1].
  cbn [fst snd] in H1. destruct H1 as [A1 [A2 [A3 [A4 A5]]]].
  assert (H2 : let r := if pp_eqb (ppKind l1) PpNone && (state sc1 =? SCE_CSHARP_IDENTIFIER)
                        then classifyIdentifier d s (l1, sc1) else (l1, sc1) in
               endPos (snd r) = endPos sc /\ startSeg (snd r) = startSeg sc
               /\ currentPos (snd r) = currentPos sc
               /\ escOuterState (fst r) = escOuterState l
               /\ nestedState (fst r) = nestedState l).
  { destruct (cs_classify_fields s l1 sc1) as [C1 [C2 C3]].
    destruct (_ && _); cbv zeta in *; cbn [fst snd] in *; repeat split; try congruence;
      destruct C3 as [D1 [D2 [D3 [D4 [D5 D6]]]]]; congruence. }
  destruct (if pp_eqb (ppKind l1) PpNone && _ then _ else _) as [l2 sc2].
  cbn [fst snd] in H2. destruct H2 as [B1 [B2 [B3 [B4 B5]]]].
  unfold cs_progress, cs_inv. cbn [fst snd]. open_cs.
  split_tests; cs_setters; rewrite ?B4, ?B5; repeat split; try assumption; try lia;
    intros; lia.
Qed.


Lemma close_doctag_fields l sc :
  startSeg sc <= currentPos sc <= endPos sc ->
  let r := close_doctag d (l, sc) in
  endPos (snd r) = endPos sc
  /\ startSeg sc <= startSeg (snd r) <= currentPos (snd r)
  /\ currentPos sc <= currentPos (snd r) <= endPos sc
  /\ escOuterState (fst r) = escOuterState l
  /\ nestedState (fst r) = nestedState l
  /\ (state (snd r) = state sc \/ state (snd r) = escOuterState l).
Proof.
  intro Hin. unfold close_doctag.
  destruct (negb (tagIsNone (docTagState l)) && _); cbv zeta; cbn [fst snd]; cs_setters;
    [|repeat split; auto; lia].
  open_cs. intros. repeat split; auto; lia.
Qed.

Lemma cs_progress_arm_comment l sc :
  SCE_CSHARP_COMMENTLINE <= state sc <= SCE_CSHARP_COMMENTBLOCKDOC ->
  startSeg sc <= currentPos sc < endPos sc ->
  cs_inv l ->
  cs_progress (endPos sc) (startSeg sc) (currentPos sc) 1 (arm_comment task d (l, sc)).
Proof.
  intros Hs Hin [Ho Hn]. unfold arm_comment.
  destruct (atLineStart sc && _); [finc|].
  pose proof (close_doctag_fields l sc ltac:(lia)) as HC.
  destruct (close_doctag d (l, sc)) as [l1 sc1]. cbv zeta in HC. cbn [fst snd] in HC.
  cbv beta iota.
  destruct HC as [C1 [C2 [C3 [C4 [C5 C6]]]]].
  assert (Hok1 : cs_outer_ok (state sc1)).
  { destruct C6 as [->| ->]; [left; revert Hs; cs_consts; lia | exact Ho]. }
  assert (Hinv1 : cs_inv l1) by (unfold cs_inv; rewrite C4, C5; auto).
  destruct (_ && SC.Match2 STAR SLASH sc1); [destruct Hinv1; finc|].
  destruct (tagIsNone (docTagState l1)); [|destruct Hinv1; finc].
  destruct ((ch sc1 =? LESS) && _).
  - destruct Hinv1. split_tests; finc.
  - destruct (task d sc1 (visibleChars l1) (visibleCharsBefore l1) SCE_CSHARP_TASKMARKER)
      as [[sc' vc]|] eqn:E.
    + destruct (Htask _ _ _ _ _ _ E ltac:(lia)) as [T1 [T2 [T3 T4]]].
      destruct Hinv1. finc.
    + destruct Hinv1. finc.
Qed.


Lemma frames_tl (P : InterpolatedStringState -> Prop) xs :
  Forall P xs -> Forall P (tl xs).
Proof. intros H. destruct H; [constructor | assumption]. Qed.

(** Closes the goals on the frames of the open holes. *)
Ltac frames :=
  repeat match goal with
         | H : Forall _ (_ :: _) |- _ => inversion H; clear H; subst
         end;
  try assumption;
  try (constructor; [cbn [iss_state]; assumption | assumption]);
  try (apply frames_tl; assumption).

Lemma cs_progress_arm_string l sc :
  isStringState (state sc) = true ->
  startSeg sc <= currentPos sc < endPos sc ->
  cs_inv l ->
  cs_progress (endPos sc) (startSeg sc) (currentPos sc) (cs_rank (l, sc))
    (arm_string d (l, sc)).
Proof.
  intros Hs Hin [Ho Hn].
  assert (Hs7 : SCE_CSHARP_CHARACTER <= state sc <= SCE_CSHARP_INTERPOLATED_VERBATIM_STRING).
  { unfold isStringState in Hs. apply Bool.andb_true_iff in Hs. lia. }
  assert (Hok : cs_outer_ok (state sc)) by (right; exact Hs).
  unfold arm_string, cs_rank. rewrite Hs.
  destruct l; cs_setters.
  destruct (atLineStart sc && IsSingleLineString (state sc) && negb _).
  { finc. }
  unfold string_body, string_quote, string_lbrace, string_rbrace, rbrace_escape,
    resetEscapeState.
  cs_setters.
  split_cs; finc; frames.
Qed.


Lemma cs_progress_weaken e s0 p0 r0 r1 r :
  r0 <= r1 -> cs_progress e s0 p0 r0 r -> cs_progress e s0 p0 r1 r.
Proof.
  unfold cs_progress. intros Hr [H1 [H2 [H3 [H4 H5]]]].
  repeat (split; [assumption|]).
  destruct (snd r); [|lia].
  destruct H5 as [H5 H6]. split; [assumption|]. intro H. specialize (H6 H). lia.
Qed.

Lemma cs_progress_arm_commenttag l sc :
  startSeg sc <= currentPos sc < endPos sc ->
  cs_inv l ->
  cs_progress (endPos sc) (startSeg sc) (currentPos sc) 2 (arm_commenttag (l, sc)).
Proof.
  intros Hin [Ho Hn].
  pose proof (cs_rank_outer l (SC.SetState (escOuterState l) sc) Ho) as Hr.
  unfold arm_commenttag. split_tests; finc.
Qed.

Lemma cs_progress_arm_format l sc :
  state sc = SCE_CSHARP_FORMAT_SPECIFIER ->
  startSeg sc <= currentPos sc < endPos sc ->
  cs_inv l ->
  cs_progress (endPos sc) (startSeg sc) (currentPos sc)
    (if IsInvalidFormatSpecifier (ch sc) then 2 else 0) (arm_format (l, sc)).
Proof.
  intros Hs Hin [Ho Hn].
  pose proof (cs_rank_outer l (SC.SetState (escOuterState l) sc) Ho) as Hr.
  unfold arm_format. split_tests; finc.
Qed.

Lemma cs_progress_arm_placeholder l sc :
  startSeg sc <= currentPos sc < endPos sc ->
  cs_inv l ->
  cs_progress (endPos sc) (startSeg sc) (currentPos sc) 1 (arm_placeholder d (l, sc)).
Proof.
  intros Hin [Ho Hn].
  unfold arm_placeholder. split_tests; finc.
Qed.

Lemma cs_progress_arm_escape l sc :
  startSeg sc <= currentPos sc < endPos sc ->
  cs_inv l ->
  cs_progress (endPos sc) (startSeg sc) (currentPos sc) 2 (arm_escape (l, sc)).
Proof.
  intros Hin [Ho Hn].
  pose proof (cs_rank_outer (set_escDigitsLeft (escDigitsLeft l - 1) l)
                (SC.SetState (escOuterState l) sc) Ho) as Hr.
  unfold arm_escape, atEscapeEnd. split_tests; finc.
Qed.


(** The rank of a style that the tests of the switch have singled
    out. *)
Ltac rk :=
  unfold cs_rank, isStringState; cs_consts;
  repeat match goal with
         | |- context [if ?c then _ else _] => destruct c eqn:?
         end;
  lia.

Lemma cs_progress_switch_state l sc :
  startSeg sc <= currentPos sc < endPos sc ->
  cs_inv l ->
  cs_progress (endPos sc) (startSeg sc) (currentPos sc) (cs_rank (l, sc))
    (switch_state kw task d (l, sc)).
Proof.
  intros Hin Hinv. unfold switch_state. cbv zeta.
  destruct ((state sc =? SCE_CSHARP_OPERATOR) || (state sc =? SCE_CSHARP_OPERATOR2)) eqn:E1.
  { assert (Hr : cs_rank (l, sc) = 1) by (revert E1; rk).
    destruct Hinv. finc. }
  destruct (state sc =? SCE_CSHARP_NUMBER) eqn:E2.
  { assert (Hr : cs_rank (l, sc) = 1) by (revert E2; rk).
    destruct Hinv. split_tests; finc. }
  destruct ((state sc =? SCE_CSHARP_IDENTIFIER) || (state sc =? SCE_CSHARP_PREPROCESSOR)) eqn:E3.
  { assert (Hr : cs_rank (l, sc) = 1) by (revert E3; rk).
    rewrite Hr. apply cs_progress_arm_identifier; [lia | assumption | assumption]. }
  destruct (state sc =? SCE_CSHARP_PREPROCESSOR_MESSAGE) eqn:E4.
  { assert (Hr : cs_rank (l, sc) = 1) by (revert E4; rk).
    destruct Hinv. split_tests; finc. }
  destruct ((state sc =? SCE_CSHARP_COMMENTLINE) || (state sc =? SCE_CSHARP_COMMENTLINEDOC)
            || (state sc =? SCE_CSHARP_COMMENTBLOCK) || (state sc =? SCE_CSHARP_COMMENTBLOCKDOC))
    eqn:E5.
  { assert (Hr : cs_rank (l, sc) = 1) by (revert E5; rk).
    rewrite Hr. apply cs_progress_arm_comment; [revert E5; cs_consts; lia | assumption | assumption]. }
  destruct (state sc =? SCE_CSHARP_COMMENTTAG_XML) eqn:E6.
  { assert (Hr : cs_rank (l, sc) = 2) by (revert E6; rk).
    rewrite Hr. apply cs_progress_arm_commenttag; assumption. }
  destruct (isStringState (state sc)) eqn:E7.
  { apply cs_progress_arm_string; assumption. }
  destruct (state sc =? SCE_CSHARP_FORMAT_SPECIFIER) eqn:E8.
  { assert (Hr : cs_rank (l, sc) = if IsInvalidFormatSpecifier (ch sc) then 2 else 0).
    { unfold cs_rank. rewrite E7, E8. reflexivity. }
    rewrite Hr. apply cs_progress_arm_format; [lia | assumption | assumption]. }
  destruct (state sc =? SCE_CSHARP_PLACEHOLDER) eqn:E9.
  { assert (Hr : cs_rank (l, sc) = 1) by (revert E9; rk).
    rewrite Hr. apply cs_progress_arm_placeholder; assumption. }
  destruct (state sc =? SCE_CSHARP_ESCAPECHAR) eqn:E10.
  { assert (Hr : cs_rank (l, sc) = 2) by (revert E10; rk).
    rewrite Hr. apply cs_progress_arm_escape; assumption. }
  assert (Hr : cs_rank (l, sc) = 1).
  { unfold cs_rank. rewrite E7, E8, E6, E10. reflexivity. }
  destruct Hinv. finc.
Qed.


Ltac find :=
  unfold cs_default_progress, cs_inv; cbn [fst snd]; cs_setters; open_cs; cs_setters;
  repeat match goal with
         | |- _ /\ _ => split
         | |- _ -> _ => intro
         end;
  try assumption; try discriminate; try lia; try (cs_consts; lia); frames.

Lemma cs_default_operator l sc :
  startSeg sc <= currentPos sc <= endPos sc ->
  cs_inv l ->
  cs_default_progress (endPos sc) (startSeg sc) (currentPos sc) (default_operator d (l, sc)).
Proof.
  intros Hin [Ho Hn]. unfold default_operator.
  destruct l; cs_setters. destruct nestedState0 as [|top rest].
  - split_cs; find.
  - inversion Hn as [|? ? Htop Hrest]; subst. cbv zeta.
    rewrite ch_SetState.
    match goal with
    | |- context [set_nestedState (?t :: rest)] => set (top' := t)
    end.
    assert (Ht : iss_state top' = iss_state top)
      by (subst top'; split_tests; reflexivity).
    assert (Htop' : isStringState (iss_state top') = true) by (rewrite Ht; exact Htop).
    assert (Hok : cs_outer_ok (iss_state top')) by (right; exact Htop').
    clearbody top'.
    destruct (_ && IsInterpolatedStringEnd _ _) eqn:E; [|find].
    apply Bool.andb_true_iff in E. destruct E as [_ E].
    unfold IsInterpolatedStringEnd in E. rewrite ch_SetState in E.
    destruct (ch sc =? RBRACE) eqn:Ec.
    + find. right. right. apply cs_rank_string_closed; [exact Htop' | reflexivity].
    + find. right. right. apply cs_rank_format_valid; [reflexivity|].
      rewrite !ch_ChangeState, ch_SetState.
      unfold IsInvalidFormatSpecifier. revert E Ec. unfold COLON, COMMA, RBRACE, QUOTE. lia.
Qed.


Lemma cs_default_state l sc :
  startSeg sc <= currentPos sc <= endPos sc ->
  cs_inv l ->
  cs_default_progress (endPos sc) (startSeg sc) (currentPos sc) (default_state d (l, sc)).
Proof.
  intros Hin Hinv. unfold default_state.
  destruct (pp_eqb (ppKind l) PpMessage && negb (isspacechar (ch sc))).
  { destruct Hinv. find. }
  destruct ((ch sc =? SLASH) && ((chNext sc =? SLASH) || (chNext sc =? STAR))).
  { destruct Hinv. unfold default_comment. cbv zeta. split_cs; find. }
  destruct ((ch sc =? QUOTE) || (ch sc =? DOLLAR) || (ch sc =? ATSIGN)).
  { destruct Hinv. unfold default_string, startIdentifier. cbv zeta. split_cs; find. }
  destruct (ch sc =? APOS).
  { destruct Hinv. find. }
  destruct ((visibleChars l =? 0) && (ch sc =? HASH)).
  { destruct Hinv. find. }
  destruct (IsNumberStart (ch sc) (chNext sc)).
  { destruct Hinv. find. }
  destruct (IsCsIdentifierStart (ch sc) (chNext sc)).
  { destruct Hinv. unfold startIdentifier. split_cs; find. }
  destruct (IsAGraphic (ch sc) && negb (ch sc =? BSLASH)).
  { apply cs_default_operator; assumption. }
  destruct Hinv. find.
Qed.


Lemma cs_measure_lt e s0 p0 r0 s1 p1 r1 :
  s0 <= p0 <= e -> s0 <= s1 <= p1 -> p1 <= e ->
  0 <= r0 <= 2 -> 0 <= r1 <= 2 ->
  s0 < s1 \/ p0 < p1 \/ (p1 = p0 /\ r1 < r0) ->
  (e - s1) * (3 * (e - s1) + 3) + 3 * (e - p1) + r1
  < (e - s0) * (3 * (e - s0) + 3) + 3 * (e - p0) + r0.
Proof.
  intros H0 H1 H2 R0 R1 H.
  destruct (Z.eq_dec s0 s1) as [->|Hne]; [lia|].
  assert (Hs : s0 + 1 <= s1) by lia.
  assert (Hq : (e - s1) * (3 * (e - s1) + 3)
               <= (e - s0 - 1) * (3 * (e - s0 - 1) + 3)).
  { apply Z.mul_le_mono_nonneg; lia. }
  lia.
Qed.

(** The end of the loop body keeps the span start and the invariant of
    the locals and steps forward. *)
Lemma cs_body_end_fields l sc :
  let r := body_end d (l, sc) in
  endPos (snd r) = endPos sc /\ startSeg (snd r) = startSeg sc
  /\ (currentPos sc < endPos sc -> currentPos (snd r) = currentPos sc + 1)
  /\ (endPos sc <= currentPos sc -> currentPos (snd r) = currentPos sc)
  /\ (cs_inv l -> cs_inv (fst r)).
Proof.
  unfold body_end, line_end. cbv zeta. unfold cs_inv.
  split_tests; cbn [fst snd]; cs_setters; open_cs; cs_setters;
    repeat match goal with
           | |- _ /\ _ => split
           | |- _ -> _ => intro
           | H : _ /\ _ |- _ => destruct H
           end;
    try assumption; lia.
Qed.

Lemma cs_loop_body_measure e st :
  cs_lex_inv e st -> currentPos (snd st) < e ->
  cs_lex_inv e (loop_body kw task d st)
  /\ cs_measure (loop_body kw task d st) < cs_measure st.
Proof.
  destruct st as [l sc]. unfold cs_lex_inv, cs_measure. cbn [fst snd].
  intros [He [Hin Hinv]] Hlt. subst e.
  pose proof (cs_progress_switch_state l sc ltac:(lia) Hinv) as HS.
  pose proof (cs_rank_range (l, sc)) as R0.
  unfold loop_body.
  destruct (switch_state kw task d (l, sc)) as [[l1 sc1] c1].
  unfold cs_progress in HS. cbn [fst snd] in HS.
  destruct HS as [E1 [S1 [P1 [I1 C1]]]].
  destruct c1.
  - cbn [snd]. destruct C1 as [C1 C2].
    destruct (state sc1 =? SCE_CSHARP_DEFAULT) eqn:Ed.
    + apply Z.eqb_eq in Ed. specialize (C2 Ed).
      pose proof (cs_default_state l1 sc1 ltac:(lia) I1) as HD.
      destruct (default_state d (l1, sc1)) as [[l2 sc2] c2].
      unfold cs_default_progress in HD. cbn [fst snd] in HD.
      destruct HD as [E2 [S2 [P2 [I2 C3]]]].
      destruct c2.
      * pose proof (cs_body_end_fields l2 sc2) as HB. cbv zeta in HB.
        destruct (body_end d (l2, sc2)) as [l3 sc3]. cbn [fst snd] in *.
        destruct HB as [E3 [S3 [P3 [P4 I3]]]].
        pose proof (cs_rank_range (l3, sc3)) as R3.
        split; [split; [|split]; [lia | lia | apply I3; exact I2]|].
        rewrite E3, E2, E1. apply cs_measure_lt; lia.
      * cbn [fst snd]. pose proof (cs_rank_range (l2, sc2)) as R2.
        split; [split; [|split]; [lia | lia | exact I2]|].
        rewrite E2, E1. apply cs_measure_lt; try lia.
        specialize (C3 eq_refl). lia.
    + pose proof (cs_body_end_fields l1 sc1) as HB. cbv zeta in HB.
      destruct (body_end d (l1, sc1)) as [l3 sc3]. cbn [fst snd] in *.
      destruct HB as [E3 [S3 [P3 [P4 I3]]]].
      pose proof (cs_rank_range (l3, sc3)) as R3.
      split; [split; [|split]; [lia | lia | apply I3; exact I1]|].
      rewrite E3, E1. apply cs_measure_lt; lia.
  - cbn [fst snd]. pose proof (cs_rank_range (l1, sc1)) as R1.
    split; [split; [|split]; [lia | lia | exact I1]|].
    rewrite E1. apply cs_measure_lt; lia.
Qed.

Lemma cs_lex_loop_returns e :
  forall fuel st,
    cs_lex_inv e st ->
    cs_measure st < Z.of_nat fuel ->
    exists st', lex_loop kw task d fuel st = Some st'.
Proof.
  induction fuel as [|fuel IH]; intros st Hc Hm; cbn [lex_loop]; unfold SC.More.
  - destruct (Z.ltb_spec (currentPos (snd st)) (endPos (snd st))); [|eauto].
    pose proof (cs_rank_range st). unfold cs_measure in Hm.
    destruct Hc as [He [Hin _]]. cbv zeta in Hm. nia.
  - destruct (Z.ltb_spec (currentPos (snd st)) (endPos (snd st))) as [H|H]; [|eauto].
    assert (H' : currentPos (snd st) < e) by (destruct Hc as [He _]; lia).
    destruct (cs_loop_body_measure e st Hc H') as [M1 M2].
    apply IH; [exact M1 | lia].
Qed.

End Arms.
End ProgressCS.

(** Before its loop the lexer has the span start at the position, and
    locals that hold the default style as outer style and no open
    hole. *)
Lemma cs_lex_init_inv d startPos lengthDoc initStyle st ls :
  let st0 := CSharp.lex_init d startPos lengthDoc initStyle st ls in
  startSeg (snd st0) <= currentPos (snd st0) /\ cs_inv (fst st0).
Proof.
  cbv zeta. unfold CSharp.lex_init.
  destruct (if negb (startPos =? 0) then _ else _) as [[sp len] sty].
  cbv zeta.
  split_tests; cbn [fst snd]; split;
    try (unfold cs_inv, CSharp.initLocals; ProgressCS.cs_setters;
         split; [left; vm_compute; split; discriminate | constructor]);
    try (cbn [startSeg currentPos SC.Make]; lia).
  all: rewrite ProgressCS.startSeg_Forward;
    match goal with
    | |- context [currentPos (SC.Forward ?d ?x)] =>
        destruct (Forward_pos d x) as [[_ F]|[_ F]]; rewrite F
    end;
    rewrite ProgressCS.startSeg_SetState, currentPos_SetState; lia.
Qed.

(** X12.  [ColouriseCSharpDoc] returns on every input, as long as the
    task marker highlighter moves forward when it finds a marker: an
    iteration moves the span start or the position forward, or lowers
    the rank of the style at a position, so any bound above the
    measure of the initial state is enough. *)
Theorem cs_lexer_returns :
  forall kw task d startPos lengthDoc initStyle st ls fuel,
    taskAdvances task d ->
    cs_measure (CSharp.lex_init d startPos lengthDoc initStyle st ls) < Z.of_nat fuel ->
    exists r, CSharp.ColouriseCSharpDoc kw task d fuel startPos lengthDoc initStyle st ls
              = Some r.
Proof.
  intros kw task d startPos lengthDoc initStyle st ls fuel Htask Hm.
  unfold CSharp.ColouriseCSharpDoc.
  pose proof (cs_lex_init_inv d startPos lengthDoc initStyle st ls) as [I1 I2].
  cbv zeta in I1, I2.
  set (st0 := CSharp.lex_init d startPos lengthDoc initStyle st ls) in *.
  assert (E : exists st1, CSharp.lex_loop kw task d fuel st0 = Some st1).
  { destruct (Z.ltb_spec (currentPos (snd st0)) (endPos (snd st0))) as [H|H].
    - apply (ProgressCS.cs_lex_loop_returns kw task d Htask (endPos (snd st0)));
        [split; [reflexivity | split; [lia | exact I2]] | exact Hm].
    - exists st0. destruct fuel; cbn [CSharp.lex_loop]; unfold SC.More;
        destruct (Z.ltb_spec (currentPos (snd st0)) (endPos (snd st0))); try lia; reflexivity. }
  destruct E as [[l1 sc1] E]. rewrite E. eauto.
Qed.

Lemma cs_lexer_returns_witness :
  exists r, CSharp.ColouriseCSharpDoc csKeywords noTaskMarker docRawHole 1000 0 (docLen docRawHole) 0
              (fun _ => 0) (fun _ => 0) = Some r.
Proof.
  apply cs_lexer_returns.
  - intros sc vc vcb s sc' vc' H. discriminate H.
  - vm_compute. reflexivity.
Defined.

(** ** Escape sequences in C# strings *)

Module EscapeCS.
Import CSharp.

Section Run.
Variable kw : LexerWordList.
Variable task : Doc -> StyleContext -> Z -> Z -> Z -> option (StyleContext * Z).
Variable d : Doc.

(** The end of the loop body in a style other than the default: the
    escape locals, the style and the style bytes stay, the cursor
    moves one byte. *)
Lemma esc_body_end l sc :
  currentPos sc < endPos sc ->
  cursor_ok d sc ->
  let r := body_end d (l, sc) in
  escDigitsLeft (fst r) = escDigitsLeft l
  /\ escOuterState (fst r) = escOuterState l
  /\ state (snd r) = state sc
  /\ styles (snd r) = styles sc
  /\ startSeg (snd r) = startSeg sc
  /\ endPos (snd r) = endPos sc
  /\ currentPos (snd r) = currentPos sc + 1
  /\ cursor_ok d (snd r).
Proof.
  intros Hlt [Hc1 Hc2]. unfold body_end, line_end, cursor_ok. cbv zeta.
  assert (F : forall sc0, currentPos sc0 = currentPos sc -> endPos sc0 = endPos sc ->
                chNext sc0 = chNext sc ->
                currentPos (SC.Forward d sc0) = currentPos sc + 1
                /\ ch (SC.Forward d sc0) = charAt d (currentPos sc + 1)
                /\ chNext (SC.Forward d sc0) = charAt d (currentPos sc + 1 + 1)
                /\ state (SC.Forward d sc0) = state sc0
                /\ styles (SC.Forward d sc0) = styles sc0
                /\ startSeg (SC.Forward d sc0) = startSeg sc0
                /\ endPos (SC.Forward d sc0) = endPos sc0).
  { intros sc0 E1 E2 E3. unfold SC.Forward.
    replace (currentPos sc0 <? endPos sc0) with true by lia.
    cbn. rewrite E1, E3. repeat split. exact Hc2. }
  split_tests; cbn [fst snd]; ProgressCS.cs_setters.
  all: match goal with
       | |- context [SC.Forward d ?x] =>
           destruct (F x) as [F1 [F2 [F3 [F4 [F5 [F6 F7]]]]]]; try reflexivity
       end.
  all: rewrite F1, F2, F3, F4, F5, F6, F7; repeat split.
Qed.


Lemma esc_switch l sc :
  state sc = SCE_CSHARP_ESCAPECHAR ->
  switch_state kw task d (l, sc) = arm_escape (l, sc).
Proof. intro Hs. unfold switch_state. cbv zeta. rewrite Hs. reflexivity. Qed.

(** In the escape style, at a hex digit that is not the last one
    allowed, the iteration goes one byte forward. *)
Lemma esc_loop_continue l sc :
  state sc = SCE_CSHARP_ESCAPECHAR ->
  currentPos sc < endPos sc ->
  cursor_ok d sc ->
  1 < escDigitsLeft l ->
  IsHexDigit (ch sc) = true ->
  let r := loop_body kw task d (l, sc) in
  escDigitsLeft (fst r) = escDigitsLeft l - 1
  /\ escOuterState (fst r) = escOuterState l
  /\ state (snd r) = state sc
  /\ styles (snd r) = styles sc
  /\ startSeg (snd r) = startSeg sc
  /\ endPos (snd r) = endPos sc
  /\ currentPos (snd r) = currentPos sc + 1
  /\ cursor_ok d (snd r).
Proof.
  intros Hs Hlt Hc Hn Hh. unfold loop_body. rewrite (esc_switch l sc Hs).
  unfold arm_escape, atEscapeEnd. rewrite Hh.
  replace (escDigitsLeft l - 1 <=? 0) with false by lia.
  cbn [orb negb snd]. rewrite Hs.
  change (SCE_CSHARP_ESCAPECHAR =? SCE_CSHARP_DEFAULT) with false. cbv iota.
  rewrite <- Hs.
  exact (esc_body_end (set_escDigitsLeft (escDigitsLeft l - 1) l) sc Hlt Hc).
Qed.

(** In the escape style, at a byte that is no hex digit or after the
    last digit allowed, the iteration hands back the outer style. *)
Lemma esc_loop_end l sc :
  state sc = SCE_CSHARP_ESCAPECHAR ->
  escDigitsLeft l <= 1 \/ IsHexDigit (ch sc) = false ->
  loop_body kw task d (l, sc)
  = (set_escDigitsLeft (escDigitsLeft l - 1) l, SC.SetState (escOuterState l) sc).
Proof.
  intros Hs H. unfold loop_body. rewrite (esc_switch l sc Hs).
  unfold arm_escape, atEscapeEnd.
  replace ((escDigitsLeft l - 1 <=? 0) || negb (IsHexDigit (ch sc))) with true.
  - reflexivity.
  - destruct H as [H|H]; [|rewrite H; apply eq_sym, Bool.orb_true_r].
    replace (escDigitsLeft l - 1 <=? 0) with true by lia. reflexivity.
Qed.

(** The run of the escape style: over the hex digits at the position,
    as many as the count of digits left allows. *)
Lemma esc_run :
  forall (m : nat) l sc,
    state sc = SCE_CSHARP_ESCAPECHAR ->
    escDigitsLeft l = Z.of_nat m + 1 ->
    cursor_ok d sc ->
    currentPos sc + Z.of_nat (hexRun d (currentPos sc) m) <= endPos sc ->
    let j := hexRun d (currentPos sc) m in
    let r := Nat.iter (j + 1) (loop_body kw task d) (l, sc) in
    state (snd r) = escOuterState l
    /\ currentPos (snd r) = currentPos sc + Z.of_nat j
    /\ startSeg (snd r) = currentPos sc + Z.of_nat j
    /\ endPos (snd r) = endPos sc
    /\ styles (snd r)
       = setRange (styles sc) (startSeg sc) (currentPos sc + Z.of_nat j)
           SCE_CSHARP_ESCAPECHAR.
Proof.
  induction m as [|m IH]; intros l sc Hs Hn Hc He.
  - cbn [hexRun Nat.add Nat.iter nat_rect]. cbv zeta.
    rewrite (esc_loop_end l sc Hs) by lia. cbn [fst snd].
    rewrite Z.add_0_r. rewrite styles_SetState, Hs. repeat split.
  - cbn [hexRun] in *. destruct Hc as [Hc1 Hc2].
    rewrite <- Hc1 in *.
    destruct (IsHexDigit (ch sc)) eqn:Hh.
    + cbv zeta. rewrite Nat.add_1_r, Nat.iter_succ_r, <- Nat.add_1_r.
      destruct (esc_loop_continue l sc Hs ltac:(lia) (conj Hc1 Hc2) ltac:(lia) Hh)
        as [L1 [L2 [L3 [L4 [L5 [L6 [L7 L8]]]]]]].
      destruct (loop_body kw task d (l, sc)) as [l1 sc1]. cbn [fst snd] in *.
      specialize (IH l1 sc1 ltac:(congruence) ltac:(lia) L8).
      rewrite L7 in IH. specialize (IH ltac:(lia)). cbv zeta in IH.
      destruct IH as [I1 [I2 [I3 [I4 I5]]]].
      rewrite I1, I2, I3, I4, I5, L2, L4, L5, L6.
      repeat split; try lia. f_equal. lia.
    + cbn [Nat.add Nat.iter nat_rect]. cbv zeta.
      rewrite (esc_loop_end l sc Hs) by (right; exact Hh). cbn [fst snd].
      rewrite Z.add_0_r. rewrite styles_SetState, Hs. repeat split.
Qed.


(** The iteration at the backslash: the string arm stores the outer
    style and the count of digits and goes to the escape style, and
    the position is two bytes further at the end of the loop body. *)
Lemma esc_first l sc :
  isStringState (state sc) = true ->
  HasEscapeChar (state sc) = true ->
  atLineStart sc && IsSingleLineString (state sc) && negb (closeBrace l) = false ->
  cursor_ok d sc ->
  ch sc = BSLASH ->
  IsEOLChar (chNext sc) = false ->
  currentPos sc + 2 <= endPos sc ->
  let r := loop_body kw task d (l, sc) in
  state (snd r) = SCE_CSHARP_ESCAPECHAR
  /\ escDigitsLeft (fst r) = escapeDigits (chNext sc)
  /\ escOuterState (fst r) = state sc
  /\ currentPos (snd r) = currentPos sc + 2
  /\ startSeg (snd r) = currentPos sc
  /\ endPos (snd r) = endPos sc
  /\ cursor_ok d (snd r)
  /\ styles (snd r) = setRange (styles sc) (startSeg sc) (currentPos sc) (state sc).
Proof.
  intros Hstr Hesc Hg Hc Hch Heol He.
  unfold loop_body. rewrite (cs_switch_state_string kw task d l sc Hstr).
  unfold arm_string. rewrite Hg. unfold string_body. rewrite Hch.
  change (BSLASH =? BSLASH) with true. cbv iota. rewrite Hesc.
  unfold resetEscapeState. rewrite Heol. cbn [snd].
  rewrite state_Forward.
  change (state (SC.SetState SCE_CSHARP_ESCAPECHAR sc) =? SCE_CSHARP_DEFAULT) with false.
  cbv iota.
  set (sc0 := SC.SetState SCE_CSHARP_ESCAPECHAR sc).
  assert (H0 : currentPos sc0 < endPos sc0) by (change (currentPos sc < endPos sc); lia).
  destruct (Forward_inside d sc0 H0) as [F1 [F2 [F3 [F4 F5]]]].
  destruct Hc as [Hc1 Hc2].
  destruct (Forward_cursor d sc0 H0 Hc2) as [G1 G2].
  set (l1 := set_escDigitsLeft _ _).
  assert (H1 : currentPos (SC.Forward d sc0) < endPos (SC.Forward d sc0))
    by (rewrite F1, F4; change (currentPos sc + 1 < endPos sc); lia).
  assert (C1 : cursor_ok d (SC.Forward d sc0)).
  { split; [rewrite G1, F1; reflexivity | rewrite G2, F1; f_equal; lia]. }
  destruct (esc_body_end l1 (SC.Forward d sc0) H1 C1)
    as [B1 [B2 [B3 [B4 [B5 [B6 [B7 B8]]]]]]].
  cbv zeta.
  refine (conj _ (conj _ (conj _ (conj _ (conj _ (conj _ (conj B8 _))))))).
  - rewrite B3, F5. reflexivity.
  - rewrite B1. reflexivity.
  - rewrite B2. reflexivity.
  - rewrite B7, F1. change (currentPos sc + 1 + 1 = currentPos sc + 2). lia.
  - rewrite B5, F2. reflexivity.
  - rewrite B6, F4. reflexivity.
  - rewrite B4, F3. reflexivity.
Qed.

End Run.
End EscapeCS.

(** X13.  An escape sequence in a C# string: in a character literal,
    a string or an interpolated string, at a backslash that is not
    followed by a line end, the iterations of the loop give the escape
    style to the backslash, the byte after it and the hex digits that
    follow (at most 4 after [x] or [u], 8 after [U], none after another
    byte), colour the string before the backslash, and come back to
    the string style at the first byte after the sequence. *)
Theorem cs_escape_sequence :
  forall kw task d l sc,
    CSharp.isStringState (state sc) = true ->
    CSharp.HasEscapeChar (state sc) = true ->
    atLineStart sc && CSharp.IsSingleLineString (state sc)
      && negb (CSharp.closeBrace l) = false ->
    CSharp.cursor_ok d sc ->
    ch sc = BSLASH ->
    IsEOLChar (chNext sc) = false ->
    let p := currentPos sc in
    let j := hexRun d (p + 2) (Z.to_nat (escapeDigits (chNext sc) - 1)) in
    p + 2 + Z.of_nat j <= endPos sc ->
    let r := Nat.iter (j + 2) (CSharp.loop_body kw task d) (l, sc) in
    state (snd r) = state sc
    /\ currentPos (snd r) = p + 2 + Z.of_nat j
    /\ startSeg (snd r) = p + 2 + Z.of_nat j
    /\ styles (snd r)
       = setRange (setRange (styles sc) (startSeg sc) p (state sc))
           p (p + 2 + Z.of_nat j) CSharp.SCE_CSHARP_ESCAPECHAR.
Proof.
  intros kw task d l sc Hstr Hesc Hg Hc Hch Heol p j He r.
  subst r. replace (j + 2)%nat with (S (j + 1)) by lia.
  rewrite Nat.iter_succ_r.
  destruct (EscapeCS.esc_first kw task d l sc Hstr Hesc Hg Hc Hch Heol ltac:(lia))
    as [A1 [A2 [A3 [A4 [A5 [A6 [A7 A8]]]]]]].
  destruct (CSharp.loop_body kw task d (l, sc)) as [l1 sc1]. cbn [fst snd] in *.
  assert (Hd : 1 <= escapeDigits (chNext sc)) by (unfold escapeDigits; split_tests; lia).
  pose proof (EscapeCS.esc_run kw task d (Z.to_nat (escapeDigits (chNext sc) - 1))
                l1 sc1 A1 ltac:(lia) A7) as R.
  rewrite A4 in R. fold p in R. fold j in R.
  specialize (R ltac:(lia)). cbv zeta in R.
  destruct R as [R1 [R2 [R3 [R4 R5]]]].
  rewrite R1, R2, R3, R5, A3, A5, A8. fold p.
  repeat split; try lia.
Qed.

Lemma cs_escape_sequence_witness :
  state (snd (Nat.iter 4 (CSharp.loop_body csKeywords noTaskMarker docEscape)
                (CSharp.initLocals, scEscape))) = CSharp.SCE_CSHARP_STRING
  /\ currentPos (snd (Nat.iter 4 (CSharp.loop_body csKeywords noTaskMarker docEscape)
                        (CSharp.initLocals, scEscape))) = 5.
Proof.
  destruct (cs_escape_sequence csKeywords noTaskMarker docEscape CSharp.initLocals scEscape
              eq_refl eq_refl eq_refl (conj eq_refl eq_refl) eq_refl eq_refl
              ltac:(vm_compute; discriminate)) as [H1 [H2 _]].
  split; [exact H1 | exact H2].
Defined.

(** ** Tokens of the C# lexer *)

Module TokensCS.
Import CSharp.

Section Tokens.
Variable kw : LexerWordList.
Variable task : Doc -> StyleContext -> Z -> Z -> Z -> option (StyleContext * Z).
Variable d : Doc.

(** The end of the loop body inside the range: the style, the style
    bytes and the span start stay, the cursor moves one byte; the
    kind of preprocessor line and the state of a documentation tag
    stay or are reset at a line end. *)
Lemma tok_body_end l sc :
  currentPos sc < endPos sc ->
  cursor_ok d sc ->
  let r := body_end d (l, sc) in
  state (snd r) = state sc
  /\ styles (snd r) = styles sc
  /\ startSeg (snd r) = startSeg sc
  /\ endPos (snd r) = endPos sc
  /\ currentPos (snd r) = currentPos sc + 1
  /\ cursor_ok d (snd r)
  /\ (ppKind (fst r) = ppKind l \/ ppKind (fst r) = PpNone)
  /\ (docTagState (fst r) = docTagState l \/ docTagState (fst r) = TagNone).
Proof.
  intros Hlt [Hc1 Hc2]. unfold body_end, line_end, cursor_ok. cbv zeta.
  assert (F : forall sc0, currentPos sc0 = currentPos sc -> endPos sc0 = endPos sc ->
                chNext sc0 = chNext sc ->
                currentPos (SC.Forward d sc0) = currentPos sc + 1
                /\ ch (SC.Forward d sc0) = charAt d (currentPos sc + 1)
                /\ chNext (SC.Forward d sc0) = charAt d (currentPos sc + 1 + 1)
                /\ state (SC.Forward d sc0) = state sc0
                /\ styles (SC.Forward d sc0) = styles sc0
                /\ startSeg (SC.Forward d sc0) = startSeg sc0
                /\ endPos (SC.Forward d sc0) = endPos sc0).
  { intros sc0 E1 E2 E3. unfold SC.Forward.
    replace (currentPos sc0 <? endPos sc0) with true by lia.
    cbn. rewrite E1, E3. repeat split. exact Hc2. }
  split_tests; cbn [fst snd]; ProgressCS.cs_setters.
  all: match goal with
       | |- context [SC.Forward d ?x] =>
           destruct (F x) as [F1 [F2 [F3 [F4 [F5 [F6 F7]]]]]]; try reflexivity
       end.
  all: rewrite F1, F2, F3, F4, F5, F6, F7; repeat split; auto.
Qed.

Lemma tok_switch_identifier l sc :
  state sc = SCE_CSHARP_IDENTIFIER ->
  switch_state kw task d (l, sc) = arm_identifier kw d (l, sc).
Proof. intro Hs. unfold switch_state. cbv zeta. rewrite Hs. reflexivity. Qed.

(** Inside an identifier the iteration is the end of the loop body. *)
Lemma tok_identifier_step l sc :
  state sc = SCE_CSHARP_IDENTIFIER ->
  IsIdentifierCharEx (ch sc) = true ->
  loop_body kw task d (l, sc) = body_end d (l, sc).
Proof.
  intros Hs Hc. unfold loop_body. rewrite (tok_switch_identifier l sc Hs).
  unfold arm_identifier, IsCsIdentifierChar. rewrite Hc. cbn [orb negb snd].
  rewrite Hs. reflexivity.
Qed.

Lemma tok_identifier_run :
  forall (n : nat) l sc,
    state sc = SCE_CSHARP_IDENTIFIER ->
    cursor_ok d sc ->
    ppKind l = PpNone ->
    (forall i, 0 <= i < Z.of_nat n ->
               IsIdentifierCharEx (charAt d (currentPos sc + i)) = true) ->
    currentPos sc + Z.of_nat n <= endPos sc ->
    let r := Nat.iter n (loop_body kw task d) (l, sc) in
    state (snd r) = SCE_CSHARP_IDENTIFIER
    /\ styles (snd r) = styles sc
    /\ startSeg (snd r) = startSeg sc
    /\ endPos (snd r) = endPos sc
    /\ currentPos (snd r) = currentPos sc + Z.of_nat n
    /\ cursor_ok d (snd r)
    /\ ppKind (fst r) = PpNone.
Proof.
  induction n as [|n IH]; intros l sc Hs Hc Hp Hi He.
  - cbn [Nat.iter nat_rect fst snd]. rewrite Z.add_0_r. repeat split; try assumption.
    all: apply Hc.
  - cbv zeta. rewrite Nat.iter_succ_r.
    assert (Hch : IsIdentifierCharEx (ch sc) = true).
    { destruct Hc as [Hc1 _]. rewrite Hc1. rewrite <- (Z.add_0_r (currentPos sc)).
      apply Hi. lia. }
    rewrite (tok_identifier_step l sc Hs Hch).
    destruct (tok_body_end l sc ltac:(lia) Hc) as [B1 [B2 [B3 [B4 [B5 [B6 [B7 _]]]]]]].
    destruct (body_end d (l, sc)) as [l1 sc1]. cbn [fst snd] in *.
    assert (Hp1 : ppKind l1 = PpNone) by (destruct B7; congruence).
    destruct (IH l1 sc1 ltac:(congruence) B6 Hp1) as [I1 [I2 [I3 [I4 [I5 [I6 I7]]]]]].
    + intros i Hi'. rewrite B5. replace (currentPos sc + 1 + i) with (currentPos sc + (1 + i)) by lia.
      apply Hi. lia.
    + lia.
    + rewrite I1, I2, I3, I4, I5. repeat split; try congruence; try lia; try apply I6.
Qed.


(** The first byte of a word cut out of the document. *)
Lemma tok_first_byte p m :
  0 <= p -> nth 0 (firstn (S m) (skipn (Z.to_nat p) d)) 0 = charAt d p.
Proof.
  intro H. unfold charAt. replace (p <? 0) with false by lia.
  rewrite (nth_hd_skipn (Z.to_nat p) d).
  destruct (skipn (Z.to_nat p) d); reflexivity.
Qed.

(** The bytes that start an identifier. *)
Lemma tok_start_byte c :
  IsIdentifierStartEx c = true ->
  65 <= c <= 90 \/ 97 <= c <= 122 \/ c = 95 \/ 128 <= c.
Proof.
  unfold IsIdentifierStartEx, IsIdentifierStart, IsAlpha, IsUpperCase, IsLowerCase. lia.
Qed.

(** The default state at a byte that starts an identifier. *)
Lemma tok_default_identifier l sc :
  state sc = SCE_CSHARP_DEFAULT ->
  ppKind l = PpNone ->
  IsIdentifierStartEx (ch sc) = true ->
  loop_body kw task d (l, sc)
  = body_end d (startIdentifier l, SC.SetState SCE_CSHARP_IDENTIFIER sc).
Proof.
  intros Hs Hp Hc. pose proof (tok_start_byte _ Hc) as Hb.
  unfold loop_body.
  replace (switch_state kw task d (l, sc)) with ((l, sc), Break)
    by (unfold switch_state; cbv zeta; rewrite Hs; reflexivity).
  cbn [snd]. rewrite Hs. change (SCE_CSHARP_DEFAULT =? SCE_CSHARP_DEFAULT) with true.
  cbv iota. unfold default_state. rewrite Hp. cbn [pp_eqb andb].
  replace (ch sc =? SLASH) with false by (unfold SLASH; lia).
  replace (ch sc =? QUOTE) with false by (unfold QUOTE; lia).
  replace (ch sc =? DOLLAR) with false by (unfold DOLLAR; lia).
  replace (ch sc =? ATSIGN) with false by (unfold ATSIGN; lia).
  replace (ch sc =? APOS) with false by (unfold APOS; lia).
  replace (ch sc =? HASH) with false by (unfold HASH; lia).
  rewrite Bool.andb_false_r. cbn [andb orb].
  replace (IsNumberStart (ch sc) (chNext sc)) with false
    by (unfold IsNumberStart, IsADigit; lia).
  unfold IsCsIdentifierStart. rewrite Hc. cbn [orb]. cbv iota.
  change (state (SC.SetState SCE_CSHARP_IDENTIFIER sc) =? SCE_CSHARP_DEFAULT) with false.
  reflexivity.
Qed.

(** The end of a word of the keyword list: the span gets the keyword
    style and the default style goes on. *)
Lemma tok_keyword_end l sc :
  state sc = SCE_CSHARP_IDENTIFIER ->
  ppKind l = PpNone ->
  IsCsIdentifierChar (ch sc) (chNext sc) = false ->
  (byteAt (SC.GetCurrent d sc 128) 0 =? ATSIGN) = false ->
  InList (kw KeywordIndex_Keyword) (SC.GetCurrent d sc 128) = true ->
  exists l',
    switch_state kw task d (l, sc)
    = ((l', SC.SetState SCE_CSHARP_DEFAULT (SC.ChangeState SCE_CSHARP_WORD sc)), Break).
Proof.
  intros Hs Hp Hc Ha Hk. rewrite (tok_switch_identifier l sc Hs).
  unfold arm_identifier. rewrite Hc. cbn [negb]. cbv zeta. rewrite Hp.
  unfold classifyWord. rewrite Ha, Hk.
  set (l1 := keywordHint _ _ _).
  set (scw := SC.ChangeState SCE_CSHARP_WORD sc).
  assert (Hl1 : ppKind l1 = PpNone).
  { subst l1. unfold keywordHint. split_tests; ProgressCS.cs_setters; exact Hp. }
  assert (E : forall l2, ppKind l2 = PpNone ->
            (let '(l3, sc3) :=
               if pp_eqb (ppKind l2) PpNone && (state scw =? SCE_CSHARP_IDENTIFIER)
               then classifyIdentifier d (SC.GetCurrent d sc 128) (l2, scw) else (l2, scw) in
             ((if negb (state sc3 =? SCE_CSHARP_WORD) && negb (state sc3 =? SCE_CSHARP_ATTRIBUTE)
                  && negb (ch sc3 =? DOT)
               then set_kwType KwNone l3 else l3,
               SC.SetState SCE_CSHARP_DEFAULT sc3), Break))
            = ((l2, SC.SetState SCE_CSHARP_DEFAULT scw), Break)).
  { intros l2 H2. rewrite H2. reflexivity. }
  destruct (kwIsStyle (kwType l1) && _).
  - eexists. apply E. ProgressCS.cs_setters. exact Hl1.
  - eexists. apply E. exact Hl1.
Qed.

End Tokens.
End TokensCS.

(** X14.  A keyword gets the keyword style: when the lexer is in the
    default style, outside a preprocessor line, at a word of at most
    127 identifier bytes that is in the keyword list and is followed
    by a byte that cannot go on an identifier, then after one
    iteration for each byte of the word and one more, the span not yet
    written starts at or after the end of the word and every byte of
    the word holds the keyword style. *)
Theorem cs_keyword_styled :
  forall kw task d l sc (n : nat),
    state sc = CSharp.SCE_CSHARP_DEFAULT ->
    CSharp.cursor_ok d sc ->
    CSharp.ppKind l = CSharp.PpNone ->
    (1 <= n <= 127)%nat ->
    let p := currentPos sc in
    startSeg sc <= p ->
    IsIdentifierStartEx (charAt d p) = true ->
    (forall i, 0 <= i < Z.of_nat n -> IsIdentifierCharEx (charAt d (p + i)) = true) ->
    CSharp.IsCsIdentifierChar (charAt d (p + Z.of_nat n)) (charAt d (p + Z.of_nat n + 1))
    = false ->
    InList (kw CSharp.KeywordIndex_Keyword) (firstn n (skipn (Z.to_nat p) d)) = true ->
    p + Z.of_nat n <= endPos sc ->
    let r := Nat.iter (n + 1) (CSharp.loop_body kw task d) (l, sc) in
    p + Z.of_nat n <= startSeg (snd r)
    /\ forall q, p <= q < p + Z.of_nat n -> styles (snd r) q = CSharp.SCE_CSHARP_WORD.
Proof.
  intros kw task d l sc n Hs Hc Hp Hn p Hseg Hstart Hchars Hend Hk He r.
  destruct n as [|m]; [lia|].
  assert (Hp0 : 0 <= p).
  { destruct (Z.ltb_spec p 0) as [H|H]; [|exact H].
    unfold charAt in Hstart. replace (p <? 0) with true in Hstart by lia. discriminate. }
  subst r. replace (S m + 1)%nat with (S (S m)) by lia.
  rewrite Nat.iter_succ_r, Nat.iter_succ.
  (* the iteration at the first byte *)
  assert (Hch : IsIdentifierStartEx (ch sc) = true) by (destruct Hc as [-> _]; exact Hstart).
  rewrite (TokensCS.tok_default_identifier kw task d l sc Hs Hp Hch).
  set (sc0 := SC.SetState CSharp.SCE_CSHARP_IDENTIFIER sc).
  assert (Hc0 : CSharp.cursor_ok d sc0) by exact Hc.
  assert (Hlt0 : currentPos sc0 < endPos sc0) by (change (p < endPos sc); lia).
  destruct (TokensCS.tok_body_end d (CSharp.startIdentifier l) sc0 Hlt0 Hc0)
    as [B1 [B2 [B3 [B4 [B5 [B6 [B7 _]]]]]]].
  destruct (CSharp.body_end d (CSharp.startIdentifier l, sc0)) as [l1 sc1].
  cbn [fst snd] in *.
  assert (Hp1 : CSharp.ppKind l1 = CSharp.PpNone).
  { destruct B7 as [B7|B7]; [|exact B7]. rewrite B7.
    unfold CSharp.startIdentifier. split_tests; exact Hp. }
  change (currentPos sc0) with p in B5. change (startSeg sc0) with p in B3.
  change (endPos sc0) with (endPos sc) in B4.
  (* the bytes of the word after the first *)
  destruct (TokensCS.tok_identifier_run kw task d m l1 sc1 B1 B6 Hp1)
    as [I1 [I2 [I3 [I4 [I5 [I6 I7]]]]]].
  { intros i Hi. rewrite B5. replace (p + 1 + i) with (p + (1 + i)) by lia.
    apply Hchars. lia. }
  { lia. }
  destruct (Nat.iter m (CSharp.loop_body kw task d) (l1, sc1)) as [l2 sc2].
  cbn [fst snd] in *.
  assert (P2 : currentPos sc2 = p + Z.of_nat (S m)) by lia.
  (* the byte after the word *)
  assert (Hw : SC.GetCurrent d sc2 128 = firstn (S m) (skipn (Z.to_nat p) d)).
  { unfold SC.GetCurrent, SC.segment, SC.LengthCurrent. rewrite I3, B3, P2.
    f_equal. lia. }
  destruct (TokensCS.tok_keyword_end kw task d l2 sc2 I1 I7) as [l3 E].
  { destruct I6 as [-> ->]. rewrite P2. exact Hend. }
  { rewrite Hw. unfold byteAt.
    rewrite (TokensCS.tok_first_byte d p m Hp0).
    pose proof (TokensCS.tok_start_byte _ Hstart). unfold ATSIGN. lia. }
  { rewrite Hw. exact Hk. }
  unfold CSharp.loop_body. rewrite E. cbn [snd].
  set (sc3 := SC.SetState CSharp.SCE_CSHARP_DEFAULT (SC.ChangeState CSharp.SCE_CSHARP_WORD sc2)).
  change (state sc3 =? CSharp.SCE_CSHARP_DEFAULT) with true. cbv iota.
  assert (S3 : startSeg sc3 = p + Z.of_nat (S m)) by exact P2.
  assert (C3 : currentPos sc3 = p + Z.of_nat (S m)) by exact P2.
  assert (T3 : forall q, p <= q < p + Z.of_nat (S m) -> styles sc3 q = CSharp.SCE_CSHARP_WORD).
  { intros q Hq. subst sc3. rewrite styles_SetState.
    change (startSeg (SC.ChangeState CSharp.SCE_CSHARP_WORD sc2)) with (startSeg sc2).
    change (currentPos (SC.ChangeState CSharp.SCE_CSHARP_WORD sc2)) with (currentPos sc2).
    unfold setRange. rewrite I3, B3, P2.
    destruct (Z.leb_spec p q); [|lia].
    destruct (Z.ltb_spec q (p + Z.of_nat (S m))); [|lia]. reflexivity. }
  pose proof (WritesCS.cs_writes_default_state d l3 sc3 sc3 (writes_refl _ _)) as W1.
  destruct (CSharp.default_state d (l3, sc3)) as [[l4 sc4] c4]. cbn [fst snd] in W1.
  assert (Fin : forall b, writes anyStyle sc3 b ->
            p + Z.of_nat (S m) <= startSeg b
            /\ forall q, p <= q < p + Z.of_nat (S m) -> styles b q = CSharp.SCE_CSHARP_WORD).
  { intros b W. destruct W as [_ [W2 [_ [_ [_ [W3 _]]]]]]; [lia | exact I|].
    split; [lia|]. intros q Hq. destruct (W3 q) as [F|[F _]]; [|lia].
    rewrite F. apply T3, Hq. }
  destruct c4.
  - apply Fin, WritesCS.cs_writes_body_end, W1.
  - apply Fin, W1.
Qed.

Lemma cs_keyword_styled_witness :
  styles (snd (Nat.iter 7 (CSharp.loop_body csKeywords noTaskMarker docReturnSame)
                 (CSharp.initLocals,
                  SC.Make docReturnSame 0 (docLen docReturnSame) 0 (fun _ => 0) (fun _ => 0))))
    5 = CSharp.SCE_CSHARP_WORD.
Proof.
  refine (proj2 (cs_keyword_styled csKeywords noTaskMarker docReturnSame CSharp.initLocals
                   (SC.Make docReturnSame 0 (docLen docReturnSame) 0 (fun _ => 0) (fun _ => 0))
                   6 eq_refl (conj eq_refl eq_refl) eq_refl _ _ eq_refl _ eq_refl eq_refl _)
            5 _).
  - lia.
  - vm_compute. discriminate.
  - intros i Hi.
    assert (H : i = 0 \/ i = 1 \/ i = 2 \/ i = 3 \/ i = 4 \/ i = 5) by lia.
    destruct H as [H|[H|[H|[H|[H|H]]]]]; subst i; reflexivity.
  - vm_compute. discriminate.
  - vm_compute. split; [discriminate | reflexivity].
Defined.

(** ** Block comments of the C# lexer *)

Module CommentCS.
Import CSharp.

Section Comment.
Variable kw : LexerWordList.
Variable task : Doc -> StyleContext -> Z -> Z -> Z -> option (StyleContext * Z).
Variable d : Doc.
Hypothesis Hnone : forall sc vc vcb s, task d sc vc vcb s = None.

(** Two steps forward inside the range. *)
Lemma tok_forward2 sc :
  currentPos sc + 2 <= endPos sc ->
  chNext sc = charAt d (currentPos sc + 1) ->
  let sc2 := SC.Forward d (SC.Forward d sc) in
  currentPos sc2 = currentPos sc + 2
  /\ state sc2 = state sc
  /\ styles sc2 = styles sc
  /\ startSeg sc2 = startSeg sc
  /\ endPos sc2 = endPos sc
  /\ cursor_ok d sc2.
Proof.
  intros He Hn. cbv zeta.
  destruct (Forward_inside d sc ltac:(lia)) as [F1 [F2 [F3 [F4 F5]]]].
  destruct (Forward_cursor d sc ltac:(lia) Hn) as [G1 G2].
  destruct (Forward_inside d (SC.Forward d sc) ltac:(lia)) as [F1' [F2' [F3' [F4' F5']]]].
  destruct (Forward_cursor d (SC.Forward d sc) ltac:(lia)) as [G1' G2'].
  { rewrite G2, F1. f_equal. lia. }
  rewrite F1', F2', F3', F4', F5', F1, F2, F3, F4, F5.
  repeat split; try lia.
  - rewrite G1', F1. f_equal. lia.
  - rewrite G2', F1. f_equal. lia.
Qed.

(** The default state at the two bytes that open a block comment
    which is no documentation comment. *)
Lemma tok_default_comment l sc :
  state sc = SCE_CSHARP_DEFAULT ->
  pp_eqb (ppKind l) PpMessage = false ->
  ch sc = SLASH -> chNext sc = STAR ->
  currentPos sc + 2 <= endPos sc ->
  chNext sc = charAt d (currentPos sc + 1) ->
  (charAt d (currentPos sc + 2) =? STAR) && negb (charAt d (currentPos sc + 3) =? STAR) = false ->
  exists l',
    loop_body kw task d (l, sc)
    = (l', SC.Forward d (SC.Forward d (SC.SetState SCE_CSHARP_COMMENTBLOCK sc)))
    /\ docTagState l' = TagNone.
Proof.
  intros Hs Hp Hc Hn He Hcur Hdoc.
  unfold loop_body.
  replace (switch_state kw task d (l, sc)) with ((l, sc), Break)
    by (unfold switch_state; cbv zeta; rewrite Hs; reflexivity).
  cbn [snd]. rewrite Hs. change (SCE_CSHARP_DEFAULT =? SCE_CSHARP_DEFAULT) with true.
  cbv iota. unfold default_state. rewrite Hp. cbn [andb].
  rewrite Hc, Hn.
  change ((SLASH =? SLASH) && ((STAR =? SLASH) || (STAR =? STAR))) with true. cbv iota.
  unfold default_comment. cbv zeta. rewrite Hn.
  change (STAR =? SLASH) with false. cbn [andb]. cbv iota.
  change (SC.Advance d 2 (SC.SetState SCE_CSHARP_COMMENTBLOCK sc))
    with (SC.Forward d (SC.Forward d (SC.SetState SCE_CSHARP_COMMENTBLOCK sc))).
  set (sc0 := SC.SetState SCE_CSHARP_COMMENTBLOCK sc).
  destruct (tok_forward2 sc0 He Hcur) as [T1 [T2 [T3 [T4 [T5 [T6 T7]]]]]].
  rewrite T6, T7, T1.
  change (currentPos sc0) with (currentPos sc).
  replace (currentPos sc + 2 + 1) with (currentPos sc + 3) by lia.
  rewrite Hdoc. eexists. split; [reflexivity|]. reflexivity.
Qed.


Lemma tok_switch_comment l sc :
  state sc = SCE_CSHARP_COMMENTBLOCK ->
  switch_state kw task d (l, sc) = arm_comment task d (l, sc).
Proof. intro Hs. unfold switch_state. cbv zeta. rewrite Hs. reflexivity. Qed.

(** Inside a block comment, away from its end and with no task
    marker, the iteration is the end of the loop body. *)
Lemma tok_comment_step l sc :
  state sc = SCE_CSHARP_COMMENTBLOCK ->
  docTagState l = TagNone ->
  SC.Match2 STAR SLASH sc = false ->
  loop_body kw task d (l, sc) = body_end d (l, sc).
Proof.
  intros Hs Ht Hm. unfold loop_body. rewrite (tok_switch_comment l sc Hs).
  unfold arm_comment. rewrite Hs.
  change ((SCE_CSHARP_COMMENTBLOCK =? SCE_CSHARP_COMMENTLINE)
          || (SCE_CSHARP_COMMENTBLOCK =? SCE_CSHARP_COMMENTLINEDOC)) with false.
  rewrite Bool.andb_false_r.
  unfold close_doctag. rewrite Ht. cbn [tagIsNone negb andb]. cbv iota beta.
  rewrite Hs, Hm, Ht, Hnone. rewrite Bool.andb_false_r. cbn [tagIsNone].
  change (SCE_CSHARP_COMMENTBLOCK =? SCE_CSHARP_COMMENTLINEDOC) with false.
  change (SCE_CSHARP_COMMENTBLOCK =? SCE_CSHARP_COMMENTBLOCKDOC) with false.
  cbn [orb].
  replace ((ch sc =? LESS) && false) with false by (apply eq_sym, Bool.andb_false_r).
  cbv iota beta. cbn [snd]. rewrite Hs. reflexivity.
Qed.

(** At the end of a block comment the two bytes are taken and the
    default style goes on. *)
Lemma tok_comment_end l sc :
  state sc = SCE_CSHARP_COMMENTBLOCK ->
  docTagState l = TagNone ->
  SC.Match2 STAR SLASH sc = true ->
  switch_state kw task d (l, sc)
  = ((l, SC.SetState SCE_CSHARP_DEFAULT (SC.Forward d (SC.Forward d sc))), Break).
Proof.
  intros Hs Ht Hm. rewrite (tok_switch_comment l sc Hs).
  unfold arm_comment. rewrite Hs.
  change ((SCE_CSHARP_COMMENTBLOCK =? SCE_CSHARP_COMMENTLINE)
          || (SCE_CSHARP_COMMENTBLOCK =? SCE_CSHARP_COMMENTLINEDOC)) with false.
  rewrite Bool.andb_false_r.
  unfold close_doctag. rewrite Ht. cbn [tagIsNone negb andb]. cbv iota beta.
  rewrite Hs, Hm. reflexivity.
Qed.

Lemma tok_comment_run :
  forall (n : nat) l sc,
    state sc = SCE_CSHARP_COMMENTBLOCK ->
    cursor_ok d sc ->
    docTagState l = TagNone ->
    (forall i, 0 <= i < Z.of_nat n ->
       (charAt d (currentPos sc + i) =? STAR) && (charAt d (currentPos sc + i + 1) =? SLASH)
       = false) ->
    currentPos sc + Z.of_nat n <= endPos sc ->
    let r := Nat.iter n (loop_body kw task d) (l, sc) in
    state (snd r) = SCE_CSHARP_COMMENTBLOCK
    /\ styles (snd r) = styles sc
    /\ startSeg (snd r) = startSeg sc
    /\ endPos (snd r) = endPos sc
    /\ currentPos (snd r) = currentPos sc + Z.of_nat n
    /\ cursor_ok d (snd r)
    /\ docTagState (fst r) = TagNone.
Proof.
  induction n as [|n IH]; intros l sc Hs Hc Ht Hi He.
  - cbn [Nat.iter nat_rect fst snd]. rewrite Z.add_0_r. repeat split; try assumption.
    all: apply Hc.
  - cbv zeta. rewrite Nat.iter_succ_r.
    assert (Hm : SC.Match2 STAR SLASH sc = false).
    { unfold SC.Match2. destruct Hc as [-> ->].
      specialize (Hi 0 ltac:(lia)). rewrite Z.add_0_r in Hi. exact Hi. }
    rewrite (tok_comment_step l sc Hs Ht Hm).
    destruct (TokensCS.tok_body_end d l sc ltac:(lia) Hc)
      as [B1 [B2 [B3 [B4 [B5 [B6 [_ B8]]]]]]].
    destruct (body_end d (l, sc)) as [l1 sc1]. cbn [fst snd] in *.
    assert (Ht1 : docTagState l1 = TagNone) by (destruct B8; congruence).
    destruct (IH l1 sc1 ltac:(congruence) B6 Ht1) as [I1 [I2 [I3 [I4 [I5 [I6 I7]]]]]].
    + intros i Hi'. rewrite B5.
      replace (currentPos sc + 1 + i) with (currentPos sc + (1 + i)) by lia.
      apply Hi. lia.
    + lia.
    + rewrite I1, I2, I3, I4, I5. repeat split; try congruence; try lia; try apply I6.
Qed.

End Comment.
End CommentCS.

(** X15.  A block comment gets the block comment style from its first
    byte to its last, also across line ends: when the lexer is in the
    default style at the two bytes that open a block comment which is
    no documentation comment, the comment ends [n] bytes after them,
    and no task marker is highlighted, then after [n + 2] iterations
    the span not yet written starts at or after the end of the
    comment and every byte of the comment, the four bytes of its
    delimiters included, holds the block comment style. *)
Theorem cs_block_comment_styled :
  forall kw task d l sc (n : nat),
    (forall sc0 vc vcb s, task d sc0 vc vcb s = None) ->
    state sc = CSharp.SCE_CSHARP_DEFAULT ->
    CSharp.cursor_ok d sc ->
    CSharp.pp_eqb (CSharp.ppKind l) CSharp.PpMessage = false ->
    let p := currentPos sc in
    startSeg sc <= p ->
    charAt d p = SLASH -> charAt d (p + 1) = STAR ->
    (charAt d (p + 2) =? STAR) && negb (charAt d (p + 3) =? STAR) = false ->
    (forall i, 0 <= i < Z.of_nat n ->
       (charAt d (p + 2 + i) =? STAR) && (charAt d (p + 2 + i + 1) =? SLASH) = false) ->
    charAt d (p + 2 + Z.of_nat n) = STAR ->
    charAt d (p + 2 + Z.of_nat n + 1) = SLASH ->
    p + Z.of_nat n + 4 <= endPos sc ->
    let r := Nat.iter (n + 2) (CSharp.loop_body kw task d) (l, sc) in
    p + Z.of_nat n + 4 <= startSeg (snd r)
    /\ forall q, p <= q < p + Z.of_nat n + 4 ->
                 styles (snd r) q = CSharp.SCE_CSHARP_COMMENTBLOCK.
Proof.
  intros kw task d l sc n Hnone Hs Hc Hp p Hseg H0 H1 Hdoc Hi Hq0 Hq1 He r.
  subst r. replace (n + 2)%nat with (S (S n)) by lia.
  rewrite Nat.iter_succ_r, Nat.iter_succ.
  destruct Hc as [Hc1 Hc2].
  assert (A1 : ch sc = SLASH) by (rewrite Hc1; exact H0).
  assert (A2 : chNext sc = STAR) by (rewrite Hc2; exact H1).
  assert (A3 : currentPos sc + 2 <= endPos sc) by (fold p; lia).
  destruct (CommentCS.tok_default_comment kw task d l sc Hs Hp A1 A2 A3 Hc2 Hdoc)
    as [l1 [E1 Ht1]].
  rewrite E1.
  set (sc0 := SC.SetState CSharp.SCE_CSHARP_COMMENTBLOCK sc).
  destruct (CommentCS.tok_forward2 d sc0) as [T1 [T2 [T3 [T4 [T5 T6]]]]];
    [change (p + 2 <= endPos sc); lia | exact Hc2 |].
  set (sc1 := SC.Forward d (SC.Forward d sc0)) in *.
  change (currentPos sc0) with p in T1. change (startSeg sc0) with p in T4.
  change (endPos sc0) with (endPos sc) in T5.
  change (state sc0) with CSharp.SCE_CSHARP_COMMENTBLOCK in T2.
  destruct (CommentCS.tok_comment_run kw task d Hnone n l1 sc1 T2 T6 Ht1)
    as [I1 [I2 [I3 [I4 [I5 [I6 I7]]]]]].
  { intros i Hi'. rewrite T1. apply Hi, Hi'. }
  { lia. }
  destruct (Nat.iter n (CSharp.loop_body kw task d) (l1, sc1)) as [l2 sc2].
  cbn [fst snd] in *.
  assert (Hm : SC.Match2 STAR SLASH sc2 = true).
  { unfold SC.Match2. destruct I6 as [-> ->]. rewrite I5, T1, Hq0, Hq1. reflexivity. }
  unfold CSharp.loop_body. rewrite (CommentCS.tok_comment_end kw task d l2 sc2 I1 I7 Hm).
  cbn [snd].
  destruct (CommentCS.tok_forward2 d sc2) as [U1 [U2 [U3 [U4 [U5 U6]]]]];
    [lia | apply I6 |].
  set (sc3 := SC.SetState CSharp.SCE_CSHARP_DEFAULT (SC.Forward d (SC.Forward d sc2))).
  change (state sc3 =? CSharp.SCE_CSHARP_DEFAULT) with true. cbv iota.
  assert (S3 : startSeg sc3 = p + Z.of_nat n + 4)
    by (change (startSeg sc3) with (currentPos (SC.Forward d (SC.Forward d sc2))); lia).
  assert (C3 : currentPos sc3 = p + Z.of_nat n + 4)
    by (change (currentPos sc3) with (currentPos (SC.Forward d (SC.Forward d sc2))); lia).
  assert (T3' : forall q, p <= q < p + Z.of_nat n + 4 ->
                          styles sc3 q = CSharp.SCE_CSHARP_COMMENTBLOCK).
  { intros q Hq. subst sc3. rewrite styles_SetState.
    unfold setRange. rewrite U4, U1, U2, I3, T4, I1.
    destruct (Z.leb_spec p q); [|lia].
    destruct (Z.ltb_spec q (currentPos sc2 + 2)); [|lia]. reflexivity. }
  pose proof (WritesCS.cs_writes_default_state d l2 sc3 sc3 (writes_refl _ _)) as W1.
  destruct (CSharp.default_state d (l2, sc3)) as [[l4 sc4] c4]. cbn [fst snd] in W1.
  assert (Fin : forall b, writes anyStyle sc3 b ->
            p + Z.of_nat n + 4 <= startSeg b
            /\ forall q, p <= q < p + Z.of_nat n + 4 ->
                         styles b q = CSharp.SCE_CSHARP_COMMENTBLOCK).
  { intros b W. destruct W as [_ [W2 [_ [_ [_ [W3 _]]]]]]; [lia | exact I|].
    split; [lia|]. intros q Hq. destruct (W3 q) as [F|[F _]]; [|lia].
    rewrite F. apply T3', Hq. }
  destruct c4.
  - apply Fin, WritesCS.cs_writes_body_end, W1.
  - apply Fin, W1.
Qed.

Lemma cs_block_comment_styled_witness :
  styles (snd (Nat.iter 4 (CSharp.loop_body csKeywords noTaskMarker docBlockComment)
                 (CSharp.initLocals,
                  SC.Make docBlockComment 0 (docLen docBlockComment) 0
                    (fun _ => 0) (fun _ => 0))))
    5 = CSharp.SCE_CSHARP_COMMENTBLOCK.
Proof.
  refine (proj2 (cs_block_comment_styled csKeywords noTaskMarker docBlockComment
                   CSharp.initLocals
                   (SC.Make docBlockComment 0 (docLen docBlockComment) 0
                      (fun _ => 0) (fun _ => 0))
                   2 (fun _ _ _ _ => eq_refl) eq_refl (conj eq_refl eq_refl) eq_refl
                   _ eq_refl eq_refl eq_refl _ eq_refl eq_refl _)
            5 _).
  - vm_compute. discriminate.
  - intros i Hi. assert (H : i = 0 \/ i = 1) by lia.
    destruct H as [H|H]; subst i; reflexivity.
  - vm_compute. discriminate.
  - vm_compute. split; [discriminate | reflexivity].
Defined.

(** ** Strings of the VB lexer *)

Module StringVB.
Import VB.

Section Str.
Variable kw : LexerWordList.
Variable d : Doc.

(** The end of the loop body inside the range: the style, the style
    bytes and the span start stay, the cursor moves one byte. *)
Lemma vb_tok_body_end l sc :
  currentPos sc < endPos sc ->
  cursor_ok d sc ->
  let r := body_end d (l, sc) in
  state (snd r) = state sc
  /\ styles (snd r) = styles sc
  /\ startSeg (snd r) = startSeg sc
  /\ endPos (snd r) = endPos sc
  /\ currentPos (snd r) = currentPos sc + 1
  /\ cursor_ok d (snd r).
Proof.
  intros Hlt [Hc1 Hc2]. unfold body_end, line_end, cursor_ok. cbv zeta.
  assert (F : forall sc0, currentPos sc0 = currentPos sc -> endPos sc0 = endPos sc ->
                chNext sc0 = chNext sc ->
                currentPos (SC.Forward d sc0) = currentPos sc + 1
                /\ ch (SC.Forward d sc0) = charAt d (currentPos sc + 1)
                /\ chNext (SC.Forward d sc0) = charAt d (currentPos sc + 1 + 1)
                /\ state (SC.Forward d sc0) = state sc0
                /\ styles (SC.Forward d sc0) = styles sc0
                /\ startSeg (SC.Forward d sc0) = startSeg sc0
                /\ endPos (SC.Forward d sc0) = endPos sc0).
  { intros sc0 E1 E2 E3. unfold SC.Forward.
    replace (currentPos sc0 <? endPos sc0) with true by lia.
    cbn. rewrite E1, E3. repeat split. exact Hc2. }
  split_tests; cbn [fst snd].
  all: match goal with
       | |- context [SC.Forward d ?x] =>
           destruct (F x) as [F1 [F2 [F3 [F4 [F5 [F6 F7]]]]]]; try reflexivity
       end.
  all: rewrite F1, F2, F3, F4, F5, F6, F7; repeat split.
Qed.

Lemma vb_switch_string l sc :
  state sc = SCE_VB_STRING ->
  switch_state VBNET kw d (l, sc) = arm_string VBNET d (l, sc).
Proof. intro Hs. unfold switch_state. cbv zeta. rewrite Hs. reflexivity. Qed.

(** The default state at a double quote. *)
Lemma vb_default_string l sc :
  state sc = SCE_VB_DEFAULT ->
  ch sc = QUOTE ->
  loop_body VBNET kw d (l, sc) = body_end d (l, SC.SetState SCE_VB_STRING sc).
Proof.
  intros Hs Hc. unfold loop_body.
  replace (switch_state VBNET kw d (l, sc)) with ((l, sc), Break)
    by (unfold switch_state; cbv zeta; rewrite Hs; reflexivity).
  cbn [snd]. rewrite Hs. change (SCE_VB_DEFAULT =? SCE_VB_DEFAULT) with true. cbv iota.
  unfold default_state. rewrite Hc. reflexivity.
Qed.

(** Inside a string of VB.NET, at a byte that is no double quote, the
    iteration is the end of the loop body: also at a line start. *)
Lemma vb_string_step l sc :
  state sc = SCE_VB_STRING ->
  (ch sc =? QUOTE) = false ->
  loop_body VBNET kw d (l, sc) = body_end d (l, sc).
Proof.
  intros Hs Hc. unfold loop_body. rewrite (vb_switch_string l sc Hs).
  unfold arm_string. cbn [lang_eqb negb]. rewrite Bool.andb_false_r, Hc, Hs.
  change (SCE_VB_STRING =? SCE_VB_INTERPOLATED_STRING) with false.
  cbv iota beta. cbn [snd]. rewrite Hs. reflexivity.
Qed.

Lemma vb_string_run :
  forall (n : nat) l sc,
    state sc = SCE_VB_STRING ->
    cursor_ok d sc ->
    (forall i, 0 <= i < Z.of_nat n -> (charAt d (currentPos sc + i) =? QUOTE) = false) ->
    currentPos sc + Z.of_nat n <= endPos sc ->
    let r := Nat.iter n (loop_body VBNET kw d) (l, sc) in
    state (snd r) = SCE_VB_STRING
    /\ styles (snd r) = styles sc
    /\ startSeg (snd r) = startSeg sc
    /\ endPos (snd r) = endPos sc
    /\ currentPos (snd r) = currentPos sc + Z.of_nat n
    /\ cursor_ok d (snd r).
Proof.
  induction n as [|n IH]; intros l sc Hs Hc Hi He.
  - cbn [Nat.iter nat_rect fst snd]. rewrite Z.add_0_r. repeat split; try assumption.
    all: apply Hc.
  - cbv zeta. rewrite Nat.iter_succ_r.
    assert (Hq : (ch sc =? QUOTE) = false).
    { destruct Hc as [-> _]. specialize (Hi 0 ltac:(lia)).
      rewrite Z.add_0_r in Hi. exact Hi. }
    rewrite (vb_string_step l sc Hs Hq).
    destruct (vb_tok_body_end l sc ltac:(lia) Hc) as [B1 [B2 [B3 [B4 [B5 B6]]]]].
    destruct (body_end d (l, sc)) as [l1 sc1]. cbn [fst snd] in *.
    destruct (IH l1 sc1 ltac:(congruence) B6) as [I1 [I2 [I3 [I4 [I5 I6]]]]].
    + intros i Hi'. rewrite B5.
      replace (currentPos sc + 1 + i) with (currentPos sc + (1 + i)) by lia.
      apply Hi. lia.
    + lia.
    + rewrite I1, I2, I3, I4, I5. repeat split; try congruence; try lia; try apply I6.
Qed.

(** The double quote that closes a string, with the byte after it when
    that is a type suffix. *)
Lemma vb_string_end l sc :
  state sc = SCE_VB_STRING ->
  ch sc = QUOTE ->
  (chNext sc =? QUOTE) = false ->
  exists l' sc',
    switch_state VBNET kw d (l, sc)
    = ((l', SC.SetState SCE_VB_DEFAULT (SC.Forward d sc')), Break)
    /\ (sc' = sc \/ sc' = SC.Forward d sc).
Proof.
  intros Hs Hc Hn. rewrite (vb_switch_string l sc Hs).
  unfold arm_string. cbn [lang_eqb negb]. rewrite Bool.andb_false_r, Hc, Hn.
  change (QUOTE =? QUOTE) with true. cbv iota.
  destruct ((chNext sc =? 99) || (chNext sc =? 67) || (chNext sc =? DOLLAR));
    do 2 eexists; (split; [reflexivity|]); [right | left]; reflexivity.
Qed.

End Str.
End StringVB.

(** X16.  A string of VB.NET gets the string style from its opening
    quote to its closing quote, also across line ends: when the lexer
    is in the default style at a double quote, the next double quote
    lies [n] bytes after it and is not followed by another one, then
    after [n + 2] iterations the span not yet written starts after
    the closing quote and every byte from the opening quote to the
    closing quote holds the string style. *)
Theorem vb_string_styled :
  forall kw d l sc (n : nat),
    state sc = VB.SCE_VB_DEFAULT ->
    VB.cursor_ok d sc ->
    let p := currentPos sc in
    startSeg sc <= p ->
    charAt d p = QUOTE ->
    (forall i, 0 <= i < Z.of_nat n -> (charAt d (p + 1 + i) =? QUOTE) = false) ->
    charAt d (p + 1 + Z.of_nat n) = QUOTE ->
    (charAt d (p + 1 + Z.of_nat n + 1) =? QUOTE) = false ->
    p + Z.of_nat n + 2 <= endPos sc ->
    let r := Nat.iter (n + 2) (VB.loop_body VB.VBNET kw d) (l, sc) in
    p + Z.of_nat n + 2 <= startSeg (snd r)
    /\ forall q, p <= q < p + Z.of_nat n + 2 -> styles (snd r) q = VB.SCE_VB_STRING.
Proof.
  intros kw d l sc n Hs Hc p Hseg H0 Hi Hq0 Hq1 He r.
  subst r. replace (n + 2)%nat with (S (S n)) by lia.
  rewrite Nat.iter_succ_r, Nat.iter_succ.
  assert (A1 : ch sc = QUOTE) by (destruct Hc as [-> _]; exact H0).
  rewrite (StringVB.vb_default_string kw d l sc Hs A1).
  set (sc0 := SC.SetState VB.SCE_VB_STRING sc).
  assert (Hc0 : VB.cursor_ok d sc0) by exact Hc.
  assert (Hlt0 : currentPos sc0 < endPos sc0) by (change (p < endPos sc); lia).
  destruct (StringVB.vb_tok_body_end d l sc0 Hlt0 Hc0) as [B1 [B2 [B3 [B4 [B5 B6]]]]].
  destruct (VB.body_end d (l, sc0)) as [l1 sc1]. cbn [fst snd] in *.
  change (currentPos sc0) with p in B5. change (startSeg sc0) with p in B3.
  change (endPos sc0) with (endPos sc) in B4.
  change (state sc0) with VB.SCE_VB_STRING in B1.
  destruct (StringVB.vb_string_run kw d n l1 sc1 B1 B6) as [I1 [I2 [I3 [I4 [I5 I6]]]]].
  { intros i Hi'. rewrite B5. apply Hi, Hi'. }
  { lia. }
  destruct (Nat.iter n (VB.loop_body VB.VBNET kw d) (l1, sc1)) as [l2 sc2].
  cbn [fst snd] in *.
  assert (P2 : currentPos sc2 = p + 1 + Z.of_nat n) by lia.
  destruct (StringVB.vb_string_end kw d l2 sc2 I1) as [l3 [sc' [E Hsc']]].
  { destruct I6 as [-> _]. rewrite P2. exact Hq0. }
  { destruct I6 as [_ ->]. rewrite P2. exact Hq1. }
  unfold VB.loop_body. rewrite E. cbn [snd].
  set (sc3 := SC.SetState VB.SCE_VB_DEFAULT (SC.Forward d sc')).
  change (state sc3 =? VB.SCE_VB_DEFAULT) with true. cbv iota.
  destruct (Forward_inside d sc2 ltac:(lia)) as [F1 [F2 [F3 [F4 F5]]]].
  assert (K : state sc' = VB.SCE_VB_STRING /\ startSeg sc' = p
              /\ styles sc' = styles sc2
              /\ p + Z.of_nat n + 2 <= currentPos (SC.Forward d sc')).
  { destruct Hsc' as [->| ->].
    - rewrite F1. repeat split; try congruence; lia.
    - rewrite F5, F2, F3.
      pose proof (currentPos_Forward_le d (SC.Forward d sc2)) as Hle.
      repeat split; try congruence; lia. }
  destruct K as [K1 [K2 [K3 K4]]].
  assert (S3 : startSeg sc3 = currentPos (SC.Forward d sc')) by reflexivity.
  assert (C3 : currentPos sc3 = currentPos (SC.Forward d sc')) by reflexivity.
  assert (T3 : forall q, p <= q < p + Z.of_nat n + 2 -> styles sc3 q = VB.SCE_VB_STRING).
  { intros q Hq. subst sc3. rewrite styles_SetState.
    rewrite styles_Forward, ProgressCS.startSeg_Forward, state_Forward.
    unfold setRange. rewrite K1, K2.
    destruct (Z.leb_spec p q); [|lia].
    destruct (Z.ltb_spec q (currentPos (SC.Forward d sc'))); [|lia]. reflexivity. }
  pose proof (WritesVB.writes_default_state anyStyle (fun _ _ => I) VB.VBNET d l3 sc3 sc3
                (writes_refl _ _)) as W1.
  destruct (VB.default_state VB.VBNET d (l3, sc3)) as [[l4 sc4] c4]. cbn [fst snd] in W1.
  assert (Fin : forall b, writes anyStyle sc3 b ->
            p + Z.of_nat n + 2 <= startSeg b
            /\ forall q, p <= q < p + Z.of_nat n + 2 -> styles b q = VB.SCE_VB_STRING).
  { intros b W. destruct W as [_ [W2 [_ [_ [_ [W3 _]]]]]]; [lia | exact I|].
    split; [lia|]. intros q Hq. destruct (W3 q) as [F|[F _]]; [|lia].
    rewrite F. apply T3, Hq. }
  destruct c4.
  - apply Fin. apply (WritesVB.writes_body_end anyStyle). exact W1.
  - apply Fin, W1.
Qed.

Lemma vb_string_styled_witness :
  styles (snd (Nat.iter 5 (VB.loop_body VB.VBNET vbKeywords docVBString)
                 (VB.initLocals,
                  SC.Make docVBString 0 (docLen docVBString) 0 (fun _ => 0) (fun _ => 0))))
    4 = VB.SCE_VB_STRING.
Proof.
  refine (proj2 (vb_string_styled vbKeywords docVBString VB.initLocals
                   (SC.Make docVBString 0 (docLen docVBString) 0 (fun _ => 0) (fun _ => 0))
                   3 eq_refl (conj eq_refl eq_refl) _ eq_refl _ eq_refl eq_refl _)
            4 _).
  - vm_compute. discriminate.
  - intros i Hi. assert (H : i = 0 \/ i = 1 \/ i = 2) by lia.
    destruct H as [H|[H|H]]; subst i; reflexivity.
  - vm_compute. discriminate.
  - vm_compute. split; [discriminate | reflexivity].
Defined.

(** ** Line comments of the C# lexer *)

Module LineCommentCS.
Import CSharp.

Section Comment.
Variable kw : LexerWordList.
Variable task : Doc -> StyleContext -> Z -> Z -> Z -> option (StyleContext * Z).
Variable d : Doc.
Hypothesis Hnone : forall sc vc vcb s, task d sc vc vcb s = None.

(** A step forward before the last byte of a line stays on the line. *)
Lemma line_forward sc :
  currentPos sc < endPos sc ->
  line_ok d sc ->
  currentPos sc < lineStartNext sc - 1 ->
  chNext sc = charAt d (currentPos sc + 1) ->
  let sc' := SC.Forward d sc in
  line_ok d sc'
  /\ lineStartNext sc' = lineStartNext sc
  /\ atLineStart sc' = false
  /\ currentPos sc' = currentPos sc + 1
  /\ state sc' = state sc
  /\ styles sc' = styles sc
  /\ startSeg sc' = startSeg sc
  /\ endPos sc' = endPos sc
  /\ cursor_ok d sc'.
Proof.
  intros Hlt [L1 L2] Hin Hn. cbv zeta.
  assert (E : atLineEnd sc = false).
  { rewrite L1. unfold SC.lineEndAt.
    replace (currentLine sc <? GetLine d (docLen d)) with true by lia. lia. }
  unfold SC.Forward, line_ok, cursor_ok.
  replace (currentPos sc <? endPos sc) with true by lia.
  rewrite E. cbn. repeat split; try assumption.
Qed.

(** The step forward from the last byte of a line reaches a line
    start. *)
Lemma line_forward_last sc :
  currentPos sc < endPos sc ->
  line_ok d sc ->
  lineStartNext sc - 1 <= currentPos sc ->
  chNext sc = charAt d (currentPos sc + 1) ->
  let sc' := SC.Forward d sc in
  atLineStart sc' = true
  /\ currentPos sc' = currentPos sc + 1
  /\ state sc' = state sc
  /\ styles sc' = styles sc
  /\ startSeg sc' = startSeg sc
  /\ endPos sc' = endPos sc
  /\ cursor_ok d sc'.
Proof.
  intros Hlt [L1 L2] Hin Hn. cbv zeta.
  assert (E : atLineEnd sc = true).
  { rewrite L1. unfold SC.lineEndAt.
    replace (currentLine sc <? GetLine d (docLen d)) with true by lia. lia. }
  unfold SC.Forward, cursor_ok.
  replace (currentPos sc <? endPos sc) with true by lia.
  rewrite E. cbn. repeat split; try assumption.
Qed.

(** The end of the loop body keeps to these rules: its step forward is
    the one of the context it is given, with the line state written
    first at the last byte of a line. *)
Lemma line_body_end l sc :
  exists l' sc0,
    body_end d (l, sc) = (l', SC.Forward d sc0)
    /\ (docTagState l' = docTagState l \/ docTagState l' = TagNone)
    /\ currentPos sc0 = currentPos sc /\ endPos sc0 = endPos sc
    /\ state sc0 = state sc /\ styles sc0 = styles sc /\ startSeg sc0 = startSeg sc
    /\ chNext sc0 = chNext sc
    /\ atLineEnd sc0 = atLineEnd sc /\ currentLine sc0 = currentLine sc
    /\ lineStartNext sc0 = lineStartNext sc.
Proof.
  unfold body_end, line_end. cbv zeta.
  destruct (atLineEnd sc) eqn:E;
    split_tests; do 2 eexists; (split; [reflexivity|]);
    ProgressCS.cs_setters; repeat split;
    try reflexivity; try exact E; try (left; reflexivity); right; reflexivity.
Qed.


(** The default state at the two slashes that open a line comment
    which is no documentation comment. *)
Lemma lc_default l sc :
  state sc = SCE_CSHARP_DEFAULT ->
  pp_eqb (ppKind l) PpMessage = false ->
  ch sc = SLASH -> chNext sc = SLASH ->
  (ch (SC.Forward d (SC.Forward d (SC.SetState SCE_CSHARP_COMMENTLINE sc))) =? SLASH)
  && negb (chNext (SC.Forward d (SC.Forward d (SC.SetState SCE_CSHARP_COMMENTLINE sc)))
           =? SLASH) = false ->
  exists l',
    loop_body kw task d (l, sc)
    = (l', SC.Forward d (SC.Forward d (SC.SetState SCE_CSHARP_COMMENTLINE sc)))
    /\ docTagState l' = TagNone.
Proof.
  intros Hs Hp Hc Hn Hdoc.
  unfold loop_body.
  replace (switch_state kw task d (l, sc)) with ((l, sc), Break)
    by (unfold switch_state; cbv zeta; rewrite Hs; reflexivity).
  cbn [snd]. rewrite Hs. change (SCE_CSHARP_DEFAULT =? SCE_CSHARP_DEFAULT) with true.
  cbv iota. unfold default_state. rewrite Hp. cbn [andb].
  rewrite Hc, Hn.
  change ((SLASH =? SLASH) && ((SLASH =? SLASH) || (SLASH =? STAR))) with true. cbv iota.
  unfold default_comment. cbv zeta. rewrite Hn.
  change (SLASH =? SLASH) with true. cbn [andb]. cbv iota.
  change (SC.Advance d 2 (SC.SetState SCE_CSHARP_COMMENTLINE sc))
    with (SC.Forward d (SC.Forward d (SC.SetState SCE_CSHARP_COMMENTLINE sc))).
  rewrite Hdoc.
  destruct (visibleChars _ =? 0); eexists; (split; [reflexivity|]); reflexivity.
Qed.

Lemma lc_switch l sc :
  state sc = SCE_CSHARP_COMMENTLINE ->
  switch_state kw task d (l, sc) = arm_comment task d (l, sc).
Proof. intro Hs. unfold switch_state. cbv zeta. rewrite Hs. reflexivity. Qed.

(** Inside a line comment, away from a line start and with no task
    marker, the iteration is the end of the loop body. *)
Lemma lc_step l sc :
  state sc = SCE_CSHARP_COMMENTLINE ->
  docTagState l = TagNone ->
  atLineStart sc = false ->
  loop_body kw task d (l, sc) = body_end d (l, sc).
Proof.
  intros Hs Ht Ha. unfold loop_body. rewrite (lc_switch l sc Hs).
  unfold arm_comment. rewrite Ha. cbn [andb].
  unfold close_doctag. rewrite Ht. cbn [tagIsNone negb andb]. cbv iota beta.
  rewrite Hs, Ht, Hnone. cbn [tagIsNone].
  change (SCE_CSHARP_COMMENTLINE =? SCE_CSHARP_COMMENTBLOCK) with false.
  change (SCE_CSHARP_COMMENTLINE =? SCE_CSHARP_COMMENTBLOCKDOC) with false.
  change (SCE_CSHARP_COMMENTLINE =? SCE_CSHARP_COMMENTLINEDOC) with false.
  cbn [orb andb].
  replace ((ch sc =? LESS) && false) with false by (apply eq_sym, Bool.andb_false_r).
  cbv iota beta. cbn [snd]. rewrite Hs. reflexivity.
Qed.

(** A line comment ends at a line start. *)
Lemma lc_end l sc :
  state sc = SCE_CSHARP_COMMENTLINE ->
  atLineStart sc = true ->
  switch_state kw task d (l, sc) = ((l, SC.SetState SCE_CSHARP_DEFAULT sc), Break).
Proof.
  intros Hs Ha. rewrite (lc_switch l sc Hs).
  unfold arm_comment. rewrite Ha, Hs. reflexivity.
Qed.

(** The run of a line comment up to the last byte of its line. *)
Lemma lc_run :
  forall (n : nat) l sc,
    state sc = SCE_CSHARP_COMMENTLINE ->
    cursor_ok d sc ->
    docTagState l = TagNone ->
    atLineStart sc = false ->
    line_ok d sc ->
    currentPos sc + Z.of_nat n <= lineStartNext sc - 1 ->
    lineStartNext sc <= endPos sc ->
    let r := Nat.iter n (loop_body kw task d) (l, sc) in
    state (snd r) = SCE_CSHARP_COMMENTLINE
    /\ cursor_ok d (snd r)
    /\ docTagState (fst r) = TagNone
    /\ atLineStart (snd r) = false
    /\ line_ok d (snd r)
    /\ lineStartNext (snd r) = lineStartNext sc
    /\ styles (snd r) = styles sc
    /\ startSeg (snd r) = startSeg sc
    /\ endPos (snd r) = endPos sc
    /\ currentPos (snd r) = currentPos sc + Z.of_nat n.
Proof.
  induction n as [|n IH]; intros l sc Hs Hc Ht Ha Hl Hn He.
  - cbn [Nat.iter nat_rect fst snd]. rewrite Z.add_0_r. repeat split; try assumption.
    all: first [apply Hc | apply Hl].
  - cbv zeta. rewrite Nat.iter_succ_r. rewrite (lc_step l sc Hs Ht Ha).
    destruct (line_body_end l sc)
      as [l1 [sc0 [E [D [Q1 [Q2 [Q3 [Q4 [Q5 [Q6 [Q7 [Q8 Q9]]]]]]]]]]]].
    rewrite E.
    assert (L0 : line_ok d sc0).
    { destruct Hl as [L1 L2]. unfold line_ok. rewrite Q7, Q1, Q8, Q9. split; assumption. }
    destruct (line_forward sc0) as [F1 [F2 [F3 [F4 [F5 [F6 [F7 [F8 F9]]]]]]]];
      [lia | exact L0 | lia | rewrite Q6, Q1; apply Hc |].
    assert (Ht1 : docTagState l1 = TagNone) by (destruct D; congruence).
    destruct (IH l1 (SC.Forward d sc0) ltac:(congruence) F9 Ht1 F3 F1)
      as [I1 [I2 [I3 [I4 [I5 [I6 [I7 [I8 [I9 I10]]]]]]]]]; [lia | lia |].
    rewrite I1, I3, I4, I6, I7, I8, I9, I10.
    repeat split; try congruence; try lia; first [apply I2 | apply I5].
Qed.

End Comment.
End LineCommentCS.

(** X17.  A line comment runs to the end of its line: when the lexer
    is in the default style at the two slashes of a comment which is
    no documentation comment, on a line that has a successor, and no
    task marker is highlighted, then after one iteration for each
    byte of the comment after the first two and one more, the span
    not yet written starts at the next line and every byte from the
    first slash to the last byte of the line holds the line comment
    style. *)
Theorem cs_line_comment_styled :
  forall kw task d l sc (n : nat),
    (forall sc0 vc vcb s, task d sc0 vc vcb s = None) ->
    state sc = CSharp.SCE_CSHARP_DEFAULT ->
    CSharp.cursor_ok d sc ->
    line_ok d sc ->
    CSharp.pp_eqb (CSharp.ppKind l) CSharp.PpMessage = false ->
    let p := currentPos sc in
    startSeg sc <= p ->
    charAt d p = SLASH -> charAt d (p + 1) = SLASH ->
    (charAt d (p + 2) =? SLASH) && negb (charAt d (p + 3) =? SLASH) = false ->
    lineStartNext sc = p + Z.of_nat n + 3 ->
    lineStartNext sc <= endPos sc ->
    let r := Nat.iter (n + 3) (CSharp.loop_body kw task d) (l, sc) in
    p + Z.of_nat n + 3 <= startSeg (snd r)
    /\ forall q, p <= q < p + Z.of_nat n + 3 ->
                 styles (snd r) q = CSharp.SCE_CSHARP_COMMENTLINE.
Proof.
  intros kw task d l sc n Hnone Hs Hc Hl Hp p Hseg H0 H1 Hdoc Hlsn He r.
  subst r. replace (n + 3)%nat with (S (S (S n))) by lia.
  rewrite Nat.iter_succ_r, Nat.iter_succ, Nat.iter_succ.
  destruct Hc as [Hc1 Hc2].
  assert (A1 : ch sc = SLASH) by (rewrite Hc1; exact H0).
  assert (A2 : chNext sc = SLASH) by (rewrite Hc2; exact H1).
  (* the two slashes *)
  set (sc0 := SC.SetState CSharp.SCE_CSHARP_COMMENTLINE sc).
  assert (L0 : line_ok d sc0) by exact Hl.
  destruct (LineCommentCS.line_forward d sc0) as [F1 [F2 [F3 [F4 [F5 [F6 [F7 [F8 F9]]]]]]]];
    [change (p < endPos sc); lia | exact L0
     | change (p < lineStartNext sc - 1); lia | exact Hc2 |].
  change (currentPos sc0) with p in F4. change (lineStartNext sc0) with (lineStartNext sc) in F2.
  change (startSeg sc0) with p in F7. change (endPos sc0) with (endPos sc) in F8.
  change (state sc0) with CSharp.SCE_CSHARP_COMMENTLINE in F5.
  destruct (LineCommentCS.line_forward d (SC.Forward d sc0))
    as [G1 [G2 [G3 [G4 [G5 [G6 [G7 [G8 G9]]]]]]]];
    [lia | exact F1 | lia | apply F9 |].
  set (sc2 := SC.Forward d (SC.Forward d sc0)) in *.
  destruct (LineCommentCS.lc_default kw task d l sc Hs Hp A1 A2) as [l1 [E1 Ht1]].
  { fold sc0. fold sc2. destruct G9 as [-> ->]. rewrite G4, F4.
    replace (p + 1 + 1) with (p + 2) by lia.
    replace (p + 2 + 1) with (p + 3) by lia. exact Hdoc. }
  rewrite E1. fold sc0. fold sc2.
  (* the comment up to the last byte of the line *)
  destruct (LineCommentCS.lc_run kw task d Hnone n l1 sc2 ltac:(congruence) G9 Ht1 G3 G1)
    as [I1 [I2 [I3 [I4 [I5 [I6 [I7 [I8 [I9 I10]]]]]]]]]; [lia | lia |].
  destruct (Nat.iter n (CSharp.loop_body kw task d) (l1, sc2)) as [l3 sc3].
  cbn [fst snd] in *.
  (* the last byte of the line *)
  rewrite (LineCommentCS.lc_step kw task d Hnone l3 sc3 I1 I3 I4).
  destruct (LineCommentCS.line_body_end d l3 sc3)
    as [l4 [sc3' [E [D [Q1 [Q2 [Q3 [Q4 [Q5 [Q6 [Q7 [Q8 Q9]]]]]]]]]]]].
  rewrite E.
  assert (L3 : line_ok d sc3').
  { destruct I5 as [L1 L2]. unfold line_ok. rewrite Q7, Q1, Q8, Q9. split; assumption. }
  destruct (LineCommentCS.line_forward_last d sc3')
    as [K1 [K2 [K3 [K4 [K5 [K6 K7]]]]]];
    [lia | exact L3 | lia | rewrite Q6, Q1; apply I2 |].
  set (sc4 := SC.Forward d sc3') in *.
  (* the line start *)
  unfold CSharp.loop_body.
  rewrite (LineCommentCS.lc_end kw task d l4 sc4 ltac:(congruence) K1).
  cbn [snd].
  set (sc5 := SC.SetState CSharp.SCE_CSHARP_DEFAULT sc4).
  change (state sc5 =? CSharp.SCE_CSHARP_DEFAULT) with true. cbv iota.
  assert (P4 : currentPos sc4 = p + Z.of_nat n + 3) by lia.
  assert (S5 : startSeg sc5 = p + Z.of_nat n + 3) by exact P4.
  assert (C5 : currentPos sc5 = p + Z.of_nat n + 3) by exact P4.
  assert (T5 : forall q, p <= q < p + Z.of_nat n + 3 ->
                         styles sc5 q = CSharp.SCE_CSHARP_COMMENTLINE).
  { intros q Hq. subst sc5. rewrite styles_SetState.
    unfold setRange. rewrite K5, Q5, I8, G7, F7, P4, K3, Q3, I1.
    destruct (Z.leb_spec p q); [|lia].
    destruct (Z.ltb_spec q (p + Z.of_nat n + 3)); [|lia]. reflexivity. }
  pose proof (WritesCS.cs_writes_default_state d l4 sc5 sc5 (writes_refl _ _)) as W1.
  destruct (CSharp.default_state d (l4, sc5)) as [[l6 sc6] c6]. cbn [fst snd] in W1.
  assert (Fin : forall b, writes anyStyle sc5 b ->
            p + Z.of_nat n + 3 <= startSeg b
            /\ forall q, p <= q < p + Z.of_nat n + 3 ->
                         styles b q = CSharp.SCE_CSHARP_COMMENTLINE).
  { intros b W. destruct W as [_ [W2 [_ [_ [_ [W3 _]]]]]]; [lia | exact I|].
    split; [lia|]. intros q Hq. destruct (W3 q) as [F|[F _]]; [|lia].
    rewrite F. apply T5, Hq. }
  destruct c6.
  - apply Fin, WritesCS.cs_writes_body_end, W1.
  - apply Fin, W1.
Qed.

Lemma cs_line_comment_styled_witness :
  styles (snd (Nat.iter 4 (CSharp.loop_body csKeywords noTaskMarker docLineComment)
                 (CSharp.initLocals,
                  SC.Make docLineComment 2 5 0 (fun _ => 0) (fun _ => 0))))
    5 = CSharp.SCE_CSHARP_COMMENTLINE.
Proof.
  refine (proj2 (cs_line_comment_styled csKeywords noTaskMarker docLineComment
                   CSharp.initLocals
                   (SC.Make docLineComment 2 5 0 (fun _ => 0) (fun _ => 0))
                   1 (fun _ _ _ _ => eq_refl) eq_refl (conj eq_refl eq_refl) _ eq_refl
                   _ eq_refl eq_refl eq_refl eq_refl _)
            5 _).
  - split; [reflexivity | vm_compute; reflexivity].
  - vm_compute. discriminate.
  - vm_compute. discriminate.
  - vm_compute. split; [discriminate | reflexivity].
Defined.

(** ** Plain strings of the C# lexer *)

Module StringCS.
Import CSharp.

Section Str.
Variable kw : LexerWordList.
Variable task : Doc -> StyleContext -> Z -> Z -> Z -> option (StyleContext * Z).
Variable d : Doc.

(** The default state at the double quote that opens a plain string. *)
Lemma str_default l sc :
  state sc = SCE_CSHARP_DEFAULT ->
  pp_eqb (ppKind l) PpMessage = false ->
  ch sc = QUOTE ->
  GetMatchedDelimiterCount d (currentPos sc) QUOTE < 3 ->
  exists l',
    loop_body kw task d (l, sc) = body_end d (l', SC.SetState SCE_CSHARP_STRING sc).
Proof.
  intros Hs Hp Hc Hn.
  unfold loop_body.
  replace (switch_state kw task d (l, sc)) with ((l, sc), Break)
    by (unfold switch_state; cbv zeta; rewrite Hs; reflexivity).
  cbn [snd]. rewrite Hs. change (SCE_CSHARP_DEFAULT =? SCE_CSHARP_DEFAULT) with true.
  cbv iota. unfold default_state. rewrite Hp. cbn [andb].
  rewrite Hc. change (QUOTE =? SLASH) with false. cbn [andb orb].
  change (QUOTE =? QUOTE) with true. cbn [orb]. cbv iota.
  unfold default_string. cbv zeta. unfold SC.Match2. rewrite Hc.
  change (QUOTE =? DOLLAR) with false. change (QUOTE =? ATSIGN) with false.
  cbn [andb orb]. rewrite Bool.andb_false_r. cbv iota.
  change (QUOTE =? QUOTE) with true. cbv iota.
  replace (3 <=? GetMatchedDelimiterCount d (currentPos sc) QUOTE) with false by lia.
  cbv iota.
  change (SC.Advance d (1 + 0 - 1) (SC.SetState (0 + SCE_CSHARP_STRING) sc))
    with (SC.SetState SCE_CSHARP_STRING sc).
  cbn [snd].
  change (state (SC.SetState SCE_CSHARP_STRING sc) =? SCE_CSHARP_DEFAULT) with false.
  cbv iota. eexists. reflexivity.
Qed.

Lemma str_switch l sc :
  state sc = SCE_CSHARP_STRING ->
  switch_state kw task d (l, sc) = arm_string d (l, sc).
Proof. intro Hs. apply cs_switch_state_string. rewrite Hs. reflexivity. Qed.

(** Inside a plain string, away from a line start, a byte that is no
    backslash, quote or brace leaves the iteration to the end of the
    loop body. *)
Lemma str_step l sc :
  state sc = SCE_CSHARP_STRING ->
  atLineStart sc = false ->
  (ch sc =? BSLASH) || (ch sc =? QUOTE) || (ch sc =? LBRACE) || (ch sc =? RBRACE) = false ->
  loop_body kw task d (l, sc) = body_end d (l, sc).
Proof.
  intros Hs Ha Hc. unfold loop_body. rewrite (str_switch l sc Hs).
  apply Bool.orb_false_iff in Hc. destruct Hc as [Hc H4].
  apply Bool.orb_false_iff in Hc. destruct Hc as [Hc H3].
  apply Bool.orb_false_iff in Hc. destruct Hc as [H1 H2].
  unfold arm_string. rewrite Ha. cbn [andb]. unfold string_body.
  rewrite H1, H2, H3, H4, Hs.
  change (SCE_CSHARP_STRING =? SCE_CSHARP_CHARACTER) with false.
  rewrite Bool.andb_false_r. cbn [negb snd]. rewrite Hs. reflexivity.
Qed.


(** The double quote that closes a plain string, with the [u8] suffix
    when there is one. *)
Lemma str_end l sc :
  state sc = SCE_CSHARP_STRING ->
  atLineStart sc = false ->
  ch sc = QUOTE ->
  exists l' sc',
    switch_state kw task d (l, sc) = ((l', SC.SetState SCE_CSHARP_DEFAULT sc'), Break)
    /\ (sc' = SC.Forward d sc \/ sc' = SC.Advance d 2 (SC.Forward d sc)).
Proof.
  intros Hs Ha Hc. rewrite (str_switch l sc Hs).
  unfold arm_string. rewrite Ha. cbn [andb]. unfold string_body.
  rewrite Hc, Hs.
  change (QUOTE =? BSLASH) with false.
  change (QUOTE =? APOS) with false.
  change (SCE_CSHARP_STRING =? SCE_CSHARP_CHARACTER) with false.
  change (QUOTE =? QUOTE) with true.
  cbn [andb negb]. cbv iota.
  unfold string_quote. rewrite Hs.
  change (IsVerbatimString SCE_CSHARP_STRING) with false.
  rewrite Bool.andb_false_r. cbv iota zeta.
  rewrite state_Forward, Hs.
  change (IsPlainString SCE_CSHARP_STRING) with true.
  cbn [negb andb orb]. cbv iota beta.
  destruct ((chNext (SC.Forward d sc) =? 56) && _);
    destruct (nestedState l) as [|top rest]; try destruct (iss_state top =? _);
    do 2 eexists; (split; [reflexivity|]); auto.
Qed.

(** The run of a plain string over bytes of one line. *)
Lemma str_run :
  forall (n : nat) l sc,
    state sc = SCE_CSHARP_STRING ->
    cursor_ok d sc ->
    atLineStart sc = false ->
    line_ok d sc ->
    (forall i, 0 <= i < Z.of_nat n ->
       let c := charAt d (currentPos sc + i) in
       (c =? BSLASH) || (c =? QUOTE) || (c =? LBRACE) || (c =? RBRACE) = false) ->
    currentPos sc + Z.of_nat n <= lineStartNext sc - 1 ->
    lineStartNext sc <= endPos sc ->
    let r := Nat.iter n (loop_body kw task d) (l, sc) in
    state (snd r) = SCE_CSHARP_STRING
    /\ cursor_ok d (snd r)
    /\ atLineStart (snd r) = false
    /\ styles (snd r) = styles sc
    /\ startSeg (snd r) = startSeg sc
    /\ endPos (snd r) = endPos sc
    /\ currentPos (snd r) = currentPos sc + Z.of_nat n.
Proof.
  induction n as [|n IH]; intros l sc Hs Hc Ha Hl Hi Hn He.
  - cbn [Nat.iter nat_rect fst snd]. rewrite Z.add_0_r. repeat split; try assumption.
    all: apply Hc.
  - cbv zeta. rewrite Nat.iter_succ_r.
    assert (Hch : (ch sc =? BSLASH) || (ch sc =? QUOTE) || (ch sc =? LBRACE)
                  || (ch sc =? RBRACE) = false).
    { destruct Hc as [-> _]. specialize (Hi 0 ltac:(lia)). cbv zeta in Hi.
      rewrite Z.add_0_r in Hi. exact Hi. }
    rewrite (str_step l sc Hs Ha Hch).
    destruct (LineCommentCS.line_body_end d l sc)
      as [l1 [sc0 [E [_ [Q1 [Q2 [Q3 [Q4 [Q5 [Q6 [Q7 [Q8 Q9]]]]]]]]]]]].
    rewrite E.
    assert (L0 : line_ok d sc0).
    { destruct Hl as [L1 L2]. unfold line_ok. rewrite Q7, Q1, Q8, Q9. split; assumption. }
    destruct (LineCommentCS.line_forward d sc0)
      as [F1 [F2 [F3 [F4 [F5 [F6 [F7 [F8 F9]]]]]]]];
      [lia | exact L0 | lia | rewrite Q6, Q1; apply Hc |].
    destruct (IH l1 (SC.Forward d sc0) ltac:(congruence) F9 F3 F1)
      as [I1 [I2 [I3 [I4 [I5 [I6 I7]]]]]].
    + intros i Hi'. cbv zeta. rewrite F4, Q1.
      replace (currentPos sc + 1 + i) with (currentPos sc + (1 + i)) by lia.
      apply (Hi (1 + i)). lia.
    + lia.
    + lia.
    + rewrite I1, I3, I4, I5, I6, I7.
      repeat split; try congruence; try lia; apply I2.
Qed.

End Str.
End StringCS.

(** X18.  A plain string on one line gets the string style from its
    opening quote to its closing quote: when the lexer is in the
    default style at a double quote that opens no raw string, the
    [n] bytes after it are no backslash, double quote or brace, the
    byte after them is a double quote, and all of them lie on the
    line, then after [n + 2] iterations the span not yet written
    starts after the closing quote and every byte from the opening
    quote to the closing quote holds the string style. *)
Theorem cs_string_styled :
  forall kw task d l sc (n : nat),
    state sc = CSharp.SCE_CSHARP_DEFAULT ->
    CSharp.cursor_ok d sc ->
    line_ok d sc ->
    CSharp.pp_eqb (CSharp.ppKind l) CSharp.PpMessage = false ->
    let p := currentPos sc in
    startSeg sc <= p ->
    charAt d p = QUOTE ->
    GetMatchedDelimiterCount d p QUOTE < 3 ->
    (forall i, 0 <= i < Z.of_nat n ->
       let c := charAt d (p + 1 + i) in
       (c =? BSLASH) || (c =? QUOTE) || (c =? LBRACE) || (c =? RBRACE) = false) ->
    charAt d (p + 1 + Z.of_nat n) = QUOTE ->
    p + Z.of_nat n + 1 <= lineStartNext sc - 1 ->
    lineStartNext sc <= endPos sc ->
    let r := Nat.iter (n + 2) (CSharp.loop_body kw task d) (l, sc) in
    p + Z.of_nat n + 2 <= startSeg (snd r)
    /\ forall q, p <= q < p + Z.of_nat n + 2 ->
                 styles (snd r) q = CSharp.SCE_CSHARP_STRING.
Proof.
  intros kw task d l sc n Hs Hc Hl Hp p Hseg H0 Hraw Hi Hq Hline He r.
  subst r. replace (n + 2)%nat with (S (S n)) by lia.
  rewrite Nat.iter_succ_r, Nat.iter_succ.
  assert (A1 : ch sc = QUOTE) by (destruct Hc as [-> _]; exact H0).
  (* the opening quote *)
  destruct (StringCS.str_default kw task d l sc Hs Hp A1 Hraw) as [l0 E0].
  rewrite E0.
  set (sc0 := SC.SetState CSharp.SCE_CSHARP_STRING sc).
  destruct (LineCommentCS.line_body_end d l0 sc0)
    as [l1 [sc0' [E [_ [Q1 [Q2 [Q3 [Q4 [Q5 [Q6 [Q7 [Q8 Q9]]]]]]]]]]]].
  rewrite E.
  change (currentPos sc0) with p in Q1. change (endPos sc0) with (endPos sc) in Q2.
  change (state sc0) with CSharp.SCE_CSHARP_STRING in Q3.
  change (styles sc0) with (setRange (styles sc) (startSeg sc) p (state sc)) in Q4.
  change (startSeg sc0) with p in Q5. change (chNext sc0) with (chNext sc) in Q6.
  change (atLineEnd sc0) with (atLineEnd sc) in Q7.
  change (currentLine sc0) with (currentLine sc) in Q8.
  change (lineStartNext sc0) with (lineStartNext sc) in Q9.
  assert (L0 : line_ok d sc0').
  { destruct Hl as [L1 L2]. unfold line_ok. rewrite Q7, Q1, Q8, Q9. split; assumption. }
  destruct (LineCommentCS.line_forward d sc0')
    as [F1 [F2 [F3 [F4 [F5 [F6 [F7 [F8 F9]]]]]]]];
    [lia | exact L0 | lia | rewrite Q6, Q1; apply Hc |].
  set (sc1 := SC.Forward d sc0') in *.
  (* the bytes of the string *)
  destruct (StringCS.str_run kw task d n l1 sc1 ltac:(congruence) F9 F3 F1)
    as [I1 [I2 [I3 [I4 [I5 [I6 I7]]]]]].
  { intros i Hi'. cbv zeta. rewrite F4, Q1. apply (Hi i Hi'). }
  { lia. }
  { lia. }
  destruct (Nat.iter n (CSharp.loop_body kw task d) (l1, sc1)) as [l2 sc2].
  cbn [fst snd] in *.
  assert (P2 : currentPos sc2 = p + 1 + Z.of_nat n) by lia.
  (* the closing quote *)
  destruct (StringCS.str_end kw task d l2 sc2 I1 I3) as [l3 [sc' [E3 Hsc']]].
  { destruct I2 as [-> _]. rewrite P2. exact Hq. }
  unfold CSharp.loop_body. rewrite E3. cbn [snd].
  set (sc5 := SC.SetState CSharp.SCE_CSHARP_DEFAULT sc').
  change (state sc5 =? CSharp.SCE_CSHARP_DEFAULT) with true. cbv iota.
  destruct (Forward_inside d sc2 ltac:(lia)) as [G1 [G2 [G3 [G4 G5]]]].
  assert (K : state sc' = CSharp.SCE_CSHARP_STRING /\ startSeg sc' = p
              /\ p + Z.of_nat n + 2 <= currentPos sc').
  { destruct Hsc' as [->| ->].
    - rewrite G1, G2, G5. repeat split; try congruence; lia.
    - rewrite state_Advance, ProgressCS.startSeg_Advance, G2, G5.
      pose proof (ProgressCS.Advance_pos d 2 (SC.Forward d sc2)) as [A _].
      repeat split; try congruence; lia. }
  destruct K as [K1 [K2 K3]].
  assert (S5 : startSeg sc5 = currentPos sc') by reflexivity.
  assert (C5 : currentPos sc5 = currentPos sc') by reflexivity.
  assert (T5 : forall q, p <= q < p + Z.of_nat n + 2 ->
                         styles sc5 q = CSharp.SCE_CSHARP_STRING).
  { intros q Hq'. subst sc5. rewrite styles_SetState.
    unfold setRange. rewrite K1, K2.
    destruct (Z.leb_spec p q); [|lia].
    destruct (Z.ltb_spec q (currentPos sc')); [|lia]. reflexivity. }
  pose proof (WritesCS.cs_writes_default_state d l3 sc5 sc5 (writes_refl _ _)) as W1.
  destruct (CSharp.default_state d (l3, sc5)) as [[l6 sc6] c6]. cbn [fst snd] in W1.
  assert (Fin : forall b, writes anyStyle sc5 b ->
            p + Z.of_nat n + 2 <= startSeg b
            /\ forall q, p <= q < p + Z.of_nat n + 2 ->
                         styles b q = CSharp.SCE_CSHARP_STRING).
  { intros b W. destruct W as [_ [W2 [_ [_ [_ [W3 _]]]]]]; [lia | exact I|].
    split; [lia|]. intros q Hq'. destruct (W3 q) as [F|[F _]]; [|lia].
    rewrite F. apply T5, Hq'. }
  destruct c6.
  - apply Fin, WritesCS.cs_writes_body_end, W1.
  - apply Fin, W1.
Qed.

Lemma cs_string_styled_witness :
  styles (snd (Nat.iter 4 (CSharp.loop_body csKeywords noTaskMarker docString)
                 (CSharp.initLocals,
                  SC.Make docString 4 6 0 (fun _ => 0) (fun _ => 0))))
    7 = CSharp.SCE_CSHARP_STRING.
Proof.
  refine (proj2 (cs_string_styled csKeywords noTaskMarker docString CSharp.initLocals
                   (SC.Make docString 4 6 0 (fun _ => 0) (fun _ => 0))
                   2 eq_refl (conj eq_refl eq_refl) _ eq_refl
                   _ eq_refl eq_refl _ eq_refl _ _)
            7 _).
  - split; [reflexivity | vm_compute; reflexivity].
  - vm_compute. discriminate.
  - intros i Hi. assert (H : i = 0 \/ i = 1) by lia.
    destruct H as [H|H]; subst i; reflexivity.
  - vm_compute. discriminate.
  - vm_compute. discriminate.
  - vm_compute. split; [discriminate | reflexivity].
Defined.

(** ** Comments of the VB lexer *)

Module CommentVB.
Import VB.

Section Comment.
Variable language : Language.
Variable kw : LexerWordList.
Variable d : Doc.

(** The continuation bit of a line state that does not have it is not
    set by the interpolation bit. *)
Lemma vb_no_continuation x :
  Z.land x VBLineStateLineContinuation = 0 ->
  Z.land (Z.lor x VBLineStateStringInterpolation) VBLineStateLineContinuation = 0.
Proof.
  intro H. rewrite Z.land_lor_distr_l, H. reflexivity.
Qed.

(** The end of the loop body: its step forward is the one of the
    context it is given, with the line state written first at the
    last byte of a line; a line that continues no comment stays so. *)
Lemma vb_line_body_end l sc :
  exists l' sc0,
    body_end d (l, sc) = (l', SC.Forward d sc0)
    /\ (Z.land (lineState l) VBLineStateLineContinuation = 0 ->
        Z.land (lineState l') VBLineStateLineContinuation = 0)
    /\ currentPos sc0 = currentPos sc /\ endPos sc0 = endPos sc
    /\ state sc0 = state sc /\ styles sc0 = styles sc /\ startSeg sc0 = startSeg sc
    /\ chNext sc0 = chNext sc
    /\ atLineEnd sc0 = atLineEnd sc /\ currentLine sc0 = currentLine sc
    /\ lineStartNext sc0 = lineStartNext sc.
Proof.
  unfold body_end, line_end, lineStateAtEnd. cbv zeta.
  destruct (atLineEnd sc) eqn:E;
    split_tests; do 2 eexists; (split; [reflexivity|]);
    cbn [lineState set_lineState set_visibleChars set_kwType set_preprocessor
         set_chPrevNonWhite set_stylePrevNonWhite nestedState];
    (split; [intro H|repeat split; try reflexivity; exact E]);
    try exact H;
    try (rewrite H; reflexivity);
    try (rewrite (vb_no_continuation _ H); reflexivity).
Qed.


(** The default state at an apostrophe. *)
Lemma vbc_default l sc :
  state sc = SCE_VB_DEFAULT ->
  ch sc = APOS ->
  Z.land (lineState l) VBLineStateLineContinuation = 0 ->
  exists l',
    loop_body language kw d (l, sc) = body_end d (l', SC.SetState SCE_VB_COMMENTLINE sc)
    /\ Z.land (lineState l') VBLineStateLineContinuation = 0.
Proof.
  intros Hs Hc Hl. unfold loop_body.
  replace (switch_state language kw d (l, sc)) with ((l, sc), Break)
    by (unfold switch_state; cbv zeta; rewrite Hs; reflexivity).
  cbn [snd]. rewrite Hs. change (SCE_VB_DEFAULT =? SCE_VB_DEFAULT) with true. cbv iota.
  unfold default_state. rewrite Hc. change (APOS =? APOS) with true. cbv iota.
  cbn [snd].
  change (state (SC.SetState SCE_VB_COMMENTLINE sc) =? SCE_VB_DEFAULT) with false.
  cbv iota.
  destruct (visibleChars l =? 0); eexists; (split; [reflexivity|]);
    [reflexivity | exact Hl].
Qed.

Lemma vbc_switch l sc :
  state sc = SCE_VB_COMMENTLINE ->
  switch_state language kw d (l, sc) = arm_comment language d (l, sc).
Proof. intro Hs. unfold switch_state. cbv zeta. rewrite Hs. reflexivity. Qed.

(** Inside a comment, away from a line start and from an underscore of
    VBA, the iteration is the end of the loop body. *)
Lemma vbc_step l sc :
  state sc = SCE_VB_COMMENTLINE ->
  atLineStart sc = false ->
  lang_eqb language VBA && (ch sc =? UNDERSCORE) = false ->
  loop_body language kw d (l, sc) = body_end d (l, sc).
Proof.
  intros Hs Ha Hc. unfold loop_body. rewrite (vbc_switch l sc Hs).
  unfold arm_comment. rewrite Ha, Hc. cbn [andb snd]. rewrite Hs. reflexivity.
Qed.

(** A comment ends at a line start, on a line that continues no
    comment. *)
Lemma vbc_end l sc :
  state sc = SCE_VB_COMMENTLINE ->
  atLineStart sc = true ->
  Z.land (lineState l) VBLineStateLineContinuation = 0 ->
  switch_state language kw d (l, sc) = ((l, SC.SetState SCE_VB_DEFAULT sc), Break).
Proof.
  intros Hs Ha Hl. rewrite (vbc_switch l sc Hs).
  unfold arm_comment. rewrite Ha.
  destruct (Z.eqb_spec (lineState l) VBLineStateLineContinuation) as [E|E];
    [|reflexivity].
  rewrite E in Hl. discriminate Hl.
Qed.

(** The run of a comment up to the last byte of its line. *)
Lemma vbc_run :
  forall (n : nat) l sc,
    state sc = SCE_VB_COMMENTLINE ->
    cursor_ok d sc ->
    Z.land (lineState l) VBLineStateLineContinuation = 0 ->
    atLineStart sc = false ->
    line_ok d sc ->
    (forall i, 0 <= i < Z.of_nat n ->
       lang_eqb language VBA && (charAt d (currentPos sc + i) =? UNDERSCORE) = false) ->
    currentPos sc + Z.of_nat n <= lineStartNext sc ->
    lineStartNext sc <= endPos sc ->
    let r := Nat.iter n (loop_body language kw d) (l, sc) in
    state (snd r) = SCE_VB_COMMENTLINE
    /\ cursor_ok d (snd r)
    /\ Z.land (lineState (fst r)) VBLineStateLineContinuation = 0
    /\ (currentPos sc + Z.of_nat n < lineStartNext sc ->
        atLineStart (snd r) = false /\ line_ok d (snd r)
        /\ lineStartNext (snd r) = lineStartNext sc)
    /\ (0 < Z.of_nat n -> currentPos sc + Z.of_nat n = lineStartNext sc ->
        atLineStart (snd r) = true)
    /\ styles (snd r) = styles sc
    /\ startSeg (snd r) = startSeg sc
    /\ endPos (snd r) = endPos sc
    /\ currentPos (snd r) = currentPos sc + Z.of_nat n.
Proof.
  induction n as [|n IH]; intros l sc Hs Hc Hl Ha Hk Hi Hn He.
  - cbn [Nat.iter nat_rect fst snd]. rewrite Z.add_0_r.
    repeat split; try assumption; try lia; first [apply Hc | apply Hk].
  - cbv zeta. rewrite Nat.iter_succ_r.
    assert (Hch : lang_eqb language VBA && (ch sc =? UNDERSCORE) = false).
    { destruct Hc as [-> _]. specialize (Hi 0 ltac:(lia)).
      rewrite Z.add_0_r in Hi. exact Hi. }
    rewrite (vbc_step l sc Hs Ha Hch).
    destruct (vb_line_body_end l sc)
      as [l1 [sc0 [E [D [Q1 [Q2 [Q3 [Q4 [Q5 [Q6 [Q7 [Q8 Q9]]]]]]]]]]]].
    rewrite E. specialize (D Hl).
    assert (L0 : line_ok d sc0).
    { destruct Hk as [L1 L2]. unfold line_ok. rewrite Q7, Q1, Q8, Q9. split; assumption. }
    destruct (Z.ltb_spec (currentPos sc) (lineStartNext sc - 1)) as [Hin|Hlast].
    + destruct (LineCommentCS.line_forward d sc0)
        as [F1 [F2 [F3 [F4 [F5 [F6 [F7 [F8 F9]]]]]]]];
        [lia | exact L0 | lia | rewrite Q6, Q1; apply Hc |].
      destruct (IH l1 (SC.Forward d sc0) ltac:(congruence) F9 D F3 F1)
        as [I1 [I2 [I3 [I4 [I5 [I6 [I7 [I8 I9]]]]]]]].
      * intros i Hi'. rewrite F4, Q1.
        replace (currentPos sc + 1 + i) with (currentPos sc + (1 + i)) by lia.
        apply Hi. lia.
      * lia.
      * lia.
      * rewrite I1, I6, I7, I8, I9.
        split; [reflexivity|]. split; [exact I2|]. split; [exact I3|].
        split; [intro H; destruct I4 as [J1 [J2 J3]]; [lia|];
                repeat split; try assumption; try apply J2; congruence|].
        split; [intros H1 H2; destruct n as [|n'];
                 [lia | apply I5; lia]|].
        repeat split; try congruence; lia.
    + assert (n = O) by lia. subst n.
      destruct (LineCommentCS.line_forward_last d sc0)
        as [K1 [K2 [K3 [K4 [K5 [K6 K7]]]]]];
        [lia | exact L0 | lia | rewrite Q6, Q1; apply Hc |].
      cbn [Nat.iter nat_rect fst snd].
      split; [congruence|]. split; [exact K7|]. split; [exact D|].
      split; [intro H; lia|]. split; [intros _ _; exact K1|].
      repeat split; try congruence; lia.
Qed.

End Comment.
End CommentVB.

(** X19.  A comment of VB runs to the end of its line: when the lexer
    is in the default style at an apostrophe, on a line that has a
    successor and continues no comment, and (in VBA) no byte of the
    rest of the line is an underscore, then after one iteration for
    each byte of the line from the apostrophe on and one more, the
    span not yet written starts at the next line and every byte from
    the apostrophe to the last byte of the line holds the comment
    style. *)
Theorem vb_comment_styled :
  forall language kw d l sc (n : nat),
    state sc = VB.SCE_VB_DEFAULT ->
    VB.cursor_ok d sc ->
    line_ok d sc ->
    Z.land (VB.lineState l) VB.VBLineStateLineContinuation = 0 ->
    let p := currentPos sc in
    startSeg sc <= p ->
    charAt d p = APOS ->
    (forall i, 0 <= i < Z.of_nat n ->
       VB.lang_eqb language VB.VBA && (charAt d (p + 1 + i) =? UNDERSCORE) = false) ->
    (1 <= n)%nat ->
    lineStartNext sc = p + 1 + Z.of_nat n ->
    lineStartNext sc <= endPos sc ->
    let r := Nat.iter (n + 2) (VB.loop_body language kw d) (l, sc) in
    p + 1 + Z.of_nat n <= startSeg (snd r)
    /\ forall q, p <= q < p + 1 + Z.of_nat n -> styles (snd r) q = VB.SCE_VB_COMMENTLINE.
Proof.
  intros language kw d l sc n Hs Hc Hl Hls p Hseg H0 Hi Hn Hlsn He r.
  subst r. replace (n + 2)%nat with (S (S n)) by lia.
  rewrite Nat.iter_succ_r, Nat.iter_succ.
  assert (A1 : ch sc = APOS) by (destruct Hc as [-> _]; exact H0).
  (* the apostrophe *)
  destruct (CommentVB.vbc_default language kw d l sc Hs A1 Hls) as [l0 [E0 D0]].
  rewrite E0.
  set (sc0 := SC.SetState VB.SCE_VB_COMMENTLINE sc).
  destruct (CommentVB.vb_line_body_end d l0 sc0)
    as [l1 [sc0' [E [D [Q1 [Q2 [Q3 [Q4 [Q5 [Q6 [Q7 [Q8 Q9]]]]]]]]]]]].
  rewrite E. specialize (D D0).
  change (currentPos sc0) with p in Q1. change (endPos sc0) with (endPos sc) in Q2.
  change (state sc0) with VB.SCE_VB_COMMENTLINE in Q3.
  change (startSeg sc0) with p in Q5. change (chNext sc0) with (chNext sc) in Q6.
  change (atLineEnd sc0) with (atLineEnd sc) in Q7.
  change (currentLine sc0) with (currentLine sc) in Q8.
  change (lineStartNext sc0) with (lineStartNext sc) in Q9.
  assert (L0 : line_ok d sc0').
  { destruct Hl as [L1 L2]. unfold line_ok. rewrite Q7, Q1, Q8, Q9. split; assumption. }
  destruct (LineCommentCS.line_forward d sc0')
    as [F1 [F2 [F3 [F4 [F5 [F6 [F7 [F8 F9]]]]]]]];
    [lia | exact L0 | lia | rewrite Q6, Q1; apply Hc |].
  set (sc1 := SC.Forward d sc0') in *.
  (* the bytes of the comment and the end of the line *)
  destruct (CommentVB.vbc_run language kw d n l1 sc1 ltac:(congruence) F9 D F3 F1)
    as [I1 [I2 [I3 [_ [I5 [I6 [I7 [I8 I9]]]]]]]].
  { intros i Hi'. rewrite F4, Q1. apply Hi, Hi'. }
  { lia. }
  { lia. }
  specialize (I5 ltac:(lia) ltac:(lia)).
  destruct (Nat.iter n (VB.loop_body language kw d) (l1, sc1)) as [l2 sc2].
  cbn [fst snd] in *.
  assert (P2 : currentPos sc2 = p + 1 + Z.of_nat n) by lia.
  (* the line start *)
  unfold VB.loop_body.
  rewrite (CommentVB.vbc_end language kw d l2 sc2 I1 I5 I3). cbn [snd].
  set (sc5 := SC.SetState VB.SCE_VB_DEFAULT sc2).
  change (state sc5 =? VB.SCE_VB_DEFAULT) with true. cbv iota.
  assert (S5 : startSeg sc5 = p + 1 + Z.of_nat n) by exact P2.
  assert (C5 : currentPos sc5 = p + 1 + Z.of_nat n) by exact P2.
  assert (T5 : forall q, p <= q < p + 1 + Z.of_nat n ->
                         styles sc5 q = VB.SCE_VB_COMMENTLINE).
  { intros q Hq. subst sc5. rewrite styles_SetState.
    unfold setRange. rewrite I7, F7, Q5, P2, I1.
    destruct (Z.leb_spec p q); [|lia].
    destruct (Z.ltb_spec q (p + 1 + Z.of_nat n)); [|lia]. reflexivity. }
  pose proof (WritesVB.writes_default_state anyStyle (fun _ _ => I) language d l2 sc5 sc5
                (writes_refl _ _)) as W1.
  destruct (VB.default_state language d (l2, sc5)) as [[l6 sc6] c6]. cbn [fst snd] in W1.
  assert (Fin : forall b, writes anyStyle sc5 b ->
            p + 1 + Z.of_nat n <= startSeg b
            /\ forall q, p <= q < p + 1 + Z.of_nat n ->
                         styles b q = VB.SCE_VB_COMMENTLINE).
  { intros b W. destruct W as [_ [W2 [_ [_ [_ [W3 _]]]]]]; [lia | exact I|].
    split; [lia|]. intros q Hq. destruct (W3 q) as [F|[F _]]; [|lia].
    rewrite F. apply T5, Hq. }
  destruct c6.
  - apply Fin. apply (WritesVB.writes_body_end anyStyle). exact W1.
  - apply Fin, W1.
Qed.

Lemma vb_comment_styled_witness :
  styles (snd (Nat.iter 5 (VB.loop_body VB.VBNET vbKeywords docVBComment)
                 (VB.initLocals,
                  SC.Make docVBComment 2 5 0 (fun _ => 0) (fun _ => 0))))
    5 = VB.SCE_VB_COMMENTLINE.
Proof.
  refine (proj2 (vb_comment_styled VB.VBNET vbKeywords docVBComment VB.initLocals
                   (SC.Make docVBComment 2 5 0 (fun _ => 0) (fun _ => 0))
                   3 eq_refl (conj eq_refl eq_refl) _ eq_refl
                   _ eq_refl (fun _ _ => eq_refl) _ eq_refl _)
            5 _).
  - split; [reflexivity | vm_compute; reflexivity].
  - vm_compute. discriminate.
  - lia.
  - vm_compute. discriminate.
  - vm_compute. split; [discriminate | reflexivity].
Defined.

(** ** Keywords of the VB lexer *)

Module KeywordVB.
Import VB.

Section Kw.
Variable language : Language.
Variable kw : LexerWordList.
Variable d : Doc.

(** The end of the loop body keeps the byte before the identifier, and
    keeps the keyword type or resets it at a line end. *)
Lemma vbk_body_end_locals l sc :
  let r := body_end d (l, sc) in
  chBefore (fst r) = chBefore l
  /\ (kwType (fst r) = kwType l \/ kwType (fst r) = KwNone).
Proof.
  unfold body_end, line_end. cbv zeta.
  split_tests; cbn [fst]; split; try reflexivity; auto.
Qed.

Lemma vbk_switch l sc :
  state sc = SCE_VB_IDENTIFIER ->
  switch_state language kw d (l, sc) = arm_identifier language kw d (l, sc).
Proof. intro Hs. unfold switch_state. cbv zeta. rewrite Hs. reflexivity. Qed.

(** Inside an identifier the iteration is the end of the loop body. *)
Lemma vbk_step l sc :
  state sc = SCE_VB_IDENTIFIER ->
  IsIdentifierCharEx (ch sc) = true ->
  loop_body language kw d (l, sc) = body_end d (l, sc).
Proof.
  intros Hs Hc. unfold loop_body. rewrite (vbk_switch l sc Hs).
  unfold arm_identifier. rewrite Hc. cbn [negb snd]. rewrite Hs. reflexivity.
Qed.

(** The default state at a letter. *)
Lemma vbk_default l sc :
  state sc = SCE_VB_DEFAULT ->
  IsAlpha (ch sc) = true ->
  loop_body language kw d (l, sc)
  = body_end d (set_chBefore (chPrevNonWhite l) l, SC.SetState SCE_VB_IDENTIFIER sc).
Proof.
  intros Hs Hc.
  assert (Hb : 65 <= ch sc <= 90 \/ 97 <= ch sc <= 122).
  { revert Hc. unfold IsAlpha, IsUpperCase, IsLowerCase. lia. }
  unfold loop_body.
  replace (switch_state language kw d (l, sc)) with ((l, sc), Break)
    by (unfold switch_state; cbv zeta; rewrite Hs; reflexivity).
  cbn [snd]. rewrite Hs. change (SCE_VB_DEFAULT =? SCE_VB_DEFAULT) with true. cbv iota.
  unfold default_state, SC.Match2.
  replace (ch sc =? APOS) with false by (unfold APOS; lia).
  replace (ch sc =? QUOTE) with false by (unfold QUOTE; lia).
  replace (ch sc =? DOLLAR) with false by (unfold DOLLAR; lia).
  replace (ch sc =? HASH) with false by (unfold HASH; lia).
  replace (ch sc =? AMP) with false by (unfold AMP; lia).
  replace (ch sc =? UNDERSCORE) with false by (unfold UNDERSCORE; lia).
  replace (IsNumberStart (ch sc) (chNext sc)) with false
    by (unfold IsNumberStart, IsADigit; lia).
  replace (IsIdentifierStartEx (ch sc)) with true
    by (unfold IsIdentifierStartEx, IsIdentifierStart; rewrite Hc; reflexivity).
  cbn [andb orb]. rewrite Bool.andb_false_r. cbv iota. cbn [snd].
  change (state (SC.SetState SCE_VB_IDENTIFIER sc) =? SCE_VB_DEFAULT) with false.
  reflexivity.
Qed.

Lemma vbk_run :
  forall (n : nat) l sc,
    state sc = SCE_VB_IDENTIFIER ->
    cursor_ok d sc ->
    kw_eqb (kwType l) KwPreprocessor = false ->
    (forall i, 0 <= i < Z.of_nat n ->
               IsIdentifierCharEx (charAt d (currentPos sc + i)) = true) ->
    currentPos sc + Z.of_nat n <= endPos sc ->
    let r := Nat.iter n (loop_body language kw d) (l, sc) in
    state (snd r) = SCE_VB_IDENTIFIER
    /\ styles (snd r) = styles sc
    /\ startSeg (snd r) = startSeg sc
    /\ endPos (snd r) = endPos sc
    /\ currentPos (snd r) = currentPos sc + Z.of_nat n
    /\ cursor_ok d (snd r)
    /\ kw_eqb (kwType (fst r)) KwPreprocessor = false
    /\ chBefore (fst r) = chBefore l.
Proof.
  induction n as [|n IH]; intros l sc Hs Hc Hk Hi He.
  - cbn [Nat.iter nat_rect fst snd]. rewrite Z.add_0_r. repeat split; try assumption.
    all: apply Hc.
  - cbv zeta. rewrite Nat.iter_succ_r.
    assert (Hch : IsIdentifierCharEx (ch sc) = true).
    { destruct Hc as [Hc1 _]. rewrite Hc1. rewrite <- (Z.add_0_r (currentPos sc)).
      apply Hi. lia. }
    rewrite (vbk_step l sc Hs Hch).
    destruct (StringVB.vb_tok_body_end d l sc ltac:(lia) Hc) as [B1 [B2 [B3 [B4 [B5 B6]]]]].
    destruct (vbk_body_end_locals l sc) as [C1 C2].
    destruct (body_end d (l, sc)) as [l1 sc1]. cbn [fst snd] in *.
    assert (Hk1 : kw_eqb (kwType l1) KwPreprocessor = false)
      by (destruct C2 as [-> | ->]; [exact Hk | reflexivity]).
    destruct (IH l1 sc1 ltac:(congruence) B6 Hk1) as [I1 [I2 [I3 [I4 [I5 [I6 [I7 I8]]]]]]].
    + intros i Hi'. rewrite B5.
      replace (currentPos sc + 1 + i) with (currentPos sc + (1 + i)) by lia.
      apply Hi. lia.
    + lia.
    + rewrite I1, I2, I3, I4, I5, I8.
      repeat split; try congruence; try lia; try apply I6.
Qed.

(** The hint of a keyword other than [if] and [then] changes the
    locals alone. *)
Lemma vbk_hint s len cNext kwPrev l sc :
  StrEqual s "if" = false -> StrEqual s "then" = false ->
  snd (keywordHint language s len cNext kwPrev (l, sc)) = sc.
Proof.
  intros H1 H2. unfold keywordHint. rewrite H1, H2. split_tests; reflexivity.
Qed.

(** The end of a word of the keyword list. *)
Lemma vbk_end l sc :
  state sc = SCE_VB_IDENTIFIER ->
  kw_eqb (kwType l) KwPreprocessor = false ->
  (chBefore l =? DOT) = false ->
  IsIdentifierCharEx (ch sc) || (ch sc =? RBRACKET)
  || (negb (lang_eqb language VBScript) && IsTypeCharacter (ch sc)) = false ->
  let s := SC.GetCurrentLowered d sc MaxKeywordSize in
  (byteAt s 0 =? HASH) || (byteAt s 0 =? LBRACKET) = false ->
  StrEqualsAny s ["rem"; "if"; "then"]%string = false ->
  InListPrefixed (kw KeywordIndex_Keyword) s LPAREN = true ->
  exists l',
    switch_state language kw d (l, sc)
    = ((l', SC.SetState SCE_VB_DEFAULT
              (SC.ChangeState SCE_VB_KEYWORD (SC.ChangeState SCE_VB_KEYWORD3 sc))), Break).
Proof.
  intros Hs Hk Hb Hc s Hf Hw Hin. rewrite (vbk_switch l sc Hs).
  apply Bool.orb_false_iff in Hc. destruct Hc as [Hc Hc3].
  apply Bool.orb_false_iff in Hc. destruct Hc as [Hc1 Hc2].
  apply Bool.orb_false_iff in Hf. destruct Hf as [Hf1 Hf2].
  unfold StrEqualsAny in Hw. cbn [existsb] in Hw.
  apply Bool.orb_false_iff in Hw. destruct Hw as [W1 Hw].
  apply Bool.orb_false_iff in Hw. destruct Hw as [W2 Hw].
  apply Bool.orb_false_iff in Hw. destruct Hw as [W3 _].
  unfold arm_identifier. rewrite Hc1, Hc2, Hc3. cbn [negb orb andb]. cbv iota zeta.
  fold s. unfold identifier_word. rewrite W1. cbv zeta. rewrite Hf1.
  cbn [kwType set_kwType]. rewrite Hk. rewrite Hf2. cbn [negb].
  unfold classifyWord. rewrite Hin. cbn [chBefore set_kwType]. rewrite Hb.
  cbn [negb andb].
  set (r := keywordHint _ _ _ _ _ _).
  assert (Hr : snd r = SC.ChangeState SCE_VB_KEYWORD (SC.ChangeState SCE_VB_KEYWORD3 sc))
    by (apply vbk_hint; assumption).
  destruct r as [l1 sc1]. cbn [snd] in Hr. subst sc1.
  change (state (SC.ChangeState SCE_VB_KEYWORD (SC.ChangeState SCE_VB_KEYWORD3 sc))
          =? SCE_VB_IDENTIFIER) with false.
  cbv iota. eexists. reflexivity.
Qed.

End Kw.
End KeywordVB.

(** X20.  A keyword of VB gets the keyword style in any letter case:
    when the lexer is in the default style at a letter that starts a
    word of at most 31 identifier bytes, the word in lower case is in
    the keyword list and is none of [rem], [if] and [then], the byte
    after it ends the identifier and is no type character, the last
    visible byte before the word is no dot, and the word does not
    follow the [#End] of a preprocessor line, then
    after one iteration for each byte of the word and one more, the
    span not yet written starts at or after the end of the word and
    every byte of the word holds the keyword style. *)
Theorem vb_keyword_styled :
  forall language kw d l sc (n : nat),
    state sc = VB.SCE_VB_DEFAULT ->
    VB.cursor_ok d sc ->
    VB.kw_eqb (VB.kwType l) VB.KwPreprocessor = false ->
    (VB.chPrevNonWhite l =? DOT) = false ->
    (1 <= n <= 31)%nat ->
    let p := currentPos sc in
    let w := map MakeLower (firstn n (skipn (Z.to_nat p) d)) in
    startSeg sc <= p ->
    IsAlpha (charAt d p) = true ->
    (forall i, 0 <= i < Z.of_nat n -> IsIdentifierCharEx (charAt d (p + i)) = true) ->
    (let c := charAt d (p + Z.of_nat n) in
     IsIdentifierCharEx c || (c =? RBRACKET)
     || (negb (VB.lang_eqb language VB.VBScript) && VB.IsTypeCharacter c) = false) ->
    InListPrefixed (kw VB.KeywordIndex_Keyword) w LPAREN = true ->
    StrEqualsAny w ["rem"; "if"; "then"]%string = false ->
    p + Z.of_nat n <= endPos sc ->
    let r := Nat.iter (n + 1) (VB.loop_body language kw d) (l, sc) in
    p + Z.of_nat n <= startSeg (snd r)
    /\ forall q, p <= q < p + Z.of_nat n -> styles (snd r) q = VB.SCE_VB_KEYWORD.
Proof.
  intros language kw d l sc n Hs Hc Hk Hdot Hn p w Hseg Hstart Hchars Hend Hin Hw He r.
  destruct n as [|m]; [lia|].
  assert (Hp0 : 0 <= p).
  { destruct (Z.ltb_spec p 0) as [H|H]; [|exact H].
    unfold charAt in Hstart. replace (p <? 0) with true in Hstart by lia. discriminate. }
  subst r. replace (S m + 1)%nat with (S (S m)) by lia.
  rewrite Nat.iter_succ_r, Nat.iter_succ.
  (* the iteration at the first byte *)
  assert (Hch : IsAlpha (ch sc) = true) by (destruct Hc as [-> _]; exact Hstart).
  rewrite (KeywordVB.vbk_default language kw d l sc Hs Hch).
  set (l0 := VB.set_chBefore (VB.chPrevNonWhite l) l).
  set (sc0 := SC.SetState VB.SCE_VB_IDENTIFIER sc).
  assert (Hc0 : VB.cursor_ok d sc0) by exact Hc.
  assert (Hlt0 : currentPos sc0 < endPos sc0) by (change (p < endPos sc); lia).
  destruct (StringVB.vb_tok_body_end d l0 sc0 Hlt0 Hc0) as [B1 [B2 [B3 [B4 [B5 B6]]]]].
  destruct (KeywordVB.vbk_body_end_locals d l0 sc0) as [C1 C2].
  destruct (VB.body_end d (l0, sc0)) as [l1 sc1]. cbn [fst snd] in *.
  assert (Hk1 : VB.kw_eqb (VB.kwType l1) VB.KwPreprocessor = false)
    by (destruct C2 as [-> | ->]; [exact Hk | reflexivity]).
  change (currentPos sc0) with p in B5. change (startSeg sc0) with p in B3.
  change (endPos sc0) with (endPos sc) in B4.
  change (state sc0) with VB.SCE_VB_IDENTIFIER in B1.
  change (VB.chBefore l0) with (VB.chPrevNonWhite l) in C1.
  (* the bytes of the word after the first *)
  destruct (KeywordVB.vbk_run language kw d m l1 sc1 B1 B6 Hk1)
    as [I1 [I2 [I3 [I4 [I5 [I6 [I7 I8]]]]]]].
  { intros i Hi. rewrite B5. replace (p + 1 + i) with (p + (1 + i)) by lia.
    apply Hchars. lia. }
  { lia. }
  destruct (Nat.iter m (VB.loop_body language kw d) (l1, sc1)) as [l2 sc2].
  cbn [fst snd] in *.
  assert (P2 : currentPos sc2 = p + Z.of_nat (S m)) by lia.
  (* the byte after the word *)
  assert (Hword : SC.GetCurrentLowered d sc2 VB.MaxKeywordSize = w).
  { unfold SC.GetCurrentLowered, SC.segment, SC.LengthCurrent. rewrite I3, B3, P2.
    subst w. do 2 f_equal. unfold VB.MaxKeywordSize. lia. }
  assert (Hfirst : byteAt w 0 = MakeLower (charAt d p)).
  { subst w. unfold byteAt.
    pose proof (TokensCS.tok_first_byte d p m Hp0) as F.
    destruct (firstn (S m) (skipn (Z.to_nat p) d)) as [|c rest].
    - cbn in F. rewrite <- F in Hstart. discriminate Hstart.
    - cbn in F. cbn [map nth]. rewrite F. reflexivity. }
  destruct (KeywordVB.vbk_end language kw d l2 sc2 I1 I7) as [l3 E].
  { rewrite I8, C1. exact Hdot. }
  { destruct I6 as [-> _]. rewrite P2. exact Hend. }
  { rewrite Hword, Hfirst. revert Hstart.
    unfold MakeLower, IsAlpha, IsUpperCase, IsLowerCase, HASH, LBRACKET.
    destruct ((65 <=? charAt d p) && (charAt d p <=? 90)) eqn:Eu; lia. }
  { rewrite Hword. exact Hw. }
  { rewrite Hword. exact Hin. }
  unfold VB.loop_body. rewrite E. cbn [snd].
  set (sc3 := SC.SetState VB.SCE_VB_DEFAULT _).
  change (state sc3 =? VB.SCE_VB_DEFAULT) with true. cbv iota.
  assert (S3 : startSeg sc3 = p + Z.of_nat (S m)) by exact P2.
  assert (C3 : currentPos sc3 = p + Z.of_nat (S m)) by exact P2.
  assert (T3 : forall q, p <= q < p + Z.of_nat (S m) -> styles sc3 q = VB.SCE_VB_KEYWORD).
  { intros q Hq. subst sc3. rewrite styles_SetState.
    change (startSeg (SC.ChangeState VB.SCE_VB_KEYWORD
                        (SC.ChangeState VB.SCE_VB_KEYWORD3 sc2))) with (startSeg sc2).
    change (currentPos (SC.ChangeState VB.SCE_VB_KEYWORD
                          (SC.ChangeState VB.SCE_VB_KEYWORD3 sc2))) with (currentPos sc2).
    unfold setRange. rewrite I3, B3, P2.
    destruct (Z.leb_spec p q); [|lia].
    destruct (Z.ltb_spec q (p + Z.of_nat (S m))); [|lia]. reflexivity. }
  pose proof (WritesVB.writes_default_state anyStyle (fun _ _ => I) language d l3 sc3 sc3
                (writes_refl _ _)) as W1.
  destruct (VB.default_state language d (l3, sc3)) as [[l4 sc4] c4]. cbn [fst snd] in W1.
  assert (Fin : forall b, writes anyStyle sc3 b ->
            p + Z.of_nat (S m) <= startSeg b
            /\ forall q, p <= q < p + Z.of_nat (S m) -> styles b q = VB.SCE_VB_KEYWORD).
  { intros b W. destruct W as [_ [W2 [_ [_ [_ [W3 _]]]]]]; [lia | exact I|].
    split; [lia|]. intros q Hq. destruct (W3 q) as [F|[F _]]; [|lia].
    rewrite F. apply T3, Hq. }
  destruct c4.
  - apply Fin. apply (WritesVB.writes_body_end anyStyle). exact W1.
  - apply Fin, W1.
Qed.

Lemma vb_keyword_styled_witness :
  styles (snd (Nat.iter 4 (VB.loop_body VB.VBA vbKeywords docVBKeyword)
                 (VB.initLocals,
                  SC.Make docVBKeyword 0 (docLen docVBKeyword) 0 (fun _ => 0) (fun _ => 0))))
    2 = VB.SCE_VB_KEYWORD.
Proof.
  refine (proj2 (vb_keyword_styled VB.VBA vbKeywords docVBKeyword VB.initLocals
                   (SC.Make docVBKeyword 0 (docLen docVBKeyword) 0 (fun _ => 0) (fun _ => 0))
                   3 eq_refl (conj eq_refl eq_refl) eq_refl eq_refl _ _ eq_refl _
                   eq_refl eq_refl eq_refl _)
            2 _).
  - lia.
  - vm_compute. discriminate.
  - intros i Hi. assert (H : i = 0 \/ i = 1 \/ i = 2) by lia.
    destruct H as [H|[H|H]]; subst i; reflexivity.
  - vm_compute. discriminate.
  - vm_compute. split; [discriminate | reflexivity].
Defined.
(** ** The paren count never goes below zero (C8) *)

Lemma cs_lex_init_paren d startPos lengthDoc initStyle st ls :
  startPos = 0 \/ (forall ln, 0 <= ls ln) ->
  0 <= CSharp.parenCount (fst (CSharp.lex_init d startPos lengthDoc initStyle st ls))
  /\ lineStates (snd (CSharp.lex_init d startPos lengthDoc initStyle st ls)) = ls.
Proof.
  intro Hls. unfold CSharp.lex_init.
  destruct Hls as [->|Hls].
  - change (negb (0 =? 0)) with false. cbv iota beta.
    assert (Hl : currentLine (SC.Make d 0 lengthDoc initStyle st ls) = 0)
      by apply GetLine_0.
    rewrite Hl. change (0 <? 0) with false. change (0 =? 0) with true. cbv iota beta.
    split_tests; cbn; autorewrite with scdb; split; try reflexivity; lia.
  - destruct (if negb (startPos =? 0)
              then BacktrackToStart d st ls CSharp.CSharpLineStateMaskInterpolation
                     startPos lengthDoc initStyle
              else (startPos, lengthDoc, initStyle)) as [[sp len] sty].
    assert (Hs : forall v, 0 <= Z.shiftr (ls v) 20)
      by (intro v; apply Z.shiftr_nonneg, Hls).
    destruct (0 <? currentLine (SC.Make d sp len sty st ls));
      split_tests; cbn; autorewrite with scdb; split; try reflexivity;
      try apply Hs; lia.
Qed.

Lemma vb_lex_init_depth d startPos lengthDoc initStyle st ls :
  startPos = 0 \/ (forall ln, 0 <= ls ln) ->
  VB.depth_ok (fst (VB.lex_init d startPos lengthDoc initStyle st ls))
  /\ lineStates (snd (VB.lex_init d startPos lengthDoc initStyle st ls)) = ls.
Proof.
  intro Hls. unfold VB.lex_init, VB.depth_ok.
  destruct Hls as [->|Hls].
  - change (negb (0 =? 0)) with false. cbv iota beta.
    assert (Hl : currentLine (SC.Make d 0 lengthDoc initStyle st ls) = 0)
      by apply GetLine_0.
    rewrite Hl. change (0 <? 0) with false. cbn [andb]. cbv iota beta.
    cbn. split; [lia | reflexivity].
  - destruct (if negb (startPos =? 0)
              then BacktrackToStart d st ls VB.VBLineStateStringInterpolation
                     startPos lengthDoc initStyle
              else (startPos, lengthDoc, initStyle)) as [[sp len] sty].
    assert (Hs : forall v, 0 <= Z.shiftr (ls v) 16)
      by (intro v; apply Z.shiftr_nonneg, Hls).
    destruct (0 <? currentLine (SC.Make d sp len sty st ls));
      split_tests; cbn; autorewrite with scdb; split; try reflexivity;
      try apply Hs; lia.
Qed.

(** C8, as stated, fails: the term that is stored is computed in 32
    bits and stored as a signed int.  After a line of 2048 opening
    parens the LangC lexer stores a negative state, and the next call
    reads the depth back from it as -2048.  In LangB the same happens
    at depth 32768: on a host that holds depth 32767 for the line
    before, one more opening paren makes the stored state negative. *)
Lemma paren_depth_stored_negative :
  lineStatesOf (fullLexCSharp noKeywords noTaskMarker docDeep 3000) 0 1
    = Some [-2147483648]
  /\ CSharp.parenCount
       (fst (CSharp.lex_init docDeep 2049 1 CSharp.SCE_CSHARP_DEFAULT
               (fst (resultOr (fullLexCSharp noKeywords noTaskMarker docDeep 3000)))
               (snd (resultOr (fullLexCSharp noKeywords noTaskMarker docDeep 3000)))))
     = -2048
  /\ lineStatesDeep 0 = VB.packLineState (VB.set_parenCount 32767 VB.initLocals)
  /\ lineStatesOf
       (VB.ColouriseVBDoc VB.VBNET noKeywords docParenLine 10 2 2 VB.SCE_VB_DEFAULT
          (fun _ => 0) lineStatesDeep) 1 1
     = Some [-2147483648].
Proof. repeat split; vm_compute; reflexivity. Qed.

(** C8, amended.  In a call of either lexer from position 0, or on a
    host whose stored line states are not negative, the paren count is
    not negative at any iteration of the run (in LangB it is at least
    the number of open holes), and every line state that the call has
    stored is the one stored at the end of that line by an iteration of
    the run, packed from the locals of the lexer at that point, with
    such a count.  The steps that keep it so: outside an expression
    hole, a closing paren or bracket met at count zero leaves the count
    at zero; in LangB the closing brace that leaves a hole takes one
    off a count that covered the hole. *)
Theorem paren_count_never_negative :
  forall kw task d fuel startPos lengthDoc initStyle st ls r
         lang kwv fuelv rv lc scc lv scv lh sch top rest,
    (forall d0 sc vc vcb s sc' vc',
        task d0 sc vc vcb s = Some (sc', vc') -> lineStates sc' = lineStates sc) ->
    startPos = 0 \/ (forall ln, 0 <= ls ln) ->
    CSharp.ColouriseCSharpDoc kw task d fuel startPos lengthDoc initStyle st ls = Some r ->
    VB.ColouriseVBDoc lang kwv d fuelv startPos lengthDoc initStyle st ls = Some rv ->
    CSharp.nestedState lc = [] -> CSharp.parenCount lc = 0 ->
    ch scc = RPAREN \/ ch scc = RBRACKET ->
    VB.nestedState lv = [] -> VB.parenCount lv = 0 ->
    ch scv = RPAREN \/ ch scv = RBRACKET ->
    Z.of_nat (List.length (VB.nestedState lh)) <= VB.parenCount lh ->
    VB.nestedState lh = top :: rest ->
    state sch = VB.SCE_VB_INTERPOLATED_STRING ->
    ch sch = RBRACE ->
    atLineStart sch && negb (VB.lang_eqb lang VB.VBNET) = false ->
    let c0 := CSharp.lex_init d startPos lengthDoc initStyle st ls in
    let v0 := VB.lex_init d startPos lengthDoc initStyle st ls in
    (forall m, 0 <= CSharp.parenCount (fst (Nat.iter m (CSharp.loop_body kw task d) c0)))
    /\ (forall ln,
          snd r ln = ls ln
          \/ exists l,
               CSharp.storesLine kw task d c0 ln l
               /\ 0 <= CSharp.parenCount l
               /\ snd r ln = CSharp.packLineState l)
    /\ (forall m,
          0 <= VB.parenCount (fst (Nat.iter m (VB.loop_body lang kwv d) v0))
          /\ Z.of_nat (List.length
                         (VB.nestedState (fst (Nat.iter m (VB.loop_body lang kwv d) v0))))
             <= VB.parenCount (fst (Nat.iter m (VB.loop_body lang kwv d) v0)))
    /\ (forall ln,
          snd rv ln = ls ln
          \/ exists l,
               VB.storesLine lang kwv d v0 ln l
               /\ 0 <= VB.parenCount l
               /\ Z.of_nat (List.length (VB.nestedState l)) <= VB.parenCount l
               /\ snd rv ln = VB.packLineState l)
    /\ CSharp.parenCount (fst (fst (CSharp.default_operator d (lc, scc)))) = 0
    /\ VB.parenCount (fst (fst (VB.default_operator d (lv, scv)))) = 0
    /\ VB.parenCount (fst (fst (VB.arm_string lang d (lh, sch)))) = VB.parenCount lh - 1
    /\ VB.nestedState (fst (fst (VB.arm_string lang d (lh, sch)))) = rest
    /\ 0 <= VB.parenCount lh - 1.
Proof.
  intros kw task d fuel startPos lengthDoc initStyle st ls r lang kwv fuelv rv
         lc scc lv scv lh sch top rest Htask Hls Hr Hrv Hnc Hpc Hcc Hnv Hpv Hcv
         Hdh Hnh Hsh Hch Hgh c0 v0.
  destruct (cs_lex_init_paren d startPos lengthDoc initStyle st ls Hls) as [I1 I2].
  destruct (vb_lex_init_depth d startPos lengthDoc initStyle st ls Hls) as [J1 J2].
  fold c0 in I1, I2. fold v0 in J1, J2.
  assert (Hnn : forall l, VB.depth_ok l -> 0 <= VB.parenCount l).
  { intros l Hl. unfold VB.depth_ok in Hl. lia. }
  split; [|split; [|split; [|split; [|split; [|split]]]]].
  - intro m. apply ParenCS.iter_paren; assumption.
  - intro ln. unfold CSharp.ColouriseCSharpDoc in Hr. fold c0 in Hr.
    destruct (CSharp.lex_loop kw task d fuel c0) as [[l' sc']|] eqn:E; [|discriminate].
    injection Hr as <-. cbn [snd].
    destruct (ParenCS.lex_loop_stores kw task d Htask fuel c0 (l', sc') I1 E ln)
      as [Hs|[l [Hst [Hok Hs]]]]; cbn [snd] in Hs.
    + left. rewrite <- I2. exact Hs.
    + right. exists l. auto.
  - intro m. pose proof (ParenVB.iter_depth lang kwv d v0 m J1) as Hm.
    split; [apply Hnn; exact Hm | exact Hm].
  - intro ln. unfold VB.ColouriseVBDoc in Hrv. fold v0 in Hrv.
    destruct (VB.lex_loop lang kwv d fuelv v0) as [[l' sc']|] eqn:E; [|discriminate].
    injection Hrv as <-. cbn [snd].
    destruct (LineTypeVB.vb_lex_loop_stores lang kwv d VB.depth_ok
                (ParenVB.loop_front_depth lang kwv d)
                (ParenVB.loop_body_depth_inv lang kwv d) fuelv v0 (l', sc') J1 E ln)
      as [Hs|[l [Hst [Hok Hs]]]]; cbn [snd] in Hs.
    + left. rewrite <- J2. exact Hs.
    + right. exists l. split; [exact Hst|]. split; [apply Hnn; exact Hok|].
      split; [exact Hok | exact Hs].
  - unfold CSharp.default_operator. rewrite Hnc.
    assert (Hc : ch (SC.SetState CSharp.SCE_CSHARP_OPERATOR scc) = ch scc) by reflexivity.
    rewrite Hc.
    destruct Hcc as [-> | ->]; eval_tests; cbn [orb]; rewrite Hpc;
      change (0 <? 0) with false; cbn iota; split_tests; cbn; exact Hpc.
  - unfold VB.default_operator. rewrite Hnv.
    assert (Hc : ch (SC.SetState VB.SCE_VB_OPERATOR scv) = ch scv) by reflexivity.
    rewrite Hc.
    destruct Hcv as [-> | ->]; eval_tests; cbn [orb andb]; rewrite ?Hpv;
      change (0 <? 0) with false; cbn iota; exact Hpv.
  - exact (ParenVB.depth_hole_close lang d lh sch top rest Hdh Hnh Hsh Hch Hgh).
Qed.

Lemma paren_count_never_negative_witness :
  ch scParen = RPAREN
  /\ (forall m,
        0 <= CSharp.parenCount
               (fst (Nat.iter m (CSharp.loop_body noKeywords noTaskMarker docParen)
                       (CSharp.lex_init docParen 0 2 0 (fun _ => 0) (fun _ => 0)))))
  /\ CSharp.parenCount
       (fst (fst (CSharp.default_operator docParen (CSharp.initLocals, scParen)))) = 0
  /\ VB.parenCount (fst (fst (VB.default_operator docParen (VB.initLocals, scParen)))) = 0
  /\ VB.parenCount
       (fst (fst (VB.arm_string VB.VBNET docParen
                    (VB.set_nestedState [0] (VB.set_parenCount 1 VB.initLocals),
                     scLineStart VB.SCE_VB_INTERPOLATED_STRING))))
     = 1 - 1.
Proof.
  split; [reflexivity|].
  pose proof
    (paren_count_never_negative noKeywords noTaskMarker docParen 10 0 2 0
       (fun _ => 0) (fun _ => 0)
       (resultOr (CSharp.ColouriseCSharpDoc noKeywords noTaskMarker docParen 10 0 2 0
                    (fun _ => 0) (fun _ => 0)))
       VB.VBNET noKeywords 10
       (resultOr (VB.ColouriseVBDoc VB.VBNET noKeywords docParen 10 0 2 0
                    (fun _ => 0) (fun _ => 0)))
       CSharp.initLocals scParen VB.initLocals scParen
       (VB.set_nestedState [0] (VB.set_parenCount 1 VB.initLocals))
       (scLineStart VB.SCE_VB_INTERPOLATED_STRING) 0 []
       ltac:(intros; discriminate) (or_introl eq_refl)
       ltac:(vm_compute; reflexivity) ltac:(vm_compute; reflexivity)
       eq_refl eq_refl (or_introl eq_refl) eq_refl eq_refl (or_introl eq_refl)
       ltac:(vm_compute; discriminate) eq_refl eq_refl eq_refl eq_refl) as H.
  cbv zeta in H.
  destruct H as [H1 [_ [_ [_ [H5 [H6 [H7 _]]]]]]].
  split; [exact H1|]. split; [exact H5|]. split; [exact H6 | exact H7].
Defined.
(** ** Single-line strings at a line start (C6) *)





(** The two cases on whole documents: a hole of an interpolated string
    that ends at the start of the next line, where the string goes on
    after the brace; and an interpolated string that is not closed on
    its line, where the next line starts in the default style. *)
Lemma hole_close_at_line_start :
  stylesOf (fullLexCSharp noKeywords noTaskMarker docHoleLines 60) 4 4
    = Some [CSharp.SCE_CSHARP_DEFAULT; CSharp.SCE_CSHARP_OPERATOR2;
            CSharp.SCE_CSHARP_INTERPOLATED_STRING; CSharp.SCE_CSHARP_INTERPOLATED_STRING]
  /\ stylesOf (fullLexCSharp noKeywords noTaskMarker docStrLines 60) 2 4
     = Some [CSharp.SCE_CSHARP_INTERPOLATED_STRING; CSharp.SCE_CSHARP_INTERPOLATED_STRING;
             CSharp.SCE_CSHARP_OPERATOR; CSharp.SCE_CSHARP_IDENTIFIER].
Proof. split; vm_compute; reflexivity. Qed.
(** ** The keyword hint at a line end (C9) *)


Module HintCS.
Import CSharp.

(** At a line end the end of the loop body does not read the hint. *)
Lemma body_end_any_hint d k l sc :
  atLineEnd sc = true ->
  body_end d (set_kwType k l, sc) = body_end d (l, sc).
Proof.
  intro He. unfold body_end, line_end.
  destruct l. cbn. rewrite He.
  destruct (negb (isspacechar (ch sc))); [|reflexivity].
  destruct (negb (IsSpaceEquiv (state sc))); reflexivity.
Qed.

Lemma body_end_line_end d l sc :
  atLineEnd sc = true ->
  currentPos sc < endPos sc ->
  kwType (fst (body_end d (l, sc))) = KwNone
  /\ atLineStart (snd (body_end d (l, sc))) = true
  /\ currentLine (snd (body_end d (l, sc))) = currentLine sc + 1
  /\ currentPos (snd (body_end d (l, sc))) = currentPos sc + 1.
Proof.
  intros He Hm. unfold body_end, line_end. rewrite He. cbn [fst snd].
  unfold SC.Forward.
  replace (currentPos (SC.SetLineState (currentLine sc) _ sc) <? endPos _) with true
    by (cbn; lia).
  cbn. rewrite He. repeat split.
Qed.

(** Inside a line the end of the loop body leaves the hint alone. *)
Lemma body_end_inside d l sc :
  atLineEnd sc = false ->
  kwType (fst (body_end d (l, sc))) = kwType l
  /\ currentLine (snd (body_end d (l, sc))) = currentLine sc.
Proof.
  intro He. unfold body_end, line_end. rewrite He. cbn [fst snd].
  split; [split_tests; reflexivity|].
  unfold SC.Forward. rewrite He. destruct (currentPos sc <? endPos sc); reflexivity.
Qed.

End HintCS.

(** What the end of the loop body does with the hint.  Every iteration
    of the loop that reaches the end of the loop body at a line end,
    inside the lexed range, stores the state of the line, sets the
    keyword hint [kwType] to None and moves to the start of the next
    line; what it leaves does not depend on the hint it had.  An
    iteration that reaches the end of the loop body inside a line
    keeps the hint and the line.  So [A] in the line after [return] is
    styled as a function definition, as after no keyword, while [A]
    after [return] on the same line is styled as a function call. *)
Theorem kwType_reset_at_line_end :
  forall kw task d st l sc k,
    CSharp.loop_front kw task d st = ((l, sc), CSharp.Break) ->
    currentPos sc < endPos sc ->
    let st' := CSharp.loop_body kw task d st in
    (atLineEnd sc = true ->
       CSharp.kwType (fst st') = CSharp.KwNone
       /\ atLineStart (snd st') = true
       /\ currentLine (snd st') = currentLine sc + 1
       /\ currentPos (snd st') = currentPos sc + 1
       /\ lineStates (snd st') (currentLine sc) = CSharp.packLineState l
       /\ st' = CSharp.body_end d (CSharp.set_kwType k l, sc))
    /\ (atLineEnd sc = false ->
          CSharp.kwType (fst st') = CSharp.kwType l
          /\ currentLine (snd st') = currentLine sc)
    /\ stylesOf (fullLexCSharp csKeywords noTaskMarker docReturnLine 40) 7 1
       = Some [CSharp.SCE_CSHARP_FUNCTION_DEFINITION]
    /\ stylesOf (fullLexCSharp csKeywords noTaskMarker docReturnSame 40) 7 1
       = Some [CSharp.SCE_CSHARP_FUNCTION].
Proof.
  intros kw task d st l sc k F Hm st'.
  assert (E : st' = CSharp.body_end d (l, sc)).
  { unfold st'. unfold CSharp.loop_body. unfold CSharp.loop_front in F.
    destruct (CSharp.switch_state kw task d st) as [st1 []]; [|discriminate].
    destruct (state (snd st1) =? CSharp.SCE_CSHARP_DEFAULT).
    - rewrite F. reflexivity.
    - injection F as ->. reflexivity. }
  split; [|split; [|split]].
  - intro He. rewrite E.
    destruct (HintCS.body_end_line_end d l sc He Hm) as [H1 [H2 [H3 H4]]].
    repeat split; try assumption.
    + unfold CSharp.body_end, CSharp.line_end.
      match goal with
      | |- context [if atLineEnd sc
                    then (_, SC.SetLineState _ (CSharp.packLineState ?t) sc) else _] =>
          assert (Hp : CSharp.packLineState t = CSharp.packLineState l)
            by (split_tests; reflexivity);
          rewrite Hp
      end.
      rewrite He. cbn. autorewrite with scdb. cbn. unfold setAt.
      rewrite Z.eqb_refl. reflexivity.
    + symmetry. apply HintCS.body_end_any_hint. exact He.
  - intro He. rewrite E. apply HintCS.body_end_inside. exact He.
  - vm_compute. reflexivity.
  - vm_compute. reflexivity.
Qed.

Lemma kwType_reset_at_line_end_witness :
  atLineEnd (SC.Make docReturnLine 6 3 CSharp.SCE_CSHARP_DEFAULT (fun _ => 0) (fun _ => 0))
    = true
  /\ CSharp.kwType
       (fst (CSharp.loop_body csKeywords noTaskMarker docReturnLine
               (CSharp.set_kwType CSharp.KwReturn CSharp.initLocals,
                SC.Make docReturnLine 6 3 CSharp.SCE_CSHARP_DEFAULT
                  (fun _ => 0) (fun _ => 0))))
     = CSharp.KwNone.
Proof.
  split; [reflexivity|].
  exact (proj1 (proj1 (kwType_reset_at_line_end csKeywords noTaskMarker docReturnLine
                  (CSharp.set_kwType CSharp.KwReturn CSharp.initLocals,
                   SC.Make docReturnLine 6 3 CSharp.SCE_CSHARP_DEFAULT
                     (fun _ => 0) (fun _ => 0))
                  (CSharp.set_kwType CSharp.KwReturn CSharp.initLocals)
                  (SC.Make docReturnLine 6 3 CSharp.SCE_CSHARP_DEFAULT
                     (fun _ => 0) (fun _ => 0))
                  CSharp.KwClass
                  ltac:(vm_compute; reflexivity) ltac:(vm_compute; reflexivity))
                eq_refl)).
Defined.
